(** * OCSP request and response codec (package [ocsp], file ocsp.go)

    A shallow embedding of the package's request builder and parser, of its
    response parser and of its signature-algorithm resolver, together with
    the part of the DER codec (Go's [encoding/asn1]) that these functions
    run on.  Go's [int] is the 64-bit one; byte slices are lists of bytes
    and big integers are [Z]. *)

From Stdlib Require Import ZArith List String Bool Lia.
From Stdlib Require Import Strings.Byte.
Import ListNotations.
Open Scope string_scope.
Open Scope list_scope.
Open Scope Z_scope.

Set Implicit Arguments.

(** ** Bytes *)

Definition bytes := list byte.

Definition b2z (b : byte) : Z := Z.of_N (Byte.to_N b).

(** [byte(x)]: the conversion of an integer to [uint8], keeping the low
    eight bits. *)
Definition z2b (z : Z) : byte :=
  match Byte.of_N (Z.to_N (z mod 256)) with
  | Some b => b
  | None => x00
  end.

(** A byte-slice literal, written with the numbers of the source. *)
Definition B (l : list Z) : bytes := map z2b l.

Definition len {A} (l : list A) : Z := Z.of_nat (List.length l).

Fixpoint bytes_eqb (a b : bytes) : bool :=
  match a, b with
  | [], [] => true
  | x :: a', y :: b' => Byte.eqb x y && bytes_eqb a' b'
  | _, _ => false
  end.

(** ** Errors

    The error values that cross the package boundary.  [StructuralError] and
    [SyntaxError] are the two error types of [encoding/asn1]; [errorString]
    stands for an error made by [errors.New] or [fmt.Errorf], here or in
    [crypto/x509] and [time]; [ParseError] and [ResponseError] are the two
    error types that ocsp.go declares. *)

(** [type ResponseStatus int] *)
Definition ResponseStatus := Z.

Definition Success : ResponseStatus := 0.
Definition Malformed : ResponseStatus := 1.
Definition InternalError : ResponseStatus := 2.
Definition TryLater : ResponseStatus := 3.
Definition SignatureRequired : ResponseStatus := 5.
Definition Unauthorized : ResponseStatus := 6.

Inductive error : Type :=
| StructuralError (msg : string)
| SyntaxError (msg : string)
| errorString (msg : string)
| ParseError (msg : string)
| ResponseError (Status : ResponseStatus).

Inductive result (A : Type) : Type :=
| OK (a : A)
| Err (e : error).

Arguments OK {A} a.
Arguments Err {A} e.

Definition bind {A B} (m : result A) (k : A -> result B) : result B :=
  match m with
  | OK a => k a
  | Err e => Err e
  end.

Declare Scope result_scope.
Delimit Scope result_scope with result.
Notation "x <- m ;; k" := (bind m (fun x => k))
  (at level 61, m at next level, right associativity) : result_scope.
Notation "' p <- m ;; k" := (bind m (fun x => let 'p := x in k))
  (at level 61, p pattern, m at next level, right associativity) : result_scope.
Open Scope result_scope.

(** Lifting the answer of a foreign package: a value, or the message of
    the error it returned. *)
Definition foreign {A} (r : A + string) : result A :=
  match r with
  | inl a => OK a
  | inr msg => Err (errorString msg)
  end.

(** ** The [time] package

    [time.Time] and the two DER time parsers, which [encoding/asn1] builds
    on [time.Parse] and [Time.Format]; they are taken as given. *)

Class TimeLib : Type := {
  Time : Type;
  (** [time.Time{}] *)
  Time_zero : Time;
  parseUTCTime : bytes -> Time + string;
  parseGeneralizedTime : bytes -> Time + string
}.

(** ** The DER codec

    The codec that the package runs on is Go's [encoding/asn1], which is not
    part of the repository.  The module follows that library function by
    function, for the field types that the structures of ocsp.go use;
    offsets into a byte slice become the remaining suffix of the slice, and
    an error message is kept to its constant part (the library adds the
    tags and the offset to "tags don't match"). *)

Module asn1.

Definition ClassUniversal : Z := 0.
Definition ClassApplication : Z := 1.
Definition ClassContextSpecific : Z := 2.
Definition ClassPrivate : Z := 3.

Definition TagBoolean : Z := 1.
Definition TagInteger : Z := 2.
Definition TagBitString : Z := 3.
Definition TagOctetString : Z := 4.
Definition TagNull : Z := 5.
Definition TagOID : Z := 6.
Definition TagEnum : Z := 10.
Definition TagUTF8String : Z := 12.
Definition TagSequence : Z := 16.
Definition TagSet : Z := 17.
Definition TagNumericString : Z := 18.
Definition TagPrintableString : Z := 19.
Definition TagT61String : Z := 20.
Definition TagIA5String : Z := 22.
Definition TagUTCTime : Z := 23.
Definition TagGeneralizedTime : Z := 24.
Definition TagGeneralString : Z := 27.
Definition TagBMPString : Z := 30.

Definition MaxInt32 : Z := 2147483647.

Record tagAndLength : Type := {
  class : Z;
  tag : Z;
  length : Z;
  isCompound : bool
}.

(** [parseBase128Int]: the loop over the bytes, [shifted] counting them. *)
Fixpoint parseBase128Int_loop (bs : bytes) (shifted : Z) (ret64 : Z)
  : result (Z * bytes) :=
  match bs with
  | [] => Err (SyntaxError "truncated base 128 integer")
  | b :: rest =>
      if shifted =? 5 then Err (StructuralError "base 128 integer too large")
      else
        let ret64 := Z.shiftl ret64 7 in
        if (shifted =? 0) && (b2z b =? 0x80)
        then Err (SyntaxError "integer is not minimally encoded")
        else
          let ret64 := Z.lor ret64 (Z.land (b2z b) 0x7f) in
          if Z.land (b2z b) 0x80 =? 0 then
            if ret64 >? MaxInt32
            then Err (StructuralError "base 128 integer too large")
            else OK (ret64, rest)
          else parseBase128Int_loop rest (shifted + 1) ret64
  end.

Definition parseBase128Int (bs : bytes) : result (Z * bytes) :=
  parseBase128Int_loop bs 0 0.

(** The long form of a length: [numBytes] length bytes follow. *)
Fixpoint parseLength_loop (numBytes : nat) (bs : bytes) (length : Z)
  : result (Z * bytes) :=
  match numBytes with
  | O => OK (length, bs)
  | S n =>
      match bs with
      | [] => Err (SyntaxError "truncated tag or length")
      | b :: rest =>
          if length >=? Z.shiftl 1 23
          then Err (StructuralError "length too large")
          else
            let length := Z.lor (Z.shiftl length 8) (b2z b) in
            if length =? 0
            then Err (StructuralError "superfluous leading zeros in length")
            else parseLength_loop n rest length
      end
  end.

Definition parseTagAndLength (bs : bytes) : result (tagAndLength * bytes) :=
  match bs with
  | [] => Err (errorString "asn1: internal error in parseTagAndLength")
  | b :: rest =>
      let class := Z.shiftr (b2z b) 6 in
      let isCompound := Z.land (b2z b) 0x20 =? 0x20 in
      let tag := Z.land (b2z b) 0x1f in
      '(tag, rest) <-
        (if tag =? 0x1f then
           '(tag, rest) <- parseBase128Int rest ;;
           if tag <? 0x1f then Err (SyntaxError "non-minimal tag")
           else OK (tag, rest)
         else OK (tag, rest)) ;;
      match rest with
      | [] => Err (SyntaxError "truncated tag or length")
      | b :: rest =>
          if Z.land (b2z b) 0x80 =? 0 then
            OK ({| class := class; tag := tag;
                   length := Z.land (b2z b) 0x7f;
                   isCompound := isCompound |}, rest)
          else
            let numBytes := Z.land (b2z b) 0x7f in
            if numBytes =? 0
            then Err (SyntaxError "indefinite length found (not DER)")
            else
              '(length, rest) <- parseLength_loop (Z.to_nat numBytes) rest 0 ;;
              if length <? 0x80
              then Err (StructuralError "non-minimal length")
              else OK ({| class := class; tag := tag; length := length;
                          isCompound := isCompound |}, rest)
      end
  end.

(** [type ObjectIdentifier []int]; the nil identifier is the empty list. *)
Definition ObjectIdentifier := list Z.

Fixpoint ObjectIdentifier_Equal (oi other : ObjectIdentifier) : bool :=
  match oi, other with
  | [], [] => true
  | x :: oi', y :: other' => (x =? y) && ObjectIdentifier_Equal oi' other'
  | _, _ => false
  end.

Record BitString : Type := {
  BitString_Bytes : bytes;
  BitLength : Z
}.

Record RawValue : Type := {
  Class : Z;
  Tag : Z;
  IsCompound : bool;
  Bytes : bytes;
  FullBytes : bytes
}.

(** [RawValue{}] *)
Definition RawValue_zero : RawValue :=
  {| Class := 0; Tag := 0; IsCompound := false; Bytes := []; FullBytes := [] |}.

(** [asn1.NullRawValue] and [asn1.NullBytes] *)
Definition NullBytes : bytes := B [5; 0].
Definition NullRawValue : RawValue :=
  {| Class := 0; Tag := TagNull; IsCompound := false; Bytes := [];
     FullBytes := [] |}.

(** [int64(x)]: wrap-around to the signed 64-bit range. *)
Definition int64 (z : Z) : Z := (z + 2 ^ 63) mod 2 ^ 64 - 2 ^ 63.

(** [int32(x)] *)
Definition int32 (z : Z) : Z := (z + 2 ^ 31) mod 2 ^ 32 - 2 ^ 31.

Definition checkInteger (bs : bytes) : result unit :=
  match bs with
  | [] => Err (StructuralError "empty integer")
  | [_] => OK tt
  | b0 :: b1 :: _ =>
      if ((b2z b0 =? 0) && (Z.land (b2z b1) 0x80 =? 0))
         || ((b2z b0 =? 0xff) && (Z.land (b2z b1) 0x80 =? 0x80))
      then Err (StructuralError "integer not minimally-encoded")
      else OK tt
  end.

Definition parseInt64 (bs : bytes) : result Z :=
  _ <- checkInteger bs ;;
  if len bs >? 8 then Err (StructuralError "integer too large")
  else
    let ret :=
      fold_left (fun ret b => Z.lor (int64 (Z.shiftl ret 8)) (b2z b)) bs 0 in
    (* Shift up and down in order to sign extend the result. *)
    let ret := int64 (Z.shiftl ret (64 - len bs * 8)) in
    OK (Z.shiftr ret (64 - len bs * 8)).

Definition parseInt32 (bs : bytes) : result Z :=
  _ <- checkInteger bs ;;
  ret64 <- parseInt64 bs ;;
  if negb (ret64 =? int64 (int32 ret64))
  then Err (StructuralError "integer too large")
  else OK (int32 ret64).

(** [big.Int.SetBytes]: the big-endian unsigned value of a byte slice. *)
Definition SetBytes (bs : bytes) : Z :=
  fold_left (fun acc b => acc * 256 + b2z b) bs 0.

Definition parseBigInt (bs : bytes) : result Z :=
  _ <- checkInteger bs ;;
  match bs with
  | b0 :: _ =>
      if Z.land (b2z b0) 0x80 =? 0x80 then
        (* This is a negative number. *)
        let notBytes := map (fun b => z2b (Z.lxor (b2z b) 0xff)) bs in
        OK (- (SetBytes notBytes + 1))
      else OK (SetBytes bs)
  | [] => OK (SetBytes bs)
  end.

Definition parseBool (bs : bytes) : result bool :=
  match bs with
  | [b] =>
      if b2z b =? 0 then OK false
      else if b2z b =? 0xff then OK true
      else Err (SyntaxError "invalid boolean")
  | _ => Err (SyntaxError "invalid boolean")
  end.

Definition parseBitString (bs : bytes) : result BitString :=
  match bs with
  | [] => Err (SyntaxError "zero length BIT STRING")
  | b0 :: tl =>
      let paddingBits := b2z b0 in
      if (paddingBits >? 7)
         || ((len bs =? 1) && (paddingBits >? 0))
         || negb (Z.land (b2z (last bs x00))
                         (Z.shiftl 1 (b2z b0) mod 256 - 1) =? 0)
      then Err (SyntaxError "invalid padding bits in BIT STRING")
      else OK {| BitLength := (len bs - 1) * 8 - paddingBits;
                 BitString_Bytes := tl |}
  end.

(** [BitString.RightAlign]: the loop over [i >= 1], [prev] being
    [b.Bytes[i-1]]. *)
Fixpoint RightAlign_loop (shift : Z) (prev : byte) (bs : bytes) : bytes :=
  match bs with
  | [] => []
  | b :: bs' =>
      z2b (Z.lor (b2z (z2b (Z.shiftl (b2z prev) (8 - shift))))
                 (Z.shiftr (b2z b) shift))
      :: RightAlign_loop shift b bs'
  end.

Definition RightAlign (b : BitString) : bytes :=
  let shift := 8 - BitLength b mod 8 in
  match BitString_Bytes b with
  | [] => []
  | b0 :: tl =>
      if shift =? 8 then BitString_Bytes b
      else z2b (Z.shiftr (b2z b0) shift) :: RightAlign_loop shift b0 tl
  end.

(** [parseObjectIdentifier]: the loop that reads the arcs after the first
    two; every iteration consumes at least one byte, so [fuel], the number
    of bytes, is never exhausted. *)
Fixpoint parseObjectIdentifier_loop (fuel : nat) (bs : bytes)
  : result (list Z) :=
  match bs with
  | [] => OK []
  | _ :: _ =>
      match fuel with
      | O => Err (errorString "asn1: out of fuel")
      | S fuel' =>
          '(v, rest) <- parseBase128Int bs ;;
          s <- parseObjectIdentifier_loop fuel' rest ;;
          OK (v :: s)
      end
  end.

Definition parseObjectIdentifier (bs : bytes) : result ObjectIdentifier :=
  match bs with
  | [] => Err (SyntaxError "zero length OBJECT IDENTIFIER")
  | _ :: _ =>
      '(v, rest) <- parseBase128Int bs ;;
      let '(s0, s1) := if v <? 80 then (v / 40, v mod 40) else (2, v - 80) in
      s <- parseObjectIdentifier_loop (List.length rest) rest ;;
      OK (s0 :: s1 :: s)
  end.

(** *** Field parameters

    The struct tags of ocsp.go use the parts [optional], [explicit],
    [generalized], [default:N] and [tag:N]; [parseFieldParameters] folds
    the parts of a tag, from left to right, into the parameter record. *)

Record fieldParameters : Type := {
  optional : bool;
  explicit : bool;
  defaultValue : option Z;
  param_tag : option Z;
  timeType : Z
}.

Inductive part : Type :=
| Poptional
| Pexplicit
| Pgeneralized
| Pdefault (i : Z)
| Ptag (i : Z).

Definition fieldParameters_zero : fieldParameters :=
  {| optional := false; explicit := false; defaultValue := None;
     param_tag := None; timeType := 0 |}.

Definition parsePart (ret : fieldParameters) (p : part) : fieldParameters :=
  match p with
  | Poptional =>
      {| optional := true; explicit := explicit ret;
         defaultValue := defaultValue ret; param_tag := param_tag ret;
         timeType := timeType ret |}
  | Pexplicit =>
      {| optional := optional ret; explicit := true;
         defaultValue := defaultValue ret;
         param_tag := match param_tag ret with
                      | None => Some 0
                      | Some i => Some i
                      end;
         timeType := timeType ret |}
  | Pgeneralized =>
      {| optional := optional ret; explicit := explicit ret;
         defaultValue := defaultValue ret; param_tag := param_tag ret;
         timeType := TagGeneralizedTime |}
  | Pdefault i =>
      {| optional := optional ret; explicit := explicit ret;
         defaultValue := Some i; param_tag := param_tag ret;
         timeType := timeType ret |}
  | Ptag i =>
      {| optional := optional ret; explicit := explicit ret;
         defaultValue := defaultValue ret; param_tag := Some i;
         timeType := timeType ret |}
  end.

Definition parseFieldParameters (str : list part) : fieldParameters :=
  fold_left parsePart str fieldParameters_zero.

(** *** Destination types

    What [parseField] learns by reflection about the Go type it decodes
    into: the zero value, the answer of [getUniversalType], whether the type
    is [RawValue] or [Flag], whether it is an integer kind that can take a
    default value ([SetInt]), and how the contents octets become a value.
    [parseBody] receives the universal tag in force, the header, the
    contents [innerBytes] and the whole element [bytes[initOffset:offset]]. *)

Record fieldType (A : Type) : Type := {
  zero : A;
  matchAny : bool;
  universalTag : Z;
  compoundType : bool;
  isRawValue : bool;
  flagTrue : option A;
  SetInt : option (Z -> A);
  parseBody : Z -> tagAndLength -> bytes -> bytes -> result A
}.

(** [setDefaultValue]: [None] is the answer [ok = false]; the destination
    otherwise keeps its zero value unless an integer default is declared. *)
Definition setDefaultValue {A} (ty : fieldType A) (params : fieldParameters)
  : option A :=
  if negb (optional params) then None
  else
    match defaultValue params, SetInt ty with
    | Some d, Some set => Some (set d)
    | _, _ => Some (zero ty)
    end.

Definition param_tag_is (params : fieldParameters) (n : Z) : bool :=
  match param_tag params with
  | Some i => n =? i
  | None => false
  end.

(** [parseField], the part that unwraps an explicit tag.  [inl] is an early
    return with the field's value, [inr] carries the header to go on with. *)
Definition parseField_explicit {A} (ty : fieldType A) (bs : bytes)
    (params : fieldParameters) (t : tagAndLength) (rest : bytes)
  : result ((A * bytes) + (tagAndLength * bytes)) :=
  if explicit params then
    match rest with
    | [] => Err (StructuralError "explicit tag has no child")
    | _ :: _ =>
        if (class t =? ClassContextSpecific) && param_tag_is params (tag t)
           && ((length t =? 0) || isCompound t)
        then
          if isRawValue ty then
            (* The inner element should not be parsed for RawValues. *)
            OK (inr (t, rest))
          else if length t >? 0 then
            '(t, rest) <- parseTagAndLength rest ;;
            OK (inr (t, rest))
          else
            match flagTrue ty with
            | None =>
                Err (StructuralError
                       "zero length explicit tag was not an asn1.Flag")
            | Some v => OK (inl (v, rest))
            end
        else
          (* The tags didn't match, it might be an optional element. *)
          match setDefaultValue ty params with
          | Some v => OK (inl (v, bs))
          | None => Err (StructuralError "explicitly tagged member didn't match")
          end
    end
  else OK (inr (t, rest)).

(** [parseField], after any explicit tag has been unwrapped. *)
Definition parseField_value {A} (ty : fieldType A) (bs : bytes)
    (params : fieldParameters) (t : tagAndLength) (rest : bytes)
  : result (A * bytes) :=
  (* Special case for time: UTCTime and GeneralizedTime both map to the
     Go type time.Time. *)
  let universalTag :=
    if (universalTag ty =? TagUTCTime) && (tag t =? TagGeneralizedTime)
       && (class t =? ClassUniversal)
    then TagGeneralizedTime else universalTag ty in
  let '(matchAnyClassAndTag, expectedClass, expectedTag) :=
    match explicit params, param_tag params with
    | false, Some i => (false, ClassContextSpecific, i)
    | _, _ => (matchAny ty, ClassUniversal, universalTag)
    end in
  if (negb matchAnyClassAndTag
      && (negb (class t =? expectedClass) || negb (tag t =? expectedTag)))
     || (negb (matchAny ty) && negb (Bool.eqb (isCompound t) (compoundType ty)))
  then
    (* Tags don't match. Again, it could be an optional element. *)
    match setDefaultValue ty params with
    | Some v => OK (v, bs)
    | None => Err (StructuralError "tags don't match")
    end
  else if length t >? len rest then Err (SyntaxError "data truncated")
  else
    let innerBytes := firstn (Z.to_nat (length t)) rest in
    let rest := skipn (Z.to_nat (length t)) rest in
    let whole := firstn (List.length bs - List.length rest) bs in
    v <- parseBody ty universalTag t innerBytes whole ;;
    OK (v, rest).

Definition parseField {A} (ty : fieldType A) (bs : bytes)
    (params : fieldParameters) : result (A * bytes) :=
  match bs with
  | [] =>
      (* If we have run out of data, it may be that there are optional
         elements at the end. *)
      match setDefaultValue ty params with
      | Some v => OK (v, bs)
      | None => Err (SyntaxError "sequence truncated")
      end
  | _ :: _ =>
      '(t, rest) <- parseTagAndLength bs ;;
      r <- parseField_explicit ty bs params t rest ;;
      match r with
      | inl done => OK done
      | inr (t, rest) => parseField_value ty bs params t rest
      end
  end.

(** [Unmarshal]: the decoded value and the bytes left over. *)
Definition Unmarshal {A} (ty : fieldType A) (b : bytes) : result (A * bytes) :=
  parseField ty b (parseFieldParameters []).

(** [parseSequenceOf], first pass: the elements are counted and their
    headers checked.  Every element takes at least two bytes, so [fuel], the
    number of bytes, is never exhausted. *)
Fixpoint parseSequenceOf_count {A} (ty : fieldType A) (fuel : nat)
    (bs : bytes) (numElements : nat) : result nat :=
  match bs with
  | [] => OK numElements
  | _ :: _ =>
      match fuel with
      | O => Err (errorString "asn1: out of fuel")
      | S fuel' =>
          '(t, rest) <- parseTagAndLength bs ;;
          let tag :=
            if (tag t =? TagIA5String) || (tag t =? TagGeneralString)
               || (tag t =? TagT61String) || (tag t =? TagUTF8String)
               || (tag t =? TagNumericString) || (tag t =? TagBMPString)
            then TagPrintableString
            else if (tag t =? TagGeneralizedTime) || (tag t =? TagUTCTime)
            then TagUTCTime
            else tag t in
          if negb (matchAny ty)
             && (negb (class t =? ClassUniversal)
                 || negb (Bool.eqb (isCompound t) (compoundType ty))
                 || negb (tag =? universalTag ty))
          then Err (StructuralError "sequence tag mismatch")
          else if length t >? len rest
          then Err (SyntaxError "truncated sequence")
          else
            parseSequenceOf_count ty fuel'
              (skipn (Z.to_nat (length t)) rest) (S numElements)
      end
  end.

(** Second pass: the counted elements are decoded one after the other. *)
Fixpoint parseSequenceOf_elems {A} (ty : fieldType A) (numElements : nat)
    (bs : bytes) : result (list A) :=
  match numElements with
  | O => OK []
  | S n =>
      '(v, rest) <- parseField ty bs fieldParameters_zero ;;
      vs <- parseSequenceOf_elems ty n rest ;;
      OK (v :: vs)
  end.

Definition parseSequenceOf {A} (ty : fieldType A) (bs : bytes)
  : result (list A) :=
  numElements <- parseSequenceOf_count ty (List.length bs) bs O ;;
  parseSequenceOf_elems ty numElements bs.

(** A struct field: [parseField] under the parameters of its struct tag. *)
Definition field {A} (ty : fieldType A) (bs : bytes) (tag : list part)
  : result (A * bytes) :=
  parseField ty bs (parseFieldParameters tag).

(** *** The destination types that ocsp.go decodes into *)

Definition rawValueType : fieldType RawValue :=
  {| zero := RawValue_zero;
     matchAny := true; universalTag := -1; compoundType := false;
     isRawValue := true; flagTrue := None; SetInt := None;
     parseBody := fun _ t innerBytes whole =>
       OK {| Class := class t; Tag := tag t; IsCompound := isCompound t;
             Bytes := innerBytes; FullBytes := whole |} |}.

Definition objectIdentifierType : fieldType ObjectIdentifier :=
  {| zero := [];
     matchAny := false; universalTag := TagOID; compoundType := false;
     isRawValue := false; flagTrue := None; SetInt := None;
     parseBody := fun _ _ innerBytes _ => parseObjectIdentifier innerBytes |}.

Definition bitStringType : fieldType BitString :=
  {| zero := {| BitString_Bytes := []; BitLength := 0 |};
     matchAny := false; universalTag := TagBitString; compoundType := false;
     isRawValue := false; flagTrue := None; SetInt := None;
     parseBody := fun _ _ innerBytes _ => parseBitString innerBytes |}.

Definition timeType_ `{TimeLib} : fieldType Time :=
  {| zero := Time_zero;
     matchAny := false; universalTag := TagUTCTime; compoundType := false;
     isRawValue := false; flagTrue := None; SetInt := None;
     parseBody := fun universalTag _ innerBytes _ =>
       if universalTag =? TagUTCTime then foreign (parseUTCTime innerBytes)
       else foreign (parseGeneralizedTime innerBytes) |}.

(** [type Enumerated int] *)
Definition enumeratedType : fieldType Z :=
  {| zero := 0;
     matchAny := false; universalTag := TagEnum; compoundType := false;
     isRawValue := false; flagTrue := None; SetInt := Some (fun i => i);
     parseBody := fun _ _ innerBytes _ => parseInt32 innerBytes |}.

(** [type Flag bool] *)
Definition flagType : fieldType bool :=
  {| zero := false;
     matchAny := false; universalTag := TagBoolean; compoundType := false;
     isRawValue := false; flagTrue := Some true; SetInt := None;
     parseBody := fun _ _ _ _ => OK true |}.

(** [*big.Int] *)
Definition bigIntType : fieldType Z :=
  {| zero := 0;
     matchAny := false; universalTag := TagInteger; compoundType := false;
     isRawValue := false; flagTrue := None; SetInt := None;
     parseBody := fun _ _ innerBytes _ => parseBigInt innerBytes |}.

Definition boolType : fieldType bool :=
  {| zero := false;
     matchAny := false; universalTag := TagBoolean; compoundType := false;
     isRawValue := false; flagTrue := None; SetInt := None;
     parseBody := fun _ _ innerBytes _ => parseBool innerBytes |}.

Definition intType : fieldType Z :=
  {| zero := 0;
     matchAny := false; universalTag := TagInteger; compoundType := false;
     isRawValue := false; flagTrue := None; SetInt := Some (fun i => i);
     parseBody := fun _ _ innerBytes _ => parseInt64 innerBytes |}.

(** [[]byte] *)
Definition bytesType : fieldType bytes :=
  {| zero := [];
     matchAny := false; universalTag := TagOctetString; compoundType := false;
     isRawValue := false; flagTrue := None; SetInt := None;
     parseBody := fun _ _ innerBytes _ => OK innerBytes |}.

(** A struct type: [fields] decodes the fields, in order, from the contents
    and is given the whole element for a leading [RawContent] field.  Bytes
    left over after the last field are allowed. *)
Definition structType {A} (zero : A) (fields : bytes -> bytes -> result A)
  : fieldType A :=
  {| zero := zero;
     matchAny := false; universalTag := TagSequence; compoundType := true;
     isRawValue := false; flagTrue := None; SetInt := None;
     parseBody := fun _ _ innerBytes whole => fields innerBytes whole |}.

(** A slice type other than [[]byte]. *)
Definition sliceType {A} (elem : fieldType A) : fieldType (list A) :=
  {| zero := [];
     matchAny := false; universalTag := TagSequence; compoundType := true;
     isRawValue := false; flagTrue := None; SetInt := None;
     parseBody := fun _ _ innerBytes _ => parseSequenceOf elem innerBytes |}.

(** *** Encoding *)

(** [base128IntLength]: one step of its loop for every seven bits; an
    [int64] needs at most ten. *)
Fixpoint base128IntLength_loop (fuel : nat) (i : Z) (l : nat) : nat :=
  match fuel with
  | O => l
  | S fuel' => if i >? 0 then base128IntLength_loop fuel' (Z.shiftr i 7) (S l) else l
  end.

Definition base128IntLength (n : Z) : nat :=
  if n =? 0 then 1%nat else base128IntLength_loop 10 n 0.

(** The loop of [appendBase128Int], for [i] from [l - 1] down to 0. *)
Fixpoint appendBase128Int_loop (l : nat) (n : Z) : bytes :=
  match l with
  | O => []
  | S i =>
      let o := Z.land (b2z (z2b (Z.shiftr n (Z.of_nat i * 7)))) 0x7f in
      let o := if negb (Z.of_nat i =? 0) then Z.lor o 0x80 else o in
      z2b o :: appendBase128Int_loop i n
  end.

Definition appendBase128Int (dst : bytes) (n : Z) : bytes :=
  dst ++ appendBase128Int_loop (base128IntLength n) n.

(** [lengthLength]: one step of its loop for every byte of an [int]. *)
Fixpoint lengthLength_loop (fuel : nat) (i : Z) (numBytes : nat) : nat :=
  match fuel with
  | O => numBytes
  | S fuel' =>
      if i >? 255 then lengthLength_loop fuel' (Z.shiftr i 8) (S numBytes)
      else numBytes
  end.

Definition lengthLength (i : Z) : nat := lengthLength_loop 8 i 1.

Fixpoint appendLength_loop (n : nat) (i : Z) : bytes :=
  match n with
  | O => []
  | S n' => z2b (Z.shiftr i (Z.of_nat n' * 8)) :: appendLength_loop n' i
  end.

Definition appendLength (dst : bytes) (i : Z) : bytes :=
  dst ++ appendLength_loop (lengthLength i) i.

Definition appendTagAndLength (dst : bytes) (t : tagAndLength) : bytes :=
  let b := Z.shiftl (class t) 6 mod 256 in
  let b := if isCompound t then Z.lor b 0x20 else b in
  let dst :=
    if tag t >=? 31 then appendBase128Int (dst ++ [z2b (Z.lor b 0x1f)]) (tag t)
    else dst ++ [z2b (Z.lor b (tag t mod 256))] in
  if length t >=? 128 then
    let l := lengthLength (length t) in
    appendLength (dst ++ [z2b (Z.lor 0x80 (Z.of_nat l))]) (length t)
  else dst ++ [z2b (length t)].

(** [big.Int.Bytes]: the big-endian bytes of a magnitude, without leading
    zeros; a number below [256 ^ fuel] is written out in full. *)
Fixpoint Bytes_loop (fuel : nat) (n : Z) (acc : bytes) : bytes :=
  match fuel with
  | O => acc
  | S fuel' =>
      if n =? 0 then acc else Bytes_loop fuel' (n / 256) (z2b n :: acc)
  end.

Definition big_Bytes (n : Z) : bytes :=
  Bytes_loop (S (Z.to_nat (Z.log2 (Z.abs n)))) (Z.abs n) [].

Definition makeBigInt (n : Z) : bytes :=
  if n <? 0 then
    (* A negative number has to be converted to two's-complement form. *)
    let nMinus1 := - n - 1 in
    let bs := map (fun b => z2b (Z.lxor (b2z b) 0xff)) (big_Bytes nMinus1) in
    match bs with
    | [] => z2b 0xff :: bs
    | b0 :: _ => if Z.land (b2z b0) 0x80 =? 0 then z2b 0xff :: bs else bs
    end
  else if n =? 0 then
    (* Zero is written as a single 0 zero rather than no bytes. *)
    [z2b 0]
  else
    let bs := big_Bytes n in
    match bs with
    | b0 :: _ => if negb (Z.land (b2z b0) 0x80 =? 0) then z2b 0 :: bs else bs
    | [] => bs
    end.

(** [int64Encoder.Len]: its two loops, [for i > 127] and [for i < -128];
    either runs at most eight times on an [int64]. *)
Fixpoint int64Encoder_Len_above (fuel : nat) (i : Z) (n : nat) : Z * nat :=
  match fuel with
  | O => (i, n)
  | S fuel' =>
      if i >? 127 then int64Encoder_Len_above fuel' (Z.shiftr i 8) (S n)
      else (i, n)
  end.

Fixpoint int64Encoder_Len_below (fuel : nat) (i : Z) (n : nat) : nat :=
  match fuel with
  | O => n
  | S fuel' =>
      if i <? -128 then int64Encoder_Len_below fuel' (Z.shiftr i 8) (S n)
      else n
  end.

Definition int64Encoder_Len (i : Z) : nat :=
  let '(i, n) := int64Encoder_Len_above 8 i 1 in
  int64Encoder_Len_below 8 i n.

(** [int64Encoder.Encode] *)
Definition int64Encoder (i : Z) : bytes :=
  appendLength_loop (int64Encoder_Len i) i.

Definition makeObjectIdentifier (oid : ObjectIdentifier) : result bytes :=
  match oid with
  | oid0 :: oid1 :: oid' =>
      if (oid0 >? 2) || ((oid0 <? 2) && (oid1 >=? 40))
      then Err (StructuralError "invalid object identifier")
      else
        OK (fold_left appendBase128Int oid'
              (appendBase128Int [] (oid0 * 40 + oid1)))
  | _ => Err (StructuralError "invalid object identifier")
  end.

(** What [makeField] learns by reflection about the Go type it encodes:
    the answer of [getUniversalType], the comparison with the zero value,
    the integer value of an integer kind, the view as a [RawValue] when the
    type is [RawValue], and the encoder of the contents. *)
Record marshalType (A : Type) : Type := {
  m_tag : Z;
  m_isCompound : bool;
  isZero : A -> bool;
  Int : option (A -> Z);
  asRawValue : option (A -> RawValue);
  makeBody : A -> result bytes
}.

Definition makeField {A} (ty : marshalType A) (v : A)
    (params : fieldParameters) : result bytes :=
  let omitted :=
    match defaultValue params, Int ty with
    | Some d, Some int => optional params && (int v =? d)
    | Some _, None => false
    | None, _ =>
        (* If no default value is given then the zero value for the type is
           assumed to be the default value. *)
        optional params && isZero ty v
    end in
  if omitted then OK []
  else
    match asRawValue ty with
    | Some raw =>
        let rv := raw v in
        if negb (len (FullBytes rv) =? 0) then OK (FullBytes rv)
        else
          OK (appendTagAndLength []
                {| class := Class rv; tag := Tag rv;
                   length := len (Bytes rv); isCompound := IsCompound rv |}
              ++ Bytes rv)
    | None =>
        if negb (timeType params =? 0) && negb (m_tag ty =? TagUTCTime)
        then Err (StructuralError "explicit time type given to non-time member")
        else
          body <- makeBody ty v ;;
          let bodyLen := len body in
          match param_tag params with
          | Some ptag =>
              if explicit params then
                let inner :=
                  appendTagAndLength []
                    {| class := ClassUniversal; tag := m_tag ty;
                       length := bodyLen; isCompound := m_isCompound ty |} in
                OK (appendTagAndLength []
                      {| class := ClassContextSpecific; tag := ptag;
                         length := bodyLen + len inner; isCompound := true |}
                    ++ inner ++ body)
              else
                (* implicit tag. *)
                OK (appendTagAndLength []
                      {| class := ClassContextSpecific; tag := ptag;
                         length := bodyLen; isCompound := m_isCompound ty |}
                    ++ body)
          | None =>
              OK (appendTagAndLength []
                    {| class := ClassUniversal; tag := m_tag ty;
                       length := bodyLen; isCompound := m_isCompound ty |}
                  ++ body)
          end
    end.

Definition Marshal {A} (ty : marshalType A) (val : A) : result bytes :=
  makeField ty val (parseFieldParameters []).

(** A struct field under the parameters of its struct tag. *)
Definition mfield {A} (ty : marshalType A) (v : A) (tag : list part)
  : result bytes :=
  makeField ty v (parseFieldParameters tag).

(** The contents of a slice: its elements, one after the other. *)
Fixpoint makeBody_slice {A} (elem : marshalType A) (l : list A)
  : result bytes :=
  match l with
  | [] => OK []
  | v :: l' =>
      e <- makeField elem v fieldParameters_zero ;;
      es <- makeBody_slice elem l' ;;
      OK (e ++ es)
  end.

Definition m_rawValueType : marshalType RawValue :=
  {| m_tag := -1; m_isCompound := false;
     isZero := fun rv =>
       (Class rv =? 0) && (Tag rv =? 0) && negb (IsCompound rv)
       && (len (Bytes rv) =? 0) && (len (FullBytes rv) =? 0);
     Int := None; asRawValue := Some (fun rv => rv);
     makeBody := fun _ => Err (StructuralError "unknown Go type") |}.

Definition m_objectIdentifierType : marshalType ObjectIdentifier :=
  {| m_tag := TagOID; m_isCompound := false;
     isZero := fun oid => len oid =? 0;
     Int := None; asRawValue := None;
     makeBody := makeObjectIdentifier |}.

(** [*big.Int]: the pointer is not nil, so it never equals the zero value
    (on a nil pointer the library's [makeBigInt] returns the error "empty
    integer"; the structures here hold integers, not pointers). *)
Definition m_bigIntType : marshalType Z :=
  {| m_tag := TagInteger; m_isCompound := false;
     isZero := fun _ => false;
     Int := None; asRawValue := None;
     makeBody := fun n => OK (makeBigInt n) |}.

Definition m_intType : marshalType Z :=
  {| m_tag := TagInteger; m_isCompound := false;
     isZero := fun i => i =? 0;
     Int := Some (fun i => i); asRawValue := None;
     makeBody := fun i => OK (int64Encoder i) |}.

Definition m_boolType : marshalType bool :=
  {| m_tag := TagBoolean; m_isCompound := false;
     isZero := fun b => negb b;
     Int := None; asRawValue := None;
     makeBody := fun b => OK [if b then z2b 0xff else z2b 0] |}.

Definition m_bytesType : marshalType bytes :=
  {| m_tag := TagOctetString; m_isCompound := false;
     isZero := fun b => len b =? 0;
     Int := None; asRawValue := None;
     makeBody := fun b => OK b |}.

Definition m_structType {A} (isZero : A -> bool) (fields : A -> result bytes)
  : marshalType A :=
  {| m_tag := TagSequence; m_isCompound := true;
     isZero := isZero; Int := None; asRawValue := None;
     makeBody := fields |}.

Definition m_sliceType {A} (elem : marshalType A) : marshalType (list A) :=
  {| m_tag := TagSequence; m_isCompound := true;
     isZero := fun l => len l =? 0;
     Int := None; asRawValue := None;
     makeBody := makeBody_slice elem |}.

End asn1.

(** ** Neighbouring packages *)

Module crypto.

(** [type Hash uint], with the registered values. *)
Definition Hash := Z.
Definition MD4 : Hash := 1.
Definition MD5 : Hash := 2.
Definition SHA1 : Hash := 3.
Definition SHA224 : Hash := 4.
Definition SHA256 : Hash := 5.
Definition SHA384 : Hash := 6.
Definition SHA512 : Hash := 7.

End crypto.

Module x509.

Inductive SignatureAlgorithm : Type :=
| UnknownSignatureAlgorithm
| MD2WithRSA
| MD5WithRSA
| SHA1WithRSA
| SHA256WithRSA
| SHA384WithRSA
| SHA512WithRSA
| DSAWithSHA1
| DSAWithSHA256
| ECDSAWithSHA1
| ECDSAWithSHA256
| ECDSAWithSHA384
| ECDSAWithSHA512
| SHA256WithRSAPSS
| SHA384WithRSAPSS
| SHA512WithRSAPSS
| PureEd25519.

Inductive PublicKeyAlgorithm : Type :=
| UnknownPublicKeyAlgorithm
| RSA
| DSA
| ECDSA
| Ed25519.

(** Certificates are taken as given: the type [x509.Certificate] with the
    fields that ocsp.go reads, [x509.ParseCertificate], and the method
    [Certificate.CheckSignature], whose answer is [None] for a nil error and
    otherwise the error's message.  The serial number of a certificate is
    an integer: a certificate here has one that is not nil. *)
Class Lib : Type := {
  Certificate : Type;
  Certificate_SerialNumber : Certificate -> Z;
  Certificate_SignatureAlgorithm : Certificate -> SignatureAlgorithm;
  Certificate_RawTBSCertificate : Certificate -> bytes;
  Certificate_Signature : Certificate -> bytes;
  ParseCertificate : bytes -> Certificate + string;
  CheckSignature :
    Certificate -> SignatureAlgorithm -> bytes -> bytes -> option string
}.

End x509.

Module pkix.

Module AlgorithmIdentifier.

Record t : Type := mk {
  Algorithm : asn1.ObjectIdentifier;
  Parameters : asn1.RawValue                         (* asn1:"optional" *)
}.

Definition zero : t := mk [] asn1.RawValue_zero.

Definition type : asn1.fieldType t :=
  asn1.structType zero (fun innerBytes _ =>
    '(Algorithm, rest) <- asn1.field asn1.objectIdentifierType innerBytes [] ;;
    '(Parameters, rest) <- asn1.field asn1.rawValueType rest [asn1.Poptional] ;;
    OK (mk Algorithm Parameters)).

Definition marshalType : asn1.marshalType t :=
  asn1.m_structType
    (fun v => asn1.isZero asn1.m_objectIdentifierType (Algorithm v)
              && asn1.isZero asn1.m_rawValueType (Parameters v))
    (fun v =>
       Algorithm <- asn1.mfield asn1.m_objectIdentifierType (Algorithm v) [] ;;
       Parameters <-
         asn1.mfield asn1.m_rawValueType (Parameters v) [asn1.Poptional] ;;
       OK (Algorithm ++ Parameters)).

End AlgorithmIdentifier.

Module Extension.

Record t : Type := mk {
  Id : asn1.ObjectIdentifier;
  Critical : bool;                                   (* asn1:"optional" *)
  Value : bytes
}.

Definition zero : t := mk [] false [].

Definition type : asn1.fieldType t :=
  asn1.structType zero (fun innerBytes _ =>
    '(Id, rest) <- asn1.field asn1.objectIdentifierType innerBytes [] ;;
    '(Critical, rest) <- asn1.field asn1.boolType rest [asn1.Poptional] ;;
    '(Value, rest) <- asn1.field asn1.bytesType rest [] ;;
    OK (mk Id Critical Value)).

Definition marshalType : asn1.marshalType t :=
  asn1.m_structType
    (fun v => asn1.isZero asn1.m_objectIdentifierType (Id v)
              && negb (Critical v) && asn1.isZero asn1.m_bytesType (Value v))
    (fun v =>
       Id <- asn1.mfield asn1.m_objectIdentifierType (Id v) [] ;;
       Critical <- asn1.mfield asn1.m_boolType (Critical v) [asn1.Poptional] ;;
       Value <- asn1.mfield asn1.m_bytesType (Value v) [] ;;
       OK (Id ++ Critical ++ Value)).

End Extension.

(** Distinguished names are taken as given: the type [pkix.RDNSequence]
    (a slice), its nil value, and how the codec decodes the contents of its
    SEQUENCE and encodes a value (the attribute values are of the ANY type).
    The codec's errors are identified by their message. *)
Class Names : Type := {
  RDNSequence : Type;
  RDNSequence_nil : RDNSequence;
  RDNSequence_isNil : RDNSequence -> bool;
  RDNSequence_nil_isNil : RDNSequence_isNil RDNSequence_nil = true;
  RDNSequence_parse : bytes -> RDNSequence + string;
  RDNSequence_marshal : RDNSequence -> bytes + string
}.

Definition asn1Error {A} (r : A + string) : result A :=
  match r with
  | inl a => OK a
  | inr msg => Err (StructuralError msg)
  end.

Definition RDNSequence_type `{Names} : asn1.fieldType RDNSequence :=
  {| asn1.zero := RDNSequence_nil;
     asn1.matchAny := false; asn1.universalTag := asn1.TagSequence;
     asn1.compoundType := true;
     asn1.isRawValue := false; asn1.flagTrue := None; asn1.SetInt := None;
     asn1.parseBody := fun _ _ innerBytes _ =>
       asn1Error (RDNSequence_parse innerBytes) |}.

Definition RDNSequence_marshalType `{Names} : asn1.marshalType RDNSequence :=
  {| asn1.m_tag := asn1.TagSequence; asn1.m_isCompound := true;
     asn1.isZero := RDNSequence_isNil;
     asn1.Int := None; asn1.asRawValue := None;
     asn1.makeBody := fun v => asn1Error (RDNSequence_marshal v) |}.

End pkix.

(** ** Package ocsp: the ASN.1 structures *)

Definition idPKIXOCSPBasic : asn1.ObjectIdentifier :=
  [1; 3; 6; 1; 5; 5; 7; 48; 1; 1].

Module certID.

Record t : Type := mk {
  HashAlgorithm : pkix.AlgorithmIdentifier.t;
  NameHash : bytes;
  IssuerKeyHash : bytes;
  SerialNumber : Z
}.

Definition zero : t := mk pkix.AlgorithmIdentifier.zero [] [] 0.

Definition type : asn1.fieldType t :=
  asn1.structType zero (fun innerBytes _ =>
    '(HashAlgorithm, rest) <-
      asn1.field pkix.AlgorithmIdentifier.type innerBytes [] ;;
    '(NameHash, rest) <- asn1.field asn1.bytesType rest [] ;;
    '(IssuerKeyHash, rest) <- asn1.field asn1.bytesType rest [] ;;
    '(SerialNumber, rest) <- asn1.field asn1.bigIntType rest [] ;;
    OK (mk HashAlgorithm NameHash IssuerKeyHash SerialNumber)).

Definition marshalType : asn1.marshalType t :=
  asn1.m_structType
    (fun _ => false)
    (fun v =>
       HashAlgorithm <-
         asn1.mfield pkix.AlgorithmIdentifier.marshalType (HashAlgorithm v) [] ;;
       NameHash <- asn1.mfield asn1.m_bytesType (NameHash v) [] ;;
       IssuerKeyHash <- asn1.mfield asn1.m_bytesType (IssuerKeyHash v) [] ;;
       SerialNumber <- asn1.mfield asn1.m_bigIntType (SerialNumber v) [] ;;
       OK (HashAlgorithm ++ NameHash ++ IssuerKeyHash ++ SerialNumber)).

End certID.

Module request.

Record t : Type := mk {
  Cert : certID.t
}.

Definition zero : t := mk certID.zero.

Definition type : asn1.fieldType t :=
  asn1.structType zero (fun innerBytes _ =>
    '(Cert, rest) <- asn1.field certID.type innerBytes [] ;;
    OK (mk Cert)).

Definition marshalType : asn1.marshalType t :=
  asn1.m_structType
    (fun v => asn1.isZero certID.marshalType (Cert v))
    (fun v => asn1.mfield certID.marshalType (Cert v) []).

End request.

Module tbsRequest.
Section WithNames.
Context `{pkix.Names}.

Record t : Type := mk {
  Version : Z;              (* asn1:"explicit,tag:0,default:0,optional" *)
  RequestorName : pkix.RDNSequence;   (* asn1:"explicit,tag:1,optional" *)
  RequestList : list request.t;
  RequestExtensions : list pkix.Extension.t
                                      (* asn1:"explicit,tag:2,optional" *)
}.

Definition zero : t := mk 0 pkix.RDNSequence_nil [] [].

Definition type : asn1.fieldType t :=
  asn1.structType zero (fun innerBytes _ =>
    '(Version, rest) <-
      asn1.field asn1.intType innerBytes
        [asn1.Pexplicit; asn1.Ptag 0; asn1.Pdefault 0; asn1.Poptional] ;;
    '(RequestorName, rest) <-
      asn1.field pkix.RDNSequence_type rest
        [asn1.Pexplicit; asn1.Ptag 1; asn1.Poptional] ;;
    '(RequestList, rest) <-
      asn1.field (asn1.sliceType request.type) rest [] ;;
    '(RequestExtensions, rest) <-
      asn1.field (asn1.sliceType pkix.Extension.type) rest
        [asn1.Pexplicit; asn1.Ptag 2; asn1.Poptional] ;;
    OK (mk Version RequestorName RequestList RequestExtensions)).

Definition marshalType : asn1.marshalType t :=
  asn1.m_structType
    (fun v => (Version v =? 0) && pkix.RDNSequence_isNil (RequestorName v)
              && (len (RequestList v) =? 0)
              && (len (RequestExtensions v) =? 0))
    (fun v =>
       Version <-
         asn1.mfield asn1.m_intType (Version v)
           [asn1.Pexplicit; asn1.Ptag 0; asn1.Pdefault 0; asn1.Poptional] ;;
       RequestorName <-
         asn1.mfield pkix.RDNSequence_marshalType (RequestorName v)
           [asn1.Pexplicit; asn1.Ptag 1; asn1.Poptional] ;;
       RequestList <-
         asn1.mfield (asn1.m_sliceType request.marshalType) (RequestList v) [] ;;
       RequestExtensions <-
         asn1.mfield (asn1.m_sliceType pkix.Extension.marshalType)
           (RequestExtensions v)
           [asn1.Pexplicit; asn1.Ptag 2; asn1.Poptional] ;;
       OK (Version ++ RequestorName ++ RequestList ++ RequestExtensions)).

End WithNames.
End tbsRequest.

Module ocspRequest.
Section WithNames.
Context `{pkix.Names}.

Record t : Type := mk {
  TBSRequest : tbsRequest.t
}.

Definition zero : t := mk tbsRequest.zero.

Definition type : asn1.fieldType t :=
  asn1.structType zero (fun innerBytes _ =>
    '(TBSRequest, rest) <- asn1.field tbsRequest.type innerBytes [] ;;
    OK (mk TBSRequest)).

Definition marshalType : asn1.marshalType t :=
  asn1.m_structType
    (fun v => asn1.isZero tbsRequest.marshalType (TBSRequest v))
    (fun v => asn1.mfield tbsRequest.marshalType (TBSRequest v) []).

End WithNames.
End ocspRequest.

Module responseBytes.

Record t : Type := mk {
  ResponseType : asn1.ObjectIdentifier;
  Response : bytes
}.

Definition zero : t := mk [] [].

Definition type : asn1.fieldType t :=
  asn1.structType zero (fun innerBytes _ =>
    '(ResponseType, rest) <-
      asn1.field asn1.objectIdentifierType innerBytes [] ;;
    '(Response, rest) <- asn1.field asn1.bytesType rest [] ;;
    OK (mk ResponseType Response)).

End responseBytes.

Module responseASN1.

Record t : Type := mk {
  Status : Z;                                         (* asn1.Enumerated *)
  Response : responseBytes.t          (* asn1:"explicit,tag:0,optional" *)
}.

Definition zero : t := mk 0 responseBytes.zero.

Definition type : asn1.fieldType t :=
  asn1.structType zero (fun innerBytes _ =>
    '(Status, rest) <- asn1.field asn1.enumeratedType innerBytes [] ;;
    '(Response, rest) <-
      asn1.field responseBytes.type rest
        [asn1.Pexplicit; asn1.Ptag 0; asn1.Poptional] ;;
    OK (mk Status Response)).

End responseASN1.

Module revokedInfo.
Section WithTime.
Context `{TimeLib}.

Record t : Type := mk {
  RevocationTime : Time;                          (* asn1:"generalized" *)
  Reason : Z     (* asn1.Enumerated, asn1:"explicit,tag:0,optional" *)
}.

Definition zero : t := mk Time_zero 0.

Definition type : asn1.fieldType t :=
  asn1.structType zero (fun innerBytes _ =>
    '(RevocationTime, rest) <-
      asn1.field asn1.timeType_ innerBytes [asn1.Pgeneralized] ;;
    '(Reason, rest) <-
      asn1.field asn1.enumeratedType rest
        [asn1.Pexplicit; asn1.Ptag 0; asn1.Poptional] ;;
    OK (mk RevocationTime Reason)).

End WithTime.
End revokedInfo.

Module singleResponse.
Section WithTime.
Context `{TimeLib}.

Record t : Type := mk {
  CertID : certID.t;
  Good : bool;                     (* asn1.Flag, asn1:"tag:0,optional" *)
  Revoked : revokedInfo.t;                    (* asn1:"tag:1,optional" *)
  Unknown : bool;                  (* asn1.Flag, asn1:"tag:2,optional" *)
  ThisUpdate : Time;                              (* asn1:"generalized" *)
  NextUpdate : Time;   (* asn1:"generalized,explicit,tag:0,optional" *)
  SingleExtensions : list pkix.Extension.t
                                     (* asn1:"explicit,tag:1,optional" *)
}.

Definition zero : t :=
  mk certID.zero false revokedInfo.zero false Time_zero Time_zero [].

Definition type : asn1.fieldType t :=
  asn1.structType zero (fun innerBytes _ =>
    '(CertID, rest) <- asn1.field certID.type innerBytes [] ;;
    '(Good, rest) <-
      asn1.field asn1.flagType rest [asn1.Ptag 0; asn1.Poptional] ;;
    '(Revoked, rest) <-
      asn1.field revokedInfo.type rest [asn1.Ptag 1; asn1.Poptional] ;;
    '(Unknown, rest) <-
      asn1.field asn1.flagType rest [asn1.Ptag 2; asn1.Poptional] ;;
    '(ThisUpdate, rest) <- asn1.field asn1.timeType_ rest [asn1.Pgeneralized] ;;
    '(NextUpdate, rest) <-
      asn1.field asn1.timeType_ rest
        [asn1.Pgeneralized; asn1.Pexplicit; asn1.Ptag 0; asn1.Poptional] ;;
    '(SingleExtensions, rest) <-
      asn1.field (asn1.sliceType pkix.Extension.type) rest
        [asn1.Pexplicit; asn1.Ptag 1; asn1.Poptional] ;;
    OK (mk CertID Good Revoked Unknown ThisUpdate NextUpdate
           SingleExtensions)).

End WithTime.
End singleResponse.

Module responseData.
Section WithTime.
Context `{TimeLib}.

Record t : Type := mk {
  Raw : bytes;                                        (* asn1.RawContent *)
  Version : Z;              (* asn1:"optional,default:0,explicit,tag:0" *)
  RawResponderID : asn1.RawValue;
  ProducedAt : Time;                              (* asn1:"generalized" *)
  Responses : list singleResponse.t;
  ResponseExtensions : list pkix.Extension.t
                                     (* asn1:"explicit,tag:1,optional" *)
}.

Definition zero : t := mk [] 0 asn1.RawValue_zero Time_zero [] [].

Definition type : asn1.fieldType t :=
  asn1.structType zero (fun innerBytes whole =>
    let Raw := whole in
    '(Version, rest) <-
      asn1.field asn1.intType innerBytes
        [asn1.Poptional; asn1.Pdefault 0; asn1.Pexplicit; asn1.Ptag 0] ;;
    '(RawResponderID, rest) <- asn1.field asn1.rawValueType rest [] ;;
    '(ProducedAt, rest) <- asn1.field asn1.timeType_ rest [asn1.Pgeneralized] ;;
    '(Responses, rest) <-
      asn1.field (asn1.sliceType singleResponse.type) rest [] ;;
    '(ResponseExtensions, rest) <-
      asn1.field (asn1.sliceType pkix.Extension.type) rest
        [asn1.Pexplicit; asn1.Ptag 1; asn1.Poptional] ;;
    OK (mk Raw Version RawResponderID ProducedAt Responses
           ResponseExtensions)).

End WithTime.
End responseData.

Module basicResponse.
Section WithTime.
Context `{TimeLib}.

Record t : Type := mk {
  TBSResponseData : responseData.t;
  SignatureAlgorithm : pkix.AlgorithmIdentifier.t;
  Signature : asn1.BitString;
  Certificates : list asn1.RawValue   (* asn1:"explicit,tag:0,optional" *)
}.

Definition zero : t :=
  mk responseData.zero pkix.AlgorithmIdentifier.zero
     (asn1.zero asn1.bitStringType) [].

Definition type : asn1.fieldType t :=
  asn1.structType zero (fun innerBytes _ =>
    '(TBSResponseData, rest) <- asn1.field responseData.type innerBytes [] ;;
    '(SignatureAlgorithm, rest) <-
      asn1.field pkix.AlgorithmIdentifier.type rest [] ;;
    '(Signature, rest) <- asn1.field asn1.bitStringType rest [] ;;
    '(Certificates, rest) <-
      asn1.field (asn1.sliceType asn1.rawValueType) rest
        [asn1.Pexplicit; asn1.Ptag 0; asn1.Poptional] ;;
    OK (mk TBSResponseData SignatureAlgorithm Signature Certificates)).

End WithTime.
End basicResponse.

(** [pssParameters] reflects the parameters in an AlgorithmIdentifier that
    specifies RSA PSS. *)
Module pssParameters.

Record t : Type := mk {
  Hash : pkix.AlgorithmIdentifier.t;           (* asn1:"explicit,tag:0" *)
  MGF : pkix.AlgorithmIdentifier.t;            (* asn1:"explicit,tag:1" *)
  SaltLength : Z;                              (* asn1:"explicit,tag:2" *)
  TrailerField : Z         (* asn1:"optional,explicit,tag:3,default:1" *)
}.

Definition zero : t :=
  mk pkix.AlgorithmIdentifier.zero pkix.AlgorithmIdentifier.zero 0 0.

Definition type : asn1.fieldType t :=
  asn1.structType zero (fun innerBytes _ =>
    '(Hash, rest) <-
      asn1.field pkix.AlgorithmIdentifier.type innerBytes
        [asn1.Pexplicit; asn1.Ptag 0] ;;
    '(MGF, rest) <-
      asn1.field pkix.AlgorithmIdentifier.type rest
        [asn1.Pexplicit; asn1.Ptag 1] ;;
    '(SaltLength, rest) <-
      asn1.field asn1.intType rest [asn1.Pexplicit; asn1.Ptag 2] ;;
    '(TrailerField, rest) <-
      asn1.field asn1.intType rest
        [asn1.Poptional; asn1.Pexplicit; asn1.Ptag 3; asn1.Pdefault 1] ;;
    OK (mk Hash MGF SaltLength TrailerField)).

End pssParameters.

(** ** Package ocsp: the signature-algorithm and hash registries *)

Definition oidSignatureMD2WithRSA : asn1.ObjectIdentifier := [1; 2; 840; 113549; 1; 1; 2].
Definition oidSignatureMD5WithRSA : asn1.ObjectIdentifier := [1; 2; 840; 113549; 1; 1; 4].
Definition oidSignatureSHA1WithRSA : asn1.ObjectIdentifier := [1; 2; 840; 113549; 1; 1; 5].
Definition oidSignatureSHA256WithRSA : asn1.ObjectIdentifier := [1; 2; 840; 113549; 1; 1; 11].
Definition oidSignatureSHA384WithRSA : asn1.ObjectIdentifier := [1; 2; 840; 113549; 1; 1; 12].
Definition oidSignatureSHA512WithRSA : asn1.ObjectIdentifier := [1; 2; 840; 113549; 1; 1; 13].
Definition oidSignatureRSAPSS : asn1.ObjectIdentifier := [1; 2; 840; 113549; 1; 1; 10].
Definition oidSignatureDSAWithSHA1 : asn1.ObjectIdentifier := [1; 2; 840; 10040; 4; 3].
Definition oidSignatureDSAWithSHA256 : asn1.ObjectIdentifier := [2; 16; 840; 1; 101; 3; 4; 3; 2].
Definition oidSignatureECDSAWithSHA1 : asn1.ObjectIdentifier := [1; 2; 840; 10045; 4; 1].
Definition oidSignatureECDSAWithSHA256 : asn1.ObjectIdentifier := [1; 2; 840; 10045; 4; 3; 2].
Definition oidSignatureECDSAWithSHA384 : asn1.ObjectIdentifier := [1; 2; 840; 10045; 4; 3; 3].
Definition oidSignatureECDSAWithSHA512 : asn1.ObjectIdentifier := [1; 2; 840; 10045; 4; 3; 4].

Definition oidSHA1 : asn1.ObjectIdentifier := [1; 3; 14; 3; 2; 26].
Definition oidSHA256 : asn1.ObjectIdentifier := [2; 16; 840; 1; 101; 3; 4; 2; 1].
Definition oidSHA384 : asn1.ObjectIdentifier := [2; 16; 840; 1; 101; 3; 4; 2; 2].
Definition oidSHA512 : asn1.ObjectIdentifier := [2; 16; 840; 1; 101; 3; 4; 2; 3].

Definition oidMGF1 : asn1.ObjectIdentifier := [1; 2; 840; 113549; 1; 1; 8].

(** The map [hashOIDs], as the list of its entries.  Go ranges over a map in
    no fixed order; the keys and the identifiers of the four entries are
    pairwise distinct, so a search for a key or for an identifier finds the
    same entry in any order. *)
Definition hashOIDs : list (crypto.Hash * asn1.ObjectIdentifier) :=
  [ (crypto.SHA1, oidSHA1);
    (crypto.SHA256, oidSHA256);
    (crypto.SHA384, oidSHA384);
    (crypto.SHA512, oidSHA512) ].

Definition emptyRawValue : asn1.RawValue := asn1.RawValue_zero.

Definition rawFullBytes (b : bytes) : asn1.RawValue :=
  {| asn1.Class := 0; asn1.Tag := 0; asn1.IsCompound := false;
     asn1.Bytes := []; asn1.FullBytes := b |}.

(** DER encoded RSA PSS parameters for the SHA256, SHA384, and SHA512
    hashes. *)
Definition pssParametersSHA256 : asn1.RawValue :=
  rawFullBytes (B [48; 52; 160; 15; 48; 13; 6; 9; 96; 134; 72; 1; 101; 3; 4; 2; 1; 5; 0; 161; 28; 48; 26; 6; 9; 42; 134; 72; 134; 247; 13; 1; 1; 8; 48; 13; 6; 9; 96; 134; 72; 1; 101; 3; 4; 2; 1; 5; 0; 162; 3; 2; 1; 32]).
Definition pssParametersSHA384 : asn1.RawValue :=
  rawFullBytes (B [48; 52; 160; 15; 48; 13; 6; 9; 96; 134; 72; 1; 101; 3; 4; 2; 2; 5; 0; 161; 28; 48; 26; 6; 9; 42; 134; 72; 134; 247; 13; 1; 1; 8; 48; 13; 6; 9; 96; 134; 72; 1; 101; 3; 4; 2; 2; 5; 0; 162; 3; 2; 1; 48]).
Definition pssParametersSHA512 : asn1.RawValue :=
  rawFullBytes (B [48; 52; 160; 15; 48; 13; 6; 9; 96; 134; 72; 1; 101; 3; 4; 2; 3; 5; 0; 161; 28; 48; 26; 6; 9; 42; 134; 72; 134; 247; 13; 1; 1; 8; 48; 13; 6; 9; 96; 134; 72; 1; 101; 3; 4; 2; 3; 5; 0; 162; 3; 2; 1; 64]).

Module details.

Record t : Type := mk {
  algo : x509.SignatureAlgorithm;
  oid : asn1.ObjectIdentifier;
  params : asn1.RawValue;
  pubKeyAlgo : x509.PublicKeyAlgorithm;
  hash : crypto.Hash;
  isRSAPSS : bool
}.

End details.

Definition signatureAlgorithmDetails : list details.t :=
  [ details.mk x509.MD2WithRSA oidSignatureMD2WithRSA asn1.NullRawValue x509.RSA 0 (* no value for MD2 *) false;
    details.mk x509.MD5WithRSA oidSignatureMD5WithRSA asn1.NullRawValue x509.RSA crypto.MD5 false;
    details.mk x509.SHA1WithRSA oidSignatureSHA1WithRSA asn1.NullRawValue x509.RSA crypto.SHA1 false;
    details.mk x509.SHA256WithRSA oidSignatureSHA256WithRSA asn1.NullRawValue x509.RSA crypto.SHA256 false;
    details.mk x509.SHA384WithRSA oidSignatureSHA384WithRSA asn1.NullRawValue x509.RSA crypto.SHA384 false;
    details.mk x509.SHA512WithRSA oidSignatureSHA512WithRSA asn1.NullRawValue x509.RSA crypto.SHA512 false;
    details.mk x509.SHA256WithRSAPSS oidSignatureRSAPSS pssParametersSHA256 x509.RSA crypto.SHA256 true;
    details.mk x509.SHA384WithRSAPSS oidSignatureRSAPSS pssParametersSHA384 x509.RSA crypto.SHA384 true;
    details.mk x509.SHA512WithRSAPSS oidSignatureRSAPSS pssParametersSHA512 x509.RSA crypto.SHA512 true;
    details.mk x509.DSAWithSHA1 oidSignatureDSAWithSHA1 emptyRawValue x509.DSA crypto.SHA1 false;
    details.mk x509.DSAWithSHA256 oidSignatureDSAWithSHA256 emptyRawValue x509.DSA crypto.SHA256 false;
    details.mk x509.ECDSAWithSHA1 oidSignatureECDSAWithSHA1 emptyRawValue x509.ECDSA crypto.SHA1 false;
    details.mk x509.ECDSAWithSHA256 oidSignatureECDSAWithSHA256 emptyRawValue x509.ECDSA crypto.SHA256 false;
    details.mk x509.ECDSAWithSHA384 oidSignatureECDSAWithSHA384 emptyRawValue x509.ECDSA crypto.SHA384 false;
    details.mk x509.ECDSAWithSHA512 oidSignatureECDSAWithSHA512 emptyRawValue x509.ECDSA crypto.SHA512 false ].

(** The loop of [getSignatureAlgorithmFromAI] over the table. *)
Fixpoint getSignatureAlgorithmFromAI_loop (algorithm : asn1.ObjectIdentifier)
    (table : list details.t) : x509.SignatureAlgorithm :=
  match table with
  | [] => x509.UnknownSignatureAlgorithm
  | details :: table' =>
      if asn1.ObjectIdentifier_Equal algorithm (details.oid details)
      then details.algo details
      else getSignatureAlgorithmFromAI_loop algorithm table'
  end.

(** [len(b) != 0 && !bytes.Equal(b, asn1.NullBytes)] *)
Definition notAbsentOrNull (b : bytes) : bool :=
  negb (len b =? 0) && negb (bytes_eqb b asn1.NullBytes).

Definition getSignatureAlgorithmFromAI (ai : pkix.AlgorithmIdentifier.t)
  : x509.SignatureAlgorithm :=
  if negb (asn1.ObjectIdentifier_Equal (pkix.AlgorithmIdentifier.Algorithm ai)
             oidSignatureRSAPSS)
  then
    getSignatureAlgorithmFromAI_loop (pkix.AlgorithmIdentifier.Algorithm ai)
      signatureAlgorithmDetails
  else
    (* RSA PSS is special because it encodes important parameters
       in the parameters. *)
    match asn1.Unmarshal pssParameters.type
            (asn1.FullBytes (pkix.AlgorithmIdentifier.Parameters ai)) with
    | Err _ => x509.UnknownSignatureAlgorithm
    | OK (params, _) =>
        let Hash := pssParameters.Hash params in
        let MGF := pssParameters.MGF params in
        match asn1.Unmarshal pkix.AlgorithmIdentifier.type
                (asn1.FullBytes (pkix.AlgorithmIdentifier.Parameters MGF)) with
        | Err _ => x509.UnknownSignatureAlgorithm
        | OK (mgf1HashFunc, _) =>
            if notAbsentOrNull
                 (asn1.FullBytes (pkix.AlgorithmIdentifier.Parameters Hash))
               || negb (asn1.ObjectIdentifier_Equal
                          (pkix.AlgorithmIdentifier.Algorithm MGF) oidMGF1)
               || negb (asn1.ObjectIdentifier_Equal
                          (pkix.AlgorithmIdentifier.Algorithm mgf1HashFunc)
                          (pkix.AlgorithmIdentifier.Algorithm Hash))
               || notAbsentOrNull
                    (asn1.FullBytes
                       (pkix.AlgorithmIdentifier.Parameters mgf1HashFunc))
               || negb (pssParameters.TrailerField params =? 1)
            then x509.UnknownSignatureAlgorithm
            else if asn1.ObjectIdentifier_Equal
                      (pkix.AlgorithmIdentifier.Algorithm Hash) oidSHA256
                    && (pssParameters.SaltLength params =? 32)
            then x509.SHA256WithRSAPSS
            else if asn1.ObjectIdentifier_Equal
                      (pkix.AlgorithmIdentifier.Algorithm Hash) oidSHA384
                    && (pssParameters.SaltLength params =? 48)
            then x509.SHA384WithRSAPSS
            else if asn1.ObjectIdentifier_Equal
                      (pkix.AlgorithmIdentifier.Algorithm Hash) oidSHA512
                    && (pssParameters.SaltLength params =? 64)
            then x509.SHA512WithRSAPSS
            else x509.UnknownSignatureAlgorithm
        end
    end.

(** The loop [for hash, oid := range hashOIDs] that looks for an
    identifier; [crypto.Hash(0)] when there is none. *)
Fixpoint hashOIDs_byOID (m : list (crypto.Hash * asn1.ObjectIdentifier))
    (target : asn1.ObjectIdentifier) : crypto.Hash :=
  match m with
  | [] => 0
  | (hash, oid) :: m' =>
      if asn1.ObjectIdentifier_Equal oid target then hash
      else hashOIDs_byOID m' target
  end.

(** The loop that looks for a hash; nil when there is none. *)
Fixpoint hashOIDs_byHash (m : list (crypto.Hash * asn1.ObjectIdentifier))
    (target : crypto.Hash) : asn1.ObjectIdentifier :=
  match m with
  | [] => []
  | (hash, oid) :: m' =>
      if hash =? target then oid else hashOIDs_byHash m' target
  end.

Definition getHashAlgorithmFromOID (target : asn1.ObjectIdentifier)
  : crypto.Hash :=
  hashOIDs_byOID hashOIDs target.

Definition getOIDFromHashAlgorithm (target : crypto.Hash)
  : asn1.ObjectIdentifier :=
  hashOIDs_byHash hashOIDs target.

(** ** Package ocsp: the exposed structures *)

(** The status values that can be expressed in OCSP. *)
Definition Good : Z := 0.
Definition Revoked : Z := 1.
Definition Unknown : Z := 2.
Definition ServerFailed : Z := 3.

(** [Request] represents an OCSP request.  [SerialNumber] is an integer: a
    request here has a serial number that is not nil. *)
Module Request.

Record t : Type := mk {
  HashAlgorithm : crypto.Hash;
  IssuerNameHash : bytes;
  IssuerKeyHash : bytes;
  SerialNumber : Z;
  Extensions : list pkix.Extension.t
}.

End Request.

(** [Marshal] marshals the OCSP request to ASN.1 DER encoded form. *)
Definition Request_Marshal `{pkix.Names} (req : Request.t) : result bytes :=
  let hashAlg := getOIDFromHashAlgorithm (Request.HashAlgorithm req) in
  match hashAlg with
  | [] => Err (errorString "unknown hash algorithm")
  | _ :: _ =>
      asn1.Marshal ocspRequest.marshalType
        (ocspRequest.mk
           {| tbsRequest.Version := 0;
              tbsRequest.RequestList :=
                [ request.mk
                    (certID.mk
                       (pkix.AlgorithmIdentifier.mk hashAlg
                          {| asn1.Tag := 5 (* ASN.1 NULL *);
                             asn1.Class := 0; asn1.IsCompound := false;
                             asn1.Bytes := []; asn1.FullBytes := [] |})
                       (Request.IssuerNameHash req)
                       (Request.IssuerKeyHash req)
                       (Request.SerialNumber req)) ];
              (* the fields left at their zero value *)
              tbsRequest.RequestorName := pkix.RDNSequence_nil;
              tbsRequest.RequestExtensions := [] |})
  end.

(** [Response] represents an OCSP response containing a single
    SingleResponse.  The two responder fields keep Go's distinction between
    a nil slice ([None]) and a slice that was assigned. *)
Module Response.
Section WithLibs.
Context `{TimeLib} `{x509.Lib}.

Record t : Type := mk {
  Raw : bytes;
  Status : Z;
  SerialNumber : Z;
  ProducedAt : Time;
  ThisUpdate : Time;
  NextUpdate : Time;
  RevokedAt : Time;
  RevocationReason : Z;
  Certificate : option x509.Certificate;
  TBSResponseData : bytes;
  Signature : bytes;
  SignatureAlgorithm : x509.SignatureAlgorithm;
  IssuerHash : crypto.Hash;
  RawResponderName : option bytes;
  ResponderKeyHash : option bytes;
  Extensions : list pkix.Extension.t;
  ExtraExtensions : list pkix.Extension.t;
  ResponseExtensions : list pkix.Extension.t;
  ResponseExtraExtensions : list pkix.Extension.t
}.

(** Assignments to a field of [ret]. *)
Definition set_Status (r : t) (v : Z) : t :=
  mk (Raw r) v (SerialNumber r) (ProducedAt r) (ThisUpdate r) (NextUpdate r)
     (RevokedAt r) (RevocationReason r) (Certificate r) (TBSResponseData r)
     (Signature r) (SignatureAlgorithm r) (IssuerHash r) (RawResponderName r)
     (ResponderKeyHash r) (Extensions r) (ExtraExtensions r)
     (ResponseExtensions r) (ResponseExtraExtensions r).

Definition set_RevokedAt (r : t) (v : Time) : t :=
  mk (Raw r) (Status r) (SerialNumber r) (ProducedAt r) (ThisUpdate r)
     (NextUpdate r) v (RevocationReason r) (Certificate r) (TBSResponseData r)
     (Signature r) (SignatureAlgorithm r) (IssuerHash r) (RawResponderName r)
     (ResponderKeyHash r) (Extensions r) (ExtraExtensions r)
     (ResponseExtensions r) (ResponseExtraExtensions r).

Definition set_RevocationReason (r : t) (v : Z) : t :=
  mk (Raw r) (Status r) (SerialNumber r) (ProducedAt r) (ThisUpdate r)
     (NextUpdate r) (RevokedAt r) v (Certificate r) (TBSResponseData r)
     (Signature r) (SignatureAlgorithm r) (IssuerHash r) (RawResponderName r)
     (ResponderKeyHash r) (Extensions r) (ExtraExtensions r)
     (ResponseExtensions r) (ResponseExtraExtensions r).

Definition set_Certificate (r : t) (v : option x509.Certificate) : t :=
  mk (Raw r) (Status r) (SerialNumber r) (ProducedAt r) (ThisUpdate r)
     (NextUpdate r) (RevokedAt r) (RevocationReason r) v (TBSResponseData r)
     (Signature r) (SignatureAlgorithm r) (IssuerHash r) (RawResponderName r)
     (ResponderKeyHash r) (Extensions r) (ExtraExtensions r)
     (ResponseExtensions r) (ResponseExtraExtensions r).

Definition set_IssuerHash (r : t) (v : crypto.Hash) : t :=
  mk (Raw r) (Status r) (SerialNumber r) (ProducedAt r) (ThisUpdate r)
     (NextUpdate r) (RevokedAt r) (RevocationReason r) (Certificate r)
     (TBSResponseData r) (Signature r) (SignatureAlgorithm r) v
     (RawResponderName r) (ResponderKeyHash r) (Extensions r)
     (ExtraExtensions r) (ResponseExtensions r) (ResponseExtraExtensions r).

Definition set_RawResponderName (r : t) (v : option bytes) : t :=
  mk (Raw r) (Status r) (SerialNumber r) (ProducedAt r) (ThisUpdate r)
     (NextUpdate r) (RevokedAt r) (RevocationReason r) (Certificate r)
     (TBSResponseData r) (Signature r) (SignatureAlgorithm r) (IssuerHash r)
     v (ResponderKeyHash r) (Extensions r) (ExtraExtensions r)
     (ResponseExtensions r) (ResponseExtraExtensions r).

Definition set_ResponderKeyHash (r : t) (v : option bytes) : t :=
  mk (Raw r) (Status r) (SerialNumber r) (ProducedAt r) (ThisUpdate r)
     (NextUpdate r) (RevokedAt r) (RevocationReason r) (Certificate r)
     (TBSResponseData r) (Signature r) (SignatureAlgorithm r) (IssuerHash r)
     (RawResponderName r) v (Extensions r) (ExtraExtensions r)
     (ResponseExtensions r) (ResponseExtraExtensions r).

End WithLibs.
End Response.

(** Pre-serialized error responses for the various non-success codes
    defined by OCSP. *)
Definition MalformedRequestErrorResponse : bytes := B [0x30; 0x03; 0x0A; 0x01; 0x01].
Definition InternalErrorErrorResponse : bytes := B [0x30; 0x03; 0x0A; 0x01; 0x02].
Definition TryLaterErrorResponse : bytes := B [0x30; 0x03; 0x0A; 0x01; 0x03].
Definition SigRequredErrorResponse : bytes := B [0x30; 0x03; 0x0A; 0x01; 0x05].
Definition UnauthorizedErrorResponse : bytes := B [0x30; 0x03; 0x0A; 0x01; 0x06].

(** ** Package ocsp: parsing *)

Section Parsing.
Context `{TimeLib} `{pkix.Names} `{x509.Lib}.

(** [CheckSignatureFrom] checks that the signature in [resp] is a valid
    signature from [issuer]. *)
Definition CheckSignatureFrom (resp : Response.t) (issuer : x509.Certificate)
  : option string :=
  x509.CheckSignature issuer (Response.SignatureAlgorithm resp)
    (Response.TBSResponseData resp) (Response.Signature resp).

(** [ParseRequest] parses an OCSP request in DER form. *)
Definition ParseRequest (der : bytes) : result Request.t :=
  '(req, rest) <- asn1.Unmarshal ocspRequest.type der ;;
  if len rest >? 0 then Err (ParseError "trailing data in OCSP request")
  else
    match tbsRequest.RequestList (ocspRequest.TBSRequest req) with
    | [] => Err (ParseError "OCSP request contains no request body")
    | innerRequest :: _ =>
        let hashFunc :=
          getHashAlgorithmFromOID
            (pkix.AlgorithmIdentifier.Algorithm
               (certID.HashAlgorithm (request.Cert innerRequest))) in
        if hashFunc =? 0
        then Err (ParseError "OCSP request uses unknown hash function")
        else
          OK {| Request.HashAlgorithm := hashFunc;
                Request.IssuerNameHash :=
                  certID.NameHash (request.Cert innerRequest);
                Request.IssuerKeyHash :=
                  certID.IssuerKeyHash (request.Cert innerRequest);
                Request.SerialNumber :=
                  certID.SerialNumber (request.Cert innerRequest);
                Request.Extensions :=
                  tbsRequest.RequestExtensions (ocspRequest.TBSRequest req) |}
    end.

(** The loop of [ParseResponseForCert] that looks for the first status
    with a matching serial; [None] when [match] stays false. *)
Fixpoint matchSerial (serial : Z) (responses : list singleResponse.t)
  : option singleResponse.t :=
  match responses with
  | [] => None
  | resp :: responses' =>
      if serial =? certID.SerialNumber (singleResponse.CertID resp)
      then Some resp
      else matchSerial serial responses'
  end.

Definition isNil {A} (p : option A) : bool :=
  match p with
  | None => true
  | Some _ => false
  end.

(** [ParseResponseForCert] parses an OCSP response in DER form and returns
    the status of [cert], or the only status when [cert] is nil. *)
Definition ParseResponseForCert (der : bytes)
    (cert issuer : option x509.Certificate) : result Response.t :=
  '(resp, rest) <- asn1.Unmarshal responseASN1.type der ;;
  if len rest >? 0 then Err (ParseError "trailing data in OCSP response")
  else
  let status := responseASN1.Status resp in
  if negb (status =? Success) then Err (ResponseError status)
  else
  if negb (asn1.ObjectIdentifier_Equal
             (responseBytes.ResponseType (responseASN1.Response resp))
             idPKIXOCSPBasic)
  then Err (ParseError "bad OCSP response type")
  else
  '(basicResp, rest) <-
    asn1.Unmarshal basicResponse.type
      (responseBytes.Response (responseASN1.Response resp)) ;;
  if len rest >? 0 then Err (ParseError "trailing data in OCSP response")
  else
  let TBSResponseData := basicResponse.TBSResponseData basicResp in
  let n := len (responseData.Responses TBSResponseData) in
  if (n =? 0) || (isNil cert && (n >? 1))
  then Err (ParseError "OCSP response contains bad number of responses")
  else
  singleResp <-
    match cert with
    | None => OK (hd singleResponse.zero (responseData.Responses TBSResponseData))
    | Some cert =>
        match matchSerial (x509.Certificate_SerialNumber cert)
                (responseData.Responses TBSResponseData) with
        | Some resp => OK resp
        | None =>
            Err (ParseError "no response matching the supplied certificate")
        end
    end ;;
  let ret : Response.t :=
    {| Response.Raw := der;
       Response.TBSResponseData := responseData.Raw TBSResponseData;
       Response.Signature :=
         asn1.RightAlign (basicResponse.Signature basicResp);
       Response.SignatureAlgorithm :=
         getSignatureAlgorithmFromAI
           (basicResponse.SignatureAlgorithm basicResp);
       Response.Extensions := singleResponse.SingleExtensions singleResp;
       Response.SerialNumber :=
         certID.SerialNumber (singleResponse.CertID singleResp);
       Response.ProducedAt := responseData.ProducedAt TBSResponseData;
       Response.ResponseExtensions :=
         responseData.ResponseExtensions TBSResponseData;
       Response.ThisUpdate := singleResponse.ThisUpdate singleResp;
       Response.NextUpdate := singleResponse.NextUpdate singleResp;
       (* the fields left at their zero value *)
       Response.Status := 0;
       Response.RevokedAt := Time_zero;
       Response.RevocationReason := 0;
       Response.Certificate := None;
       Response.IssuerHash := 0;
       Response.RawResponderName := None;
       Response.ResponderKeyHash := None;
       Response.ExtraExtensions := [];
       Response.ResponseExtraExtensions := [] |} in
  (* Handle the ResponderID CHOICE tag. *)
  let rawResponderID := responseData.RawResponderID TBSResponseData in
  ret <-
    (if asn1.Tag rawResponderID =? 1 then (* Name *)
       match asn1.Unmarshal pkix.RDNSequence_type
               (asn1.Bytes rawResponderID) with
       | OK (rdn, []) =>
           OK (Response.set_RawResponderName ret
                 (Some (asn1.Bytes rawResponderID)))
       | _ => Err (ParseError "invalid responder name")
       end
     else if asn1.Tag rawResponderID =? 2 then (* KeyHash *)
       match asn1.Unmarshal asn1.bytesType (asn1.Bytes rawResponderID) with
       | OK (keyHash, []) =>
           OK (Response.set_ResponderKeyHash ret (Some keyHash))
       | _ => Err (ParseError "invalid responder key hash")
       end
     else Err (ParseError "invalid responder id tag")) ;;
  ret <-
    match basicResponse.Certificates basicResp with
    | certificate0 :: _ =>
        (* Only the first certificate is looked at. *)
        certificate <-
          foreign (x509.ParseCertificate (asn1.FullBytes certificate0)) ;;
        let ret := Response.set_Certificate ret (Some certificate) in
        match CheckSignatureFrom ret certificate with
        | Some err =>
            Err (ParseError
                   ("bad signature on embedded certificate: " ++ err)%string)
        | None =>
            match issuer with
            | Some issuer =>
                match x509.CheckSignature issuer
                        (x509.Certificate_SignatureAlgorithm certificate)
                        (x509.Certificate_RawTBSCertificate certificate)
                        (x509.Certificate_Signature certificate) with
                | Some err =>
                    Err (ParseError ("bad OCSP signature: " ++ err)%string)
                | None => OK ret
                end
            | None => OK ret
            end
        end
    | [] =>
        match issuer with
        | Some issuer =>
            match CheckSignatureFrom ret issuer with
            | Some err =>
                Err (ParseError ("bad OCSP signature: " ++ err)%string)
            | None => OK ret
            end
        | None => OK ret
        end
    end ;;
  if existsb pkix.Extension.Critical
       (singleResponse.SingleExtensions singleResp)
  then Err (ParseError "unsupported critical extension")
  else
  let ret :=
    Response.set_IssuerHash ret
      (hashOIDs_byOID hashOIDs
         (pkix.AlgorithmIdentifier.Algorithm
            (certID.HashAlgorithm (singleResponse.CertID singleResp)))) in
  if Response.IssuerHash ret =? 0
  then Err (ParseError "unsupported issuer hash algorithm")
  else
  if singleResponse.Good singleResp then
    OK (Response.set_Status ret Good)
  else if singleResponse.Unknown singleResp then
    OK (Response.set_Status ret Unknown)
  else
    let ret := Response.set_Status ret Revoked in
    let ret :=
      Response.set_RevokedAt ret
        (revokedInfo.RevocationTime (singleResponse.Revoked singleResp)) in
    let ret :=
      Response.set_RevocationReason ret
        (revokedInfo.Reason (singleResponse.Revoked singleResp)) in
    OK ret.

(** [ParseResponse] parses an OCSP response in DER form.  The response must
    contain only one certificate status. *)
Definition ParseResponse (der : bytes) (issuer : option x509.Certificate)
  : result Response.t :=
  ParseResponseForCert der None issuer.

End Parsing.

(** ** Package ocsp: signing parameters *)

(** [x509.SignatureAlgorithm] and [x509.PublicKeyAlgorithm] are integer
    types; the constants count up from zero. *)
Definition SignatureAlgorithm_int (a : x509.SignatureAlgorithm) : Z :=
  match a with
  | x509.UnknownSignatureAlgorithm => 0
  | x509.MD2WithRSA => 1
  | x509.MD5WithRSA => 2
  | x509.SHA1WithRSA => 3
  | x509.SHA256WithRSA => 4
  | x509.SHA384WithRSA => 5
  | x509.SHA512WithRSA => 6
  | x509.DSAWithSHA1 => 7
  | x509.DSAWithSHA256 => 8
  | x509.ECDSAWithSHA1 => 9
  | x509.ECDSAWithSHA256 => 10
  | x509.ECDSAWithSHA384 => 11
  | x509.ECDSAWithSHA512 => 12
  | x509.SHA256WithRSAPSS => 13
  | x509.SHA384WithRSAPSS => 14
  | x509.SHA512WithRSAPSS => 15
  | x509.PureEd25519 => 16
  end.

Definition PublicKeyAlgorithm_int (a : x509.PublicKeyAlgorithm) : Z :=
  match a with
  | x509.UnknownPublicKeyAlgorithm => 0
  | x509.RSA => 1
  | x509.DSA => 2
  | x509.ECDSA => 3
  | x509.Ed25519 => 4
  end.

Module elliptic.

(** The curves that [signingParamsForPublicKey] compares with; [other] is
    any other implementation of [elliptic.Curve]. *)
Inductive Curve : Type :=
| P224
| P256
| P384
| P521
| other.

End elliptic.

(** What [signingParamsForPublicKey] reads of a public key: its dynamic
    type and, for an ECDSA key, its curve. *)
Inductive PublicKey : Type :=
| rsa_PublicKey
| ecdsa_PublicKey (Curve : elliptic.Curve)
| unsupported_PublicKey.

Module rsa.

Definition PSSSaltLengthEqualsHash : Z := -1.

End rsa.

(** [crypto.SignerOpts]: nil, a [crypto.Hash], or a [*rsa.PSSOptions]. *)
Inductive SignerOpts : Type :=
| SignerOpts_nil
| SignerOpts_Hash (h : crypto.Hash)
| PSSOptions (SaltLength : Z) (Hash : crypto.Hash).

(** [SignerOpts.HashFunc] *)
Definition HashFunc (opts : SignerOpts) : crypto.Hash :=
  match opts with
  | SignerOpts_nil => 0
  | SignerOpts_Hash h => h
  | PSSOptions _ h => h
  end.

(** The loop of [signingParamsForPublicKey] over the table. *)
Fixpoint signingParamsForPublicKey_loop (pubType : x509.PublicKeyAlgorithm)
    (requestedSigAlgo : x509.SignatureAlgorithm) (table : list details.t)
  : result (SignerOpts * pkix.AlgorithmIdentifier.t) :=
  match table with
  | [] => Err (errorString "x509: unknown SignatureAlgorithm")
  | details :: table' =>
      if negb (SignatureAlgorithm_int (details.algo details)
               =? SignatureAlgorithm_int requestedSigAlgo)
      then signingParamsForPublicKey_loop pubType requestedSigAlgo table'
      else if negb (PublicKeyAlgorithm_int (details.pubKeyAlgo details)
                    =? PublicKeyAlgorithm_int pubType)
      then Err (errorString
                  "x509: requested SignatureAlgorithm does not match private key type")
      else if details.hash details =? 0
      then Err (errorString "x509: cannot sign with hash function requested")
      else
        let signerOpts :=
          if details.isRSAPSS details
          then PSSOptions rsa.PSSSaltLengthEqualsHash (details.hash details)
          else SignerOpts_Hash (details.hash details) in
        OK (signerOpts,
            pkix.AlgorithmIdentifier.mk (details.oid details)
              (details.params details))
  end.

(** [signingParamsForPublicKey]; the values that the source returns next to
    an error are dropped, as its caller drops them. *)
Definition signingParamsForPublicKey (pub : PublicKey)
    (requestedSigAlgo : x509.SignatureAlgorithm)
  : result (SignerOpts * pkix.AlgorithmIdentifier.t) :=
  '(pubType, signerOpts, sigAlgo) <-
    match pub with
    | rsa_PublicKey =>
        OK (x509.RSA, SignerOpts_Hash crypto.SHA256,
            pkix.AlgorithmIdentifier.mk oidSignatureSHA256WithRSA
              asn1.NullRawValue)
    | ecdsa_PublicKey Curve =>
        match Curve with
        | elliptic.P224 | elliptic.P256 =>
            OK (x509.ECDSA, SignerOpts_Hash crypto.SHA256,
                pkix.AlgorithmIdentifier.mk oidSignatureECDSAWithSHA256
                  asn1.RawValue_zero)
        | elliptic.P384 =>
            OK (x509.ECDSA, SignerOpts_Hash crypto.SHA384,
                pkix.AlgorithmIdentifier.mk oidSignatureECDSAWithSHA384
                  asn1.RawValue_zero)
        | elliptic.P521 =>
            OK (x509.ECDSA, SignerOpts_Hash crypto.SHA512,
                pkix.AlgorithmIdentifier.mk oidSignatureECDSAWithSHA512
                  asn1.RawValue_zero)
        | elliptic.other => Err (errorString "x509: unknown elliptic curve")
        end
    | unsupported_PublicKey =>
        Err (errorString "x509: only RSA and ECDSA keys supported")
    end ;;
  if SignatureAlgorithm_int requestedSigAlgo =? 0 then OK (signerOpts, sigAlgo)
  else
    signingParamsForPublicKey_loop pubType requestedSigAlgo
      signatureAlgorithmDetails.

(** ** Package ocsp: building a request *)

(** The hashes that every binary with this package links in: ocsp.go
    imports crypto/sha1, crypto/sha256 and crypto/sha512 for their
    registration, and crypto/x509, which links crypto/md5. *)
Definition linkedHashes : list crypto.Hash :=
  [crypto.MD5; crypto.SHA1; crypto.SHA224; crypto.SHA256; crypto.SHA384;
   crypto.SHA512].

(** Hash functions are taken as given: [crypto.Hash.Available], which
    holds at least of the hashes that are linked in, the digest that
    [h.New()], [Write] and [Sum(nil)] compute of a message, and
    [crypto.Hash.String]. *)
Class HashLib : Type := {
  Available : crypto.Hash -> bool;
  Sum : crypto.Hash -> bytes -> bytes;
  Hash_String : crypto.Hash -> string;
  Available_linked : forall h, In h linkedHashes -> Available h = true
}.

(** The other fields of [x509.Certificate] that the builders read. *)
Class CertificateFields `{x509.Lib} : Type := {
  Certificate_Raw : x509.Certificate -> bytes;
  Certificate_RawSubject : x509.Certificate -> bytes;
  Certificate_RawSubjectPublicKeyInfo : x509.Certificate -> bytes
}.

(** [x509.ErrUnsupportedAlgorithm] *)
Definition ErrUnsupportedAlgorithm : error :=
  errorString "x509: cannot verify signature: algorithm unimplemented".

(** The structure that both builders decode the issuer's key into. *)
Module publicKeyInfo.

Record t : Type := mk {
  Algorithm : pkix.AlgorithmIdentifier.t;
  PublicKey : asn1.BitString
}.

Definition zero : t :=
  mk pkix.AlgorithmIdentifier.zero (asn1.zero asn1.bitStringType).

Definition type : asn1.fieldType t :=
  asn1.structType zero (fun innerBytes _ =>
    '(Algorithm, rest) <-
      asn1.field pkix.AlgorithmIdentifier.type innerBytes [] ;;
    '(PublicKey, rest) <- asn1.field asn1.bitStringType rest [] ;;
    OK (mk Algorithm PublicKey)).

End publicKeyInfo.

Module RequestOptions.

Record t : Type := mk {
  Hash : crypto.Hash
}.

End RequestOptions.

(** [RequestOptions.hash]; [None] is the nil pointer. *)
Definition RequestOptions_hash (opts : option RequestOptions.t) : crypto.Hash :=
  match opts with
  | None => crypto.SHA1
  | Some opts =>
      if RequestOptions.Hash opts =? 0
      then (* SHA-1 is nearly universally used in OCSP. *) crypto.SHA1
      else RequestOptions.Hash opts
  end.

(** The lookup [_, ok := hashOIDs[hashFunc]]. *)
Definition hashOIDs_ok (hashFunc : crypto.Hash) : bool :=
  existsb (fun entry => fst entry =? hashFunc) hashOIDs.

Section Builders.
Context `{pkix.Names} `{x509.Lib} `{!CertificateFields} `{HashLib}.

(** [CreateRequest] returns a DER-encoded OCSP request for the status of
    [cert]. *)
Definition CreateRequest (cert issuer : x509.Certificate)
    (opts : option RequestOptions.t) : result bytes :=
  let hashFunc := RequestOptions_hash opts in
  if negb (hashOIDs_ok hashFunc) then Err ErrUnsupportedAlgorithm
  else
  if negb (Available hashFunc) then Err ErrUnsupportedAlgorithm
  else
  let h := RequestOptions_hash opts in
  '(publicKeyInfo, _) <-
    asn1.Unmarshal publicKeyInfo.type
      (Certificate_RawSubjectPublicKeyInfo issuer) ;;
  let issuerKeyHash :=
    Sum h (asn1.RightAlign (publicKeyInfo.PublicKey publicKeyInfo)) in
  let issuerNameHash := Sum h (Certificate_RawSubject issuer) in
  let req :=
    {| Request.HashAlgorithm := hashFunc;
       Request.IssuerNameHash := issuerNameHash;
       Request.IssuerKeyHash := issuerKeyHash;
       Request.SerialNumber := x509.Certificate_SerialNumber cert;
       Request.Extensions := [] |} in
  Request_Marshal req.

End Builders.

(** ** Package ocsp: building a response *)

(** More of [time.Time] and of the codec's time encoders, taken as given:
    [Time.UTC], [Time.Truncate(time.Minute)], the comparison
    [reflect.DeepEqual(t, time.Time{})], which holds of the zero value and
    of nothing else, and [outsideUTCRange], [makeUTCTime] and
    [makeGeneralizedTime] of [encoding/asn1]. *)
Class TimeOps `{TimeLib} : Type := {
  UTC : Time -> Time;
  Truncate_Minute : Time -> Time;
  Time_DeepEqual_zero : Time -> bool;
  Time_DeepEqual_zero_spec :
    forall t, Time_DeepEqual_zero t = true <-> t = Time_zero;
  outsideUTCRange : Time -> bool;
  makeUTCTime : Time -> bytes + string;
  makeGeneralizedTime : Time -> bytes + string
}.

(** [makeField] of [encoding/asn1] at the type [time.Time]: the tag and the
    contents depend on the parameters and on the time. *)
Definition makeField_Time `{TimeOps} (t : Time)
    (params : asn1.fieldParameters) : result bytes :=
  let omitted :=
    match asn1.defaultValue params with
    | Some _ => false
    | None => asn1.optional params && Time_DeepEqual_zero t
    end in
  if omitted then OK []
  else
    let generalized :=
      (asn1.timeType params =? asn1.TagGeneralizedTime) || outsideUTCRange t in
    let tag := if generalized then asn1.TagGeneralizedTime else asn1.TagUTCTime in
    body <-
      pkix.asn1Error
        (if generalized then makeGeneralizedTime t else makeUTCTime t) ;;
    let bodyLen := len body in
    match asn1.param_tag params with
    | Some ptag =>
        if asn1.explicit params then
          let inner :=
            asn1.appendTagAndLength []
              {| asn1.class := asn1.ClassUniversal; asn1.tag := tag;
                 asn1.length := bodyLen; asn1.isCompound := false |} in
          OK (asn1.appendTagAndLength []
                {| asn1.class := asn1.ClassContextSpecific; asn1.tag := ptag;
                   asn1.length := bodyLen + len inner;
                   asn1.isCompound := true |}
              ++ inner ++ body)
        else
          (* implicit tag. *)
          OK (asn1.appendTagAndLength []
                {| asn1.class := asn1.ClassContextSpecific; asn1.tag := ptag;
                   asn1.length := bodyLen; asn1.isCompound := false |}
              ++ body)
    | None =>
        OK (asn1.appendTagAndLength []
              {| asn1.class := asn1.ClassUniversal; asn1.tag := tag;
                 asn1.length := bodyLen; asn1.isCompound := false |}
            ++ body)
    end.

(** A struct field of the type [time.Time]. *)
Definition mfield_Time `{TimeOps} (t : Time) (tag : list asn1.part)
  : result bytes :=
  makeField_Time t (asn1.parseFieldParameters tag).

(** [asn1.Flag]: no contents. *)
Definition m_flagType : asn1.marshalType bool :=
  {| asn1.m_tag := asn1.TagBoolean; asn1.m_isCompound := false;
     asn1.isZero := fun b => negb b;
     asn1.Int := None; asn1.asRawValue := None;
     asn1.makeBody := fun _ => OK [] |}.

(** [asn1.Enumerated] *)
Definition m_enumeratedType : asn1.marshalType Z :=
  {| asn1.m_tag := asn1.TagEnum; asn1.m_isCompound := false;
     asn1.isZero := fun i => i =? 0;
     asn1.Int := Some (fun i => i); asn1.asRawValue := None;
     asn1.makeBody := fun i => OK (asn1.int64Encoder i) |}.

(** [asn1.BitString], by [bitStringEncoder]: the number of padding bits,
    then the bytes. *)
Definition m_bitStringType : asn1.marshalType asn1.BitString :=
  {| asn1.m_tag := asn1.TagBitString; asn1.m_isCompound := false;
     asn1.isZero := fun b =>
       (len (asn1.BitString_Bytes b) =? 0) && (asn1.BitLength b =? 0);
     asn1.Int := None; asn1.asRawValue := None;
     asn1.makeBody := fun b =>
       OK (z2b ((8 - asn1.BitLength b mod 8) mod 8) :: asn1.BitString_Bytes b) |}.

(** [stripTagAndLength] *)
Definition stripTagAndLength (b : bytes) : bytes :=
  match asn1.parseTagAndLength b with
  | OK (_, rest) => rest
  | Err _ => b
  end.

Section ResponseMarshal.
Context `{TimeOps}.

Definition revokedInfo_marshalType : asn1.marshalType revokedInfo.t :=
  asn1.m_structType
    (fun v => Time_DeepEqual_zero (revokedInfo.RevocationTime v)
              && (revokedInfo.Reason v =? 0))
    (fun v =>
       RevocationTime <-
         mfield_Time (revokedInfo.RevocationTime v) [asn1.Pgeneralized] ;;
       Reason <-
         asn1.mfield m_enumeratedType (revokedInfo.Reason v)
           [asn1.Pexplicit; asn1.Ptag 0; asn1.Poptional] ;;
       OK (RevocationTime ++ Reason)).

Definition singleResponse_marshalType : asn1.marshalType singleResponse.t :=
  asn1.m_structType
    (fun _ => false)
    (fun v =>
       CertID <- asn1.mfield certID.marshalType (singleResponse.CertID v) [] ;;
       Good <-
         asn1.mfield m_flagType (singleResponse.Good v)
           [asn1.Ptag 0; asn1.Poptional] ;;
       Revoked <-
         asn1.mfield revokedInfo_marshalType (singleResponse.Revoked v)
           [asn1.Ptag 1; asn1.Poptional] ;;
       Unknown <-
         asn1.mfield m_flagType (singleResponse.Unknown v)
           [asn1.Ptag 2; asn1.Poptional] ;;
       ThisUpdate <-
         mfield_Time (singleResponse.ThisUpdate v) [asn1.Pgeneralized] ;;
       NextUpdate <-
         mfield_Time (singleResponse.NextUpdate v)
           [asn1.Pgeneralized; asn1.Pexplicit; asn1.Ptag 0; asn1.Poptional] ;;
       SingleExtensions <-
         asn1.mfield (asn1.m_sliceType pkix.Extension.marshalType)
           (singleResponse.SingleExtensions v)
           [asn1.Pexplicit; asn1.Ptag 1; asn1.Poptional] ;;
       OK (CertID ++ Good ++ Revoked ++ Unknown ++ ThisUpdate ++ NextUpdate
           ++ SingleExtensions)).

(** A structure with a leading [RawContent]: when it is not empty, its
    contents are written instead of the fields. *)
Definition responseData_marshalType : asn1.marshalType responseData.t :=
  asn1.m_structType
    (fun _ => false)
    (fun v =>
       if len (responseData.Raw v) >? 0
       then OK (stripTagAndLength (responseData.Raw v))
       else
         Version <-
           asn1.mfield asn1.m_intType (responseData.Version v)
             [asn1.Poptional; asn1.Pdefault 0; asn1.Pexplicit; asn1.Ptag 0] ;;
         RawResponderID <-
           asn1.mfield asn1.m_rawValueType (responseData.RawResponderID v) [] ;;
         ProducedAt <-
           mfield_Time (responseData.ProducedAt v) [asn1.Pgeneralized] ;;
         Responses <-
           asn1.mfield (asn1.m_sliceType singleResponse_marshalType)
             (responseData.Responses v) [] ;;
         ResponseExtensions <-
           asn1.mfield (asn1.m_sliceType pkix.Extension.marshalType)
             (responseData.ResponseExtensions v)
             [asn1.Pexplicit; asn1.Ptag 1; asn1.Poptional] ;;
         OK (Version ++ RawResponderID ++ ProducedAt ++ Responses
             ++ ResponseExtensions)).

Definition basicResponse_marshalType : asn1.marshalType basicResponse.t :=
  asn1.m_structType
    (fun _ => false)
    (fun v =>
       TBSResponseData <-
         asn1.mfield responseData_marshalType
           (basicResponse.TBSResponseData v) [] ;;
       SignatureAlgorithm <-
         asn1.mfield pkix.AlgorithmIdentifier.marshalType
           (basicResponse.SignatureAlgorithm v) [] ;;
       Signature <-
         asn1.mfield m_bitStringType (basicResponse.Signature v) [] ;;
       Certificates <-
         asn1.mfield (asn1.m_sliceType asn1.m_rawValueType)
           (basicResponse.Certificates v)
           [asn1.Pexplicit; asn1.Ptag 0; asn1.Poptional] ;;
       OK (TBSResponseData ++ SignatureAlgorithm ++ Signature ++ Certificates)).

End ResponseMarshal.

Definition responseBytes_marshalType : asn1.marshalType responseBytes.t :=
  asn1.m_structType
    (fun v => (len (responseBytes.ResponseType v) =? 0)
              && (len (responseBytes.Response v) =? 0))
    (fun v =>
       ResponseType <-
         asn1.mfield asn1.m_objectIdentifierType
           (responseBytes.ResponseType v) [] ;;
       Response <- asn1.mfield asn1.m_bytesType (responseBytes.Response v) [] ;;
       OK (ResponseType ++ Response)).

Definition responseASN1_marshalType : asn1.marshalType responseASN1.t :=
  asn1.m_structType
    (fun v => (responseASN1.Status v =? 0)
              && asn1.isZero responseBytes_marshalType (responseASN1.Response v))
    (fun v =>
       Status <- asn1.mfield m_enumeratedType (responseASN1.Status v) [] ;;
       Response <-
         asn1.mfield responseBytes_marshalType (responseASN1.Response v)
           [asn1.Pexplicit; asn1.Ptag 0; asn1.Poptional] ;;
       OK (Status ++ Response)).

(** A call either returns, a value or an error, or panics. *)
Inductive outcome (A : Type) : Type :=
| Returns (r : result A)
| Panics.

Arguments Returns {A} r.
Arguments Panics {A}.

(** What [CreateResponse] uses of a [crypto.Signer]: the type of its public
    key, and the answer of [Sign] to a digest and signer options (the
    randomness of [rand.Reader] is the signer's own). *)
Record Signer : Type := {
  Public : PublicKey;
  Sign : bytes -> SignerOpts -> bytes + string
}.

Section ResponseBuilder.
Context `{TimeOps} `{x509.Lib} `{!CertificateFields} `{HashLib}.

(** [CreateResponse] returns a DER-encoded OCSP response with the specified
    contents; [now] is the answer of [time.Now()].  [crypto.Hash.New]
    panics for a hash that is not available.  The certificates and the
    serial number are values here, not pointers that can be nil, a list of
    extensions that is empty is the nil slice, and the signer answers every
    call. *)
Definition CreateResponse (now : Time) (issuer responderCert : x509.Certificate)
    (template : Response.t) (priv : Signer) : outcome bytes :=
  match
    ('(publicKeyInfo, _) <-
       asn1.Unmarshal publicKeyInfo.type
         (Certificate_RawSubjectPublicKeyInfo issuer) ;;
     let IssuerHash :=
       if Response.IssuerHash template =? 0 then crypto.SHA1
       else Response.IssuerHash template in
     let hashOID := getOIDFromHashAlgorithm IssuerHash in
     match hashOID with
     | [] => Err (errorString "unsupported issuer hash algorithm")
     | _ :: _ =>
       if negb (Available IssuerHash)
       then Err (errorString
                   ("issuer hash algorithm " ++ Hash_String IssuerHash
                    ++ " not linked into binary")%string)
       else
       let issuerKeyHash :=
         Sum IssuerHash
           (asn1.RightAlign (publicKeyInfo.PublicKey publicKeyInfo)) in
       let issuerNameHash := Sum IssuerHash (Certificate_RawSubject issuer) in
       let Status := Response.Status template in
       let innerResponse :=
         {| singleResponse.CertID :=
              certID.mk
                (pkix.AlgorithmIdentifier.mk hashOID
                   {| asn1.Tag := 5 (* ASN.1 NULL *);
                      asn1.Class := 0; asn1.IsCompound := false;
                      asn1.Bytes := []; asn1.FullBytes := [] |})
                issuerNameHash issuerKeyHash (Response.SerialNumber template);
            singleResponse.ThisUpdate := UTC (Response.ThisUpdate template);
            singleResponse.NextUpdate := UTC (Response.NextUpdate template);
            singleResponse.SingleExtensions :=
              Response.ExtraExtensions template;
            singleResponse.Good := Status =? Good;
            singleResponse.Unknown :=
              negb (Status =? Good) && (Status =? Unknown);
            singleResponse.Revoked :=
              if negb (Status =? Good) && negb (Status =? Unknown)
                 && (Status =? Revoked)
              then revokedInfo.mk (UTC (Response.RevokedAt template))
                     (Response.RevocationReason template)
              else revokedInfo.zero |} in
       let rawResponderID :=
         {| asn1.Class := 2 (* context-specific *);
            asn1.Tag := 1 (* Name (explicit tag) *);
            asn1.IsCompound := true;
            asn1.Bytes := Certificate_RawSubject responderCert;
            asn1.FullBytes := [] |} in
       let tbsResponseData :=
         {| responseData.Raw := [];
            responseData.Version := 0;
            responseData.RawResponderID := rawResponderID;
            responseData.ProducedAt := UTC (Truncate_Minute now);
            responseData.Responses := [innerResponse];
            responseData.ResponseExtensions :=
              Response.ResponseExtraExtensions template |} in
       tbsResponseDataDER <-
         asn1.Marshal responseData_marshalType tbsResponseData ;;
       '(signerOpts, signatureAlgorithm) <-
         signingParamsForPublicKey (Public priv)
           (Response.SignatureAlgorithm template) ;;
       OK (tbsResponseData, tbsResponseDataDER, signerOpts, signatureAlgorithm)
     end)
  with
  | Err err => Returns (Err err)
  | OK (tbsResponseData, tbsResponseDataDER, signerOpts, signatureAlgorithm) =>
      if negb (Available (HashFunc signerOpts)) then Panics
      else
        Returns
          (let digest := Sum (HashFunc signerOpts) tbsResponseDataDER in
           signature <- foreign (Sign priv digest signerOpts) ;;
           let response :=
             {| basicResponse.TBSResponseData := tbsResponseData;
                basicResponse.SignatureAlgorithm := signatureAlgorithm;
                basicResponse.Signature :=
                  {| asn1.BitString_Bytes := signature;
                     asn1.BitLength := 8 * len signature |};
                basicResponse.Certificates :=
                  match Response.Certificate template with
                  | Some Certificate =>
                      [ {| asn1.Class := 0; asn1.Tag := 0;
                           asn1.IsCompound := false; asn1.Bytes := [];
                           asn1.FullBytes := Certificate_Raw Certificate |} ]
                  | None => []
                  end |} in
           responseDER <- asn1.Marshal basicResponse_marshalType response ;;
           asn1.Marshal responseASN1_marshalType
             {| responseASN1.Status := Success;
                responseASN1.Response :=
                  {| responseBytes.ResponseType := idPKIXOCSPBasic;
                     responseBytes.Response := responseDER |} |})
  end.

End ResponseBuilder.

(** * The vocabulary of the properties *)

(** ** DER elements *)

(** One DER element: header and contents. *)
Definition TLV (class : Z) (isCompound : bool) (tag : Z) (contents : bytes)
  : bytes :=
  asn1.appendTagAndLength []
    {| asn1.class := class; asn1.tag := tag; asn1.length := len contents;
       asn1.isCompound := isCompound |}
  ++ contents.

(** The DER form of a request for one certificate, without version,
    requestor name and extensions: five nested SEQUENCEs around the hash
    algorithm (the contents octets [oid] of its identifier, with NULL
    parameters), the two hashes and the serial number. *)
Abbreviation requestDER oid nameHash keyHash serial :=
  (TLV 0 true 16
     (TLV 0 true 16
        (TLV 0 true 16
           (TLV 0 true 16
              (TLV 0 true 16
                 (TLV 0 true 16 (TLV 0 false 6 oid ++ TLV 0 false 5 [])
                  ++ TLV 0 false 4 nameHash
                  ++ TLV 0 false 4 keyHash
                  ++ TLV 0 false 2 (asn1.makeBigInt serial)))))))
  (only parsing).

(** The NULL parameters that [Marshal] writes, as they are read back. *)
Definition nullParameters : asn1.RawValue :=
  {| asn1.Class := 0; asn1.Tag := 5; asn1.IsCompound := false;
     asn1.Bytes := []; asn1.FullBytes := TLV 0 false 5 [] |}.

(** The identifier octet of a header with a low tag number decodes to its
    class, tag and form. *)
Definition identifier_ok (c t : Z) (cmp : bool) : bool :=
  let b := Z.shiftl c 6 mod 256 in
  let b := if cmp then Z.lor b 0x20 else b in
  let o := b2z (z2b (Z.lor b (t mod 256))) in
  (Z.shiftr o 6 =? c) && Bool.eqb (Z.land o 0x20 =? 0x20) cmp
  && (Z.land o 0x1f =? t) && negb (t =? 0x1f).

(** The complement of a byte. *)
Definition flip (b : byte) : byte := z2b (Z.lxor (b2z b) 0xff).

(** ** The RSA-PSS profile *)

(** A parameters field is absent or the DER NULL. *)
Definition absentOrNull (b : bytes) : Prop := b = [] \/ b = asn1.NullBytes.

(** The narrowed profile of the parameters, in the spec's words: the mask
    generation function is MGF1, its hash is the message hash, both hash
    parameter fields are absent or NULL, and the trailer field is 1. *)
Definition pssProfile (params : pssParameters.t)
    (mgf1HashFunc : pkix.AlgorithmIdentifier.t) : Prop :=
  pkix.AlgorithmIdentifier.Algorithm (pssParameters.MGF params) = oidMGF1
  /\ pkix.AlgorithmIdentifier.Algorithm mgf1HashFunc
     = pkix.AlgorithmIdentifier.Algorithm (pssParameters.Hash params)
  /\ absentOrNull
       (asn1.FullBytes
          (pkix.AlgorithmIdentifier.Parameters (pssParameters.Hash params)))
  /\ absentOrNull
       (asn1.FullBytes (pkix.AlgorithmIdentifier.Parameters mgf1HashFunc))
  /\ pssParameters.TrailerField params = 1.

(** The parameters of [ai] decode, satisfy the profile, and name the hash
    [hash] with the salt length [saltLength]. *)
Definition pssDecodesTo (ai : pkix.AlgorithmIdentifier.t)
    (hash : asn1.ObjectIdentifier) (saltLength : Z) : Prop :=
  exists params rest mgf1HashFunc rest',
    asn1.Unmarshal pssParameters.type
      (asn1.FullBytes (pkix.AlgorithmIdentifier.Parameters ai))
      = OK (params, rest)
    /\ asn1.Unmarshal pkix.AlgorithmIdentifier.type
         (asn1.FullBytes
            (pkix.AlgorithmIdentifier.Parameters (pssParameters.MGF params)))
       = OK (mgf1HashFunc, rest')
    /\ pssProfile params mgf1HashFunc
    /\ pkix.AlgorithmIdentifier.Algorithm (pssParameters.Hash params) = hash
    /\ pssParameters.SaltLength params = saltLength.

(** ** Requests *)

(** The hash algorithms that a request can name. *)
Definition supportedHash (h : crypto.Hash) : Prop :=
  h = crypto.SHA1 \/ h = crypto.SHA256 \/ h = crypto.SHA384
  \/ h = crypto.SHA512.

(** [req] with its extensions replaced. *)
Definition withExtensions (req : Request.t) (exts : list pkix.Extension.t)
  : Request.t :=
  {| Request.HashAlgorithm := Request.HashAlgorithm req;
     Request.IssuerNameHash := Request.IssuerNameHash req;
     Request.IssuerKeyHash := Request.IssuerKeyHash req;
     Request.SerialNumber := Request.SerialNumber req;
     Request.Extensions := exts |}.

(** ** The stages of the response parser *)

Section Stages.
Context `{TimeLib} `{pkix.Names} `{x509.Lib}.

Definition serialOf (r : singleResponse.t) : Z :=
  certID.SerialNumber (singleResponse.CertID r).

(** [der] is a successful envelope around the basic response [basicResp],
    without trailing data. *)
Definition decodesTo (der : bytes) (basicResp : basicResponse.t) : Prop :=
  exists resp,
    asn1.Unmarshal responseASN1.type der = OK (resp, [])
    /\ responseASN1.Status resp = Success
    /\ responseBytes.ResponseType (responseASN1.Response resp)
       = idPKIXOCSPBasic
    /\ asn1.Unmarshal basicResponse.type
         (responseBytes.Response (responseASN1.Response resp))
       = OK (basicResp, []).

(** The entry that the entry-count policy picks: the only one when no
    certificate is given, otherwise the first one with the serial number of
    the certificate. *)
Definition selects (cert : option x509.Certificate)
    (responses : list singleResponse.t) (singleResp : singleResponse.t)
  : Prop :=
  match cert with
  | None => responses = [singleResp]
  | Some cert =>
      exists before after,
        responses = before ++ singleResp :: after
        /\ serialOf singleResp = x509.Certificate_SerialNumber cert
        /\ Forall (fun r => serialOf r <> x509.Certificate_SerialNumber cert)
             before
  end.

(** The responder ID decodes: by name, or by key hash. *)
Definition responderID (raw : asn1.RawValue)
    (name keyHash : option bytes) : Prop :=
  (asn1.Tag raw = 1
   /\ (exists rdn, asn1.Unmarshal pkix.RDNSequence_type (asn1.Bytes raw)
                   = OK (rdn, []))
   /\ name = Some (asn1.Bytes raw) /\ keyHash = None)
  \/ (asn1.Tag raw = 2
      /\ (exists h, asn1.Unmarshal asn1.bytesType (asn1.Bytes raw) = OK (h, [])
                    /\ keyHash = Some h)
      /\ name = None).

(** The signature checks pass: with an embedded certificate, the response
    is signed by it and, when an issuer is given, the certificate is signed
    by the issuer; without one, the response is signed by the issuer when
    one is given. *)
Definition signaturesOK (basicResp : basicResponse.t)
    (issuer : option x509.Certificate)
    (certificate : option x509.Certificate) : Prop :=
  let algo :=
    getSignatureAlgorithmFromAI (basicResponse.SignatureAlgorithm basicResp) in
  let signed := responseData.Raw (basicResponse.TBSResponseData basicResp) in
  let signature := asn1.RightAlign (basicResponse.Signature basicResp) in
  match basicResponse.Certificates basicResp with
  | certificate0 :: _ =>
      exists c,
        certificate = Some c
        /\ x509.ParseCertificate (asn1.FullBytes certificate0) = inl c
        /\ x509.CheckSignature c algo signed signature = None
        /\ forall i, issuer = Some i ->
             x509.CheckSignature i (x509.Certificate_SignatureAlgorithm c)
               (x509.Certificate_RawTBSCertificate c)
               (x509.Certificate_Signature c) = None
  | [] =>
      certificate = None
      /\ forall i, issuer = Some i ->
           x509.CheckSignature i algo signed signature = None
  end.

(** The status of an entry, with the revocation time and reason. *)
Definition classify (singleResp : singleResponse.t) : Z * Time * Z :=
  if singleResponse.Good singleResp then (Good, Time_zero, 0)
  else if singleResponse.Unknown singleResp then (Unknown, Time_zero, 0)
  else (Revoked,
        revokedInfo.RevocationTime (singleResponse.Revoked singleResp),
        revokedInfo.Reason (singleResponse.Revoked singleResp)).

(** The response that is returned once every check has passed. *)
Definition responseOf (der : bytes) (basicResp : basicResponse.t)
    (singleResp : singleResponse.t) (name keyHash : option bytes)
    (certificate : option x509.Certificate) : Response.t :=
  let TBSResponseData := basicResponse.TBSResponseData basicResp in
  {| Response.Raw := der;
     Response.Status := fst (fst (classify singleResp));
     Response.SerialNumber := serialOf singleResp;
     Response.ProducedAt := responseData.ProducedAt TBSResponseData;
     Response.ThisUpdate := singleResponse.ThisUpdate singleResp;
     Response.NextUpdate := singleResponse.NextUpdate singleResp;
     Response.RevokedAt := snd (fst (classify singleResp));
     Response.RevocationReason := snd (classify singleResp);
     Response.Certificate := certificate;
     Response.TBSResponseData := responseData.Raw TBSResponseData;
     Response.Signature := asn1.RightAlign (basicResponse.Signature basicResp);
     Response.SignatureAlgorithm :=
       getSignatureAlgorithmFromAI (basicResponse.SignatureAlgorithm basicResp);
     Response.IssuerHash :=
       hashOIDs_byOID hashOIDs
         (pkix.AlgorithmIdentifier.Algorithm
            (certID.HashAlgorithm (singleResponse.CertID singleResp)));
     Response.RawResponderName := name;
     Response.ResponderKeyHash := keyHash;
     Response.Extensions := singleResponse.SingleExtensions singleResp;
     Response.ExtraExtensions := [];
     Response.ResponseExtensions :=
       responseData.ResponseExtensions TBSResponseData;
     Response.ResponseExtraExtensions := [] |}.

End Stages.

(** ** Signing parameters *)

(** The key type that [signingParamsForPublicKey] finds for a key. *)
Definition keyType (pub : PublicKey) : option x509.PublicKeyAlgorithm :=
  match pub with
  | rsa_PublicKey => Some x509.RSA
  | ecdsa_PublicKey elliptic.other => None
  | ecdsa_PublicKey _ => Some x509.ECDSA
  | unsupported_PublicKey => None
  end.

(** ** Headers and fields *)

(** The universal tag that [parseField] expects for a type, after its
    special case for times, on an element with the header [t]. *)
Definition expectedUniversalTag {A} (ty : asn1.fieldType A)
    (t : asn1.tagAndLength) : Z :=
  if (asn1.universalTag ty =? asn1.TagUTCTime)
     && (asn1.tag t =? asn1.TagGeneralizedTime)
     && (asn1.class t =? asn1.ClassUniversal)
  then asn1.TagGeneralizedTime else asn1.universalTag ty.

(** The header [t] is the one that [parseField] expects for a type under
    the parameters of a field, once any explicit tag is unwrapped. *)
Definition headerMatches {A} (ty : asn1.fieldType A)
    (params : asn1.fieldParameters) (t : asn1.tagAndLength) : bool :=
  let '(matchAnyClassAndTag, expectedClass, expectedTag) :=
    match asn1.explicit params, asn1.param_tag params with
    | false, Some i => (false, asn1.ClassContextSpecific, i)
    | _, _ => (asn1.matchAny ty, asn1.ClassUniversal, expectedUniversalTag ty t)
    end in
  negb ((negb matchAnyClassAndTag
         && (negb (asn1.class t =? expectedClass)
             || negb (asn1.tag t =? expectedTag)))
        || (negb (asn1.matchAny ty)
            && negb (Bool.eqb (asn1.isCompound t) (asn1.compoundType ty)))).

(** The header [t] is the explicit tag of a field. *)
Definition explicitMatches (params : asn1.fieldParameters)
    (t : asn1.tagAndLength) : bool :=
  (asn1.class t =? asn1.ClassContextSpecific)
  && asn1.param_tag_is params (asn1.tag t)
  && ((asn1.length t =? 0) || asn1.isCompound t).

(** A header. *)
Definition header (class : Z) (isCompound : bool) (tag length : Z)
  : asn1.tagAndLength :=
  {| asn1.class := class; asn1.tag := tag; asn1.length := length;
     asn1.isCompound := isCompound |}.

(** The contents octets of the identifier of a basic response. *)
Definition derBasicOID : bytes := B [43; 6; 1; 5; 5; 7; 48; 1; 1].

(** A time that is read back from its GeneralizedTime form. *)
Definition readsBack `{TimeOps} (t : Time) : Prop :=
  forall b, makeGeneralizedTime t = inl b -> parseGeneralizedTime b = inl t.

(** A time that has a GeneralizedTime form. *)
Definition hasGeneralizedTime `{TimeOps} (t : Time) : Prop :=
  exists b, makeGeneralizedTime t = inl b.

(** An object identifier that the codec writes and reads back: at least
    two arcs, the first one 0, 1 or 2, the second one below 40 under 0 and
    1, and every number that is written within the [int32] that
    [parseBase128Int] accepts. *)
Definition validOID (oid : asn1.ObjectIdentifier) : bool :=
  match oid with
  | oid0 :: oid1 :: oid' =>
      (0 <=? oid0) && (oid0 <=? 2) && (0 <=? oid1)
      && ((oid0 =? 2) || (oid1 <? 40))
      && (oid0 * 40 + oid1 <? 2 ^ 31)
      && forallb (fun arc => (0 <=? arc) && (arc <? 2 ^ 31)) oid'
  | _ => false
  end.

(** ** Sample inputs

    A small instance of the libraries that are taken as given, and a few
    DER responses and requests assembled element by element, for the
    examples below. *)

Module Sample.

(** A time is kept as the text of its DER contents; a GeneralizedTime is
    accepted when it has the fifteen characters of YYYYMMDDHHMMSSZ, a
    UTCTime when it has the thirteen of YYMMDDHHMMSSZ. *)
Definition time : TimeLib :=
  {| Time := bytes;
     Time_zero := [];
     parseUTCTime := fun b =>
       if len b =? 13 then inl b else inr "asn1: cannot parse UTCTime";
     parseGeneralizedTime := fun b =>
       if len b =? 15 then inl b else inr "asn1: cannot parse GeneralizedTime" |}.

(** A distinguished name is kept as the contents of its SEQUENCE. *)
Definition names : pkix.Names :=
  {| pkix.RDNSequence := bytes;
     pkix.RDNSequence_nil := [];
     pkix.RDNSequence_isNil := fun b => len b =? 0;
     pkix.RDNSequence_nil_isNil := eq_refl;
     pkix.RDNSequence_parse := fun b => inl b;
     pkix.RDNSequence_marshal := fun b => inl b |}.

(** A certificate is five bytes, [30 03 serial key signer]; a signature is
    valid when it is the key byte of the signing certificate. *)
Record certificate : Type := {
  serial : Z;
  key : bytes;
  signer : bytes
}.

Definition x509 : x509.Lib :=
  {| x509.Certificate := certificate;
     x509.Certificate_SerialNumber := serial;
     x509.Certificate_SignatureAlgorithm := fun _ => x509.SHA256WithRSA;
     x509.Certificate_RawTBSCertificate := fun c => z2b (serial c) :: key c;
     x509.Certificate_Signature := signer;
     x509.ParseCertificate := fun b =>
       match b with
       | [t; l; s; k; g] =>
           if (b2z t =? 0x30) && (b2z l =? 3)
           then inl {| serial := b2z s; key := [k]; signer := [g] |}
           else inr "x509: malformed certificate"
       | _ => inr "x509: malformed certificate"
       end;
     x509.CheckSignature := fun c _ _ signature =>
       if bytes_eqb signature (key c) then None
       else Some "crypto/rsa: verification error" |}.

Definition ParseRequest := @ParseRequest names.
Definition Marshal := @Request_Marshal names.
Definition ParseResponseForCert := @ParseResponseForCert time names x509.

Definition SEQUENCE (elements : list bytes) : bytes :=
  TLV 0 true 16 (List.concat elements).
Definition OCTET_STRING (b : bytes) : bytes := TLV 0 false 4 b.
Definition INTEGER (b : bytes) : bytes := TLV 0 false 2 b.
Definition ENUMERATED (b : bytes) : bytes := TLV 0 false 10 b.
Definition BOOLEAN (b : bytes) : bytes := TLV 0 false 1 b.
Definition BIT_STRING (b : bytes) : bytes := TLV 0 false 3 b.
Definition OID (b : bytes) : bytes := TLV 0 false 6 b.
Definition NULL : bytes := TLV 0 false 5 [].
Definition GeneralizedTime (b : bytes) : bytes := TLV 0 false 24 b.
(** A context-specific constructed element, and a primitive one. *)
Definition context (tag : Z) (elements : list bytes) : bytes :=
  TLV 2 true tag (List.concat elements).
Definition contextPrimitive (tag : Z) (b : bytes) : bytes := TLV 2 false tag b.

(** 1.3.14.3.2.26, 1.2.840.113549.1.1.11, 1.3.6.1.5.5.7.48.1.1 and
    1.3.6.1.5.5.7.48.1.2 (the nonce extension). *)
Definition derSHA1 : bytes := OID (B [43; 14; 3; 2; 26]).
Definition derSHA256WithRSA : bytes := OID (B [42; 134; 72; 134; 247; 13; 1; 1; 11]).
Definition derBasic : bytes := OID (B [43; 6; 1; 5; 5; 7; 48; 1; 1]).
Definition derNonce : bytes := OID (B [43; 6; 1; 5; 5; 7; 48; 1; 2]).

(** "20260101000000Z" and "20260102000000Z" *)
Definition t1 : bytes := B [50; 48; 50; 54; 48; 49; 48; 49; 48; 48; 48; 48; 48; 48; 90].
Definition t2 : bytes := B [50; 48; 50; 54; 48; 49; 48; 50; 48; 48; 48; 48; 48; 48; 90].

Definition derCertID (nameHash : bytes) (serial : Z) : bytes :=
  SEQUENCE [ SEQUENCE [derSHA1; NULL]; OCTET_STRING nameHash;
             OCTET_STRING (B [7; 7; 7; 7]); INTEGER [z2b serial] ].

Definition good : bytes := contextPrimitive 0 [].
Definition unknown : bytes := contextPrimitive 2 [].
(** revoked at [t2], reason keyCompromise *)
Definition revoked : bytes :=
  context 1 [GeneralizedTime t2; context 0 [ENUMERATED (B [1])]].

Definition derSingle (nameHash : bytes) (serial : Z) (certStatus : bytes)
    (singleExtensions : bytes) : bytes :=
  SEQUENCE [ derCertID nameHash serial; certStatus; GeneralizedTime t1;
             singleExtensions ].

Definition criticalNonce : bytes :=
  context 1 [SEQUENCE [SEQUENCE [derNonce; BOOLEAN (B [0xff]);
                                 OCTET_STRING (B [4; 2; 1; 2])]]].

Definition byName : bytes := context 1 [SEQUENCE []].
Definition byKey : bytes := context 2 [OCTET_STRING (B [9; 9; 9; 9])].
Definition byOther : bytes := context 3 [OCTET_STRING (B [9; 9; 9; 9])].

(** A response: the responder ID, the entries, the signature octets and
    the elements of the certificate list. *)
Definition derResponse (responderID : bytes) (singles : list bytes)
    (signature : bytes) (certs : list bytes) : bytes :=
  SEQUENCE [
    ENUMERATED (B [0]);
    context 0 [
      SEQUENCE [
        derBasic;
        OCTET_STRING
          (SEQUENCE [
             SEQUENCE [responderID; GeneralizedTime t1; SEQUENCE singles];
             SEQUENCE [derSHA256WithRSA; NULL];
             BIT_STRING (z2b 0 :: signature);
             match certs with
             | [] => []
             | _ :: _ => context 0 [SEQUENCE certs]
             end ]) ] ] ].

Definition h1 : bytes := B [1; 1; 1; 1].
Definition h2 : bytes := B [2; 2; 2; 2].

(** One entry that sets both the good and the unknown flag. *)
Definition goodAndUnknown : bytes :=
  derResponse byName [derSingle h1 1 (good ++ unknown) []] (B [0xAA]) [].

(** One revoked entry. *)
Definition oneRevoked : bytes :=
  derResponse byName [derSingle h1 1 revoked []] (B [0xAA]) [].

(** Three entries; the second and the third carry the serial number 2,
    under different issuer name hashes. *)
Definition threeEntries : bytes :=
  derResponse byKey
    [ derSingle h1 1 good []; derSingle h2 2 revoked [];
      derSingle h1 2 unknown [] ] (B [0xAA]) [].

(** Three entries with the serial numbers 1, 3 and 2: good, unknown and
    revoked. *)
Definition lastMatches : bytes :=
  derResponse byKey
    [ derSingle h1 1 good []; derSingle h2 3 unknown [];
      derSingle h1 2 revoked [] ] (B [0xAA]) [].

(** A responder ID under the tag 3. *)
Definition otherResponder : bytes :=
  derResponse byOther [derSingle h1 1 good []] (B [0xAA]) [].

(** An embedded certificate with the key BB, signed by CC, in a response
    whose signature is AA; a second certificate follows it. *)
Definition badEmbedded : bytes :=
  derResponse byName [derSingle h1 1 good []] (B [0xAA])
    [B [0x30; 3; 5; 0xBB; 0xCC]; B [0x30; 3; 6; 0xAA; 0xCC]].

(** The same, with the response signed by the embedded certificate. *)
Definition goodEmbedded : bytes :=
  derResponse byName [derSingle h1 1 good []] (B [0xBB])
    [B [0x30; 3; 5; 0xBB; 0xCC]; B [0x30; 3; 6; 0xAA; 0xCC]].

(** A critical extension in the only entry: under a valid responder ID,
    under the tag 3, and next to an embedded certificate that does not
    parse. *)
Definition critical : bytes :=
  derResponse byName [derSingle h1 1 good criticalNonce] (B [0xAA]) [].
Definition criticalOtherResponder : bytes :=
  derResponse byOther [derSingle h1 1 good criticalNonce] (B [0xAA]) [].
Definition criticalBadCertificate : bytes :=
  derResponse byName [derSingle h1 1 good criticalNonce] (B [0xAA])
    [B [0x30; 0]].

Definition issuerCC : @x509.Certificate x509 :=
  {| serial := 100; key := B [0xCC]; signer := B [0xCC] |}.
Definition issuerAA : @x509.Certificate x509 :=
  {| serial := 101; key := B [0xAA]; signer := B [0xAA] |}.
Definition cert2 : @x509.Certificate x509 :=
  {| serial := 2; key := B [0x22]; signer := B [0xCC] |}.
Definition cert3 : @x509.Certificate x509 :=
  {| serial := 3; key := B [0x33]; signer := B [0xCC] |}.
Definition cert9 : @x509.Certificate x509 :=
  {| serial := 9; key := B [0x99]; signer := B [0xCC] |}.

(** *** Requests *)

(** 1.2.840.113549.2.5, the OID of MD5 *)
Definition derMD5 : bytes := OID (B [42; 134; 72; 134; 247; 13; 2; 5]).

(** A request for the serial number 5 under SHA-1 with the issuer hashes
    [h1] and [h2], and the one that carries a nonce extension as well. *)
Definition request : Request.t :=
  {| Request.HashAlgorithm := crypto.SHA1;
     Request.IssuerNameHash := h1;
     Request.IssuerKeyHash := h2;
     Request.SerialNumber := 5;
     Request.Extensions := [] |}.

Definition requestWithNonce : Request.t :=
  {| Request.HashAlgorithm := crypto.SHA1;
     Request.IssuerNameHash := h1;
     Request.IssuerKeyHash := h2;
     Request.SerialNumber := 5;
     Request.Extensions :=
       [ pkix.Extension.mk [1; 3; 6; 1; 5; 5; 7; 48; 1; 2] false
           (B [4; 2; 1; 2]) ] |}.

(** The TBSRequest of a request list. *)
Definition derTBSRequest (requests : list bytes) : bytes :=
  SEQUENCE [SEQUENCE requests].

(** One entry of the request list. *)
Definition derEntry (hashOID : bytes) : bytes :=
  SEQUENCE [ SEQUENCE [ SEQUENCE [hashOID; NULL]; OCTET_STRING h1;
                        OCTET_STRING h2; INTEGER (B [5]) ] ].

(** The OCSPRequest of [request], without a signature. *)
Definition unsignedRequest : bytes :=
  SEQUENCE [derTBSRequest [derEntry derSHA1]].

(** The optionalSignature element of an OCSPRequest: under the explicit
    tag 0, a Signature with its algorithm and its BIT STRING. *)
Definition derSignature : bytes :=
  context 0 [ SEQUENCE [ SEQUENCE [derSHA256WithRSA; NULL];
                         BIT_STRING (B [0; 0xAA]) ] ].

(** The same request, signed. *)
Definition signedRequest : bytes :=
  SEQUENCE [derTBSRequest [derEntry derSHA1]; derSignature].

(** The request followed by one more byte, a request with an empty
    request list before its extensions, and a request under MD5. *)
Definition trailingRequest : bytes := unsignedRequest ++ B [0].
Definition emptyRequest : bytes :=
  SEQUENCE [
    SEQUENCE [
      SEQUENCE [];
      context 2 [SEQUENCE [SEQUENCE [derNonce; OCTET_STRING (B [4; 2; 1; 2])]]]
    ] ].
Definition md5Request : bytes := SEQUENCE [derTBSRequest [derEntry derMD5]].

End Sample.

(** ** Sample inputs for the builders *)

Module SampleBuilders.

(** No other hash than those of [linkedHashes] is linked in; a digest is
    the number of the hash, the length of the message and its first two
    bytes. *)
Definition hashes : HashLib :=
  {| Available := fun h => existsb (Z.eqb h) linkedHashes;
     Sum := fun h b => z2b h :: z2b (len b) :: firstn 2 b;
     Hash_String := fun h =>
       if h =? crypto.SHA1 then "SHA-1"
       else if h =? crypto.SHA256 then "SHA-256"
       else if h =? crypto.SHA384 then "SHA-384"
       else if h =? crypto.SHA512 then "SHA-512"
       else "unknown hash value";
     Available_linked := fun h Hin =>
       proj2 (existsb_exists (Z.eqb h) linkedHashes)
         (ex_intro _ h (conj Hin (Z.eqb_refl h))) |}.

(** The raw form of a sample certificate, an empty distinguished name as
    its subject, and its key as an RSA public key. *)
Definition raw (c : Sample.certificate) : bytes :=
  B [0x30; 3] ++ [z2b (Sample.serial c)] ++ Sample.key c ++ Sample.signer c.

Definition rawSubject (c : Sample.certificate) : bytes := Sample.SEQUENCE [].

Definition rawSubjectPublicKeyInfo (c : Sample.certificate) : bytes :=
  Sample.SEQUENCE
    [ Sample.SEQUENCE
        [ Sample.OID (B [42; 134; 72; 134; 247; 13; 1; 1; 1]); Sample.NULL ];
      Sample.BIT_STRING (z2b 0 :: Sample.key c) ].

Definition fields : @CertificateFields Sample.x509 :=
  @Build_CertificateFields Sample.x509 raw rawSubject rawSubjectPublicKeyInfo.

Definition CreateRequest :=
  @CreateRequest Sample.names Sample.x509 fields hashes.

End SampleBuilders.

(** ** Sample inputs for the responder *)

Module SampleResponder.

(** The sample times are already in UTC; truncating to the minute clears
    the two digits of the seconds; a time is written when it has the
    fifteen characters of a GeneralizedTime. *)
Definition timeOps : @TimeOps Sample.time :=
  @Build_TimeOps Sample.time
    (fun t : bytes => t)
    (fun t : bytes => firstn 12 t ++ B [48; 48] ++ skipn 14 t)
    (fun t : bytes => match t with [] => true | _ => false end)
    (fun t : bytes =>
       match t with
       | [] => conj (fun _ => eq_refl) (fun _ => eq_refl)
       | b :: t' =>
           conj (fun E : false = true =>
                   match Bool.diff_false_true E return b :: t' = [] with end)
                (fun E : b :: t' = [] =>
                   match nil_cons (eq_sym E) return false = true with end)
       end)
    (fun t : bytes => false)
    (fun t : bytes =>
       if len t =? 15 then inl (skipn 2 t)
       else inr "asn1: cannot represent time as UTCTime")
    (fun t : bytes =>
       if len t =? 15 then inl t
       else inr "asn1: cannot represent time as GeneralizedTime").

(** A signer with an RSA key whose signature is always the byte AA, as the
    key of [Sample.issuerAA]. *)
Definition signer : Signer :=
  {| Public := rsa_PublicKey;
     Sign := fun digest opts => inl (B [0xAA]) |}.

(** The time 2026-01-01 12:34:56. *)
Definition now : bytes :=
  B [50; 48; 50; 54; 48; 49; 48; 49; 49; 50; 51; 52; 53; 54; 90].

(** An extension of an entry, with the identifier 2.5.29.21, and a nonce as
    an extension of the response. *)
Definition entryExtension (critical : bool) : pkix.Extension.t :=
  {| pkix.Extension.Id := [2; 5; 29; 21];
     pkix.Extension.Critical := critical;
     pkix.Extension.Value := B [10; 1; 1] |}.

Definition nonce : pkix.Extension.t :=
  {| pkix.Extension.Id := [1; 3; 6; 1; 5; 5; 7; 48; 1; 2];
     pkix.Extension.Critical := false;
     pkix.Extension.Value := B [4; 2; 7; 7] |}.

(** A template for the certificate 2, revoked at [Sample.t1] for the
    reason 1, with a next update, the certificate of the responder and the
    two extensions; the fields that [CreateResponse] does not read are left
    empty. *)
Definition template (SignatureAlgorithm : x509.SignatureAlgorithm)
    (critical : bool)
  : @Response.t Sample.time Sample.x509 :=
  @Response.mk Sample.time Sample.x509
    (* Raw *) [] (* Status *) Revoked (* SerialNumber *) 2
    (* ProducedAt *) [] (* ThisUpdate *) Sample.t1
    (* NextUpdate *) Sample.t2 (* RevokedAt *) Sample.t1
    (* RevocationReason *) 1 (* Certificate *) (Some Sample.issuerAA)
    (* TBSResponseData *) [] (* Signature *) []
    SignatureAlgorithm (* IssuerHash *) 0
    (* RawResponderName *) None (* ResponderKeyHash *) None
    (* Extensions *) [] (* ExtraExtensions *) [entryExtension critical]
    (* ResponseExtensions *) [] (* ResponseExtraExtensions *) [nonce].

(** No algorithm is asked for; or SHA-512 with RSA; or the extension of the
    entry is critical. *)
Definition revoked : @Response.t Sample.time Sample.x509 :=
  template x509.UnknownSignatureAlgorithm false.

Definition withSHA512 : @Response.t Sample.time Sample.x509 :=
  template x509.SHA512WithRSA false.

Definition withCritical : @Response.t Sample.time Sample.x509 :=
  template x509.UnknownSignatureAlgorithm true.

Definition CreateResponse :=
  @CreateResponse Sample.time timeOps Sample.x509 SampleBuilders.fields
    SampleBuilders.hashes.

Definition ParseResponse := @ParseResponse Sample.time Sample.names Sample.x509.

End SampleResponder.

(** * Properties *)

(** ** Error responses *)

Section ErrorResponses.
Context `{TimeLib} `{pkix.Names} `{x509.Lib}.

(** C4.  When the decoded envelope's status is not success,
    [ParseResponseForCert] and [ParseResponse] return a [ResponseError] that
    carries the status, and a [ResponseError] is never a [ParseError]; the
    five pre-serialized error responses yield the statuses Malformed,
    InternalError, TryLater, SignatureRequired and Unauthorized. *)
Theorem ParseResponse_ResponseError :
  (forall der cert issuer resp,
     asn1.Unmarshal responseASN1.type der = OK (resp, []) ->
     responseASN1.Status resp <> Success ->
     ParseResponseForCert der cert issuer
       = Err (ResponseError (responseASN1.Status resp))
     /\ ParseResponse der issuer
          = Err (ResponseError (responseASN1.Status resp))
     /\ forall msg, ResponseError (responseASN1.Status resp) <> ParseError msg)
  /\ (forall issuer,
        ParseResponse MalformedRequestErrorResponse issuer
          = Err (ResponseError Malformed)
        /\ ParseResponse InternalErrorErrorResponse issuer
             = Err (ResponseError InternalError)
        /\ ParseResponse TryLaterErrorResponse issuer
             = Err (ResponseError TryLater)
        /\ ParseResponse SigRequredErrorResponse issuer
             = Err (ResponseError SignatureRequired)
        /\ ParseResponse UnauthorizedErrorResponse issuer
             = Err (ResponseError Unauthorized)).
Proof.
  split.
  - intros der cert issuer resp Hdec Hst.
    assert (Hgen : forall c, ParseResponseForCert der c issuer
                             = Err (ResponseError (responseASN1.Status resp))).
    { intro c. unfold ParseResponseForCert. rewrite Hdec. cbn [bind len List.length].
      change (Z.of_nat 0 >? 0) with false. cbv iota.
      destruct (responseASN1.Status resp =? Success) eqn:E.
      - apply Z.eqb_eq in E. contradiction.
      - reflexivity. }
    repeat split.
    + apply Hgen.
    + apply Hgen.
    + discriminate.
  - intro issuer. repeat split; reflexivity.
Qed.

End ErrorResponses.

(** ** Comparisons *)

Lemma ObjectIdentifier_Equal_eq (a b : asn1.ObjectIdentifier) :
  asn1.ObjectIdentifier_Equal a b = true <-> a = b.
Proof.
  revert b. induction a as [|x a IH]; intros [|y b]; simpl; split;
    try congruence; try discriminate.
  - intros E. apply andb_true_iff in E as [E1 E2].
    apply Z.eqb_eq in E1. apply IH in E2. congruence.
  - intros E. injection E as -> ->. rewrite Z.eqb_refl. simpl.
    apply IH. reflexivity.
Qed.

Lemma bytes_eqb_eq (a b : bytes) : bytes_eqb a b = true <-> a = b.
Proof.
  revert b. induction a as [|x a IH]; intros [|y b]; simpl; split;
    try congruence; try discriminate.
  - intros E. apply andb_true_iff in E as [E1 E2].
    apply Byte.byte_dec_bl in E1. apply IH in E2. congruence.
  - intros E. injection E as -> ->. rewrite Byte.byte_dec_lb by reflexivity.
    simpl. apply IH. reflexivity.
Qed.

Lemma len_zero_nil {A} (l : list A) : (len l =? 0) = true <-> l = [].
Proof.
  unfold len. destruct l; simpl; split; congruence.
Qed.


(** ** The RSA-PSS profile *)


Lemma notAbsentOrNull_false (b : bytes) :
  notAbsentOrNull b = false <-> absentOrNull b.
Proof.
  unfold notAbsentOrNull, absentOrNull.
  rewrite andb_false_iff, !negb_false_iff, len_zero_nil, bytes_eqb_eq.
  reflexivity.
Qed.



Lemma pssProfile_test params mgf1HashFunc :
  notAbsentOrNull
    (asn1.FullBytes
       (pkix.AlgorithmIdentifier.Parameters (pssParameters.Hash params)))
  || negb (asn1.ObjectIdentifier_Equal
             (pkix.AlgorithmIdentifier.Algorithm (pssParameters.MGF params))
             oidMGF1)
  || negb (asn1.ObjectIdentifier_Equal
             (pkix.AlgorithmIdentifier.Algorithm mgf1HashFunc)
             (pkix.AlgorithmIdentifier.Algorithm (pssParameters.Hash params)))
  || notAbsentOrNull
       (asn1.FullBytes (pkix.AlgorithmIdentifier.Parameters mgf1HashFunc))
  || negb (pssParameters.TrailerField params =? 1) = false
  <-> pssProfile params mgf1HashFunc.
Proof.
  unfold pssProfile.
  rewrite !orb_false_iff, !negb_false_iff, !notAbsentOrNull_false,
    !ObjectIdentifier_Equal_eq, Z.eqb_eq.
  tauto.
Qed.

Lemma hash_salt_test (a b : asn1.ObjectIdentifier) (s n : Z) :
  asn1.ObjectIdentifier_Equal a b && (s =? n) = true <-> a = b /\ s = n.
Proof.
  rewrite andb_true_iff, ObjectIdentifier_Equal_eq, Z.eqb_eq. reflexivity.
Qed.

Lemma pssDecodesTo_unique ai h s h' s' :
  pssDecodesTo ai h s -> pssDecodesTo ai h' s' -> h = h' /\ s = s'.
Proof.
  intros (p & r & m & r' & E1 & E2 & _ & <- & <-)
    (p' & q & m' & q' & F1 & F2 & _ & <- & <-).
  rewrite E1 in F1. injection F1 as <- <-. split; reflexivity.
Qed.

(** The answer of [getSignatureAlgorithmFromAI] on an RSA-PSS identifier,
    case by case. *)
Lemma getSignatureAlgorithmFromAI_RSAPSS_cases (ai : pkix.AlgorithmIdentifier.t) :
  pkix.AlgorithmIdentifier.Algorithm ai = oidSignatureRSAPSS ->
  (getSignatureAlgorithmFromAI ai = x509.SHA256WithRSAPSS
   /\ pssDecodesTo ai oidSHA256 32)
  \/ (getSignatureAlgorithmFromAI ai = x509.SHA384WithRSAPSS
      /\ pssDecodesTo ai oidSHA384 48)
  \/ (getSignatureAlgorithmFromAI ai = x509.SHA512WithRSAPSS
      /\ pssDecodesTo ai oidSHA512 64)
  \/ (getSignatureAlgorithmFromAI ai = x509.UnknownSignatureAlgorithm
      /\ ~ pssDecodesTo ai oidSHA256 32 /\ ~ pssDecodesTo ai oidSHA384 48
      /\ ~ pssDecodesTo ai oidSHA512 64).
Proof.
  intros Hoid. unfold getSignatureAlgorithmFromAI. rewrite Hoid.
  change (negb (asn1.ObjectIdentifier_Equal oidSignatureRSAPSS oidSignatureRSAPSS))
    with false. cbv iota.
  destruct (asn1.Unmarshal pssParameters.type _) as [[params rest]|e] eqn:E1.
  2:{ do 3 right. split; [reflexivity|].
      repeat split; intros (p & r & m & r' & F1 & _); congruence. }
  destruct (asn1.Unmarshal pkix.AlgorithmIdentifier.type _)
    as [[mgf rest']|e] eqn:E2.
  2:{ do 3 right. split; [reflexivity|].
      repeat split; intros (p & r & m & r' & F1 & F2 & _);
        rewrite E1 in F1; injection F1 as <- <-; congruence. }
  assert (Hinv : forall h s, pssDecodesTo ai h s ->
            pssProfile params mgf
            /\ pkix.AlgorithmIdentifier.Algorithm (pssParameters.Hash params) = h
            /\ pssParameters.SaltLength params = s).
  { intros h s (p & r & m & r' & F1 & F2 & P & Fh & Fs).
    rewrite E1 in F1; injection F1 as <- <-.
    rewrite E2 in F2; injection F2 as <- <-. auto. }
  destruct (_ || _ || _ || _ || _) eqn:Eprof.
  { assert (Hnp : ~ pssProfile params mgf)
      by (rewrite <- pssProfile_test; congruence).
    do 3 right. split; [reflexivity|].
    repeat split; intros D; apply Hinv in D; tauto. }
  apply pssProfile_test in Eprof.
  destruct (asn1.ObjectIdentifier_Equal _ oidSHA256 && _) eqn:T1.
  { apply hash_salt_test in T1 as [T1 T1']. left. split; [reflexivity|].
    exists params, rest, mgf, rest'. auto. }
  destruct (asn1.ObjectIdentifier_Equal _ oidSHA384 && _) eqn:T2.
  { apply hash_salt_test in T2 as [T2 T2']. right; left. split; [reflexivity|].
    exists params, rest, mgf, rest'. auto. }
  destruct (asn1.ObjectIdentifier_Equal _ oidSHA512 && _) eqn:T3.
  { apply hash_salt_test in T3 as [T3 T3']. do 2 right; left.
    split; [reflexivity|]. exists params, rest, mgf, rest'. auto. }
  do 3 right. split; [reflexivity|].
  repeat split; intros D; apply Hinv in D; destruct D as (_ & Dh & Ds).
  - assert (X : asn1.ObjectIdentifier_Equal
                  (pkix.AlgorithmIdentifier.Algorithm (pssParameters.Hash params))
                  oidSHA256 && (pssParameters.SaltLength params =? 32) = true)
      by (apply hash_salt_test; auto). congruence.
  - assert (X : asn1.ObjectIdentifier_Equal
                  (pkix.AlgorithmIdentifier.Algorithm (pssParameters.Hash params))
                  oidSHA384 && (pssParameters.SaltLength params =? 48) = true)
      by (apply hash_salt_test; auto). congruence.
  - assert (X : asn1.ObjectIdentifier_Equal
                  (pkix.AlgorithmIdentifier.Algorithm (pssParameters.Hash params))
                  oidSHA512 && (pssParameters.SaltLength params =? 64) = true)
      by (apply hash_salt_test; auto). congruence.
Qed.

(** C5.  For an algorithm identifier whose OID is RSA-PSS,
    [getSignatureAlgorithmFromAI] answers SHA256WithRSAPSS, SHA384WithRSAPSS
    or SHA512WithRSAPSS exactly when the parameters decode, satisfy the
    narrowed profile and pair the hash with the salt length 32, 48 or 64;
    in every other case it answers UnknownSignatureAlgorithm; and the three
    built-in parameter templates resolve to their own algorithm. *)
Theorem getSignatureAlgorithmFromAI_RSAPSS (ai : pkix.AlgorithmIdentifier.t) :
  pkix.AlgorithmIdentifier.Algorithm ai = oidSignatureRSAPSS ->
  (getSignatureAlgorithmFromAI ai = x509.SHA256WithRSAPSS
   <-> pssDecodesTo ai oidSHA256 32)
  /\ (getSignatureAlgorithmFromAI ai = x509.SHA384WithRSAPSS
      <-> pssDecodesTo ai oidSHA384 48)
  /\ (getSignatureAlgorithmFromAI ai = x509.SHA512WithRSAPSS
      <-> pssDecodesTo ai oidSHA512 64)
  /\ (getSignatureAlgorithmFromAI ai = x509.UnknownSignatureAlgorithm
      <-> ~ (pssDecodesTo ai oidSHA256 32 \/ pssDecodesTo ai oidSHA384 48
             \/ pssDecodesTo ai oidSHA512 64))
  /\ getSignatureAlgorithmFromAI
       (pkix.AlgorithmIdentifier.mk oidSignatureRSAPSS pssParametersSHA256)
     = x509.SHA256WithRSAPSS
  /\ getSignatureAlgorithmFromAI
       (pkix.AlgorithmIdentifier.mk oidSignatureRSAPSS pssParametersSHA384)
     = x509.SHA384WithRSAPSS
  /\ getSignatureAlgorithmFromAI
       (pkix.AlgorithmIdentifier.mk oidSignatureRSAPSS pssParametersSHA512)
     = x509.SHA512WithRSAPSS.
Proof.
  intros Hoid.
  assert (U1 : forall s s', pssDecodesTo ai oidSHA256 s ->
                            ~ pssDecodesTo ai oidSHA384 s').
  { intros s s' D D'. destruct (pssDecodesTo_unique D D'). discriminate. }
  assert (U2 : forall s s', pssDecodesTo ai oidSHA256 s ->
                            ~ pssDecodesTo ai oidSHA512 s').
  { intros s s' D D'. destruct (pssDecodesTo_unique D D'). discriminate. }
  assert (U3 : forall s s', pssDecodesTo ai oidSHA384 s ->
                            ~ pssDecodesTo ai oidSHA512 s').
  { intros s s' D D'. destruct (pssDecodesTo_unique D D'). discriminate. }
  repeat match goal with |- _ /\ _ => split end; try reflexivity.
  all: destruct (getSignatureAlgorithmFromAI_RSAPSS_cases ai Hoid)
    as [[-> D]|[[-> D]|[[-> D]|[-> (N1 & N2 & N3)]]]].
  all: split; intros X; try discriminate; try reflexivity; try assumption;
    try tauto.
  all: try (exfalso; first [ apply (U1 _ _ D X) | apply (U1 _ _ X D)
                           | apply (U2 _ _ D X) | apply (U2 _ _ X D)
                           | apply (U3 _ _ D X) | apply (U3 _ _ X D) ]).
Qed.

(** ** Bytes and integers *)

Lemma b2z_range b : 0 <= b2z b < 256.
Proof. unfold b2z. pose proof (Byte.to_N_bounded b). lia. Qed.

Lemma b2z_z2b z : b2z (z2b z) = z mod 256.
Proof.
  unfold b2z, z2b.
  assert (Hr : 0 <= z mod 256 < 256) by (apply Z.mod_pos_bound; lia).
  destruct (Byte.of_N (Z.to_N (z mod 256))) as [b|] eqn:E.
  - apply Byte.to_of_N in E. rewrite E. lia.
  - apply Byte.of_N_None_iff in E. lia.
Qed.

Lemma b2z_z2b_small z : 0 <= z < 256 -> b2z (z2b z) = z.
Proof. intros. rewrite b2z_z2b. apply Z.mod_small. assumption. Qed.

Lemma z2b_b2z b : z2b (b2z b) = b.
Proof.
  unfold z2b, b2z. pose proof (Byte.to_N_bounded b).
  rewrite Z.mod_small by lia. rewrite N2Z.id, Byte.of_to_N. reflexivity.
Qed.

Lemma len_app {A} (l1 l2 : list A) : len (l1 ++ l2) = len l1 + len l2.
Proof. unfold len. rewrite length_app. lia. Qed.

Lemma len_nonneg {A} (l : list A) : 0 <= len l.
Proof. unfold len. lia. Qed.

Lemma len_cons {A} (x : A) (l : list A) : len (x :: l) = 1 + len l.
Proof. unfold len. simpl List.length. lia. Qed.

Lemma testbit_high y n k : 0 <= y < 2 ^ k -> k <= n -> Z.testbit y n = false.
Proof.
  intros Hy Hn. destruct (Z.eq_dec y 0) as [->|Hne]; [apply Z.bits_0|].
  apply Z.bits_above_log2; [lia|].
  assert (Z.log2 y < k); [|lia].
  apply Z.log2_lt_pow2; lia.
Qed.

Lemma lor_shiftl_8 x y :
  0 <= x -> 0 <= y < 256 -> Z.lor (Z.shiftl x 8) y = x * 256 + y.
Proof.
  intros Hx Hy. rewrite Z.shiftl_mul_pow2 by lia.
  assert (Hland : Z.land (x * 2 ^ 8) y = 0).
  { apply Z.bits_inj'. intros n Hn. rewrite Z.land_spec, Z.bits_0.
    destruct (Z.ltb_spec n 8).
    - rewrite Z.mul_pow2_bits_low by lia. reflexivity.
    - rewrite (@testbit_high y n 8) by (change (2 ^ 8) with 256; lia).
      apply andb_false_r. }
  rewrite <- Z.lxor_lor, <- Z.add_nocarry_lxor by exact Hland.
  reflexivity.
Qed.

(** ** Headers *)


Lemma identifier_ok_all :
  forallb (fun c =>
    forallb (fun t => identifier_ok c t true && identifier_ok c t false)
      (map Z.of_nat (seq 0 31)))
    (map Z.of_nat (seq 0 4)) = true.
Proof. vm_compute. reflexivity. Qed.

Lemma identifier_octet c t cmp :
  0 <= c <= 3 -> 0 <= t < 31 -> identifier_ok c t cmp = true.
Proof.
  intros Hc Ht. pose proof identifier_ok_all as Hall.
  rewrite forallb_forall in Hall.
  specialize (Hall c). rewrite forallb_forall in Hall.
  assert (Hin : forall n k, 0 <= n < Z.of_nat k -> In n (map Z.of_nat (seq 0 k))).
  { intros n k Hn. apply in_map_iff. exists (Z.to_nat n). split; [lia|].
    apply in_seq. lia. }
  specialize (Hall (Hin c 4%nat ltac:(lia)) t (Hin t 31%nat ltac:(lia))).
  apply andb_true_iff in Hall. destruct cmp; tauto.
Qed.

Lemma lengthLength_spec l :
  128 <= l < 2 ^ 31 ->
  (l < 256 /\ asn1.lengthLength l = 1%nat)
  \/ (256 <= l < 65536 /\ asn1.lengthLength l = 2%nat)
  \/ (65536 <= l < 16777216 /\ asn1.lengthLength l = 3%nat)
  \/ (16777216 <= l /\ asn1.lengthLength l = 4%nat).
Proof.
  intros Hl. change (2 ^ 31) with 2147483648 in Hl.
  unfold asn1.lengthLength.
  assert (S8 : forall x, Z.shiftr x 8 = x / 256)
    by (intros; rewrite Z.shiftr_div_pow2 by lia; reflexivity).
  cbn [asn1.lengthLength_loop]. rewrite !S8.
  destruct (Z.gtb_spec l 255); [|left; split; [lia|reflexivity]].
  destruct (Z.gtb_spec (l / 256) 255);
    [|right; left; split; [Z.div_mod_to_equations; lia|reflexivity]].
  destruct (Z.gtb_spec (l / 256 / 256) 255);
    [|right; right; left; split; [Z.div_mod_to_equations; lia|reflexivity]].
  destruct (Z.gtb_spec (l / 256 / 256 / 256) 255);
    [exfalso; Z.div_mod_to_equations; lia|].
  right; right; right. split; [Z.div_mod_to_equations; lia|reflexivity].
Qed.

Lemma parseLength_loop_step n b rest acc :
  0 <= acc < 2 ^ 23 -> acc * 256 + b2z b <> 0 ->
  asn1.parseLength_loop (S n) (b :: rest) acc
  = asn1.parseLength_loop n rest (acc * 256 + b2z b).
Proof.
  intros Hacc Hnz. cbn [asn1.parseLength_loop].
  change (Z.shiftl 1 23) with (2 ^ 23).
  destruct (Z.geb_spec acc (2 ^ 23)); [lia|].
  pose proof (b2z_range b).
  rewrite lor_shiftl_8 by lia.
  destruct (Z.eqb_spec (acc * 256 + b2z b) 0); [contradiction|reflexivity].
Qed.

Lemma appendLength_loop_S n i :
  asn1.appendLength_loop (S n) i
  = z2b (i / 2 ^ (Z.of_nat n * 8)) :: asn1.appendLength_loop n i.
Proof.
  cbn [asn1.appendLength_loop]. rewrite Z.shiftr_div_pow2 by lia. reflexivity.
Qed.

(** The long form of a length is read back. *)
Lemma parseLength_loop_append l rest :
  128 <= l < 2 ^ 31 ->
  asn1.parseLength_loop (asn1.lengthLength l)
    (asn1.appendLength_loop (asn1.lengthLength l) l ++ rest) 0
  = OK (l, rest)
  /\ (1 <= asn1.lengthLength l <= 4)%nat.
Proof.
  intros Hl. pose proof (lengthLength_spec Hl) as Hn.
  change (2 ^ 31) with 2147483648 in Hl.
  destruct Hn as [[Hr ->]|[[Hr ->]|[[Hr ->]|[Hr ->]]]]; (split; [|lia]);
    rewrite !appendLength_loop_S; cbn [asn1.appendLength_loop app];
    change (2 ^ (Z.of_nat 0 * 8)) with 1;
    change (2 ^ (Z.of_nat 1 * 8)) with 256;
    change (2 ^ (Z.of_nat 2 * 8)) with 65536;
    change (2 ^ (Z.of_nat 3 * 8)) with 16777216;
    repeat (rewrite parseLength_loop_step;
            [ | change (2 ^ 23) with 8388608; rewrite ?b2z_z2b;
                Z.div_mod_to_equations; lia
              | rewrite ?b2z_z2b; Z.div_mod_to_equations; lia ]);
    cbn [asn1.parseLength_loop]; rewrite ?b2z_z2b;
    do 2 f_equal; Z.div_mod_to_equations; lia.
Qed.

Lemma land_128 l : 0 <= l < 128 -> Z.land l 0x80 = 0 /\ Z.land l 0x7f = l.
Proof.
  intros Hl. split.
  - apply Z.bits_inj'. intros n Hn. rewrite Z.land_spec, Z.bits_0.
    destruct (Z.eq_dec n 7) as [->|].
    + rewrite (@testbit_high l 7 7) by (change (2 ^ 7) with 128; lia).
      reflexivity.
    + change 0x80 with (2 ^ 7). rewrite Z.pow2_bits_false by lia.
      apply andb_false_r.
  - change 0x7f with (Z.ones 7). rewrite Z.land_ones by lia.
    apply Z.mod_small. change (2 ^ 7) with 128. lia.
Qed.

Lemma long_form_octet n :
  (1 <= n <= 4)%nat ->
  (Z.land (b2z (z2b (Z.lor 0x80 (Z.of_nat n)))) 0x80 =? 0) = false
  /\ Z.land (b2z (z2b (Z.lor 0x80 (Z.of_nat n)))) 0x7f = Z.of_nat n.
Proof.
  intros Hn.
  destruct n as [|[|[|[|[|n]]]]]; try lia; split; reflexivity.
Qed.

(** A header that was written is read back: low tag numbers, lengths below
    [2 ^ 31]. *)
Lemma parseTagAndLength_append t rest :
  0 <= asn1.class t <= 3 -> 0 <= asn1.tag t < 31 ->
  0 <= asn1.length t < 2 ^ 31 ->
  asn1.parseTagAndLength (asn1.appendTagAndLength [] t ++ rest) = OK (t, rest).
Proof.
  intros Hc Ht Hl. destruct t as [c tg l cmp]; cbn [asn1.class asn1.tag
    asn1.length asn1.isCompound] in *.
  pose proof (identifier_octet cmp Hc Ht) as Hid.
  unfold identifier_ok in Hid. cbv zeta in Hid.
  apply andb_true_iff in Hid as [Hid H4]. apply andb_true_iff in Hid as [Hid H3].
  apply andb_true_iff in Hid as [H1 H2].
  apply Z.eqb_eq in H1, H3. apply Bool.eqb_prop in H2.
  apply negb_true_iff in H4.
  unfold asn1.appendTagAndLength, asn1.appendLength.
  cbn [asn1.class asn1.tag asn1.length asn1.isCompound].
  assert (Ht31 : (tg >=? 31) = false)
    by (rewrite Z.geb_leb; apply Z.leb_gt; lia).
  rewrite Ht31.
  set (o := z2b (Z.lor (if cmp then Z.lor (Z.shiftl c 6 mod 256) 32
                        else Z.shiftl c 6 mod 256) (tg mod 256))) in *.
  destruct (Z.geb_spec l 128) as [Hbig|Hsmall].
  - (* long form *)
    destruct (@parseLength_loop_append l rest ltac:(lia)) as [Hlen Hn].
    destruct (long_form_octet Hn) as [O1 O2].
    cbn [app].
    unfold asn1.parseTagAndLength.
    change (Z.land (b2z o) 31) with (Z.land (b2z o) 0x1f).
    rewrite H1, H2, H3, H4. cbn [bind].
    rewrite O1, O2.
    assert (E0 : (Z.of_nat (asn1.lengthLength l) =? 0) = false)
      by (apply Z.eqb_neq; lia).
    rewrite E0, Nat2Z.id, Hlen. cbn [bind].
    destruct (Z.ltb_spec l 128); [lia|reflexivity].
  - (* short form *)
    unfold asn1.parseTagAndLength. cbn [app].
    change (Z.land (b2z o) 31) with (Z.land (b2z o) 0x1f).
    rewrite H1, H2, H3, H4. cbn [bind].
    rewrite b2z_z2b_small by lia.
    destruct (@land_128 l ltac:(lia)) as [L8 L7].
    rewrite L8, L7. reflexivity.
Qed.

(** ** Big integers *)

Lemma SetBytes_app l1 l2 :
  asn1.SetBytes (l1 ++ l2)
  = fold_left (fun acc b => acc * 256 + b2z b) l2 (asn1.SetBytes l1).
Proof. unfold asn1.SetBytes. apply fold_left_app. Qed.

Lemma SetBytes_snoc l b : asn1.SetBytes (l ++ [b]) = asn1.SetBytes l * 256 + b2z b.
Proof. rewrite SetBytes_app. reflexivity. Qed.

Lemma SetBytes_zero_cons l : asn1.SetBytes (z2b 0 :: l) = asn1.SetBytes l.
Proof. reflexivity. Qed.

Lemma Bytes_loop_acc fuel n acc :
  asn1.Bytes_loop fuel n acc = asn1.Bytes_loop fuel n [] ++ acc.
Proof.
  revert n acc. induction fuel as [|fuel IH]; intros n acc; simpl.
  - reflexivity.
  - destruct (n =? 0); [reflexivity|].
    rewrite (IH _ (z2b n :: acc)), (IH _ [z2b n]), <- app_assoc. reflexivity.
Qed.

(** With enough fuel, [Bytes_loop] writes the magnitude in full and
    without a leading zero. *)
Lemma Bytes_loop_spec fuel n :
  0 <= n < 2 ^ Z.of_nat fuel ->
  asn1.SetBytes (asn1.Bytes_loop fuel n []) = n
  /\ (0 < n -> exists b0 bs, asn1.Bytes_loop fuel n [] = b0 :: bs
                            /\ b2z b0 <> 0).
Proof.
  revert n. induction fuel as [|fuel IH]; intros n Hn.
  - change (2 ^ Z.of_nat 0) with 1 in Hn. assert (n = 0) by lia. subst n.
    split; [reflexivity|lia].
  - cbn [asn1.Bytes_loop].
    destruct (Z.eqb_spec n 0) as [->|Hnz]; [split; [reflexivity|lia]|].
    rewrite Bytes_loop_acc.
    assert (Hq : 0 <= n / 256 < 2 ^ Z.of_nat fuel).
    { rewrite Nat2Z.inj_succ, Z.pow_succ_r in Hn by lia.
      split; [apply Z.div_pos; lia|].
      apply Z.div_lt_upper_bound; lia. }
    destruct (IH _ Hq) as [IH1 IH2].
    split.
    + rewrite SetBytes_snoc, IH1, b2z_z2b. Z.div_mod_to_equations; lia.
    + intros _. destruct (Z.eq_dec (n / 256) 0) as [E0|E0].
      * rewrite E0. 
        assert (asn1.Bytes_loop fuel 0 [] = []) as -> by (destruct fuel; reflexivity).
        exists (z2b n), []. split; [reflexivity|].
        rewrite b2z_z2b. Z.div_mod_to_equations; lia.
      * destruct IH2 as (b0 & bs & -> & Hb0); [lia|].
        exists b0, (bs ++ [z2b n]). split; [reflexivity|assumption].
Qed.

Lemma big_Bytes_spec n :
  0 <= n ->
  asn1.SetBytes (asn1.big_Bytes n) = n
  /\ (0 < n -> exists b0 bs, asn1.big_Bytes n = b0 :: bs /\ b2z b0 <> 0).
Proof.
  intros Hn. unfold asn1.big_Bytes. rewrite Z.abs_eq by lia.
  apply Bytes_loop_spec. split; [assumption|].
  destruct (Z.eq_dec n 0) as [->|]; [simpl; lia|].
  rewrite Nat2Z.inj_succ, Z2Nat.id by apply Z.log2_nonneg.
  apply Z.log2_spec. lia.
Qed.


Lemma flip_flip b : flip (flip b) = b.
Proof. destruct b; reflexivity. Qed.

Lemma flip_high b :
  (Z.land (b2z (flip b)) 0x80 =? 0) = negb (Z.land (b2z b) 0x80 =? 0).
Proof. destruct b; reflexivity. Qed.

Lemma high_set_iff b :
  (Z.land (b2z b) 0x80 =? 0x80) = negb (Z.land (b2z b) 0x80 =? 0).
Proof. destruct b; reflexivity. Qed.

Lemma flip_ff b : b2z (flip b) = 0xff -> b2z b = 0.
Proof. destruct b; vm_compute; congruence. Qed.

Lemma high_clear_not_ff b : (Z.land (b2z b) 0x80 =? 0) = true -> b2z b <> 0xff.
Proof. destruct b; vm_compute; congruence. Qed.

Lemma high_set_not_0 b : (Z.land (b2z b) 0x80 =? 0) = false -> b2z b <> 0.
Proof. destruct b; vm_compute; congruence. Qed.

Lemma map_flip_flip l : map flip (map flip l) = l.
Proof.
  induction l as [|b l IH]; simpl; [reflexivity|].
  rewrite flip_flip, IH. reflexivity.
Qed.

(** An integer that was written is read back. *)
Lemma parseBigInt_makeBigInt n :
  asn1.parseBigInt (asn1.makeBigInt n) = OK n.
Proof.
  unfold asn1.makeBigInt.
  destruct (Z.ltb_spec n 0) as [Hneg|Hpos].
  - (* negative *)
    fold flip. destruct (@big_Bytes_spec (- n - 1) ltac:(lia)) as [Hv Hd].
    destruct (asn1.big_Bytes (- n - 1)) as [|b0 bs] eqn:Eb.
    + change (asn1.SetBytes []) with 0 in Hv. cbn [map].
      assert (n = -1) by lia. subst n. reflexivity.
    + destruct Hd as (b0' & bs' & E & Hb0).
      { destruct (Z.eq_dec (- n - 1) 0) as [E0|]; [|lia].
        rewrite E0 in Eb. discriminate. }
      injection E as <- <-. cbn [map].
      destruct (Z.land (b2z (flip b0)) 128 =? 0) eqn:Eh.
      * (* padded with ff *)
        unfold asn1.parseBigInt. 
        assert (Hc : asn1.checkInteger (z2b 255 :: flip b0 :: map flip bs) = OK tt).
        { cbn [asn1.checkInteger].
          change (b2z (z2b 255)) with 255. change (255 =? 0) with false.
          cbn [andb orb]. rewrite high_set_iff.
          change (Z.land (b2z (flip b0)) 128 =? 0)
            with (Z.land (b2z (flip b0)) 0x80 =? 0) in Eh.
          rewrite Eh. reflexivity. }
        rewrite Hc. cbn [bind].
        change (Z.land (b2z (z2b 255)) 128 =? 128) with true. cbv iota.
        fold flip. cbn [map]. change (flip (z2b 255)) with (z2b 0).
        rewrite flip_flip, map_flip_flip, SetBytes_zero_cons, Hv.
        f_equal. lia.
      * unfold asn1.parseBigInt.
        assert (Hc : asn1.checkInteger (flip b0 :: map flip bs) = OK tt).
        { cbn [asn1.checkInteger]. destruct (map flip bs) as [|b1 l];
            [reflexivity|].
          destruct (Z.eqb_spec (b2z (flip b0)) 0) as [E0|_].
          - apply high_set_not_0 in Eh. contradiction.
          - destruct (Z.eqb_spec (b2z (flip b0)) 255) as [Eff|_].
            + apply flip_ff in Eff. contradiction.
            + reflexivity. }
        rewrite Hc. cbn [bind].
        rewrite high_set_iff.
        change (Z.land (b2z (flip b0)) 128 =? 0)
          with (Z.land (b2z (flip b0)) 0x80 =? 0) in Eh.
        rewrite Eh. cbn [negb]. fold flip. cbn [map].
        rewrite flip_flip, map_flip_flip, Hv. f_equal. lia.
  - destruct (Z.eqb_spec n 0) as [->|Hnz]; [reflexivity|].
    destruct (@big_Bytes_spec n ltac:(lia)) as [Hv Hd].
    destruct Hd as (b0 & bs & E & Hb0); [lia|].
    rewrite E in *.
    destruct (Z.land (b2z b0) 128 =? 0) eqn:Eh; cbn [negb].
    + unfold asn1.parseBigInt.
      assert (Hc : asn1.checkInteger (b0 :: bs) = OK tt).
      { cbn [asn1.checkInteger]. destruct bs as [|b1 l]; [reflexivity|].
        destruct (Z.eqb_spec (b2z b0) 0) as [E0|_]; [contradiction|].
        destruct (Z.eqb_spec (b2z b0) 255) as [Eff|_].
        - apply high_clear_not_ff in Eh. contradiction.
        - reflexivity. }
      rewrite Hc. cbn [bind]. rewrite high_set_iff.
      change (Z.land (b2z b0) 128 =? 0) with (Z.land (b2z b0) 0x80 =? 0) in Eh.
      rewrite Eh. cbn [negb]. rewrite Hv. reflexivity.
    + unfold asn1.parseBigInt.
      assert (Hc : asn1.checkInteger (z2b 0 :: b0 :: bs) = OK tt).
      { cbn [asn1.checkInteger]. change (b2z (z2b 0)) with 0.
        change (0 =? 0) with true. change (0 =? 255) with false.
        change (Z.land (b2z b0) 128 =? 0) with (Z.land (b2z b0) 0x80 =? 0) in Eh.
        rewrite Eh. reflexivity. }
      rewrite Hc. cbn [bind].
      change (Z.land (b2z (z2b 0)) 128 =? 128) with false. cbv iota.
      rewrite SetBytes_zero_cons, Hv. reflexivity.
Qed.

(** ** Fields *)

Lemma firstn_len_app {A} (a b : list A) :
  firstn (Z.to_nat (len a)) (a ++ b) = a.
Proof.
  unfold len. rewrite Nat2Z.id, firstn_app, Nat.sub_diag, firstn_all.
  simpl. apply app_nil_r.
Qed.

Lemma skipn_len_app {A} (a b : list A) :
  skipn (Z.to_nat (len a)) (a ++ b) = b.
Proof.
  unfold len. rewrite Nat2Z.id, skipn_app, Nat.sub_diag, skipn_all.
  reflexivity.
Qed.

Lemma firstn_whole {A} (a b : list A) :
  firstn (List.length (a ++ b) - List.length b) (a ++ b) = a.
Proof.
  rewrite length_app, Nat.add_sub, firstn_app, Nat.sub_diag, firstn_all.
  simpl. apply app_nil_r.
Qed.

Lemma appendTagAndLength_nonempty t :
  exists b bs, asn1.appendTagAndLength [] t = b :: bs.
Proof.
  unfold asn1.appendTagAndLength, asn1.appendLength, asn1.appendBase128Int.
  destruct (asn1.tag t >=? 31); destruct (asn1.length t >=? 128);
    cbn [app]; eauto.
Qed.

Lemma TLV_nonempty c cmp tg body : exists b bs, TLV c cmp tg body = b :: bs.
Proof.
  unfold TLV.
  destruct (appendTagAndLength_nonempty
              {| asn1.class := c; asn1.tag := tg; asn1.length := len body;
                 asn1.isCompound := cmp |}) as (b & bs & ->).
  cbn [app]. eauto.
Qed.

Lemma parseTagAndLength_TLV c cmp tg body rest :
  0 <= c <= 3 -> 0 <= tg < 31 -> len body < 2 ^ 31 ->
  asn1.parseTagAndLength (TLV c cmp tg body ++ rest)
  = OK ({| asn1.class := c; asn1.tag := tg; asn1.length := len body;
           asn1.isCompound := cmp |}, body ++ rest).
Proof.
  intros Hc Ht Hl. unfold TLV. rewrite <- app_assoc.
  apply parseTagAndLength_append; cbn [asn1.class asn1.tag asn1.length];
    try assumption.
  pose proof (len_nonneg body). lia.
Qed.

(** A field without tag parameters, on an element of its own universal
    type: the contents go to [parseBody]. *)
Lemma parseField_universal {A} (ty : asn1.fieldType A) params cmp tg body rest :
  asn1.explicit params = false -> asn1.param_tag params = None ->
  asn1.matchAny ty = false ->
  asn1.compoundType ty = cmp -> asn1.universalTag ty = tg ->
  0 <= tg < 31 -> tg <> asn1.TagUTCTime ->
  len body < 2 ^ 31 ->
  asn1.parseField ty (TLV 0 cmp tg body ++ rest) params
  = (v <- asn1.parseBody ty tg
            {| asn1.class := 0; asn1.tag := tg; asn1.length := len body;
               asn1.isCompound := cmp |}
            body (TLV 0 cmp tg body) ;;
     OK (v, rest)).
Proof.
  intros He Hp Hm Hc Hg Ht Hu Hl.
  destruct (TLV_nonempty 0 cmp tg body) as (b & bs & Eb).
  unfold asn1.parseField.
  rewrite Eb. cbn [app].
  change (b :: bs ++ rest) with ((b :: bs) ++ rest). rewrite <- Eb.
  rewrite parseTagAndLength_TLV by (assumption || lia). cbn [bind].
  unfold asn1.parseField_explicit. rewrite He. cbn [bind].
  unfold asn1.parseField_value.
  cbn [asn1.class asn1.tag asn1.length asn1.isCompound].
  rewrite He, Hp, Hm, Hc, Hg.
  assert (Hu' : (tg =? asn1.TagUTCTime) = false)
    by (apply Z.eqb_neq; assumption).
  rewrite Hu'. cbn [andb negb].
  change (0 =? asn1.ClassUniversal) with true.
  rewrite Z.eqb_refl, Bool.eqb_reflx. cbn [negb orb andb].
  destruct (Z.gtb_spec (len body) (len (body ++ rest))) as [Hgt|_].
  { rewrite len_app in Hgt. pose proof (len_nonneg rest). lia. }
  rewrite firstn_len_app, skipn_len_app, firstn_whole. reflexivity.
Qed.

(** An optional field with an explicit tag, in front of an element of the
    universal class that is not the last thing in the buffer: the field
    takes its default and nothing is consumed. *)
Lemma parseField_explicit_absent {A} (ty : asn1.fieldType A) params cmp tg
    body rest v :
  asn1.explicit params = true ->
  asn1.setDefaultValue ty params = Some v ->
  0 <= tg < 31 -> len body < 2 ^ 31 ->
  body ++ rest <> [] ->
  asn1.parseField ty (TLV 0 cmp tg body ++ rest) params
  = OK (v, TLV 0 cmp tg body ++ rest).
Proof.
  intros He Hd Ht Hl Hne.
  destruct (TLV_nonempty 0 cmp tg body) as (b & bs & Eb).
  unfold asn1.parseField.
  rewrite Eb. cbn [app]. change (b :: bs ++ rest) with ((b :: bs) ++ rest).
  rewrite <- Eb.
  rewrite parseTagAndLength_TLV by (assumption || lia). cbn [bind].
  unfold asn1.parseField_explicit. rewrite He.
  destruct (body ++ rest) as [|x l] eqn:E; [congruence|].
  cbn [asn1.class]. change (0 =? asn1.ClassContextSpecific) with false.
  cbn [andb]. rewrite Hd. reflexivity.
Qed.

(** An optional field at the end of the buffer takes its default. *)
Lemma parseField_nil {A} (ty : asn1.fieldType A) params v :
  asn1.setDefaultValue ty params = Some v ->
  asn1.parseField ty [] params = OK (v, []).
Proof. intros Hd. unfold asn1.parseField. rewrite Hd. reflexivity. Qed.

(** A [RawValue] field without tag parameters takes any element. *)
Lemma parseField_rawValue params c cmp tg body rest :
  asn1.explicit params = false -> asn1.param_tag params = None ->
  0 <= c <= 3 -> 0 <= tg < 31 -> len body < 2 ^ 31 ->
  asn1.parseField asn1.rawValueType (TLV c cmp tg body ++ rest) params
  = OK ({| asn1.Class := c; asn1.Tag := tg; asn1.IsCompound := cmp;
           asn1.Bytes := body; asn1.FullBytes := TLV c cmp tg body |}, rest).
Proof.
  intros He Hp Hc Ht Hl.
  destruct (TLV_nonempty c cmp tg body) as (b & bs & Eb).
  unfold asn1.parseField.
  rewrite Eb. cbn [app]. change (b :: bs ++ rest) with ((b :: bs) ++ rest).
  rewrite <- Eb.
  rewrite parseTagAndLength_TLV by (assumption || lia). cbn [bind].
  unfold asn1.parseField_explicit. rewrite He. cbn [bind].
  unfold asn1.parseField_value.
  cbn [asn1.class asn1.tag asn1.length asn1.isCompound asn1.rawValueType
       asn1.matchAny asn1.universalTag asn1.compoundType asn1.parseBody].
  rewrite He, Hp.
  change (-1 =? asn1.TagUTCTime) with false. cbn [andb negb orb].
  destruct (Z.gtb_spec (len body) (len (body ++ rest))) as [Hgt|_].
  { rewrite len_app in Hgt. pose proof (len_nonneg rest). lia. }
  rewrite firstn_len_app, skipn_len_app, firstn_whole. reflexivity.
Qed.

(** A sequence of one element. *)
Lemma parseSequenceOf_single {A} (ty : asn1.fieldType A) cmp body :
  asn1.matchAny ty = false ->
  asn1.compoundType ty = cmp ->
  asn1.universalTag ty = 16 ->
  len body < 2 ^ 31 ->
  asn1.parseSequenceOf ty (TLV 0 cmp 16 body)
  = (v <- asn1.parseBody ty 16
            {| asn1.class := 0; asn1.tag := 16; asn1.length := len body;
               asn1.isCompound := cmp |}
            body (TLV 0 cmp 16 body) ;;
     OK [v]).
Proof.
  intros Hm Hc Hu Hl.
  destruct (TLV_nonempty 0 cmp 16 body) as (b & bs & Eb).
  unfold asn1.parseSequenceOf.
  assert (Hcount :
    asn1.parseSequenceOf_count ty (List.length (TLV 0 cmp 16 body))
      (TLV 0 cmp 16 body) 0 = OK 1%nat).
  { assert (Hlen : exists fuel, List.length (TLV 0 cmp 16 body) = S fuel)
      by (rewrite Eb; simpl; eauto).
    destruct Hlen as (fuel & ->).
    rewrite Eb. cbn [asn1.parseSequenceOf_count]. rewrite <- Eb.
    rewrite <- (app_nil_r (TLV _ _ _ _)).
    rewrite parseTagAndLength_TLV by lia.
    cbn [bind asn1.class asn1.tag asn1.length asn1.isCompound].
    rewrite Hm, Hu, Hc. cbn [negb andb]. rewrite app_nil_r.
    change (16 =? asn1.TagIA5String) with false.
    change (16 =? asn1.TagGeneralString) with false.
    change (16 =? asn1.TagT61String) with false.
    change (16 =? asn1.TagUTF8String) with false.
    change (16 =? asn1.TagNumericString) with false.
    change (16 =? asn1.TagBMPString) with false.
    change (16 =? asn1.TagGeneralizedTime) with false.
    change (16 =? asn1.TagUTCTime) with false.
    cbn [orb].
    change (0 =? asn1.ClassUniversal) with true.
    change (16 =? 16) with true.
    rewrite Bool.eqb_reflx. cbn [negb orb].
    destruct (Z.gtb_spec (len body) (len body)) as [Hgt|_]; [lia|].
    assert (Hskip : skipn (Z.to_nat (len body)) body = [])
      by (unfold len; rewrite Nat2Z.id; apply skipn_all).
    rewrite Hskip. destruct fuel; reflexivity. }
  rewrite Hcount. cbn [bind asn1.parseSequenceOf_elems].
  rewrite <- (app_nil_r (TLV _ _ _ _)) at 1.
  rewrite (@parseField_universal _ ty asn1.fieldParameters_zero cmp 16);
    try reflexivity; try assumption; try lia; try discriminate.
  destruct (asn1.parseBody ty _ _ _ _); reflexivity.
Qed.

(** ** The stages of the response parser *)

(** The prefix of [ParseResponseForCert] up to the selection of an entry. *)
Ltac enter_response Hdec :=
  let resp := fresh "resp" in
  let E1 := fresh "E1" in
  let Est := fresh "Est" in
  let Ety := fresh "Ety" in
  let E2 := fresh "E2" in
  destruct Hdec as (resp & E1 & Est & Ety & E2);
  unfold ParseResponseForCert;
  rewrite E1; cbn [bind len List.length Z.of_nat];
  change (0 >? 0) with false; cbv iota;
  rewrite Est, Ety; change (negb (Success =? Success)) with false;
  change (negb (asn1.ObjectIdentifier_Equal idPKIXOCSPBasic idPKIXOCSPBasic))
    with false; cbv iota;
  rewrite E2; cbn [bind len List.length Z.of_nat];
  change (0 >? 0) with false; cbv iota.

Section ResponseStages.
Context `{TimeLib} `{pkix.Names} `{x509.Lib}.


Lemma matchSerial_Some serial responses r :
  matchSerial serial responses = Some r <->
  exists before after,
    responses = before ++ r :: after
    /\ serialOf r = serial
    /\ Forall (fun x => serialOf x <> serial) before.
Proof.
  induction responses as [|x l IH]; simpl.
  - split; [discriminate|]. intros (b & a & E & _). destruct b; discriminate.
  - fold (serialOf x). destruct (serial =? serialOf x) eqn:E.
    + apply Z.eqb_eq in E. split.
      * intros [= <-]. exists [], l. auto.
      * intros ([|y b] & a & El & Er & Fb).
        -- injection El as -> _. reflexivity.
        -- injection El as -> _. inversion Fb; subst. congruence.
    + apply Z.eqb_neq in E. rewrite IH. split.
      * intros (b & a & -> & Er & Fb). exists (x :: b), a. simpl.
        repeat split; auto.
      * intros ([|y b] & a & El & Er & Fb).
        -- injection El as -> _. congruence.
        -- injection El as -> ->. inversion Fb; subst. eauto.
Qed.

Lemma matchSerial_None serial responses :
  matchSerial serial responses = None <->
  Forall (fun x => serialOf x <> serial) responses.
Proof.
  induction responses as [|x l IH]; simpl.
  - split; auto.
  - fold (serialOf x). destruct (serial =? serialOf x) eqn:E.
    + apply Z.eqb_eq in E. split; [discriminate|].
      intros F. inversion F; subst. congruence.
    + apply Z.eqb_neq in E. rewrite IH. split.
      * intros F. constructor; auto.
      * intros F. inversion F; auto.
Qed.

Lemma len_app_cons {A} (l1 : list A) x l2 : (len (l1 ++ x :: l2) =? 0) = false.
Proof.
  apply Z.eqb_neq. unfold len. rewrite length_app. simpl. lia.
Qed.


Lemma selects_count cert responses singleResp :
  selects cert responses singleResp ->
  (len responses =? 0) || (isNil cert && (len responses >? 1)) = false.
Proof.
  destruct cert as [c|]; simpl.
  - intros (b & a & -> & _). rewrite len_app_cons. reflexivity.
  - intros ->. reflexivity.
Qed.

(** Once the envelope decodes, an entry is selected, the responder ID
    decodes and the signatures verify, the answer depends only on the
    extensions and on the hash algorithm of the selected entry. *)
Lemma ParseResponseForCert_checked der cert issuer basicResp singleResp
    name keyHash certificate :
  decodesTo der basicResp ->
  selects cert
    (responseData.Responses (basicResponse.TBSResponseData basicResp))
    singleResp ->
  responderID
    (responseData.RawResponderID (basicResponse.TBSResponseData basicResp))
    name keyHash ->
  signaturesOK basicResp issuer certificate ->
  ParseResponseForCert der cert issuer =
    if existsb pkix.Extension.Critical
         (singleResponse.SingleExtensions singleResp)
    then Err (ParseError "unsupported critical extension")
    else if hashOIDs_byOID hashOIDs
              (pkix.AlgorithmIdentifier.Algorithm
                 (certID.HashAlgorithm (singleResponse.CertID singleResp)))
            =? 0
    then Err (ParseError "unsupported issuer hash algorithm")
    else OK (responseOf der basicResp singleResp name keyHash certificate).
Proof.
  intros (resp & E1 & Est & Ety & E2) Hsel Hid Hsig.
  unfold ParseResponseForCert.
  rewrite E1. cbn [bind len List.length Z.of_nat]. change (0 >? 0) with false.
  cbv iota. rewrite Est, Ety. change (negb (Success =? Success)) with false.
  change (negb (asn1.ObjectIdentifier_Equal idPKIXOCSPBasic idPKIXOCSPBasic))
    with false. cbv iota.
  rewrite E2. cbn [bind len List.length Z.of_nat]. change (0 >? 0) with false.
  cbv iota. rewrite (@selects_count _ _ _ Hsel).
  assert (Hpick :
    match cert with
    | Some cert0 =>
        match matchSerial (x509.Certificate_SerialNumber cert0)
                (responseData.Responses
                   (basicResponse.TBSResponseData basicResp)) with
        | Some resp0 => OK resp0
        | None => Err (ParseError "no response matching the supplied certificate")
        end
    | None =>
        OK (hd singleResponse.zero
              (responseData.Responses (basicResponse.TBSResponseData basicResp)))
    end = OK singleResp).
  { destruct cert as [c|]; simpl in Hsel.
    - destruct Hsel as (b & a & Hl & Hs & Hb).
      assert (M : matchSerial (x509.Certificate_SerialNumber c)
                    (responseData.Responses
                       (basicResponse.TBSResponseData basicResp))
                  = Some singleResp)
        by (apply matchSerial_Some; eauto).
      rewrite M. reflexivity.
    - rewrite Hsel. reflexivity. }
  rewrite Hpick. cbn [bind].
  unfold signaturesOK in Hsig.
  destruct Hid as [(Et & (rdn & Ern) & -> & ->)|(Et & (h & Eh & ->) & ->)];
    rewrite Et; cbn [Z.eqb Pos.eqb]; cbv iota;
    [rewrite Ern | rewrite Eh]; cbn [bind].
  all: destruct (basicResponse.Certificates basicResp) as [|c0 cs].
  all: try (destruct Hsig as (-> & Hi); destruct issuer as [i|];
            [ unfold CheckSignatureFrom; cbn [Response.SignatureAlgorithm
                Response.TBSResponseData Response.Signature
                Response.set_RawResponderName Response.set_ResponderKeyHash];
              rewrite (Hi i eq_refl) | ]).
  all: try (destruct Hsig as (c & -> & Ep & Ec & Hi); rewrite Ep;
            cbn [foreign bind]; unfold CheckSignatureFrom;
            cbn [Response.SignatureAlgorithm Response.TBSResponseData
                 Response.Signature Response.set_RawResponderName
                 Response.set_ResponderKeyHash Response.set_Certificate];
            rewrite Ec; destruct issuer as [i|];
            [ rewrite (Hi i eq_refl) | ]).
  all: cbn [bind]; destruct (existsb _ _); [reflexivity|].
  all: cbn [Response.IssuerHash Response.set_IssuerHash].
  all: destruct (hashOIDs_byOID _ _ =? 0); [reflexivity|].
  all: unfold responseOf, classify, serialOf.
  all: destruct (singleResponse.Good singleResp);
    [ reflexivity | destruct (singleResponse.Unknown singleResp); reflexivity ].
Qed.

(** Conversely, every response that is returned has gone through the
    stages. *)
Lemma ParseResponseForCert_OK der cert issuer ret :
  ParseResponseForCert der cert issuer = OK ret ->
  exists basicResp singleResp name keyHash certificate,
    decodesTo der basicResp
    /\ selects cert
         (responseData.Responses (basicResponse.TBSResponseData basicResp))
         singleResp
    /\ responderID
         (responseData.RawResponderID
            (basicResponse.TBSResponseData basicResp)) name keyHash
    /\ signaturesOK basicResp issuer certificate
    /\ existsb pkix.Extension.Critical
         (singleResponse.SingleExtensions singleResp) = false
    /\ hashOIDs_byOID hashOIDs
         (pkix.AlgorithmIdentifier.Algorithm
            (certID.HashAlgorithm (singleResponse.CertID singleResp))) <> 0
    /\ ret = responseOf der basicResp singleResp name keyHash certificate.
Proof.
  unfold ParseResponseForCert. intros Hret.
  destruct (asn1.Unmarshal responseASN1.type der) as [[resp rest]|e] eqn:E1;
    [|discriminate].
  cbn [bind] in Hret.
  destruct rest as [|x rest]; [|discriminate].
  cbn [len List.length Z.of_nat] in Hret. change (0 >? 0) with false in Hret.
  cbv iota in Hret.
  destruct (responseASN1.Status resp =? Success) eqn:Est; [|discriminate].
  apply Z.eqb_eq in Est. cbn [negb] in Hret.
  destruct (asn1.ObjectIdentifier_Equal _ idPKIXOCSPBasic) eqn:Ety;
    [|discriminate].
  apply ObjectIdentifier_Equal_eq in Ety. cbn [negb] in Hret.
  destruct (asn1.Unmarshal basicResponse.type _) as [[basicResp rest]|e] eqn:E2;
    [|discriminate].
  cbn [bind] in Hret.
  destruct rest as [|x rest]; [|discriminate].
  cbn [len List.length Z.of_nat] in Hret. change (0 >? 0) with false in Hret.
  cbv iota in Hret.
  destruct ((len _ =? 0) || _) eqn:Ecount; [discriminate|].
  apply orb_false_iff in Ecount as [En0 En1].
  match type of Hret with
  | bind ?pick _ = _ => destruct pick as [singleResp|e] eqn:Epick;
                        [|discriminate]
  end.
  cbn [bind] in Hret.
  assert (Hsel : selects cert
            (responseData.Responses (basicResponse.TBSResponseData basicResp))
            singleResp).
  { destruct cert as [c|]; simpl.
    - destruct (matchSerial _ _) as [r|] eqn:M; [|discriminate].
      injection Epick as ->. apply matchSerial_Some in M. exact M.
    - simpl in En1.
      destruct (responseData.Responses _) as [|r [|r' l]].
      + discriminate.
      + simpl in Epick. congruence.
      + exfalso. unfold len in En1. simpl List.length in En1.
        assert ((Z.of_nat (S (S (List.length l))) >? 1) = true)
          by (apply Z.gtb_lt; lia).
        congruence. }
  match type of Hret with
  | bind ?id _ = _ => destruct id as [ret1|e] eqn:Eid; [|discriminate]
  end.
  cbn [bind] in Hret.
  match type of Hret with
  | bind ?sig _ = _ => destruct sig as [ret2|e] eqn:Esig; [|discriminate]
  end.
  cbn [bind] in Hret.
  destruct (existsb _ _) eqn:Ecrit; [discriminate|].
  destruct (Response.IssuerHash _ =? 0) eqn:Ehash; [discriminate|].
  apply Z.eqb_neq in Ehash.
  (* the responder ID *)
  set (raw := responseData.RawResponderID
                (basicResponse.TBSResponseData basicResp)) in *.
  destruct (asn1.Tag raw =? 1) eqn:T1.
  - apply Z.eqb_eq in T1.
    destruct (asn1.Unmarshal pkix.RDNSequence_type _)
      as [[rdn [|x r]]|e] eqn:Ern; try discriminate.
    injection Eid as <-.
    exists basicResp, singleResp, (Some (asn1.Bytes raw)), None.
    destruct (basicResponse.Certificates basicResp) as [|c0 cs] eqn:Ecs.
    + exists None. repeat split; try assumption.
      * exists resp. auto.
      * left. repeat split; eauto.
      * unfold signaturesOK. rewrite Ecs. split; [reflexivity|].
        intros i ->. unfold CheckSignatureFrom in Esig.
        cbn [Response.SignatureAlgorithm Response.TBSResponseData
             Response.Signature Response.set_RawResponderName] in Esig.
        destruct (x509.CheckSignature i _ _ _); [discriminate|reflexivity].
      * destruct issuer as [i|];
          [ destruct (CheckSignatureFrom _ i); [discriminate|] | ];
          injection Esig as <-; revert Hret;
          unfold responseOf, classify, serialOf;
          destruct (singleResponse.Good singleResp);
          [ | destruct (singleResponse.Unknown singleResp) | | 
            destruct (singleResponse.Unknown singleResp) ];
          intros [= <-]; reflexivity.
    + destruct (x509.ParseCertificate (asn1.FullBytes c0)) as [c|msg] eqn:Ep;
        [|discriminate].
      cbn [foreign bind] in Esig.
      destruct (CheckSignatureFrom _ c) eqn:Ec; [discriminate|].
      exists (Some c). repeat split; try assumption.
      * exists resp. auto.
      * left. repeat split; eauto.
      * unfold signaturesOK. rewrite Ecs. exists c.
        repeat split; try assumption.
        intros i ->.
        destruct (x509.CheckSignature i _ _ _); [discriminate|reflexivity].
      * destruct issuer as [i|];
          [ destruct (x509.CheckSignature i _ _ _); [discriminate|] | ];
          injection Esig as <-; revert Hret;
          unfold responseOf, classify, serialOf;
          destruct (singleResponse.Good singleResp);
          [ | destruct (singleResponse.Unknown singleResp) | | 
            destruct (singleResponse.Unknown singleResp) ];
          intros [= <-]; reflexivity.
  - destruct (asn1.Tag raw =? 2) eqn:T2; [|discriminate].
    apply Z.eqb_eq in T2.
    destruct (asn1.Unmarshal asn1.bytesType _)
      as [[h [|x r]]|e] eqn:Eh; try discriminate.
    injection Eid as <-.
    exists basicResp, singleResp, None, (Some h).
    destruct (basicResponse.Certificates basicResp) as [|c0 cs] eqn:Ecs.
    + exists None. repeat split; try assumption.
      * exists resp. auto.
      * right. repeat split; eauto.
      * unfold signaturesOK. rewrite Ecs. split; [reflexivity|].
        intros i ->. unfold CheckSignatureFrom in Esig.
        cbn [Response.SignatureAlgorithm Response.TBSResponseData
             Response.Signature Response.set_ResponderKeyHash] in Esig.
        destruct (x509.CheckSignature i _ _ _); [discriminate|reflexivity].
      * destruct issuer as [i|];
          [ destruct (CheckSignatureFrom _ i); [discriminate|] | ];
          injection Esig as <-; revert Hret;
          unfold responseOf, classify, serialOf;
          destruct (singleResponse.Good singleResp);
          [ | destruct (singleResponse.Unknown singleResp) | | 
            destruct (singleResponse.Unknown singleResp) ];
          intros [= <-]; reflexivity.
    + destruct (x509.ParseCertificate (asn1.FullBytes c0)) as [c|msg] eqn:Ep;
        [|discriminate].
      cbn [foreign bind] in Esig.
      destruct (CheckSignatureFrom _ c) eqn:Ec; [discriminate|].
      exists (Some c). repeat split; try assumption.
      * exists resp. auto.
      * right. repeat split; eauto.
      * unfold signaturesOK. rewrite Ecs. exists c.
        repeat split; try assumption.
        intros i ->.
        destruct (x509.CheckSignature i _ _ _); [discriminate|reflexivity].
      * destruct issuer as [i|];
          [ destruct (x509.CheckSignature i _ _ _); [discriminate|] | ];
          injection Esig as <-; revert Hret;
          unfold responseOf, classify, serialOf;
          destruct (singleResponse.Good singleResp);
          [ | destruct (singleResponse.Unknown singleResp) | | 
            destruct (singleResponse.Unknown singleResp) ];
          intros [= <-]; reflexivity.
Qed.

Lemma decodesTo_unique der basicResp basicResp' :
  decodesTo der basicResp -> decodesTo der basicResp' -> basicResp = basicResp'.
Proof.
  intros (r & E1 & _ & _ & E2) (r' & F1 & _ & _ & F2).
  rewrite E1 in F1. injection F1 as <-. rewrite E2 in F2. congruence.
Qed.

(** Once an entry is selected, the answer is never one of the two errors of
    the entry-count policy. *)
Lemma ParseResponseForCert_selected der cert issuer basicResp singleResp :
  decodesTo der basicResp ->
  selects cert
    (responseData.Responses (basicResponse.TBSResponseData basicResp))
    singleResp ->
  ParseResponseForCert der cert issuer
    <> Err (ParseError "OCSP response contains bad number of responses")
  /\ ParseResponseForCert der cert issuer
     <> Err (ParseError "no response matching the supplied certificate").
Proof.
  intros Hdec Hsel.
  assert (Hcount := @selects_count _ _ _ Hsel).
  assert (Hpick :
    match cert with
    | Some cert0 =>
        match matchSerial (x509.Certificate_SerialNumber cert0)
                (responseData.Responses
                   (basicResponse.TBSResponseData basicResp)) with
        | Some resp0 => OK resp0
        | None => Err (ParseError "no response matching the supplied certificate")
        end
    | None =>
        OK (hd singleResponse.zero
              (responseData.Responses (basicResponse.TBSResponseData basicResp)))
    end = OK singleResp).
  { destruct cert as [c|]; simpl in Hsel.
    - assert (M : matchSerial (x509.Certificate_SerialNumber c)
                    (responseData.Responses
                       (basicResponse.TBSResponseData basicResp))
                  = Some singleResp)
        by (apply matchSerial_Some; exact Hsel).
      rewrite M. reflexivity.
    - rewrite Hsel. reflexivity. }
  enter_response Hdec. rewrite Hcount, Hpick. cbn [bind].
  set (raw := responseData.RawResponderID
                (basicResponse.TBSResponseData basicResp)).
  destruct (asn1.Tag raw =? 1);
    [destruct (asn1.Unmarshal pkix.RDNSequence_type (asn1.Bytes raw))
       as [[rdn [|x r]]|e]
    |destruct (asn1.Tag raw =? 2);
       [destruct (asn1.Unmarshal asn1.bytesType (asn1.Bytes raw))
          as [[h [|x r]]|e]|]];
    cbn [bind]; try (split; discriminate).
  all: destruct (basicResponse.Certificates basicResp) as [|c0 cs];
    [destruct issuer as [i|];
       [destruct (CheckSignatureFrom _ i)|]
    |destruct (x509.ParseCertificate (asn1.FullBytes c0)) as [c|msg];
       cbn [foreign bind];
       [destruct (CheckSignatureFrom _ c);
          [|destruct issuer as [i|];
              [destruct (x509.CheckSignature i _ _ _)|]]|]];
    cbn [bind]; try (split; discriminate).
  all: destruct (existsb _ _); [split; discriminate|].
  all: destruct (Response.IssuerHash _ =? 0); [split; discriminate|].
  all: destruct (singleResponse.Good singleResp);
    [|destruct (singleResponse.Unknown singleResp)]; split; discriminate.
Qed.


(** C3.  Once the envelope decodes: no entry is an error; more than one
    entry without a certificate is an error; with a certificate, no entry
    with its serial number is the error "no response matching"; a response
    that is returned is built from the first entry whose serial number
    equals the certificate's, whatever the name and key hashes; and when
    there is such an entry it is the one that is selected: the answer is
    not "no response matching", and once the responder ID decodes and the
    signatures verify it is the answer for that entry. *)
Theorem ParseResponseForCert_entry_count der cert issuer basicResp :
  decodesTo der basicResp ->
  let responses :=
    responseData.Responses (basicResponse.TBSResponseData basicResp) in
  (responses = [] ->
   ParseResponseForCert der cert issuer
   = Err (ParseError "OCSP response contains bad number of responses"))
  /\ (cert = None -> (1 < List.length responses)%nat ->
      ParseResponseForCert der cert issuer
      = Err (ParseError "OCSP response contains bad number of responses"))
  /\ (forall c, cert = Some c -> responses <> [] ->
      Forall (fun r => serialOf r <> x509.Certificate_SerialNumber c)
        responses ->
      ParseResponseForCert der cert issuer
      = Err (ParseError "no response matching the supplied certificate"))
  /\ (forall c ret, cert = Some c ->
      ParseResponseForCert der cert issuer = OK ret ->
      exists before singleResp after,
        responses = before ++ singleResp :: after
        /\ serialOf singleResp = x509.Certificate_SerialNumber c
        /\ Forall (fun r => serialOf r <> x509.Certificate_SerialNumber c)
             before
        /\ exists name keyHash certificate,
             ret = responseOf der basicResp singleResp name keyHash
                     certificate)
  /\ (forall c before singleResp after, cert = Some c ->
      responses = before ++ singleResp :: after ->
      serialOf singleResp = x509.Certificate_SerialNumber c ->
      Forall (fun r => serialOf r <> x509.Certificate_SerialNumber c)
        before ->
      ParseResponseForCert der cert issuer
      <> Err (ParseError "OCSP response contains bad number of responses")
      /\ ParseResponseForCert der cert issuer
         <> Err (ParseError "no response matching the supplied certificate")
      /\ forall name keyHash certificate,
           responderID (responseData.RawResponderID
                          (basicResponse.TBSResponseData basicResp))
             name keyHash ->
           signaturesOK basicResp issuer certificate ->
           ParseResponseForCert der cert issuer
           = if existsb pkix.Extension.Critical
                  (singleResponse.SingleExtensions singleResp)
             then Err (ParseError "unsupported critical extension")
             else if hashOIDs_byOID hashOIDs
                       (pkix.AlgorithmIdentifier.Algorithm
                          (certID.HashAlgorithm
                             (singleResponse.CertID singleResp))) =? 0
             then Err (ParseError "unsupported issuer hash algorithm")
             else OK (responseOf der basicResp singleResp name keyHash
                        certificate)).
Proof.
  intros Hdec responses. subst responses.
  repeat match goal with |- _ /\ _ => split end.
  - intros Hnil. enter_response Hdec. rewrite Hnil. reflexivity.
  - intros -> Hlen. enter_response Hdec.
    assert (Hn : (len (responseData.Responses
                         (basicResponse.TBSResponseData basicResp)) >? 1)
                 = true) by (apply Z.gtb_lt; unfold len; lia).
    rewrite Hn. cbn [isNil andb]. rewrite orb_true_r. reflexivity.
  - intros c -> Hne Hall. enter_response Hdec.
    destruct (responseData.Responses _) as [|r l] eqn:El; [congruence|].
    assert (Hn : (len (r :: l) =? 0) = false)
      by (apply (len_app_cons [] r l)).
    rewrite Hn. cbn [isNil andb orb].
    apply matchSerial_None in Hall. rewrite Hall. reflexivity.
  - intros c ret -> Hret.
    apply ParseResponseForCert_OK in Hret
      as (b & sr & name & kh & crt & Hdec' & Hsel & _ & _ & _ & _ & ->).
    rewrite <- (decodesTo_unique Hdec Hdec') in *.
    destruct Hsel as (before & after & El & Es & Hb).
    exists before, sr, after. repeat split; eauto.
  - intros c before singleResp after -> El Es Hb.
    assert (Hsel : selects (Some c)
                     (responseData.Responses
                        (basicResponse.TBSResponseData basicResp))
                     singleResp)
      by (exists before, after; auto).
    destruct (@ParseResponseForCert_selected der (Some c) issuer basicResp
                singleResp Hdec Hsel) as [Hn Hm].
    split; [exact Hn|]. split; [exact Hm|].
    intros name keyHash certificate Hid Hsig.
    exact (@ParseResponseForCert_checked der (Some c) issuer basicResp
             singleResp name keyHash certificate Hdec Hsel Hid Hsig).
Qed.

(** C1.  A response that is returned reports the status of the selected
    entry with the precedence Good, Unknown, Revoked, and carries a
    revocation time and reason only when the status is Revoked; and every
    selected entry that passes the checks before the classification, with
    whatever flags, is answered with a response that reports it so. *)
Theorem ParseResponseForCert_status der cert issuer :
  (forall ret,
     ParseResponseForCert der cert issuer = OK ret ->
     exists basicResp singleResp,
       decodesTo der basicResp
       /\ selects cert
            (responseData.Responses (basicResponse.TBSResponseData basicResp))
            singleResp
       /\ (singleResponse.Good singleResp = true ->
           Response.Status ret = Good
           /\ Response.RevokedAt ret = Time_zero
           /\ Response.RevocationReason ret = 0)
       /\ (singleResponse.Good singleResp = false ->
           singleResponse.Unknown singleResp = true ->
           Response.Status ret = Unknown
           /\ Response.RevokedAt ret = Time_zero
           /\ Response.RevocationReason ret = 0)
       /\ (singleResponse.Good singleResp = false ->
           singleResponse.Unknown singleResp = false ->
           Response.Status ret = Revoked
           /\ Response.RevokedAt ret
              = revokedInfo.RevocationTime (singleResponse.Revoked singleResp)
           /\ Response.RevocationReason ret
              = revokedInfo.Reason (singleResponse.Revoked singleResp)))
  /\ (forall basicResp singleResp name keyHash certificate,
        decodesTo der basicResp ->
        selects cert
          (responseData.Responses (basicResponse.TBSResponseData basicResp))
          singleResp ->
        responderID
          (responseData.RawResponderID
             (basicResponse.TBSResponseData basicResp)) name keyHash ->
        signaturesOK basicResp issuer certificate ->
        existsb pkix.Extension.Critical
          (singleResponse.SingleExtensions singleResp) = false ->
        hashOIDs_byOID hashOIDs
          (pkix.AlgorithmIdentifier.Algorithm
             (certID.HashAlgorithm (singleResponse.CertID singleResp))) <> 0 ->
        exists ret,
          ParseResponseForCert der cert issuer = OK ret
          /\ (singleResponse.Good singleResp = true ->
              Response.Status ret = Good
              /\ Response.RevokedAt ret = Time_zero
              /\ Response.RevocationReason ret = 0)
          /\ (singleResponse.Good singleResp = false ->
              singleResponse.Unknown singleResp = true ->
              Response.Status ret = Unknown
              /\ Response.RevokedAt ret = Time_zero
              /\ Response.RevocationReason ret = 0)
          /\ (singleResponse.Good singleResp = false ->
              singleResponse.Unknown singleResp = false ->
              Response.Status ret = Revoked
              /\ Response.RevokedAt ret
                 = revokedInfo.RevocationTime
                     (singleResponse.Revoked singleResp)
              /\ Response.RevocationReason ret
                 = revokedInfo.Reason (singleResponse.Revoked singleResp))).
Proof.
  assert (Hclass : forall b sr name kh crt,
    let ret := responseOf der b sr name kh crt in
    (singleResponse.Good sr = true ->
     Response.Status ret = Good
     /\ Response.RevokedAt ret = Time_zero
     /\ Response.RevocationReason ret = 0)
    /\ (singleResponse.Good sr = false ->
        singleResponse.Unknown sr = true ->
        Response.Status ret = Unknown
        /\ Response.RevokedAt ret = Time_zero
        /\ Response.RevocationReason ret = 0)
    /\ (singleResponse.Good sr = false ->
        singleResponse.Unknown sr = false ->
        Response.Status ret = Revoked
        /\ Response.RevokedAt ret
           = revokedInfo.RevocationTime (singleResponse.Revoked sr)
        /\ Response.RevocationReason ret
           = revokedInfo.Reason (singleResponse.Revoked sr))).
  { intros b sr name kh crt ret. subst ret.
    unfold responseOf, classify; cbn [Response.Status Response.RevokedAt
      Response.RevocationReason].
    repeat split; intros;
      repeat match goal with E : _ = _ :> bool |- _ => rewrite E; clear E end;
      reflexivity. }
  split.
  - intros ret Hret.
    apply ParseResponseForCert_OK in Hret
      as (b & sr & name & kh & crt & Hdec & Hsel & _ & _ & _ & _ & ->).
    exists b, sr. split; [assumption|]. split; [assumption|].
    apply Hclass.
  - intros b sr name kh crt Hdec Hsel Hid Hsig Hcrit Hhash.
    exists (responseOf der b sr name kh crt). split; [|apply Hclass].
    rewrite (@ParseResponseForCert_checked der cert issuer b sr name kh crt
               Hdec Hsel Hid Hsig), Hcrit.
    apply Z.eqb_neq in Hhash. rewrite Hhash. reflexivity.
Qed.

(** C7.  Once the envelope decodes and an entry is selected: a responder ID
    under a tag other than 1 and 2 is the parse error "invalid responder id
    tag"; under the tag 1 the contents must decode as a distinguished name,
    under the tag 2 as an octet string, without trailing data; a response
    that is returned has the raw name under the tag 1 and the key hash
    under the tag 2, so that exactly one of the two fields is set; and a
    responder ID that decodes under the tag 1 or 2 is accepted: when the
    later checks pass, the response is returned, with the contents of the
    responder ID as its raw name, or with the decoded octet string as its
    key hash. *)
Theorem ParseResponseForCert_responderID der cert issuer basicResp singleResp :
  decodesTo der basicResp ->
  selects cert
    (responseData.Responses (basicResponse.TBSResponseData basicResp))
    singleResp ->
  let raw :=
    responseData.RawResponderID (basicResponse.TBSResponseData basicResp) in
  (asn1.Tag raw <> 1 -> asn1.Tag raw <> 2 ->
   ParseResponseForCert der cert issuer
   = Err (ParseError "invalid responder id tag"))
  /\ (asn1.Tag raw = 1 ->
      (forall rdn, asn1.Unmarshal pkix.RDNSequence_type (asn1.Bytes raw)
                   <> OK (rdn, [])) ->
      ParseResponseForCert der cert issuer
      = Err (ParseError "invalid responder name"))
  /\ (asn1.Tag raw = 2 ->
      (forall h, asn1.Unmarshal asn1.bytesType (asn1.Bytes raw)
                 <> OK (h, [])) ->
      ParseResponseForCert der cert issuer
      = Err (ParseError "invalid responder key hash"))
  /\ (forall ret, ParseResponseForCert der cert issuer = OK ret ->
      responderID raw (Response.RawResponderName ret)
        (Response.ResponderKeyHash ret)
      /\ ((asn1.Tag raw = 1
           /\ Response.RawResponderName ret = Some (asn1.Bytes raw)
           /\ Response.ResponderKeyHash ret = None)
          \/ (asn1.Tag raw = 2
              /\ Response.RawResponderName ret = None
              /\ exists h,
                   asn1.Unmarshal asn1.bytesType (asn1.Bytes raw) = OK (h, [])
                   /\ Response.ResponderKeyHash ret = Some h)))
  /\ (forall certificate,
        signaturesOK basicResp issuer certificate ->
        existsb pkix.Extension.Critical
          (singleResponse.SingleExtensions singleResp) = false ->
        hashOIDs_byOID hashOIDs
          (pkix.AlgorithmIdentifier.Algorithm
             (certID.HashAlgorithm (singleResponse.CertID singleResp))) <> 0 ->
        (forall rdn,
           asn1.Tag raw = 1 ->
           asn1.Unmarshal pkix.RDNSequence_type (asn1.Bytes raw)
           = OK (rdn, []) ->
           exists ret,
             ParseResponseForCert der cert issuer = OK ret
             /\ Response.RawResponderName ret = Some (asn1.Bytes raw)
             /\ Response.ResponderKeyHash ret = None)
        /\ (forall h,
              asn1.Tag raw = 2 ->
              asn1.Unmarshal asn1.bytesType (asn1.Bytes raw) = OK (h, []) ->
              exists ret,
                ParseResponseForCert der cert issuer = OK ret
                /\ Response.RawResponderName ret = None
                /\ Response.ResponderKeyHash ret = Some h)).
Proof.
  intros Hdec Hsel raw.
  assert (Hcount := @selects_count _ _ _ Hsel).
  assert (Hm : forall c, cert = Some c ->
            matchSerial (x509.Certificate_SerialNumber c)
              (responseData.Responses (basicResponse.TBSResponseData basicResp))
            = Some singleResp).
  { intros c ->. apply matchSerial_Some. exact Hsel. }
  assert (Hh : cert = None ->
            hd singleResponse.zero
              (responseData.Responses (basicResponse.TBSResponseData basicResp))
            = singleResp).
  { intros ->. simpl in Hsel. rewrite Hsel. reflexivity. }
  split; [|split; [|split; [|split]]].
  - intros T1 T2. pose proof Hdec as Hdec0. enter_response Hdec0.
    rewrite Hcount.
    apply Z.eqb_neq in T1, T2. fold raw.
    destruct cert as [c|]; [rewrite (Hm c eq_refl)|]; cbn [bind];
      rewrite T1, T2; reflexivity.
  - intros T1 Hbad. pose proof Hdec as Hdec0. enter_response Hdec0.
    rewrite Hcount. fold raw.
    destruct cert as [c|]; [rewrite (Hm c eq_refl)|]; cbn [bind];
      rewrite T1; cbn [Z.eqb Pos.eqb]; cbv iota;
      destruct (asn1.Unmarshal pkix.RDNSequence_type (asn1.Bytes raw))
        as [[rdn [|x r]]|e] eqn:E; try reflexivity;
      exfalso; apply (Hbad rdn); reflexivity.
  - intros T2 Hbad. pose proof Hdec as Hdec0. enter_response Hdec0.
    rewrite Hcount. fold raw.
    destruct cert as [c|]; [rewrite (Hm c eq_refl)|]; cbn [bind];
      rewrite T2; cbn [Z.eqb Pos.eqb]; cbv iota;
      destruct (asn1.Unmarshal asn1.bytesType (asn1.Bytes raw))
        as [[h [|x r]]|e] eqn:E; try reflexivity;
      exfalso; apply (Hbad h); reflexivity.
  - intros ret Hret.
    apply ParseResponseForCert_OK in Hret
      as (b & sr & name & kh & crt & Hdec' & _ & Hid & _ & _ & _ & ->).
    rewrite <- (decodesTo_unique Hdec Hdec') in *. fold raw in Hid.
    cbn [responseOf Response.RawResponderName Response.ResponderKeyHash].
    split; [exact Hid|].
    destruct Hid as [(T & _ & -> & ->)|(T & (h & Eh & ->) & ->)].
    + left. auto.
    + right. repeat split; auto. exists h. auto.
  - intros certificate Hsig Hcrit Hhash. apply Z.eqb_neq in Hhash.
    split.
    + intros rdn T1 Ern.
      exists (responseOf der basicResp singleResp (Some (asn1.Bytes raw)) None
                certificate).
      split; [|split; reflexivity].
      assert (Hid : responderID raw (Some (asn1.Bytes raw)) None)
        by (left; repeat split; eauto).
      rewrite (@ParseResponseForCert_checked der cert issuer basicResp
                 singleResp _ _ certificate Hdec Hsel Hid Hsig), Hcrit, Hhash.
      reflexivity.
    + intros h T2 Eh.
      exists (responseOf der basicResp singleResp None (Some h) certificate).
      split; [|split; reflexivity].
      assert (Hid : responderID raw None (Some h))
        by (right; repeat split; eauto).
      rewrite (@ParseResponseForCert_checked der cert issuer basicResp
                 singleResp _ _ certificate Hdec Hsel Hid Hsig), Hcrit, Hhash.
      reflexivity.
Qed.

(** The answer after the selection of an entry and the responder ID, as
    far as the signature checks. *)
Lemma ParseResponseForCert_signatures der cert issuer basicResp singleResp
    name keyHash :
  decodesTo der basicResp ->
  selects cert
    (responseData.Responses (basicResponse.TBSResponseData basicResp))
    singleResp ->
  responderID
    (responseData.RawResponderID (basicResponse.TBSResponseData basicResp))
    name keyHash ->
  let algo :=
    getSignatureAlgorithmFromAI (basicResponse.SignatureAlgorithm basicResp) in
  let signed := responseData.Raw (basicResponse.TBSResponseData basicResp) in
  let signature := asn1.RightAlign (basicResponse.Signature basicResp) in
  match basicResponse.Certificates basicResp with
  | certificate0 :: _ =>
      match x509.ParseCertificate (asn1.FullBytes certificate0) with
      | inr msg => ParseResponseForCert der cert issuer = Err (errorString msg)
      | inl c =>
          match x509.CheckSignature c algo signed signature with
          | Some msg =>
              ParseResponseForCert der cert issuer
              = Err (ParseError
                       ("bad signature on embedded certificate: " ++ msg)%string)
          | None =>
              match issuer with
              | Some i =>
                  match x509.CheckSignature i
                          (x509.Certificate_SignatureAlgorithm c)
                          (x509.Certificate_RawTBSCertificate c)
                          (x509.Certificate_Signature c) with
                  | Some msg =>
                      ParseResponseForCert der cert issuer
                      = Err (ParseError ("bad OCSP signature: " ++ msg)%string)
                  | None => signaturesOK basicResp issuer (Some c)
                  end
              | None => signaturesOK basicResp issuer (Some c)
              end
          end
      end
  | [] =>
      match issuer with
      | Some i =>
          match x509.CheckSignature i algo signed signature with
          | Some msg =>
              ParseResponseForCert der cert issuer
              = Err (ParseError ("bad OCSP signature: " ++ msg)%string)
          | None => signaturesOK basicResp issuer None
          end
      | None => signaturesOK basicResp issuer None
      end
  end.
Proof.
  intros Hdec Hsel Hid algo signed signature.
  assert (Hcount := @selects_count _ _ _ Hsel).
  assert (Hpick :
    match cert with
    | Some cert0 =>
        match matchSerial (x509.Certificate_SerialNumber cert0)
                (responseData.Responses
                   (basicResponse.TBSResponseData basicResp)) with
        | Some resp0 => OK resp0
        | None => Err (ParseError "no response matching the supplied certificate")
        end
    | None =>
        OK (hd singleResponse.zero
              (responseData.Responses (basicResponse.TBSResponseData basicResp)))
    end = OK singleResp).
  { destruct cert as [c|]; simpl in Hsel.
    - assert (M : matchSerial (x509.Certificate_SerialNumber c)
                    (responseData.Responses
                       (basicResponse.TBSResponseData basicResp))
                  = Some singleResp)
        by (apply matchSerial_Some; exact Hsel).
      rewrite M. reflexivity.
    - rewrite Hsel. reflexivity. }
  unfold signaturesOK. fold algo signed signature.
  destruct (basicResponse.Certificates basicResp) as [|c0 cs] eqn:Ecs.
  - destruct issuer as [i|].
    + destruct (x509.CheckSignature i algo signed signature) as [msg|] eqn:Ec.
      * pose proof Hdec as Hdec0. enter_response Hdec0.
        rewrite Hcount, Hpick. cbn [bind].
        destruct Hid as [(Et & (rdn & Ern) & -> & ->)|(Et & (h & Eh & ->) & ->)];
          rewrite Et; cbn [Z.eqb Pos.eqb]; cbv iota;
          [rewrite Ern | rewrite Eh]; cbn [bind]; rewrite Ecs;
          unfold CheckSignatureFrom;
          cbn [Response.SignatureAlgorithm Response.TBSResponseData
               Response.Signature Response.set_RawResponderName
               Response.set_ResponderKeyHash];
          fold algo signed signature; rewrite Ec; reflexivity.
      * split; [reflexivity|]. intros i' [= <-]. exact Ec.
    + split; [reflexivity|]. discriminate.
  - destruct (x509.ParseCertificate (asn1.FullBytes c0)) as [c|msg] eqn:Ep.
    2:{ pose proof Hdec as Hdec0. enter_response Hdec0.
        rewrite Hcount, Hpick. cbn [bind].
        destruct Hid as [(Et & (rdn & Ern) & -> & ->)|(Et & (h & Eh & ->) & ->)];
          rewrite Et; cbn [Z.eqb Pos.eqb]; cbv iota;
          [rewrite Ern | rewrite Eh]; cbn [bind]; rewrite Ecs, Ep;
          reflexivity. }
    destruct (x509.CheckSignature c algo signed signature) as [msg|] eqn:Ec.
    { pose proof Hdec as Hdec0. enter_response Hdec0.
      rewrite Hcount, Hpick. cbn [bind].
      destruct Hid as [(Et & (rdn & Ern) & -> & ->)|(Et & (h & Eh & ->) & ->)];
        rewrite Et; cbn [Z.eqb Pos.eqb]; cbv iota;
        [rewrite Ern | rewrite Eh]; cbn [bind]; rewrite Ecs, Ep;
        cbn [foreign bind]; unfold CheckSignatureFrom;
        cbn [Response.SignatureAlgorithm Response.TBSResponseData
             Response.Signature Response.set_RawResponderName
             Response.set_ResponderKeyHash Response.set_Certificate];
        fold algo signed signature; rewrite Ec; reflexivity. }
    destruct issuer as [i|].
    + destruct (x509.CheckSignature i _ _ _) as [msg|] eqn:Ei.
      * pose proof Hdec as Hdec0. enter_response Hdec0.
        rewrite Hcount, Hpick. cbn [bind].
        destruct Hid as [(Et & (rdn & Ern) & -> & ->)|(Et & (h & Eh & ->) & ->)];
          rewrite Et; cbn [Z.eqb Pos.eqb]; cbv iota;
          [rewrite Ern | rewrite Eh]; cbn [bind]; rewrite Ecs, Ep;
          cbn [foreign bind]; unfold CheckSignatureFrom;
          cbn [Response.SignatureAlgorithm Response.TBSResponseData
               Response.Signature Response.set_RawResponderName
               Response.set_ResponderKeyHash Response.set_Certificate];
          fold algo signed signature; rewrite Ec, Ei; reflexivity.
      * exists c. repeat split; auto. intros i' [= <-]. exact Ei.
    + exists c. repeat split; auto. discriminate.
Qed.

(** C6.  Once the envelope decodes, an entry is selected and the responder
    ID decodes: with a certificate list that is not empty, the first
    certificate alone is parsed, and a response signature that does not
    verify against it is the error "bad signature on embedded certificate",
    whatever the issuer, nil included; if it verifies and an issuer is
    given, the certificate's own signature must verify against the issuer;
    with an empty list and an issuer, the response signature must verify
    against the issuer; and a response is returned only when these checks
    have passed. *)
Theorem ParseResponseForCert_signature_checks der cert issuer basicResp
    singleResp name keyHash :
  decodesTo der basicResp ->
  selects cert
    (responseData.Responses (basicResponse.TBSResponseData basicResp))
    singleResp ->
  responderID
    (responseData.RawResponderID (basicResponse.TBSResponseData basicResp))
    name keyHash ->
  let algo :=
    getSignatureAlgorithmFromAI (basicResponse.SignatureAlgorithm basicResp) in
  let signed := responseData.Raw (basicResponse.TBSResponseData basicResp) in
  let signature := asn1.RightAlign (basicResponse.Signature basicResp) in
  (forall certificate0 rest c msg,
     basicResponse.Certificates basicResp = certificate0 :: rest ->
     x509.ParseCertificate (asn1.FullBytes certificate0) = inl c ->
     x509.CheckSignature c algo signed signature = Some msg ->
     ParseResponseForCert der cert issuer
     = Err (ParseError
              ("bad signature on embedded certificate: " ++ msg)%string))
  /\ (forall certificate0 rest c i msg,
        basicResponse.Certificates basicResp = certificate0 :: rest ->
        x509.ParseCertificate (asn1.FullBytes certificate0) = inl c ->
        x509.CheckSignature c algo signed signature = None ->
        issuer = Some i ->
        x509.CheckSignature i (x509.Certificate_SignatureAlgorithm c)
          (x509.Certificate_RawTBSCertificate c)
          (x509.Certificate_Signature c) = Some msg ->
        ParseResponseForCert der cert issuer
        = Err (ParseError ("bad OCSP signature: " ++ msg)%string))
  /\ (forall i msg,
        basicResponse.Certificates basicResp = [] ->
        issuer = Some i ->
        x509.CheckSignature i algo signed signature = Some msg ->
        ParseResponseForCert der cert issuer
        = Err (ParseError ("bad OCSP signature: " ++ msg)%string))
  /\ (forall ret,
        ParseResponseForCert der cert issuer = OK ret ->
        signaturesOK basicResp issuer (Response.Certificate ret)
        /\ Response.SignatureAlgorithm ret = algo
        /\ Response.TBSResponseData ret = signed
        /\ Response.Signature ret = signature).
Proof.
  intros Hdec Hsel Hid algo signed signature.
  pose proof (@ParseResponseForCert_signatures der cert issuer basicResp
                singleResp name keyHash Hdec Hsel Hid) as Hs.
  cbv zeta in Hs. fold algo signed signature in Hs.
  repeat match goal with |- _ /\ _ => split end.
  - intros c0 rest c msg Ecs Ep Ec. rewrite Ecs, Ep, Ec in Hs. exact Hs.
  - intros c0 rest c i msg Ecs Ep Ec -> Ei. rewrite Ecs, Ep, Ec, Ei in Hs.
    exact Hs.
  - intros i msg Ecs -> Ei. rewrite Ecs, Ei in Hs. exact Hs.
  - intros ret Hret.
    apply ParseResponseForCert_OK in Hret
      as (b & sr & n & kh & crt & Hdec' & _ & _ & Hsig & _ & _ & ->).
    rewrite <- (decodesTo_unique Hdec Hdec') in *.
    cbn [responseOf Response.Certificate Response.SignatureAlgorithm
         Response.TBSResponseData Response.Signature].
    repeat split. exact Hsig.
Qed.

(** C9.  Once the envelope decodes and an entry with a critical
    extension is selected, [ParseResponseForCert] returns an error, and the
    error is "unsupported critical extension" when the responder ID decodes
    and the signature checks pass. *)
Theorem ParseResponseForCert_critical_extension der cert issuer basicResp
    singleResp :
  decodesTo der basicResp ->
  selects cert
    (responseData.Responses (basicResponse.TBSResponseData basicResp))
    singleResp ->
  existsb pkix.Extension.Critical
    (singleResponse.SingleExtensions singleResp) = true ->
  (exists e, ParseResponseForCert der cert issuer = Err e)
  /\ (forall name keyHash certificate,
        responderID
          (responseData.RawResponderID
             (basicResponse.TBSResponseData basicResp)) name keyHash ->
        signaturesOK basicResp issuer certificate ->
        ParseResponseForCert der cert issuer
        = Err (ParseError "unsupported critical extension")).
Proof.
  intros Hdec Hsel Hcrit. split.
  - destruct (ParseResponseForCert der cert issuer) as [ret|e] eqn:E;
      [|eauto].
    exfalso.
    apply ParseResponseForCert_OK in E
      as (b & sr & n & kh & crt & Hdec' & Hsel' & _ & _ & Hnc & _ & _).
    rewrite <- (decodesTo_unique Hdec Hdec') in *.
    assert (sr = singleResp).
    { destruct cert as [c|]; simpl in Hsel, Hsel'.
      - apply matchSerial_Some in Hsel, Hsel'. congruence.
      - congruence. }
    subst sr. congruence.
  - intros name keyHash certificate Hid Hsig.
    rewrite (@ParseResponseForCert_checked der cert issuer basicResp singleResp
               name keyHash certificate Hdec Hsel Hid Hsig), Hcrit.
    reflexivity.
Qed.

End ResponseStages.

(** ** Requests *)

Lemma supportedHash_oid h :
  supportedHash h ->
  exists oid,
    asn1.makeObjectIdentifier (getOIDFromHashAlgorithm h) = OK oid
    /\ asn1.parseObjectIdentifier oid = OK (getOIDFromHashAlgorithm h)
    /\ getHashAlgorithmFromOID (getOIDFromHashAlgorithm h) = h
    /\ getOIDFromHashAlgorithm h <> []
    /\ h <> 0.
Proof.
  intros [ -> | [ -> | [ -> | -> ] ] ]; eexists; (split; [vm_compute; reflexivity|]);
    (split; [vm_compute; reflexivity|]); (split; [reflexivity|]);
    split; discriminate.
Qed.

(** Without tag parameters, a value that is not a [RawValue] is written as
    one element of its universal type. *)
Lemma makeField_plain {A} (ty : asn1.marshalType A) v :
  asn1.asRawValue ty = None ->
  asn1.makeField ty v asn1.fieldParameters_zero
  = (body <- asn1.makeBody ty v ;;
     OK (TLV 0 (asn1.m_isCompound ty) (asn1.m_tag ty) body)).
Proof.
  intros Hr. unfold asn1.makeField. rewrite Hr.
  cbn [asn1.fieldParameters_zero asn1.optional asn1.defaultValue
       asn1.param_tag asn1.timeType asn1.explicit andb negb].
  change (0 =? 0) with true. cbn [negb andb]. reflexivity.
Qed.

Lemma mfield_plain {A} (ty : asn1.marshalType A) v :
  asn1.asRawValue ty = None ->
  asn1.mfield ty v []
  = (body <- asn1.makeBody ty v ;;
     OK (TLV 0 (asn1.m_isCompound ty) (asn1.m_tag ty) body)).
Proof. apply makeField_plain. Qed.

(** Side conditions on the tags and lengths of concrete types. *)
Ltac field_side :=
  lazymatch goal with
  | |- _ <= _ < _ => vm_compute; split; [discriminate|reflexivity]
  | |- _ <= _ <= _ => lia
  | |- len [] < _ => reflexivity
  | |- _ < _ => lia
  | |- _ <> _ => first [assumption | discriminate]
  | |- _ = _ => first [assumption | reflexivity]
  end.

Section Requests.
Context `{pkix.Names}.

Lemma mfield_RequestorName_nil :
  asn1.mfield pkix.RDNSequence_marshalType pkix.RDNSequence_nil
    [asn1.Pexplicit; asn1.Ptag 1; asn1.Poptional] = OK [].
Proof.
  unfold asn1.mfield, asn1.makeField.
  cbn [asn1.parseFieldParameters fold_left asn1.parsePart
       asn1.fieldParameters_zero asn1.optional asn1.explicit
       asn1.defaultValue asn1.param_tag asn1.timeType
       pkix.RDNSequence_marshalType asn1.Int asn1.isZero andb].
  rewrite pkix.RDNSequence_nil_isNil. reflexivity.
Qed.

Lemma Request_Marshal_requestDER req oid :
  asn1.makeObjectIdentifier (getOIDFromHashAlgorithm (Request.HashAlgorithm req))
    = OK oid ->
  getOIDFromHashAlgorithm (Request.HashAlgorithm req) <> [] ->
  Request_Marshal req
  = OK (requestDER oid (Request.IssuerNameHash req)
          (Request.IssuerKeyHash req) (Request.SerialNumber req)).
Proof.
  intros Hoid Hne. unfold Request_Marshal.
  destruct (getOIDFromHashAlgorithm (Request.HashAlgorithm req)) as [|a l] eqn:E;
    [congruence|].
  unfold asn1.Marshal.
  cbn [asn1.parseFieldParameters fold_left].
  (* ocspRequest *)
  rewrite makeField_plain by reflexivity.
  cbn [asn1.makeBody ocspRequest.marshalType asn1.m_structType
       ocspRequest.TBSRequest asn1.m_isCompound asn1.m_tag].
  (* tbsRequest *)
  rewrite mfield_plain by reflexivity.
  cbn [asn1.makeBody tbsRequest.marshalType asn1.m_structType
       tbsRequest.Version tbsRequest.RequestorName tbsRequest.RequestList
       tbsRequest.RequestExtensions asn1.m_isCompound asn1.m_tag].
  change (asn1.mfield asn1.m_intType 0
            [asn1.Pexplicit; asn1.Ptag 0; asn1.Pdefault 0; asn1.Poptional])
    with (@OK bytes []).
  rewrite mfield_RequestorName_nil.
  change (asn1.mfield (asn1.m_sliceType pkix.Extension.marshalType) []
            [asn1.Pexplicit; asn1.Ptag 2; asn1.Poptional])
    with (@OK bytes []).
  cbn [bind app].
  (* RequestList *)
  rewrite mfield_plain by reflexivity.
  cbn [asn1.makeBody asn1.m_sliceType asn1.makeBody_slice
       asn1.m_isCompound asn1.m_tag].
  (* request *)
  rewrite makeField_plain by reflexivity.
  cbn [asn1.makeBody request.marshalType asn1.m_structType request.Cert
       asn1.m_isCompound asn1.m_tag].
  (* certID *)
  rewrite mfield_plain by reflexivity.
  cbn [asn1.makeBody certID.marshalType asn1.m_structType
       certID.HashAlgorithm certID.NameHash certID.IssuerKeyHash
       certID.SerialNumber asn1.m_isCompound asn1.m_tag].
  (* AlgorithmIdentifier *)
  rewrite !mfield_plain by reflexivity.
  cbn [asn1.makeBody pkix.AlgorithmIdentifier.marshalType asn1.m_structType
       pkix.AlgorithmIdentifier.Algorithm pkix.AlgorithmIdentifier.Parameters
       asn1.m_objectIdentifierType asn1.m_bytesType asn1.m_bigIntType
       asn1.m_isCompound asn1.m_tag].
  rewrite mfield_plain by reflexivity.
  cbn [asn1.makeBody asn1.m_objectIdentifierType asn1.m_isCompound asn1.m_tag].
  rewrite Hoid. cbn [bind].
  change (asn1.mfield asn1.m_rawValueType
            {| asn1.Class := 0; asn1.Tag := 5; asn1.IsCompound := false;
               asn1.Bytes := []; asn1.FullBytes := [] |} [asn1.Poptional])
    with (OK (TLV 0 false 5 [])).
  cbn [bind]. rewrite !app_nil_r. reflexivity.
Qed.

Lemma len_TLV_ge c cmp tg body : len body <= len (TLV c cmp tg body).
Proof.
  unfold TLV. rewrite len_app.
  pose proof (len_nonneg
    (asn1.appendTagAndLength []
       {| asn1.class := c; asn1.tag := tg; asn1.length := len body;
          asn1.isCompound := cmp |})). lia.
Qed.

Lemma TLV_app_nonempty c cmp tg body rest : TLV c cmp tg body ++ rest <> [].
Proof.
  destruct (TLV_nonempty c cmp tg body) as (x & xs & ->). discriminate.
Qed.


Lemma parse_AlgorithmIdentifier oid algorithm u t whole :
  asn1.parseObjectIdentifier oid = OK algorithm ->
  len oid < 2 ^ 31 ->
  asn1.parseBody pkix.AlgorithmIdentifier.type u t
    (TLV 0 false 6 oid ++ TLV 0 false 5 []) whole
  = OK (pkix.AlgorithmIdentifier.mk algorithm nullParameters).
Proof.
  intros Hoid Hl.
  cbn [asn1.parseBody pkix.AlgorithmIdentifier.type asn1.structType].
  unfold asn1.field.
  change (asn1.parseFieldParameters []) with asn1.fieldParameters_zero.
  rewrite (@parseField_universal _ asn1.objectIdentifierType _ false 6)
    by field_side.
  cbn [asn1.parseBody asn1.objectIdentifierType].
  rewrite Hoid. cbn [bind].
  rewrite <- (app_nil_r (TLV 0 false 5 [])).
  rewrite parseField_rawValue by field_side.
  reflexivity.
Qed.

Lemma parse_certID algbody algorithm nameHash keyHash serial u t whole :
  (forall u' t' whole',
     asn1.parseBody pkix.AlgorithmIdentifier.type u' t' algbody whole'
     = OK algorithm) ->
  len algbody < 2 ^ 31 -> len nameHash < 2 ^ 31 -> len keyHash < 2 ^ 31 ->
  len (asn1.makeBigInt serial) < 2 ^ 31 ->
  asn1.parseBody certID.type u t
    (TLV 0 true 16 algbody ++ TLV 0 false 4 nameHash
     ++ TLV 0 false 4 keyHash ++ TLV 0 false 2 (asn1.makeBigInt serial))
    whole
  = OK (certID.mk algorithm nameHash keyHash serial).
Proof.
  intros Halg L1 L2 L3 L4.
  cbn [asn1.parseBody certID.type asn1.structType].
  unfold asn1.field.
  change (asn1.parseFieldParameters []) with asn1.fieldParameters_zero.
  rewrite (@parseField_universal _ pkix.AlgorithmIdentifier.type _ true 16)
    by field_side.
  rewrite Halg. cbn [bind].
  rewrite (@parseField_universal _ asn1.bytesType _ false 4) by field_side.
  cbn [bind asn1.parseBody asn1.bytesType].
  rewrite (@parseField_universal _ asn1.bytesType _ false 4) by field_side.
  cbn [bind asn1.parseBody asn1.bytesType].
  rewrite <- (app_nil_r (TLV 0 false 2 _)).
  rewrite (@parseField_universal _ asn1.bigIntType _ false 2) by field_side.
  cbn [bind asn1.parseBody asn1.bigIntType].
  rewrite parseBigInt_makeBigInt. reflexivity.
Qed.

Lemma parse_request fields cert u t whole :
  (forall u' t' whole',
     asn1.parseBody certID.type u' t' fields whole' = OK cert) ->
  len fields < 2 ^ 31 ->
  asn1.parseBody request.type u t (TLV 0 true 16 fields) whole
  = OK (request.mk cert).
Proof.
  intros Hcert L.
  cbn [asn1.parseBody request.type asn1.structType].
  unfold asn1.field.
  change (asn1.parseFieldParameters []) with asn1.fieldParameters_zero.
  rewrite <- (app_nil_r (TLV 0 true 16 fields)).
  rewrite (@parseField_universal _ certID.type _ true 16) by field_side.
  rewrite Hcert. reflexivity.
Qed.

Lemma parse_tbsRequest b5 r u t whole :
  (forall u' t' whole',
     asn1.parseBody request.type u' t' b5 whole' = OK r) ->
  len b5 < 2 ^ 31 -> len (TLV 0 true 16 b5) < 2 ^ 31 ->
  asn1.parseBody tbsRequest.type u t (TLV 0 true 16 (TLV 0 true 16 b5)) whole
  = OK (tbsRequest.mk 0 pkix.RDNSequence_nil [r] []).
Proof.
  intros Hr L5 L4.
  cbn [asn1.parseBody tbsRequest.type asn1.structType].
  unfold asn1.field.
  change (asn1.parseFieldParameters []) with asn1.fieldParameters_zero.
  rewrite <- (app_nil_r (TLV 0 true 16 (TLV 0 true 16 b5))).
  assert (Hne : TLV 0 true 16 b5 ++ [] <> []) by apply TLV_app_nonempty.
  rewrite (@parseField_explicit_absent _ asn1.intType _ true 16
             (TLV 0 true 16 b5) [] 0) by field_side.
  cbn [bind].
  rewrite (@parseField_explicit_absent _ pkix.RDNSequence_type _ true 16
             (TLV 0 true 16 b5) [] pkix.RDNSequence_nil) by field_side.
  cbn [bind].
  rewrite (@parseField_universal _ (asn1.sliceType request.type) _ true 16)
    by field_side.
  cbn [asn1.parseBody asn1.sliceType].
  rewrite (@parseSequenceOf_single _ request.type true) by field_side.
  rewrite Hr. cbn [bind].
  rewrite parseField_nil with (v := []) by reflexivity. reflexivity.
Qed.

Lemma parse_ocspRequest b3 tbs :
  (forall u' t' whole',
     asn1.parseBody tbsRequest.type u' t' b3 whole' = OK tbs) ->
  len b3 < 2 ^ 31 -> len (TLV 0 true 16 b3) < 2 ^ 31 ->
  asn1.Unmarshal ocspRequest.type (TLV 0 true 16 (TLV 0 true 16 b3))
  = OK (ocspRequest.mk tbs, []).
Proof.
  intros Htbs L3 L2. unfold asn1.Unmarshal.
  change (asn1.parseFieldParameters []) with asn1.fieldParameters_zero.
  rewrite <- (app_nil_r (TLV 0 true 16 (TLV 0 true 16 b3))).
  rewrite (@parseField_universal _ ocspRequest.type _ true 16) by field_side.
  cbn [asn1.parseBody ocspRequest.type asn1.structType].
  unfold asn1.field.
  change (asn1.parseFieldParameters []) with asn1.fieldParameters_zero.
  rewrite <- (app_nil_r (TLV 0 true 16 b3)).
  rewrite (@parseField_universal _ tbsRequest.type _ true 16) by field_side.
  rewrite Htbs. reflexivity.
Qed.

Unset Implicit Arguments.

Lemma len_TLV_lt c cmp tg body n :
  len (TLV c cmp tg body) < n -> len body < n.
Proof. intros L. pose proof (len_TLV_ge c cmp tg body). lia. Qed.

Lemma len_app_lt_l (a b : bytes) n : len (a ++ b) < n -> len a < n.
Proof. rewrite len_app. pose proof (len_nonneg b). lia. Qed.

Lemma len_app_lt_r (a b : bytes) n : len (a ++ b) < n -> len b < n.
Proof. rewrite len_app. pose proof (len_nonneg a). lia. Qed.

(** A request in the form of [requestDER], shorter than [2 ^ 31] bytes, is
    parsed into its four fields and no extensions. *)
Lemma ParseRequest_requestDER oid algorithm nameHash keyHash serial :
  asn1.parseObjectIdentifier oid = OK algorithm ->
  getHashAlgorithmFromOID algorithm <> 0 ->
  len (requestDER oid nameHash keyHash serial) < 2 ^ 31 ->
  ParseRequest (requestDER oid nameHash keyHash serial)
  = OK {| Request.HashAlgorithm := getHashAlgorithmFromOID algorithm;
          Request.IssuerNameHash := nameHash;
          Request.IssuerKeyHash := keyHash;
          Request.SerialNumber := serial;
          Request.Extensions := [] |}.
Proof.
  intros Hoid Hh Hlen.
  pose proof (len_TLV_lt _ _ _ _ _ Hlen) as L2.
  pose proof (len_TLV_lt _ _ _ _ _ L2) as L3.
  pose proof (len_TLV_lt _ _ _ _ _ L3) as L4.
  pose proof (len_TLV_lt _ _ _ _ _ L4) as L5.
  pose proof (len_TLV_lt _ _ _ _ _ L5) as L6.
  pose proof (len_TLV_lt _ _ _ _ _ (len_app_lt_l _ _ _ L6)) as La.
  pose proof (len_app_lt_r _ _ _ L6) as R1.
  pose proof (len_TLV_lt _ _ _ _ _ (len_app_lt_l _ _ _ R1)) as Ln.
  pose proof (len_app_lt_r _ _ _ R1) as R2.
  pose proof (len_TLV_lt _ _ _ _ _ (len_app_lt_l _ _ _ R2)) as Lk.
  pose proof (len_TLV_lt _ _ _ _ _ (len_app_lt_r _ _ _ R2)) as Ls.
  pose proof (len_TLV_lt _ _ _ _ _ (len_app_lt_l _ _ _ La)) as Lo.
  unfold ParseRequest.
  rewrite (@parse_ocspRequest _
             (tbsRequest.mk 0 pkix.RDNSequence_nil
                [request.mk
                   (certID.mk
                      (pkix.AlgorithmIdentifier.mk algorithm nullParameters)
                      nameHash keyHash serial)] [])).
  - cbn [bind len List.length Z.of_nat].
    change (0 >? 0) with false. cbv iota.
    cbn [tbsRequest.RequestList ocspRequest.TBSRequest request.Cert
         certID.HashAlgorithm pkix.AlgorithmIdentifier.Algorithm
         certID.NameHash certID.IssuerKeyHash certID.SerialNumber
         tbsRequest.RequestExtensions].
    destruct (Z.eqb_spec (getHashAlgorithmFromOID algorithm) 0);
      [contradiction|reflexivity].
  - intros u t whole.
    apply parse_tbsRequest; [|exact L5|exact L4].
    intros u' t' whole'. apply parse_request; [|exact L6].
    intros u'' t'' whole''.
    apply parse_certID; [|exact La|exact Ln|exact Lk|exact Ls].
    intros u3 t3 whole3.
    apply parse_AlgorithmIdentifier; [exact Hoid|exact Lo].
  - exact L3.
  - exact L2.
Qed.

End Requests.

Set Implicit Arguments.

Section RequestRoundTrip.
Context `{pkix.Names}.

(** A request with a supported hash is marshalled, whatever its
    extensions, to a DER form that is parsed back, when it is shorter than
    [2 ^ 31] bytes, into the same four fields and no extensions. *)
Lemma Request_Marshal_ParseRequest req :
  supportedHash (Request.HashAlgorithm req) ->
  exists der,
    (forall exts, Request_Marshal (withExtensions req exts) = OK der)
    /\ (len der < 2 ^ 31 -> ParseRequest der = OK (withExtensions req [])).
Proof.
  intros Hs.
  destruct (supportedHash_oid Hs) as (oid & Hm & Hp & Hh & Hne & Hnz).
  exists (requestDER oid (Request.IssuerNameHash req)
            (Request.IssuerKeyHash req) (Request.SerialNumber req)).
  split.
  - intros exts.
    apply (@Request_Marshal_requestDER _ (withExtensions req exts) oid);
      assumption.
  - intros Hlen.
    rewrite (@ParseRequest_requestDER _ oid
               (getOIDFromHashAlgorithm (Request.HashAlgorithm req)));
      try assumption.
    + unfold withExtensions. rewrite Hh. reflexivity.
    + rewrite Hh. assumption.
Qed.

Lemma withExtensions_same req : withExtensions req (Request.Extensions req) = req.
Proof. destruct req; reflexivity. Qed.

(** C2.  For a request whose hash algorithm is SHA-1, SHA-256, SHA-384 or
    SHA-512, [Marshal] succeeds, and [ParseRequest] on the marshalled DER,
    when it is within the length that the codec accepts (shorter than
    [2 ^ 31] bytes), returns a request with the same hash algorithm, issuer
    name hash, issuer key hash and serial number. *)
Theorem Marshal_ParseRequest_roundtrip req :
  supportedHash (Request.HashAlgorithm req) ->
  exists der,
    Request_Marshal req = OK der
    /\ (len der < 2 ^ 31 ->
        exists parsed,
          ParseRequest der = OK parsed
          /\ Request.HashAlgorithm parsed = Request.HashAlgorithm req
          /\ Request.IssuerNameHash parsed = Request.IssuerNameHash req
          /\ Request.IssuerKeyHash parsed = Request.IssuerKeyHash req
          /\ Request.SerialNumber parsed = Request.SerialNumber req).
Proof.
  intros Hs. destruct (Request_Marshal_ParseRequest req Hs) as (der & Hm & Hp).
  exists der. split.
  - rewrite <- (withExtensions_same req) at 1. apply Hm.
  - intros Hlen. exists (withExtensions req []).
    split; [apply Hp; assumption|]. repeat split.
Qed.

(** C10.  [Marshal] ignores the extensions of the request: for a supported
    hash algorithm the marshalled DER is the same whatever the extensions,
    and [ParseRequest] on it (within the length that the codec accepts)
    returns a request with no extensions. *)
Theorem Marshal_ignores_Extensions req :
  supportedHash (Request.HashAlgorithm req) ->
  exists der,
    Request_Marshal req = OK der
    /\ (forall exts, Request_Marshal (withExtensions req exts) = OK der)
    /\ (len der < 2 ^ 31 ->
        exists parsed,
          ParseRequest der = OK parsed /\ Request.Extensions parsed = []).
Proof.
  intros Hs. destruct (Request_Marshal_ParseRequest req Hs) as (der & Hm & Hp).
  exists der. split; [|split].
  - rewrite <- (withExtensions_same req) at 1. apply Hm.
  - exact Hm.
  - intros Hlen. exists (withExtensions req []).
    split; [apply Hp; assumption|reflexivity].
Qed.

(** What [ParseRequest] rejects after decoding. *)
Lemma ParseRequest_decode_error der e :
  asn1.Unmarshal ocspRequest.type der = Err e -> ParseRequest der = Err e.
Proof. intros E. unfold ParseRequest. rewrite E. reflexivity. Qed.

Lemma ParseRequest_trailing_data der req rest :
  asn1.Unmarshal ocspRequest.type der = OK (req, rest) -> rest <> [] ->
  ParseRequest der = Err (ParseError "trailing data in OCSP request").
Proof.
  intros E Hne. unfold ParseRequest. rewrite E. cbn [bind].
  destruct rest as [|x l]; [congruence|].
  assert (Hl : (len (x :: l) >? 0) = true)
    by (apply Z.gtb_lt; rewrite len_cons; pose proof (len_nonneg l); lia).
  rewrite Hl. reflexivity.
Qed.

Lemma ParseRequest_no_request der req :
  asn1.Unmarshal ocspRequest.type der = OK (req, []) ->
  tbsRequest.RequestList (ocspRequest.TBSRequest req) = [] ->
  ParseRequest der = Err (ParseError "OCSP request contains no request body").
Proof.
  intros E Hl. unfold ParseRequest. rewrite E. cbn [bind]. rewrite Hl.
  reflexivity.
Qed.

Lemma getHashAlgorithmFromOID_zero oid :
  getHashAlgorithmFromOID oid = 0 <->
  oid <> oidSHA1 /\ oid <> oidSHA256 /\ oid <> oidSHA384 /\ oid <> oidSHA512.
Proof.
  unfold getHashAlgorithmFromOID, hashOIDs. cbn [hashOIDs_byOID].
  destruct (asn1.ObjectIdentifier_Equal oidSHA1 oid) eqn:E1;
    [apply ObjectIdentifier_Equal_eq in E1; subst; split;
       [discriminate|tauto]|].
  destruct (asn1.ObjectIdentifier_Equal oidSHA256 oid) eqn:E2;
    [apply ObjectIdentifier_Equal_eq in E2; subst; split;
       [discriminate|tauto]|].
  destruct (asn1.ObjectIdentifier_Equal oidSHA384 oid) eqn:E3;
    [apply ObjectIdentifier_Equal_eq in E3; subst; split;
       [discriminate|tauto]|].
  destruct (asn1.ObjectIdentifier_Equal oidSHA512 oid) eqn:E4;
    [apply ObjectIdentifier_Equal_eq in E4; subst; split;
       [discriminate|tauto]|].
  split; [|reflexivity]. intros _.
  repeat split; intros ->.
  - rewrite (proj2 (ObjectIdentifier_Equal_eq _ _) eq_refl) in E1. discriminate.
  - rewrite (proj2 (ObjectIdentifier_Equal_eq _ _) eq_refl) in E2. discriminate.
  - rewrite (proj2 (ObjectIdentifier_Equal_eq _ _) eq_refl) in E3. discriminate.
  - rewrite (proj2 (ObjectIdentifier_Equal_eq _ _) eq_refl) in E4. discriminate.
Qed.

Lemma ParseRequest_unknown_hash der req innerRequest others :
  asn1.Unmarshal ocspRequest.type der = OK (req, []) ->
  tbsRequest.RequestList (ocspRequest.TBSRequest req)
    = innerRequest :: others ->
  (let oid := pkix.AlgorithmIdentifier.Algorithm
                (certID.HashAlgorithm (request.Cert innerRequest)) in
   oid <> oidSHA1 /\ oid <> oidSHA256 /\ oid <> oidSHA384 /\ oid <> oidSHA512) ->
  ParseRequest der
  = Err (ParseError "OCSP request uses unknown hash function").
Proof.
  intros E Hl Hoid. apply getHashAlgorithmFromOID_zero in Hoid.
  unfold ParseRequest. rewrite E. cbn [bind]. rewrite Hl, Hoid. reflexivity.
Qed.

End RequestRoundTrip.

Section SignedRequests.
Context `{pkix.Names}.

(** C8.  [ParseRequest] accepts a request that includes a signature: the
    optionalSignature element after the TBSRequest is left unread by the
    decoder, and the answer is the one for the same request without a
    signature.  The doc comment of [ParseRequest] says that such a request
    results in a [ParseError]. *)
Theorem ParseRequest_signed_request :
  ParseRequest Sample.signedRequest = OK Sample.request
  /\ ParseRequest Sample.unsignedRequest = OK Sample.request.
Proof. split; vm_compute; reflexivity. Qed.

(** The other three rejections hold on the samples. *)
Example ParseRequest_rejections :
  ParseRequest Sample.trailingRequest
  = Err (ParseError "trailing data in OCSP request")
  /\ ParseRequest Sample.emptyRequest
     = Err (ParseError "OCSP request contains no request body")
  /\ ParseRequest Sample.md5Request
     = Err (ParseError "OCSP request uses unknown hash function").
Proof. repeat split; vm_compute; reflexivity. Qed.

End SignedRequests.

(** * Further properties *)

(** ** The hash registry *)

Lemma getOIDFromHashAlgorithm_nil h :
  getOIDFromHashAlgorithm h = [] <-> ~ supportedHash h.
Proof.
  unfold getOIDFromHashAlgorithm, hashOIDs, supportedHash.
  cbn [hashOIDs_byHash].
  destruct (Z.eqb_spec crypto.SHA1 h) as [<-|N1];
    [split; [discriminate|intros N; exfalso; apply N; auto]|].
  destruct (Z.eqb_spec crypto.SHA256 h) as [<-|N2];
    [split; [discriminate|intros N; exfalso; apply N; auto]|].
  destruct (Z.eqb_spec crypto.SHA384 h) as [<-|N3];
    [split; [discriminate|intros N; exfalso; apply N; auto]|].
  destruct (Z.eqb_spec crypto.SHA512 h) as [<-|N4];
    [split; [discriminate|intros N; exfalso; apply N; auto]|].
  split; [|reflexivity]. intros _ [E|[E|[E|E]]]; congruence.
Qed.

Lemma supportedHash_dec h : supportedHash h \/ ~ supportedHash h.
Proof.
  unfold supportedHash.
  destruct (Z.eq_dec h crypto.SHA1); [auto|].
  destruct (Z.eq_dec h crypto.SHA256); [auto|].
  destruct (Z.eq_dec h crypto.SHA384); [auto|].
  destruct (Z.eq_dec h crypto.SHA512); [auto|].
  right. intros [E|[E|[E|E]]]; contradiction.
Qed.

Lemma getHashAlgorithmFromOID_cases oid :
  (oid = oidSHA1 /\ getHashAlgorithmFromOID oid = crypto.SHA1)
  \/ (oid = oidSHA256 /\ getHashAlgorithmFromOID oid = crypto.SHA256)
  \/ (oid = oidSHA384 /\ getHashAlgorithmFromOID oid = crypto.SHA384)
  \/ (oid = oidSHA512 /\ getHashAlgorithmFromOID oid = crypto.SHA512)
  \/ (getHashAlgorithmFromOID oid = 0).
Proof.
  unfold getHashAlgorithmFromOID, hashOIDs. cbn [hashOIDs_byOID].
  destruct (asn1.ObjectIdentifier_Equal oidSHA1 oid) eqn:E1;
    [apply ObjectIdentifier_Equal_eq in E1; auto|].
  destruct (asn1.ObjectIdentifier_Equal oidSHA256 oid) eqn:E2;
    [apply ObjectIdentifier_Equal_eq in E2; auto|].
  destruct (asn1.ObjectIdentifier_Equal oidSHA384 oid) eqn:E3;
    [apply ObjectIdentifier_Equal_eq in E3; auto 6|].
  destruct (asn1.ObjectIdentifier_Equal oidSHA512 oid) eqn:E4;
    [apply ObjectIdentifier_Equal_eq in E4; auto 6|].
  auto 6.
Qed.

Lemma getHashAlgorithmFromOID_supported oid :
  getHashAlgorithmFromOID oid <> 0 ->
  supportedHash (getHashAlgorithmFromOID oid)
  /\ getOIDFromHashAlgorithm (getHashAlgorithmFromOID oid) = oid.
Proof.
  intros Hne. unfold supportedHash.
  destruct (getHashAlgorithmFromOID_cases oid)
    as [[-> ->]|[[-> ->]|[[-> ->]|[[-> ->]|E]]]];
    [split; [auto|reflexivity]..|contradiction].
Qed.

(** X1.  The two lookups in [hashOIDs] are inverse to each other on the four
    registered hashes, and answer nil and zero everywhere else. *)
Theorem hashOIDs_lookups_inverse (h : crypto.Hash)
    (oid : asn1.ObjectIdentifier) :
  (getOIDFromHashAlgorithm h <> [] <-> supportedHash h)
  /\ (supportedHash h ->
      getHashAlgorithmFromOID (getOIDFromHashAlgorithm h) = h)
  /\ (getHashAlgorithmFromOID oid <> 0 <->
      oid = oidSHA1 \/ oid = oidSHA256 \/ oid = oidSHA384 \/ oid = oidSHA512)
  /\ (getHashAlgorithmFromOID oid <> 0 ->
      getOIDFromHashAlgorithm (getHashAlgorithmFromOID oid) = oid)
  /\ getHashAlgorithmFromOID [] = 0
  /\ getOIDFromHashAlgorithm 0 = [].
Proof.
  split; [|split; [|split; [|split; [|split]]]]; try reflexivity.
  - split.
    + intros Hne. destruct (supportedHash_dec h) as [S|N]; [exact S|].
      apply getOIDFromHashAlgorithm_nil in N. contradiction.
    + intros S E. apply getOIDFromHashAlgorithm_nil in E. contradiction.
  - intros S. destruct (supportedHash_oid S) as (_ & _ & _ & E & _). exact E.
  - split.
    + intros Hne.
      destruct (getHashAlgorithmFromOID_cases oid)
        as [ [ -> _ ] | [ [ -> _ ] | [ [ -> _ ] | [ [ -> _ ] | E ] ] ] ]; auto.
      contradiction.
    + intros [ -> | [ -> | [ -> | -> ] ] ]; discriminate.
  - intros Hne. apply getHashAlgorithmFromOID_supported. exact Hne.
Qed.

(** ** Requests *)

Section MoreRequests.
Context `{pkix.Names}.

(** X2.  On a request with a serial number that is not nil, as every
    request here is, [Marshal] succeeds exactly for the four registered
    hash algorithms; for any other hash it is the error "unknown hash
    algorithm", which comes before the serial number is looked at. *)
Theorem Request_Marshal_succeeds_iff (req : Request.t) :
  ((exists der, Request_Marshal req = OK der)
   <-> supportedHash (Request.HashAlgorithm req))
  /\ (~ supportedHash (Request.HashAlgorithm req) ->
      Request_Marshal req = Err (errorString "unknown hash algorithm")).
Proof.
  assert (Hbad : ~ supportedHash (Request.HashAlgorithm req) ->
                 Request_Marshal req = Err (errorString "unknown hash algorithm")).
  { intros N. apply getOIDFromHashAlgorithm_nil in N.
    unfold Request_Marshal. rewrite N. reflexivity. }
  split; [|exact Hbad]. split.
  - intros (der & E).
    destruct (supportedHash_dec (Request.HashAlgorithm req)) as [S|N];
      [exact S|].
    rewrite (Hbad N) in E. discriminate.
  - intros S. destruct (Request_Marshal_ParseRequest req S) as (der & Hm & _).
    exists der. rewrite <- (withExtensions_same req). apply Hm.
Qed.

(** What [ParseRequest] returns, read off its source: the fields of the
    first entry of the request list, under a registered hash. *)
Lemma ParseRequest_OK der r :
  ParseRequest der = OK r ->
  exists req innerRequest others,
    asn1.Unmarshal ocspRequest.type der = OK (req, [])
    /\ tbsRequest.RequestList (ocspRequest.TBSRequest req)
       = innerRequest :: others
    /\ getHashAlgorithmFromOID
         (pkix.AlgorithmIdentifier.Algorithm
            (certID.HashAlgorithm (request.Cert innerRequest))) <> 0
    /\ r = {| Request.HashAlgorithm :=
                getHashAlgorithmFromOID
                  (pkix.AlgorithmIdentifier.Algorithm
                     (certID.HashAlgorithm (request.Cert innerRequest)));
              Request.IssuerNameHash :=
                certID.NameHash (request.Cert innerRequest);
              Request.IssuerKeyHash :=
                certID.IssuerKeyHash (request.Cert innerRequest);
              Request.SerialNumber :=
                certID.SerialNumber (request.Cert innerRequest);
              Request.Extensions :=
                tbsRequest.RequestExtensions (ocspRequest.TBSRequest req) |}.
Proof.
  unfold ParseRequest. intros Hr.
  destruct (asn1.Unmarshal ocspRequest.type der) as [[req rest]|e] eqn:E;
    [|discriminate].
  cbn [bind] in Hr.
  destruct rest as [|x rest].
  2:{ assert (Hl : (len (x :: rest) >? 0) = true)
        by (apply Z.gtb_lt; rewrite len_cons; pose proof (len_nonneg rest); lia).
      rewrite Hl in Hr. discriminate. }
  cbn [len List.length Z.of_nat] in Hr. change (0 >? 0) with false in Hr.
  cbv iota in Hr.
  destruct (tbsRequest.RequestList (ocspRequest.TBSRequest req))
    as [|innerRequest others] eqn:El; [discriminate|].
  cbv zeta in Hr.
  destruct (Z.eqb_spec
              (getHashAlgorithmFromOID
                 (pkix.AlgorithmIdentifier.Algorithm
                    (certID.HashAlgorithm (request.Cert innerRequest)))) 0)
    as [E0|N0]; [discriminate|].
  injection Hr as <-. exists req, innerRequest, others. repeat split; auto.
Qed.

(** X3.  A request that [ParseRequest] returns names one of the four
    registered hashes, so [Marshal] succeeds on it; and parsing the
    marshalled form (within the length that the codec accepts) gives the same
    request without its extensions. *)
Theorem ParseRequest_Marshal_again (der : bytes) (r : Request.t) :
  ParseRequest der = OK r ->
  supportedHash (Request.HashAlgorithm r)
  /\ exists der',
       Request_Marshal r = OK der'
       /\ (len der' < 2 ^ 31 -> ParseRequest der' = OK (withExtensions r [])).
Proof.
  intros Hr. apply ParseRequest_OK in Hr
    as (req & inner & others & _ & _ & Hne & ->).
  cbn [Request.HashAlgorithm].
  destruct (@getHashAlgorithmFromOID_supported _ Hne) as [S _].
  split; [exact S|].
  match goal with |- exists der', Request_Marshal ?r = _ /\ _ =>
    destruct (Request_Marshal_ParseRequest r S) as (der' & Hm & Hp);
    exists der'; split;
    [rewrite <- (withExtensions_same r); apply Hm | exact Hp]
  end.
Qed.

End MoreRequests.

(** ** The signature algorithms *)

Lemma getSignatureAlgorithmFromAI_not_PSS oid params :
  oid <> oidSignatureRSAPSS ->
  getSignatureAlgorithmFromAI (pkix.AlgorithmIdentifier.mk oid params)
  = getSignatureAlgorithmFromAI_loop oid signatureAlgorithmDetails.
Proof.
  intros N. unfold getSignatureAlgorithmFromAI.
  cbn [pkix.AlgorithmIdentifier.Algorithm].
  destruct (asn1.ObjectIdentifier_Equal oid oidSignatureRSAPSS) eqn:E;
    [apply ObjectIdentifier_Equal_eq in E; contradiction|reflexivity].
Qed.

Lemma getSignatureAlgorithmFromAI_loop_unknown oid table :
  (forall d, In d table -> details.oid d <> oid) ->
  getSignatureAlgorithmFromAI_loop oid table = x509.UnknownSignatureAlgorithm.
Proof.
  induction table as [|d table IH]; intros Hall; [reflexivity|].
  cbn [getSignatureAlgorithmFromAI_loop].
  destruct (asn1.ObjectIdentifier_Equal oid (details.oid d)) eqn:E.
  - apply ObjectIdentifier_Equal_eq in E. exfalso.
    apply (Hall d (or_introl eq_refl)). congruence.
  - apply IH. intros d' Hin. apply Hall. right. exact Hin.
Qed.

(** X4.  For an identifier other than RSA-PSS,
    [getSignatureAlgorithmFromAI] looks at the OID alone: every entry of the
    table that is not RSA-PSS resolves to its own algorithm whatever the
    parameters, and an OID that the table does not hold resolves to
    UnknownSignatureAlgorithm. *)
Theorem getSignatureAlgorithmFromAI_table (params : asn1.RawValue) :
  (forall d, In d signatureAlgorithmDetails ->
     details.isRSAPSS d = false ->
     getSignatureAlgorithmFromAI
       (pkix.AlgorithmIdentifier.mk (details.oid d) params)
     = details.algo d)
  /\ (forall oid,
        (forall d, In d signatureAlgorithmDetails -> details.oid d <> oid) ->
        getSignatureAlgorithmFromAI (pkix.AlgorithmIdentifier.mk oid params)
        = x509.UnknownSignatureAlgorithm).
Proof.
  split.
  - intros d Hin Hpss.
    repeat (destruct Hin as [<-|Hin]; [first [discriminate Hpss | reflexivity]|]).
    destruct Hin.
  - intros oid Hall.
    rewrite getSignatureAlgorithmFromAI_not_PSS.
    + apply getSignatureAlgorithmFromAI_loop_unknown. exact Hall.
    + intros ->.
      apply (Hall (details.mk x509.SHA256WithRSAPSS oidSignatureRSAPSS
                     pssParametersSHA256 x509.RSA crypto.SHA256 true));
        [simpl; auto 10|reflexivity].
Qed.

(** ** Signing parameters *)

Ltac in_table :=
  cbn [In signatureAlgorithmDetails];
  repeat first [left; reflexivity | right].

(** Looks for the entry of a table that [tac] accepts. *)
Ltac try_entries table tac :=
  lazymatch table with
  | ?d :: ?table' => first [ exists d; solve [tac] | try_entries table' tac ]
  end.

(** X5.  What [signingParamsForPublicKey] returns is an entry of the table
    for the type of the key: its OID and parameters, its hash as the hash
    of the signer options (never the zero hash), PSS options exactly for an
    RSA-PSS entry; [getSignatureAlgorithmFromAI] resolves the returned
    identifier to the algorithm of that entry, which is the requested one
    when one was requested. *)
Theorem signingParamsForPublicKey_resolves (pub : PublicKey)
    (requestedSigAlgo : x509.SignatureAlgorithm) (signerOpts : SignerOpts)
    (sigAlgo : pkix.AlgorithmIdentifier.t) :
  signingParamsForPublicKey pub requestedSigAlgo = OK (signerOpts, sigAlgo) ->
  exists d,
    In d signatureAlgorithmDetails
    /\ keyType pub = Some (details.pubKeyAlgo d)
    /\ sigAlgo = pkix.AlgorithmIdentifier.mk (details.oid d) (details.params d)
    /\ HashFunc signerOpts = details.hash d
    /\ details.hash d <> 0
    /\ signerOpts
       = (if details.isRSAPSS d
          then PSSOptions rsa.PSSSaltLengthEqualsHash (details.hash d)
          else SignerOpts_Hash (details.hash d))
    /\ getSignatureAlgorithmFromAI sigAlgo = details.algo d
    /\ (requestedSigAlgo <> x509.UnknownSignatureAlgorithm ->
        details.algo d = requestedSigAlgo).
Proof.
  intros Hs.
  destruct pub as [|[| | | |]|]; destruct requestedSigAlgo;
    vm_compute in Hs; try discriminate Hs;
    injection Hs as <- <-;
    let table := eval unfold signatureAlgorithmDetails
                   in signatureAlgorithmDetails in
    try_entries table
      ltac:(split; [in_table|];
            repeat (split; [reflexivity|]);
            (split; [discriminate|]);
            repeat (split; [reflexivity|]);
            first [ intros _; reflexivity
                  | intros N; exfalso; apply N; reflexivity ]).
Qed.

(** X6.  [signingParamsForPublicKey] fails for every key that is neither an
    RSA key nor an ECDSA key on P-224, P-256, P-384 or P-521; for such a key
    it succeeds without a requested algorithm, and with one exactly when the
    table holds the algorithm for the type of the key with a hash to sign
    with.  MD2WithRSA, the DSA algorithms and PureEd25519 are refused for
    every key. *)
Theorem signingParamsForPublicKey_succeeds_iff (pub : PublicKey)
    (requestedSigAlgo : x509.SignatureAlgorithm) :
  (keyType pub = None ->
   exists msg,
     signingParamsForPublicKey pub requestedSigAlgo = Err (errorString msg))
  /\ (keyType pub <> None ->
      exists r,
        signingParamsForPublicKey pub x509.UnknownSignatureAlgorithm = OK r)
  /\ (forall kt, keyType pub = Some kt ->
      requestedSigAlgo <> x509.UnknownSignatureAlgorithm ->
      ((exists r, signingParamsForPublicKey pub requestedSigAlgo = OK r)
       <-> exists d,
             In d signatureAlgorithmDetails
             /\ details.algo d = requestedSigAlgo
             /\ details.pubKeyAlgo d = kt
             /\ details.hash d <> 0))
  /\ (In requestedSigAlgo
        [x509.MD2WithRSA; x509.DSAWithSHA1; x509.DSAWithSHA256;
         x509.PureEd25519] ->
      exists msg,
        signingParamsForPublicKey pub requestedSigAlgo
        = Err (errorString msg)).
Proof.
  split; [|split; [|split]].
  - destruct pub as [|[| | | |]|]; try discriminate; intros _;
      eexists; reflexivity.
  - destruct pub as [|[| | | |]|]; intros N; try (exfalso; apply N; reflexivity);
      eexists; reflexivity.
  - intros kt Hk Hreq. split.
    + intros (r & Hr).
      destruct pub as [|[| | | |]|]; try discriminate Hk;
        injection Hk as <-;
        destruct requestedSigAlgo;
        try (exfalso; apply Hreq; reflexivity);
        vm_compute in Hr; try discriminate Hr;
        let table := eval unfold signatureAlgorithmDetails
                       in signatureAlgorithmDetails in
        try_entries table
          ltac:(split; [in_table|]; repeat (split; [reflexivity|]);
                discriminate).
    + intros (d & Hin & <- & <- & Hh).
      cbn [In signatureAlgorithmDetails] in Hin.
      repeat (destruct Hin as [<-|Hin];
              [ destruct pub as [|[| | | |]|]; try discriminate Hk;
                first [ exfalso; apply Hh; reflexivity
                      | eexists; vm_compute; reflexivity ] | ]).
      destruct Hin.
  - cbn [In]. intros [<-|[<-|[<-|[<-|[]]]]];
      destruct pub as [|[| | | |]|]; eexists; vm_compute; reflexivity.
Qed.

(** ** More on the response parser *)

Section MoreResponses.
Context `{TimeLib} `{pkix.Names} `{x509.Lib}.

Lemma signaturesOK_without_issuer basicResp issuer certificate :
  signaturesOK basicResp issuer certificate ->
  signaturesOK basicResp None certificate.
Proof.
  unfold signaturesOK. cbv zeta.
  destruct (basicResponse.Certificates basicResp) as [|certificate0 l].
  - intros [-> _]. split; [reflexivity|]. discriminate.
  - intros (c & -> & Hp & Hc & _). exists c. repeat split; auto. discriminate.
Qed.

Lemma several_entries {A} (x y : A) l :
  (len (x :: y :: l) =? 0)
  || (isNil (@None x509.Certificate) && (len (x :: y :: l) >? 1))
  = true.
Proof.
  assert (Hn : (len (x :: y :: l) >? 1) = true).
  { apply Z.gtb_lt. unfold len. simpl List.length. lia. }
  rewrite Hn. cbn [isNil andb]. apply orb_true_r.
Qed.

(** X7.  A response that [ParseResponseForCert] returns keeps the input as
    [Raw], has the status Good, Revoked or Unknown, names one of the four
    registered hashes as [IssuerHash], carries no critical extension, leaves
    the two lists of extra extensions empty, and has the serial number of
    [cert] when one was given. *)
Theorem ParseResponseForCert_returns (der : bytes)
    (cert issuer : option x509.Certificate) (ret : Response.t) :
  ParseResponseForCert der cert issuer = OK ret ->
  Response.Raw ret = der
  /\ (Response.Status ret = Good \/ Response.Status ret = Revoked
      \/ Response.Status ret = Unknown)
  /\ supportedHash (Response.IssuerHash ret)
  /\ existsb pkix.Extension.Critical (Response.Extensions ret) = false
  /\ Response.ExtraExtensions ret = []
  /\ Response.ResponseExtraExtensions ret = []
  /\ (forall c, cert = Some c ->
      Response.SerialNumber ret = x509.Certificate_SerialNumber c).
Proof.
  intros Hret. apply ParseResponseForCert_OK in Hret
    as (b & sr & name & kh & crt & _ & Hsel & _ & _ & Hnc & Hh & ->).
  cbn [responseOf Response.Raw Response.Status Response.IssuerHash
       Response.Extensions Response.ExtraExtensions
       Response.ResponseExtraExtensions Response.SerialNumber].
  split; [reflexivity|]. split.
  { unfold classify.
    destruct (singleResponse.Good sr); [left; reflexivity|].
    destruct (singleResponse.Unknown sr); [right; right; reflexivity|].
    right; left; reflexivity. }
  split.
  { apply (@getHashAlgorithmFromOID_supported _ Hh). }
  split; [exact Hnc|]. split; [reflexivity|]. split; [reflexivity|].
  intros c ->. destruct Hsel as (before & after & _ & Es & _). exact Es.
Qed.

(** X8.  The issuer only adds checks: a response that is returned under an
    issuer is returned, the same, without one. *)
Theorem ParseResponseForCert_without_issuer (der : bytes)
    (cert issuer : option x509.Certificate) (ret : Response.t) :
  ParseResponseForCert der cert issuer = OK ret ->
  ParseResponseForCert der cert None = OK ret.
Proof.
  intros Hret. apply ParseResponseForCert_OK in Hret
    as (b & sr & name & kh & crt & Hdec & Hsel & Hid & Hsig & Hnc & Hh & ->).
  apply signaturesOK_without_issuer in Hsig.
  rewrite (@ParseResponseForCert_checked _ _ _ der cert None b sr name kh crt
             Hdec Hsel Hid Hsig), Hnc.
  apply Z.eqb_neq in Hh. rewrite Hh. reflexivity.
Qed.

(** X9.  [ParseResponse] and [ParseResponseForCert] agree: what
    [ParseResponse] returns is returned for every certificate with the
    serial number of the response, and what [ParseResponseForCert] returns
    for a certificate is returned by [ParseResponse] unless the response has
    several entries, which [ParseResponse] refuses. *)
Theorem ParseResponse_ParseResponseForCert (der : bytes)
    (issuer : option x509.Certificate) (ret : Response.t) :
  (ParseResponse der issuer = OK ret ->
   forall c, x509.Certificate_SerialNumber c = Response.SerialNumber ret ->
     ParseResponseForCert der (Some c) issuer = OK ret)
  /\ (forall c, ParseResponseForCert der (Some c) issuer = OK ret ->
      ParseResponse der issuer = OK ret
      \/ ParseResponse der issuer
         = Err (ParseError "OCSP response contains bad number of responses")).
Proof.
  split.
  - unfold ParseResponse. intros Hret c Hc.
    apply ParseResponseForCert_OK in Hret
      as (b & sr & name & kh & crt & Hdec & Hsel & Hid & Hsig & Hnc & Hh & ->).
    cbn [responseOf Response.SerialNumber] in Hc.
    assert (Hsel' : selects (Some c)
                      (responseData.Responses (basicResponse.TBSResponseData b))
                      sr).
    { cbn [selects] in Hsel |- *. exists [], []. rewrite Hsel.
      repeat split; auto. }
    rewrite (@ParseResponseForCert_checked _ _ _ der (Some c) issuer b sr name
               kh crt Hdec Hsel' Hid Hsig), Hnc.
    apply Z.eqb_neq in Hh. rewrite Hh. reflexivity.
  - unfold ParseResponse. intros c Hret.
    apply ParseResponseForCert_OK in Hret
      as (b & sr & name & kh & crt & Hdec & Hsel & Hid & Hsig & Hnc & Hh & ->).
    destruct Hsel as (before & after & El & Es & Hb).
    destruct before as [|r0 before]; [destruct after as [|r1 after]|].
    + left.
      assert (Hsel' : selects None
                        (responseData.Responses
                           (basicResponse.TBSResponseData b)) sr)
        by exact El.
      rewrite (@ParseResponseForCert_checked _ _ _ der None issuer b sr name
                 kh crt Hdec Hsel' Hid Hsig), Hnc.
      apply Z.eqb_neq in Hh. rewrite Hh. reflexivity.
    + right. pose proof Hdec as Hdec0. enter_response Hdec0.
      rewrite El. cbn [app]. rewrite several_entries. reflexivity.
    + right. pose proof Hdec as Hdec0. enter_response Hdec0.
      rewrite El.
      destruct before as [|r1 before]; cbn [app];
        rewrite several_entries; reflexivity.
Qed.

End MoreResponses.

(** ** Building a request *)

Lemma hashOIDs_ok_supported h : hashOIDs_ok h = true <-> supportedHash h.
Proof.
  unfold hashOIDs_ok, hashOIDs, supportedHash. cbn [existsb fst].
  rewrite !orb_true_iff, !Z.eqb_eq. intuition congruence.
Qed.

Section RequestBuilder.
Context `{pkix.Names} `{x509.Lib} `{!CertificateFields} `{HashLib}.

(** What [CreateRequest] does when it succeeds. *)
Lemma CreateRequest_OK cert issuer opts der :
  CreateRequest cert issuer opts = OK der ->
  exists info rest,
    supportedHash (RequestOptions_hash opts)
    /\ Available (RequestOptions_hash opts) = true
    /\ asn1.Unmarshal publicKeyInfo.type
         (Certificate_RawSubjectPublicKeyInfo issuer) = OK (info, rest)
    /\ Request_Marshal
         {| Request.HashAlgorithm := RequestOptions_hash opts;
            Request.IssuerNameHash :=
              Sum (RequestOptions_hash opts) (Certificate_RawSubject issuer);
            Request.IssuerKeyHash :=
              Sum (RequestOptions_hash opts)
                (asn1.RightAlign (publicKeyInfo.PublicKey info));
            Request.SerialNumber := x509.Certificate_SerialNumber cert;
            Request.Extensions := [] |} = OK der.
Proof.
  unfold CreateRequest. cbv zeta. intros Hc.
  destruct (hashOIDs_ok (RequestOptions_hash opts)) eqn:Ek; [|discriminate].
  destruct (Available (RequestOptions_hash opts)) eqn:Ea; [|discriminate].
  cbn [negb] in Hc.
  destruct (asn1.Unmarshal publicKeyInfo.type _) as [[info rest]|e] eqn:Eu;
    [|discriminate].
  cbn [bind] in Hc. exists info, rest.
  apply hashOIDs_ok_supported in Ek. auto.
Qed.

(** X10.  A request that [CreateRequest] builds is parsed back by
    [ParseRequest] (within the length that the codec accepts) into the hash
    algorithm of the options, SHA-1 when none is given, the digests under it
    of the issuer's subject and of its public key, and the serial number of
    the certificate, without extensions. *)
Theorem CreateRequest_ParseRequest (cert issuer : x509.Certificate)
    (opts : option RequestOptions.t) (der : bytes) :
  CreateRequest cert issuer opts = OK der ->
  len der < 2 ^ 31 ->
  exists info rest,
    asn1.Unmarshal publicKeyInfo.type
      (Certificate_RawSubjectPublicKeyInfo issuer) = OK (info, rest)
    /\ ParseRequest der
       = OK {| Request.HashAlgorithm := RequestOptions_hash opts;
               Request.IssuerNameHash :=
                 Sum (RequestOptions_hash opts) (Certificate_RawSubject issuer);
               Request.IssuerKeyHash :=
                 Sum (RequestOptions_hash opts)
                   (asn1.RightAlign (publicKeyInfo.PublicKey info));
               Request.SerialNumber := x509.Certificate_SerialNumber cert;
               Request.Extensions := [] |}.
Proof.
  intros Hc Hlen.
  apply CreateRequest_OK in Hc as (info & rest & Hs & _ & Hu & Hm).
  exists info, rest. split; [exact Hu|].
  match type of Hm with Request_Marshal ?r = _ =>
    destruct (Request_Marshal_ParseRequest r Hs) as (der' & Hm' & Hp);
    specialize (Hm' []); change (withExtensions r []) with r in Hm', Hp
  end.
  rewrite Hm in Hm'. injection Hm' as <-. apply Hp. exact Hlen.
Qed.

(** The four registered hashes are linked in. *)
Lemma supportedHash_Available h : supportedHash h -> Available h = true.
Proof.
  intros S. apply Available_linked. unfold linkedHashes.
  destruct S as [-> | [-> | [-> | ->]]]; cbn [In]; auto 10.
Qed.

(** X11.  For a certificate with a serial number that is not nil, as every
    certificate here has, [CreateRequest] succeeds exactly when the hash of
    the options is one of the four registered ones and the issuer's public
    key information decodes: an unregistered hash is
    [x509.ErrUnsupportedAlgorithm], the check that the hash is available
    never fails for a registered one, which is linked in, and the decoder's
    error is passed on. *)
Theorem CreateRequest_succeeds_iff (cert issuer : x509.Certificate)
    (opts : option RequestOptions.t) :
  ((exists der, CreateRequest cert issuer opts = OK der)
   <-> supportedHash (RequestOptions_hash opts)
       /\ exists info rest,
            asn1.Unmarshal publicKeyInfo.type
              (Certificate_RawSubjectPublicKeyInfo issuer) = OK (info, rest))
  /\ (~ supportedHash (RequestOptions_hash opts) ->
      CreateRequest cert issuer opts = Err ErrUnsupportedAlgorithm)
  /\ (forall e,
        supportedHash (RequestOptions_hash opts) ->
        asn1.Unmarshal publicKeyInfo.type
          (Certificate_RawSubjectPublicKeyInfo issuer) = Err e ->
        CreateRequest cert issuer opts = Err e).
Proof.
  split; [|split].
  - split.
    + intros (der & Hc).
      apply CreateRequest_OK in Hc as (info & rest & Hs & _ & Hu & _).
      eauto.
    + intros (Hs & info & rest & Hu).
      unfold CreateRequest. cbv zeta.
      rewrite (proj2 (hashOIDs_ok_supported _) Hs),
        (supportedHash_Available Hs), Hu.
      cbn [negb bind].
      match goal with |- exists der, Request_Marshal ?r = _ =>
        destruct (Request_Marshal_ParseRequest r Hs) as (der' & Hm' & _);
        exists der'; apply (Hm' [])
      end.
  - intros N. unfold CreateRequest. cbv zeta.
    destruct (hashOIDs_ok (RequestOptions_hash opts)) eqn:Ek;
      [apply hashOIDs_ok_supported in Ek; contradiction|reflexivity].
  - intros e Hs Hu. unfold CreateRequest. cbv zeta.
    rewrite (proj2 (hashOIDs_ok_supported _) Hs),
      (supportedHash_Available Hs), Hu.
    reflexivity.
Qed.

End RequestBuilder.

(** ** The issuer, checked after parsing *)

Section IssuerLater.
Context `{TimeLib} `{pkix.Names} `{x509.Lib}.

(** X12.  The issuer can be checked after parsing.  For a response that was
    returned without an issuer: when it has no embedded certificate, parsing
    it with the issuer gives the same response if [CheckSignatureFrom]
    accepts the issuer, and otherwise the error "bad OCSP signature" with
    the message of [CheckSignatureFrom]; when it has an embedded
    certificate, the same holds for the issuer's check of that
    certificate. *)
Theorem ParseResponseForCert_issuer_later (der : bytes)
    (cert : option x509.Certificate) (issuer : x509.Certificate)
    (ret : Response.t) :
  ParseResponseForCert der cert None = OK ret ->
  let check :=
    match Response.Certificate ret with
    | None => CheckSignatureFrom ret issuer
    | Some c =>
        x509.CheckSignature issuer (x509.Certificate_SignatureAlgorithm c)
          (x509.Certificate_RawTBSCertificate c) (x509.Certificate_Signature c)
    end in
  match check with
  | None => ParseResponseForCert der cert (Some issuer) = OK ret
  | Some msg =>
      ParseResponseForCert der cert (Some issuer)
      = Err (ParseError ("bad OCSP signature: " ++ msg)%string)
  end.
Proof.
  intros Hret. apply ParseResponseForCert_OK in Hret
    as (b & sr & name & kh & crt & Hdec & Hsel & Hid & Hsig & Hnc & Hh & ->).
  cbn [responseOf Response.Certificate].
  pose proof (@ParseResponseForCert_signatures _ _ _ der cert (Some issuer) b
                sr name kh Hdec Hsel Hid) as Hs.
  cbv zeta in Hs. unfold signaturesOK in Hsig. cbv zeta in Hsig.
  assert (Hok : signaturesOK b (Some issuer) crt ->
                ParseResponseForCert der cert (Some issuer)
                = OK (responseOf der b sr name kh crt)).
  { intros Hsig'.
    rewrite (@ParseResponseForCert_checked _ _ _ der cert (Some issuer) b sr
               name kh crt Hdec Hsel Hid Hsig'), Hnc.
    apply Z.eqb_neq in Hh. rewrite Hh. reflexivity. }
  destruct (basicResponse.Certificates b) as [|certificate0 l] eqn:Ec.
  - destruct Hsig as [-> _].
    unfold CheckSignatureFrom.
    cbn [Response.SignatureAlgorithm Response.TBSResponseData
         Response.Signature].
    destruct (x509.CheckSignature issuer _ _ _) as [msg|] eqn:Ei;
      [exact Hs|].
    apply Hok. unfold signaturesOK. cbv zeta. rewrite Ec.
    split; [reflexivity|]. intros i [= <-]. exact Ei.
  - destruct Hsig as (c & -> & Hp & Hc & _).
    rewrite Hp, Hc in Hs.
    destruct (x509.CheckSignature issuer _ _ _) as [msg|] eqn:Ei;
      [exact Hs|].
    apply Hok. unfold signaturesOK. cbv zeta. rewrite Ec.
    exists c. repeat split; auto. intros i [= <-]. exact Ei.
Qed.

End IssuerLater.

Unset Implicit Arguments.

(** ** More on fields *)

(** [parseField] on an element, up to the test of the explicit tag. *)
Lemma parseField_TLV {A} (ty : asn1.fieldType A) params c cmp tg body rest :
  0 <= c <= 3 -> 0 <= tg < 31 -> len body < 2 ^ 31 ->
  asn1.parseField ty (TLV c cmp tg body ++ rest) params
  = (r <- asn1.parseField_explicit ty (TLV c cmp tg body ++ rest) params
            (header c cmp tg (len body)) (body ++ rest) ;;
     match r with
     | inl done => OK done
     | inr (t, rest') =>
         asn1.parseField_value ty (TLV c cmp tg body ++ rest) params t rest'
     end).
Proof.
  intros Hc Ht Hl.
  destruct (TLV_nonempty c cmp tg body) as (b & bs & Eb).
  unfold asn1.parseField.
  rewrite Eb. cbn [app]. change (b :: bs ++ rest) with ((b :: bs) ++ rest).
  rewrite <- Eb.
  rewrite parseTagAndLength_TLV by (assumption || lia). reflexivity.
Qed.

(** The value stage of [parseField] on a header that matches. *)
Lemma parseField_value_matches {A} (ty : asn1.fieldType A) params t bs
    body rest :
  headerMatches ty params t = true ->
  asn1.length t = len body ->
  asn1.parseField_value ty bs params t (body ++ rest)
  = (v <- asn1.parseBody ty (expectedUniversalTag ty t) t body
            (firstn (List.length bs - List.length rest) bs) ;;
     OK (v, rest)).
Proof.
  intros Hm Hl. unfold asn1.parseField_value.
  unfold headerMatches in Hm. fold (expectedUniversalTag ty t).
  destruct (match asn1.explicit params, asn1.param_tag params with
            | false, Some i => (false, asn1.ClassContextSpecific, i)
            | _, _ => (asn1.matchAny ty, asn1.ClassUniversal,
                       expectedUniversalTag ty t)
            end) as [[m ec] et].
  apply negb_true_iff in Hm. rewrite Hm, Hl.
  destruct (Z.gtb_spec (len body) (len (body ++ rest))) as [Hgt|_].
  { rewrite len_app in Hgt. pose proof (len_nonneg rest). lia. }
  rewrite firstn_len_app, skipn_len_app. reflexivity.
Qed.

(** The value stage on a header that does not match. *)
Lemma parseField_value_mismatch {A} (ty : asn1.fieldType A) params t bs rest :
  headerMatches ty params t = false ->
  asn1.parseField_value ty bs params t rest
  = match asn1.setDefaultValue ty params with
    | Some v => OK (v, bs)
    | None => Err (StructuralError "tags don't match")
    end.
Proof.
  intros Hm. unfold asn1.parseField_value.
  unfold headerMatches in Hm. fold (expectedUniversalTag ty t).
  destruct (match asn1.explicit params, asn1.param_tag params with
            | false, Some i => (false, asn1.ClassContextSpecific, i)
            | _, _ => (asn1.matchAny ty, asn1.ClassUniversal,
                       expectedUniversalTag ty t)
            end) as [[m ec] et].
  apply negb_false_iff in Hm. rewrite Hm. reflexivity.
Qed.

(** A field without an explicit tag on an element that it accepts: the
    contents go to [parseBody]. *)
Lemma parseField_accepts {A} (ty : asn1.fieldType A) params c cmp tg body rest :
  asn1.explicit params = false ->
  headerMatches ty params (header c cmp tg (len body)) = true ->
  0 <= c <= 3 -> 0 <= tg < 31 -> len body < 2 ^ 31 ->
  asn1.parseField ty (TLV c cmp tg body ++ rest) params
  = (v <- asn1.parseBody ty
            (expectedUniversalTag ty (header c cmp tg (len body)))
            (header c cmp tg (len body)) body (TLV c cmp tg body) ;;
     OK (v, rest)).
Proof.
  intros He Hm Hc Ht Hl.
  rewrite parseField_TLV by assumption.
  unfold asn1.parseField_explicit. rewrite He. cbn [bind].
  rewrite (parseField_value_matches ty params _ _ _ rest Hm) by reflexivity.
  rewrite firstn_whole. reflexivity.
Qed.

(** An optional field without an explicit tag on an element that it does
    not accept: the field takes its default and nothing is consumed. *)
Lemma parseField_skips {A} (ty : asn1.fieldType A) params c cmp tg body rest v :
  asn1.explicit params = false ->
  headerMatches ty params (header c cmp tg (len body)) = false ->
  asn1.setDefaultValue ty params = Some v ->
  0 <= c <= 3 -> 0 <= tg < 31 -> len body < 2 ^ 31 ->
  asn1.parseField ty (TLV c cmp tg body ++ rest) params
  = OK (v, TLV c cmp tg body ++ rest).
Proof.
  intros He Hm Hd Hc Ht Hl.
  rewrite parseField_TLV by assumption.
  unfold asn1.parseField_explicit. rewrite He. cbn [bind].
  rewrite (parseField_value_mismatch ty params _ _ _ Hm), Hd. reflexivity.
Qed.

(** A field with an explicit tag on an element under that tag: the element
    inside is read. *)
Lemma parseField_explicit_present {A} (ty : asn1.fieldType A) params i cmp tg
    body rest :
  asn1.explicit params = true -> asn1.param_tag params = Some i ->
  asn1.isRawValue ty = false ->
  headerMatches ty params (header 0 cmp tg (len body)) = true ->
  0 <= i < 31 -> 0 <= tg < 31 ->
  len (TLV 0 cmp tg body) < 2 ^ 31 ->
  asn1.parseField ty (TLV 2 true i (TLV 0 cmp tg body) ++ rest) params
  = (v <- asn1.parseBody ty
            (expectedUniversalTag ty (header 0 cmp tg (len body)))
            (header 0 cmp tg (len body)) body
            (TLV 2 true i (TLV 0 cmp tg body)) ;;
     OK (v, rest)).
Proof.
  intros He Hp Hr Hm Hi Ht Hl.
  assert (Hb : len body < 2 ^ 31) by (apply len_TLV_lt in Hl; exact Hl).
  rewrite parseField_TLV by (assumption || lia).
  unfold asn1.parseField_explicit. rewrite He.
  assert (Hpos : (len (TLV 0 cmp tg body) >? 0) = true).
  { destruct (TLV_nonempty 0 cmp tg body) as (x & xs & Ex).
    apply Z.gtb_lt. rewrite Ex, len_cons. pose proof (len_nonneg xs). lia. }
  pose proof (TLV_app_nonempty 0 cmp tg body rest) as Hne.
  destruct (TLV 0 cmp tg body ++ rest) as [|y ys] eqn:E; [congruence|].
  cbn [header asn1.class asn1.tag asn1.length asn1.isCompound].
  unfold asn1.param_tag_is. rewrite Hp, Hr, Z.eqb_refl.
  change (2 =? asn1.ClassContextSpecific) with true.
  rewrite orb_true_r. cbn [andb]. rewrite Hpos, <- E.
  rewrite parseTagAndLength_TLV by (assumption || lia). cbn [bind].
  fold (header 0 cmp tg (len body)). rewrite Z.eqb_refl. cbn [andb bind].
  rewrite (parseField_value_matches ty params _ _ _ rest Hm) by reflexivity.
  rewrite firstn_whole. reflexivity.
Qed.

(** An optional field with an explicit tag, in front of an element that is
    not under that tag and that is not the last thing in the buffer with
    empty contents: the field takes its default and nothing is consumed. *)
Lemma parseField_explicit_skips {A} (ty : asn1.fieldType A) params c cmp tg
    body rest v :
  asn1.explicit params = true ->
  explicitMatches params (header c cmp tg (len body)) = false ->
  asn1.setDefaultValue ty params = Some v ->
  0 <= c <= 3 -> 0 <= tg < 31 -> len body < 2 ^ 31 ->
  body ++ rest <> [] ->
  asn1.parseField ty (TLV c cmp tg body ++ rest) params
  = OK (v, TLV c cmp tg body ++ rest).
Proof.
  intros He Hm Hd Hc Ht Hl Hne.
  rewrite parseField_TLV by assumption.
  unfold asn1.parseField_explicit. rewrite He.
  destruct (body ++ rest) as [|x l] eqn:E; [congruence|].
  unfold explicitMatches in Hm. rewrite Hm, Hd. reflexivity.
Qed.

(** ** Small integers *)

Lemma high_bit b : (Z.land (b2z b) 0x80 =? 0) = (b2z b <? 128).
Proof. destruct b; reflexivity. Qed.

Lemma int64_small x : - 2 ^ 63 <= x < 2 ^ 63 -> asn1.int64 x = x.
Proof.
  intros Hx. unfold asn1.int64. rewrite Z.mod_small by lia. lia.
Qed.

Lemma int32_small x : - 2 ^ 31 <= x < 2 ^ 31 -> asn1.int32 x = x.
Proof.
  intros Hx. unfold asn1.int32. rewrite Z.mod_small by lia. lia.
Qed.

(** One step of the loop of [parseInt64]. *)
Lemma parseInt64_step acc b :
  0 <= acc < 2 ^ 48 ->
  Z.lor (asn1.int64 (Z.shiftl acc 8)) (b2z b) = acc * 256 + b2z b.
Proof.
  intros Ha. pose proof (b2z_range b).
  rewrite Z.shiftl_mul_pow2 by lia. rewrite int64_small by lia.
  rewrite <- (Z.shiftl_mul_pow2 acc 8) by lia.
  apply lor_shiftl_8; lia.
Qed.

(** The sign extension at the end of [parseInt64], for [n] bytes. *)
Lemma parseInt64_sign n U :
  1 <= n <= 4 -> 0 <= U < 2 ^ (8 * n) ->
  Z.shiftr (asn1.int64 (Z.shiftl U (64 - n * 8))) (64 - n * 8)
  = U - (if U <? 2 ^ (8 * n - 1) then 0 else 2 ^ (8 * n)).
Proof.
  intros Hn HU.
  rewrite Z.shiftl_mul_pow2, Z.shiftr_div_pow2 by lia.
  unfold asn1.int64.
  assert (Hc : n = 1 \/ n = 2 \/ n = 3 \/ n = 4) by lia.
  destruct Hc as [-> | [-> | [-> | ->]]];
    cbn [Z.mul Z.sub Z.opp Z.add Z.pos_sub Pos.mul Pos.add Pos.succ
         Pos.pred_double Z.succ_double Z.pred_double Z.double] in *;
    match goal with
    | |- context [?u <? ?c] => destruct (Z.ltb_spec u c)
    end;
    Z.div_mod_to_equations; lia.
Qed.

(** [parseInt64] on one to four bytes: the big-endian value, read as a
    two's-complement number. *)
Lemma parseInt64_short bs :
  1 <= len bs <= 4 ->
  asn1.parseInt64 bs
  = (_ <- asn1.checkInteger bs ;;
     OK (asn1.SetBytes bs
         - (if asn1.SetBytes bs <? 2 ^ (8 * len bs - 1) then 0
            else 2 ^ (8 * len bs)))).
Proof.
  intros Hn. unfold asn1.parseInt64.
  destruct (asn1.checkInteger bs); cbn [bind]; [|reflexivity].
  destruct (Z.gtb_spec (len bs) 8) as [Hgt|_]; [lia|].
  assert (Hfold :
    fold_left (fun ret b => Z.lor (asn1.int64 (Z.shiftl ret 8)) (b2z b)) bs 0
    = asn1.SetBytes bs /\ 0 <= asn1.SetBytes bs < 2 ^ (8 * len bs)).
  { unfold asn1.SetBytes.
    destruct bs as [|b0 [|b1 [|b2 [|b3 [|b4 bs]]]]];
      try (exfalso; unfold len in Hn; simpl List.length in Hn; lia);
      cbn [fold_left];
      pose proof (b2z_range b0);
      try pose proof (b2z_range b1);
      try pose proof (b2z_range b2);
      try pose proof (b2z_range b3);
      repeat match goal with
             | |- context [Z.lor (asn1.int64 (Z.shiftl ?acc 8)) (b2z ?b)] =>
                 lazymatch acc with
                 | context [Z.lor] => fail
                 | _ => rewrite (parseInt64_step acc b) by lia
                 end
             end;
      (split; [reflexivity|]);
      unfold len; cbn [List.length Z.of_nat Pos.of_succ_nat Pos.succ Z.mul
                       Pos.mul]; lia. }
  destruct Hfold as [-> Hr].
  rewrite parseInt64_sign by lia. reflexivity.
Qed.

Ltac shifts := rewrite ?Z.shiftr_div_pow2 in * by lia.

Ltac arith := shifts; Z.div_mod_to_equations; lia.

(** One test of the two loops of [int64Encoder.Len]. *)
Ltac len_step :=
  lazymatch goal with
  | |- context [asn1.int64Encoder_Len_above (S ?f) ?i ?n] =>
      change (asn1.int64Encoder_Len_above (S f) i n)
        with (if i >? 127
              then asn1.int64Encoder_Len_above f (Z.shiftr i 8) (S n)
              else (i, n));
      destruct (Z.gtb_spec i 127)
  | |- context [asn1.int64Encoder_Len_below (S ?f) ?i ?n] =>
      change (asn1.int64Encoder_Len_below (S f) i n)
        with (if i <? -128
              then asn1.int64Encoder_Len_below f (Z.shiftr i 8) (S n)
              else n);
      destruct (Z.ltb_spec i (-128))
  end;
  cbv beta iota.

(** The number of bytes that [int64Encoder] writes for an [int32]. *)
Lemma int64Encoder_Len_int32 r :
  - 2 ^ 31 <= r < 2 ^ 31 ->
  (- 2 ^ 7 <= r < 2 ^ 7 /\ asn1.int64Encoder_Len r = 1%nat)
  \/ ((- 2 ^ 15 <= r < - 2 ^ 7 \/ 2 ^ 7 <= r < 2 ^ 15)
      /\ asn1.int64Encoder_Len r = 2%nat)
  \/ ((- 2 ^ 23 <= r < - 2 ^ 15 \/ 2 ^ 15 <= r < 2 ^ 23)
      /\ asn1.int64Encoder_Len r = 3%nat)
  \/ ((- 2 ^ 31 <= r < - 2 ^ 23 \/ 2 ^ 23 <= r < 2 ^ 31)
      /\ asn1.int64Encoder_Len r = 4%nat).
Proof.
  intros Hr. unfold asn1.int64Encoder_Len.
  repeat (len_step; try solve [exfalso; arith]).
  all: first
    [ left; split; [arith|reflexivity]
    | right; left; split; [arith|reflexivity]
    | right; right; left; split; [arith|reflexivity]
    | right; right; right; split; [arith|reflexivity] ].
Qed.

(** The first two bytes of a number that takes [n] bytes show that it
    takes no fewer. *)
Ltac minimal :=
  cbn [asn1.checkInteger];
  lazymatch goal with
  | |- (if ?c then _ else _) = _ =>
      let Hc := fresh "Hc" in
      assert (Hc : c = false);
      [ rewrite high_set_iff, high_bit, !b2z_z2b; shifts;
        repeat match goal with
               | |- context [?a =? ?b] => destruct (Z.eqb_spec a b)
               | |- context [?a <? ?b] => destruct (Z.ltb_spec a b)
               end;
        cbn [andb orb negb]; try reflexivity;
        exfalso; Z.div_mod_to_equations; lia
      | rewrite Hc; reflexivity ]
  | |- _ => reflexivity
  end.

(** [int64Encoder] and [parseInt32] on the numbers of an [int32]. *)
Lemma parseInt32_int64Encoder r :
  - 2 ^ 31 <= r < 2 ^ 31 ->
  asn1.parseInt32 (asn1.int64Encoder r) = OK r.
Proof.
  intros Hr. unfold asn1.int64Encoder.
  assert (Hfin : forall bs,
    asn1.checkInteger bs = OK tt -> 1 <= len bs <= 4 ->
    asn1.SetBytes bs
    - (if asn1.SetBytes bs <? 2 ^ (8 * len bs - 1) then 0
       else 2 ^ (8 * len bs)) = r ->
    asn1.parseInt32 bs = OK r).
  { intros bs Hck Hn Hv. unfold asn1.parseInt32.
    rewrite parseInt64_short, Hck, Hv by exact Hn. cbn [bind].
    rewrite (int32_small r), (int64_small r) by lia.
    rewrite Z.eqb_refl. reflexivity. }
  destruct (int64Encoder_Len_int32 r Hr)
    as [[Hc ->]|[[Hc ->]|[[Hc ->]|[Hc ->]]]];
    cbn [asn1.appendLength_loop];
    (apply Hfin;
     [ minimal
     | unfold len; cbn [List.length]; lia
     | unfold asn1.SetBytes, len;
       cbn [fold_left List.length Z.of_nat Pos.of_succ_nat Pos.succ Z.mul
            Pos.mul Z.sub Z.opp Z.add Z.pos_sub Pos.pred_double];
       rewrite !b2z_z2b; shifts;
       match goal with
       | |- context [?u <? ?c] => destruct (Z.ltb_spec u c)
       end;
       Z.div_mod_to_equations; lia ]).
Qed.

(** ** Object identifiers *)

Lemma low7 b : Z.land (b2z b) 0x7f = b2z b mod 128.
Proof. destruct b; reflexivity. Qed.

Lemma low7_continued b :
  Z.lor (Z.land (b2z b) 0x7f) 0x80 = b2z b mod 128 + 128.
Proof. destruct b; reflexivity. Qed.

Lemma lor_shiftl_7 x y :
  0 <= x -> 0 <= y < 128 -> Z.lor (Z.shiftl x 7) y = x * 128 + y.
Proof.
  intros Hx Hy. rewrite Z.shiftl_mul_pow2 by lia.
  assert (Hland : Z.land (x * 2 ^ 7) y = 0).
  { apply Z.bits_inj'. intros n Hn. rewrite Z.land_spec, Z.bits_0.
    destruct (Z.ltb_spec n 7).
    - rewrite Z.mul_pow2_bits_low by lia. reflexivity.
    - rewrite (@testbit_high y n 7) by (change (2 ^ 7) with 128; lia).
      apply andb_false_r. }
  rewrite <- Z.lxor_lor, <- Z.add_nocarry_lxor by exact Hland.
  reflexivity.
Qed.

(** The number of bytes that [appendBase128Int] writes for a number below
    [2 ^ 31]. *)
Lemma base128IntLength_int32 n :
  0 <= n < 2 ^ 31 ->
  (n < 2 ^ 7 /\ asn1.base128IntLength n = 1%nat)
  \/ (2 ^ 7 <= n < 2 ^ 14 /\ asn1.base128IntLength n = 2%nat)
  \/ (2 ^ 14 <= n < 2 ^ 21 /\ asn1.base128IntLength n = 3%nat)
  \/ (2 ^ 21 <= n < 2 ^ 28 /\ asn1.base128IntLength n = 4%nat)
  \/ (2 ^ 28 <= n /\ asn1.base128IntLength n = 5%nat).
Proof.
  intros Hn. unfold asn1.base128IntLength.
  destruct (Z.eqb_spec n 0) as [->|Hne]; [left; split; [lia|reflexivity]|].
  repeat (lazymatch goal with
          | |- context [asn1.base128IntLength_loop (S ?f) ?i ?l] =>
              change (asn1.base128IntLength_loop (S f) i l)
                with (if i >? 0
                      then asn1.base128IntLength_loop f (Z.shiftr i 7) (S l)
                      else l);
              destruct (Z.gtb_spec i 0)
          end;
          try solve [exfalso; arith]).
  all: first
    [ left; split; [arith|reflexivity]
    | right; left; split; [arith|reflexivity]
    | right; right; left; split; [arith|reflexivity]
    | right; right; right; left; split; [arith|reflexivity]
    | right; right; right; right; split; [arith|reflexivity] ].
Qed.

(** One turn of the loop of [parseBase128Int], on a byte that announces
    another one, and on the last byte. *)
Lemma parseBase128Int_continue b rest shifted ret :
  0 <= shifted < 5 -> shifted <> 0 \/ b2z b <> 0x80 ->
  128 <= b2z b -> 0 <= ret ->
  asn1.parseBase128Int_loop (b :: rest) shifted ret
  = asn1.parseBase128Int_loop rest (shifted + 1) (ret * 128 + b2z b mod 128).
Proof.
  intros Hs Hm Hb Hr. cbn [asn1.parseBase128Int_loop].
  destruct (Z.eqb_spec shifted 5) as [E|_]; [lia|].
  assert (Hmin : (shifted =? 0) && (b2z b =? 0x80) = false).
  { destruct (Z.eqb_spec shifted 0); destruct (Z.eqb_spec (b2z b) 0x80);
      try reflexivity. lia. }
  rewrite Hmin, high_bit.
  destruct (Z.ltb_spec (b2z b) 128) as [Hlt|_]; [lia|].
  rewrite low7, lor_shiftl_7; [reflexivity|exact Hr|].
  apply Z.mod_pos_bound. lia.
Qed.

Lemma parseBase128Int_last b rest shifted ret :
  0 <= shifted < 5 -> b2z b < 128 -> 0 <= ret ->
  ret * 128 + b2z b <= asn1.MaxInt32 ->
  asn1.parseBase128Int_loop (b :: rest) shifted ret
  = OK (ret * 128 + b2z b, rest).
Proof.
  intros Hs Hb Hr Hmax. cbn [asn1.parseBase128Int_loop].
  pose proof (b2z_range b) as Hrange.
  destruct (Z.eqb_spec shifted 5) as [E|_]; [lia|].
  assert (Hmin : (shifted =? 0) && (b2z b =? 0x80) = false).
  { destruct (Z.eqb_spec (b2z b) 0x80) as [E|_]; [lia|].
    apply andb_false_r. }
  rewrite Hmin, high_bit.
  destruct (Z.ltb_spec (b2z b) 128) as [_|Hge]; [|lia].
  rewrite low7, lor_shiftl_7; [|exact Hr|apply Z.mod_pos_bound; lia].
  rewrite (Z.mod_small (b2z b) 128) by lia.
  destruct (Z.gtb_spec (ret * 128 + b2z b) asn1.MaxInt32) as [Hgt|_]; [lia|].
  reflexivity.
Qed.

Ltac byte_arith :=
  rewrite ?b2z_z2b; unfold asn1.MaxInt32; shifts; Z.div_mod_to_equations; lia.

(** A number below [2 ^ 31] that was written is read back. *)
Lemma parseBase128Int_append n rest :
  0 <= n < 2 ^ 31 ->
  asn1.parseBase128Int (asn1.appendBase128Int [] n ++ rest) = OK (n, rest).
Proof.
  intros Hn. unfold asn1.parseBase128Int, asn1.appendBase128Int.
  cbn [app].
  destruct (base128IntLength_int32 n Hn)
    as [[Hc ->]|[[Hc ->]|[[Hc ->]|[[Hc ->]|[Hc ->]]]]];
    cbn [asn1.appendBase128Int_loop app Z.of_nat Pos.of_succ_nat Pos.succ
         Z.eqb negb Z.mul Pos.mul];
    rewrite ?low7_continued, ?low7;
    repeat (rewrite parseBase128Int_continue;
            [|byte_arith|first [left; lia|right; byte_arith]
             |byte_arith|byte_arith]);
    (rewrite parseBase128Int_last; [|byte_arith..]);
    do 2 f_equal; byte_arith.
Qed.

Lemma appendBase128Int_nonempty n :
  0 <= n < 2 ^ 31 -> exists b bs, asn1.appendBase128Int [] n = b :: bs.
Proof.
  intros Hn. unfold asn1.appendBase128Int. cbn [app].
  destruct (base128IntLength_int32 n Hn)
    as [[_ ->]|[[_ ->]|[[_ ->]|[[_ ->]|[_ ->]]]]];
    cbn [asn1.appendBase128Int_loop]; eauto.
Qed.

Lemma fold_appendBase128Int l acc :
  fold_left asn1.appendBase128Int l acc
  = acc ++ List.concat (map (asn1.appendBase128Int []) l).
Proof.
  revert acc. induction l as [|a l IH]; intros acc; cbn [fold_left map List.concat].
  - rewrite app_nil_r. reflexivity.
  - rewrite IH. unfold asn1.appendBase128Int at 1 3. cbn [app].
    rewrite <- app_assoc. reflexivity.
Qed.

(** The arcs after the first two are read back. *)
Lemma parseObjectIdentifier_loop_arcs l :
  forallb (fun arc => (0 <=? arc) && (arc <? 2 ^ 31)) l = true ->
  forall fuel,
    (List.length (List.concat (map (asn1.appendBase128Int []) l)) <= fuel)%nat ->
    asn1.parseObjectIdentifier_loop fuel
      (List.concat (map (asn1.appendBase128Int []) l))
    = OK l.
Proof.
  induction l as [|a l IH]; intros Hv fuel Hf.
  - destruct fuel; reflexivity.
  - cbn [forallb] in Hv. apply andb_true_iff in Hv as [Ha Hl].
    apply andb_true_iff in Ha as [Ha0 Ha1].
    apply Z.leb_le in Ha0. apply Z.ltb_lt in Ha1.
    cbn [map List.concat] in Hf |- *.
    destruct (appendBase128Int_nonempty a (conj Ha0 Ha1)) as (b & bs & E).
    rewrite E in Hf |- *. cbn [app List.length] in Hf |- *.
    destruct fuel as [|fuel]; [lia|].
    cbn [asn1.parseObjectIdentifier_loop].
    change (b :: bs ++ List.concat (map (asn1.appendBase128Int []) l))
      with ((b :: bs) ++ List.concat (map (asn1.appendBase128Int []) l)).
    rewrite <- E, parseBase128Int_append by lia. cbn [bind].
    rewrite IH; [reflexivity|exact Hl|].
    rewrite length_app in Hf. lia.
Qed.

(** A valid object identifier is written, and read back. *)
Lemma parseObjectIdentifier_makeObjectIdentifier oid :
  validOID oid = true ->
  exists der,
    asn1.makeObjectIdentifier oid = OK der
    /\ asn1.parseObjectIdentifier der = OK oid.
Proof.
  destruct oid as [|oid0 [|oid1 oid']]; try discriminate.
  unfold validOID. rewrite !andb_true_iff.
  intros [[[[[H0 H2] H1] H40] Hv] Hl].
  apply Z.leb_le in H0, H2, H1. apply Z.ltb_lt in Hv.
  assert (H40' : oid0 = 2 \/ oid1 < 40).
  { apply orb_true_iff in H40 as [E|E];
      [left; apply Z.eqb_eq; exact E|right; apply Z.ltb_lt; exact E]. }
  eexists. split.
  - unfold asn1.makeObjectIdentifier.
    destruct (Z.gtb_spec oid0 2) as [Hgt|_]; [lia|].
    assert (Hc : (oid0 <? 2) && (oid1 >=? 40) = false).
    { destruct (Z.ltb_spec oid0 2); [|reflexivity].
      destruct (Z.geb_spec oid1 40); [lia|reflexivity]. }
    rewrite Hc. cbn [orb]. rewrite fold_appendBase128Int. reflexivity.
  - assert (Hv0 : 0 <= oid0 * 40 + oid1 < 2 ^ 31) by lia.
    destruct (appendBase128Int_nonempty _ Hv0) as (b & bs & E).
    unfold asn1.parseObjectIdentifier.
    rewrite E. cbn [app].
    change (b :: bs ++ List.concat (map (asn1.appendBase128Int []) oid'))
      with ((b :: bs) ++ List.concat (map (asn1.appendBase128Int []) oid')).
    rewrite <- E, parseBase128Int_append by exact Hv0. cbn [bind].
    rewrite parseObjectIdentifier_loop_arcs by (exact Hl || lia).
    cbn [bind].
    destruct (Z.ltb_spec (oid0 * 40 + oid1) 80) as [Hlt|Hge].
    + assert (E0 : (oid0 * 40 + oid1) / 40 = oid0)
        by (Z.div_mod_to_equations; lia).
      assert (E1 : (oid0 * 40 + oid1) mod 40 = oid1)
        by (Z.div_mod_to_equations; lia).
      rewrite E0, E1. reflexivity.
    + assert (E2 : oid0 = 2) by lia. subst oid0.
      replace (2 * 40 + oid1 - 80) with oid1 by lia. reflexivity.
Qed.

(** ** Fields with a tag *)

(** An element under an explicit tag, as [makeField] assembles it. *)
Lemma TLV_explicit p cmp tg body :
  asn1.appendTagAndLength []
    {| asn1.class := asn1.ClassContextSpecific; asn1.tag := p;
       asn1.length :=
         len body
         + len (asn1.appendTagAndLength []
                  {| asn1.class := asn1.ClassUniversal; asn1.tag := tg;
                     asn1.length := len body; asn1.isCompound := cmp |});
       asn1.isCompound := true |}
  ++ asn1.appendTagAndLength []
       {| asn1.class := asn1.ClassUniversal; asn1.tag := tg;
          asn1.length := len body; asn1.isCompound := cmp |}
  ++ body
  = TLV 2 true p (TLV 0 cmp tg body).
Proof. unfold TLV. rewrite len_app, Z.add_comm. reflexivity. Qed.

(** A field with an explicit tag and no default: left out when it is
    optional and zero, otherwise one element inside the tag. *)
Lemma makeField_explicit {A} (ty : asn1.marshalType A) v params p :
  asn1.asRawValue ty = None -> asn1.timeType params = 0 ->
  asn1.defaultValue params = None ->
  asn1.param_tag params = Some p -> asn1.explicit params = true ->
  asn1.makeField ty v params
  = if asn1.optional params && asn1.isZero ty v then OK []
    else (body <- asn1.makeBody ty v ;;
          OK (TLV 2 true p
                (TLV 0 (asn1.m_isCompound ty) (asn1.m_tag ty) body))).
Proof.
  intros Hr Ht Hd Hp He. unfold asn1.makeField. rewrite Hr, Ht, Hd, Hp, He.
  destruct (asn1.optional params && asn1.isZero ty v); [reflexivity|].
  change (0 =? 0) with true. cbn [negb andb].
  destruct (asn1.makeBody ty v) as [body|e]; cbn [bind]; [|reflexivity].
  rewrite TLV_explicit. reflexivity.
Qed.

(** A field with an implicit tag and no default. *)
Lemma makeField_implicit {A} (ty : asn1.marshalType A) v params p :
  asn1.asRawValue ty = None -> asn1.timeType params = 0 ->
  asn1.defaultValue params = None ->
  asn1.param_tag params = Some p -> asn1.explicit params = false ->
  asn1.makeField ty v params
  = if asn1.optional params && asn1.isZero ty v then OK []
    else (body <- asn1.makeBody ty v ;;
          OK (TLV 2 (asn1.m_isCompound ty) p body)).
Proof.
  intros Hr Ht Hd Hp He. unfold asn1.makeField. rewrite Hr, Ht, Hd, Hp, He.
  destruct (asn1.optional params && asn1.isZero ty v); [reflexivity|].
  change (0 =? 0) with true. cbn [negb andb]. reflexivity.
Qed.


(** The bounds on the parts of a buffer that follow from a bound on the
    whole. *)
Ltac split_len H :=
  lazymatch type of H with
  | len (TLV _ _ _ _) < _ =>
      let L := fresh "L" in
      pose proof (len_TLV_lt _ _ _ _ _ H) as L; split_len L
  | len (_ ++ _) < _ =>
      let La := fresh "L" in
      let Lb := fresh "L" in
      pose proof (len_app_lt_l _ _ _ H) as La;
      pose proof (len_app_lt_r _ _ _ H) as Lb;
      split_len La; split_len Lb
  | _ => idtac
  end.

Ltac side := first [assumption | reflexivity | field_side].

Lemma app_TLV_nonempty (a : bytes) c cmp tg body rest :
  a ++ TLV c cmp tg body ++ rest <> [].
Proof.
  intros E. apply app_eq_nil in E as [_ E].
  exact (TLV_app_nonempty c cmp tg body rest E).
Qed.

(** A sequence of one element, taken as a [RawValue]. *)
Lemma parseSequenceOf_raw c cmp tg body :
  0 <= c <= 3 -> 0 <= tg < 31 -> len body < 2 ^ 31 ->
  asn1.parseSequenceOf asn1.rawValueType (TLV c cmp tg body)
  = OK [ {| asn1.Class := c; asn1.Tag := tg; asn1.IsCompound := cmp;
            asn1.Bytes := body; asn1.FullBytes := TLV c cmp tg body |} ].
Proof.
  intros Hc Ht Hl.
  destruct (TLV_nonempty c cmp tg body) as (b & bs & Eb).
  unfold asn1.parseSequenceOf.
  assert (Hcount :
    asn1.parseSequenceOf_count asn1.rawValueType
      (List.length (TLV c cmp tg body)) (TLV c cmp tg body) 0 = OK 1%nat).
  { assert (Hlen : exists fuel, List.length (TLV c cmp tg body) = S fuel)
      by (rewrite Eb; simpl; eauto).
    destruct Hlen as (fuel & ->).
    rewrite Eb. cbn [asn1.parseSequenceOf_count]. rewrite <- Eb.
    rewrite <- (app_nil_r (TLV _ _ _ _)).
    rewrite parseTagAndLength_TLV by assumption.
    cbn [bind asn1.class asn1.tag asn1.length asn1.isCompound
         asn1.rawValueType asn1.matchAny negb andb].
    rewrite app_nil_r.
    destruct (Z.gtb_spec (len body) (len body)) as [Hgt|_]; [lia|].
    assert (Hskip : skipn (Z.to_nat (len body)) body = [])
      by (unfold len; rewrite Nat2Z.id; apply skipn_all).
    rewrite Hskip. destruct fuel; reflexivity. }
  rewrite Hcount. cbn [bind asn1.parseSequenceOf_elems].
  rewrite <- (app_nil_r (TLV _ _ _ _)) at 1.
  rewrite parseField_rawValue by side. reflexivity.
Qed.

(** ** Extensions *)

(** A sequence of structures: every element is a SEQUENCE whose contents
    decode. *)
Lemma parseSequenceOf_count_bodies {A} (ty : asn1.fieldType A)
    (bodies : list bytes) :
  asn1.matchAny ty = false -> asn1.compoundType ty = true ->
  asn1.universalTag ty = 16 ->
  len (List.concat (map (TLV 0 true 16) bodies)) < 2 ^ 31 ->
  forall fuel n,
    (List.length (List.concat (map (TLV 0 true 16) bodies)) <= fuel)%nat ->
    asn1.parseSequenceOf_count ty fuel
      (List.concat (map (TLV 0 true 16) bodies)) n
    = OK (n + List.length bodies)%nat.
Proof.
  intros Hm Hc Hu. induction bodies as [|body bodies IH]; intros Hl fuel n Hf.
  - cbn [map List.concat List.length]. rewrite Nat.add_0_r.
    destruct fuel; reflexivity.
  - cbn [map List.concat] in Hl, Hf |- *.
    pose proof Hl as Hl0. split_len Hl0.
    destruct (TLV_nonempty 0 true 16 body) as (b & bs & Eb).
    rewrite Eb in Hf |- *. cbn [app List.length] in Hf |- *.
    destruct fuel as [|fuel]; [lia|].
    cbn [asn1.parseSequenceOf_count].
    change (b :: bs ++ List.concat (map (TLV 0 true 16) bodies))
      with ((b :: bs) ++ List.concat (map (TLV 0 true 16) bodies)).
    rewrite <- Eb, parseTagAndLength_TLV by side.
    cbn [bind asn1.class asn1.tag asn1.length asn1.isCompound].
    rewrite Hm, Hu, Hc. cbn [negb andb].
    change (16 =? asn1.TagIA5String) with false.
    change (16 =? asn1.TagGeneralString) with false.
    change (16 =? asn1.TagT61String) with false.
    change (16 =? asn1.TagUTF8String) with false.
    change (16 =? asn1.TagNumericString) with false.
    change (16 =? asn1.TagBMPString) with false.
    change (16 =? asn1.TagGeneralizedTime) with false.
    change (16 =? asn1.TagUTCTime) with false.
    cbn [orb].
    change (0 =? asn1.ClassUniversal) with true.
    change (16 =? 16) with true.
    cbn [Bool.eqb negb orb].
    destruct (Z.gtb_spec (len body)
                (len (body ++ List.concat (map (TLV 0 true 16) bodies))))
      as [Hgt|_].
    { rewrite len_app in Hgt.
      pose proof (len_nonneg (List.concat (map (TLV 0 true 16) bodies))).
      lia. }
    rewrite skipn_len_app, IH; [f_equal; cbn [List.length]; lia|assumption|].
    rewrite length_app in Hf. lia.
Qed.

Lemma parseSequenceOf_elems_bodies {A} (ty : asn1.fieldType A)
    (bodies : list bytes) (vs : list A) :
  asn1.matchAny ty = false -> asn1.compoundType ty = true ->
  asn1.universalTag ty = 16 ->
  Forall2 (fun body v =>
             len body < 2 ^ 31 ->
             forall u h w, asn1.parseBody ty u h body w = OK v) bodies vs ->
  len (List.concat (map (TLV 0 true 16) bodies)) < 2 ^ 31 ->
  asn1.parseSequenceOf_elems ty (List.length bodies)
    (List.concat (map (TLV 0 true 16) bodies))
  = OK vs.
Proof.
  intros Hm Hc Hu Hall. induction Hall as [|body v bodies vs Hv _ IH];
    intros Hl.
  - reflexivity.
  - cbn [map List.concat List.length asn1.parseSequenceOf_elems] in Hl |- *.
    pose proof Hl as Hl0. split_len Hl0.
    rewrite (@parseField_universal _ ty asn1.fieldParameters_zero true 16)
      by (side || discriminate).
    rewrite Hv by assumption. cbn [bind].
    rewrite IH by assumption. reflexivity.
Qed.

Lemma parseSequenceOf_bodies {A} (ty : asn1.fieldType A)
    (bodies : list bytes) (vs : list A) :
  asn1.matchAny ty = false -> asn1.compoundType ty = true ->
  asn1.universalTag ty = 16 ->
  Forall2 (fun body v =>
             len body < 2 ^ 31 ->
             forall u h w, asn1.parseBody ty u h body w = OK v) bodies vs ->
  len (List.concat (map (TLV 0 true 16) bodies)) < 2 ^ 31 ->
  asn1.parseSequenceOf ty (List.concat (map (TLV 0 true 16) bodies)) = OK vs.
Proof.
  intros Hm Hc Hu Hall Hl. unfold asn1.parseSequenceOf.
  rewrite (parseSequenceOf_count_bodies ty bodies Hm Hc Hu Hl _ 0%nat)
    by reflexivity.
  cbn [bind Nat.add].
  apply parseSequenceOf_elems_bodies; assumption.
Qed.

(** An extension with a valid identifier is written in a form that is
    read back as it is. *)
Lemma Extension_written (e : pkix.Extension.t) :
  validOID (pkix.Extension.Id e) = true ->
  exists body,
    asn1.makeField pkix.Extension.marshalType e asn1.fieldParameters_zero
    = OK (TLV 0 true 16 body)
    /\ (len body < 2 ^ 31 ->
        forall u h w,
          asn1.parseBody pkix.Extension.type u h body w = OK e).
Proof.
  intros Hv. destruct e as [id critical value].
  cbn [pkix.Extension.Id] in Hv.
  destruct (parseObjectIdentifier_makeObjectIdentifier id Hv)
    as (der & Hm & Hp).
  exists (TLV 0 false 6 der
          ++ (if critical then TLV 0 false 1 [z2b 0xff] else [])
          ++ TLV 0 false 4 value).
  split.
  - rewrite makeField_plain by reflexivity.
    cbn [asn1.makeBody pkix.Extension.marshalType asn1.m_structType
         pkix.Extension.Id pkix.Extension.Critical pkix.Extension.Value
         asn1.m_isCompound asn1.m_tag].
    rewrite !mfield_plain by reflexivity.
    cbn [asn1.makeBody asn1.m_objectIdentifierType asn1.m_bytesType
         asn1.m_isCompound asn1.m_tag].
    rewrite Hm. cbn [bind].
    destruct critical; reflexivity.
  - intros Hl u h w. pose proof Hl as Hl0. split_len Hl0.
    cbn [asn1.parseBody pkix.Extension.type asn1.structType].
    unfold asn1.field.
    change (asn1.parseFieldParameters []) with asn1.fieldParameters_zero.
    rewrite (@parseField_universal _ asn1.objectIdentifierType _ false 6)
      by side.
    cbn [asn1.parseBody asn1.objectIdentifierType]. rewrite Hp. cbn [bind].
    destruct critical.
    + match goal with H : len (TLV 0 false 1 _) < _ |- _ => split_len H end.
      rewrite (@parseField_universal _ asn1.boolType _ false 1) by side.
      cbn [asn1.parseBody asn1.boolType].
      change (asn1.parseBool [z2b 255]) with (OK true). cbn [bind].
      rewrite <- (app_nil_r (TLV 0 false 4 value)).
      rewrite (@parseField_universal _ asn1.bytesType _ false 4) by side.
      reflexivity.
    + cbn [app]. rewrite <- (app_nil_r (TLV 0 false 4 value)).
      rewrite (parseField_skips asn1.boolType _ 0 false 4 value [] false)
        by side.
      cbn [bind].
      rewrite (@parseField_universal _ asn1.bytesType _ false 4) by side.
      reflexivity.
Qed.

(** A list of extensions with valid identifiers: the contents of their
    SEQUENCE OF. *)
Lemma Extensions_bodies (exts : list pkix.Extension.t) :
  forallb (fun e => validOID (pkix.Extension.Id e)) exts = true ->
  exists bodies,
    asn1.makeBody_slice pkix.Extension.marshalType exts
    = OK (List.concat (map (TLV 0 true 16) bodies))
    /\ Forall2 (fun body e =>
                  len body < 2 ^ 31 ->
                  forall u h w,
                    asn1.parseBody pkix.Extension.type u h body w = OK e)
         bodies exts.
Proof.
  induction exts as [|e exts IH]; intros Hv.
  - exists []. split; [reflexivity|constructor].
  - cbn [forallb] in Hv. apply andb_true_iff in Hv as [He Hes].
    destruct (Extension_written e He) as (body & Em & Ep).
    destruct (IH Hes) as (bodies & Ems & Eps).
    exists (body :: bodies). split; [|constructor; assumption].
    cbn [asn1.makeBody_slice map List.concat].
    rewrite Em, Ems. reflexivity.
Qed.

(** A list of extensions under [explicit,tag:1,optional], at the end of a
    structure: nothing for the nil list, otherwise one element, which is
    read back as the list. *)
Lemma Extensions_written (exts : list pkix.Extension.t) :
  forallb (fun e => validOID (pkix.Extension.Id e)) exts = true ->
  exists extsPart,
    asn1.mfield (asn1.m_sliceType pkix.Extension.marshalType) exts
      [asn1.Pexplicit; asn1.Ptag 1; asn1.Poptional]
    = OK extsPart
    /\ ((extsPart = [] /\ exts = [])
        \/ exists body,
             extsPart = TLV 2 true 1 (TLV 0 true 16 body)
             /\ (len body < 2 ^ 31 ->
                 asn1.parseSequenceOf pkix.Extension.type body = OK exts)).
Proof.
  intros Hv. destruct exts as [|e exts].
  - exists []. split; [reflexivity|]. left. split; reflexivity.
  - destruct (Extensions_bodies (e :: exts) Hv) as (bodies & Em & Ep).
    exists (TLV 2 true 1
              (TLV 0 true 16 (List.concat (map (TLV 0 true 16) bodies)))).
    split.
    + unfold asn1.mfield.
      rewrite (makeField_explicit
                 (asn1.m_sliceType pkix.Extension.marshalType) _ _ 1)
        by reflexivity.
      assert (Hz : asn1.isZero (asn1.m_sliceType pkix.Extension.marshalType)
                     (e :: exts) = false).
      { cbn [asn1.isZero asn1.m_sliceType]. apply Z.eqb_neq.
        rewrite len_cons. pose proof (len_nonneg exts). lia. }
      rewrite Hz, andb_false_r.
      cbn [asn1.makeBody asn1.m_sliceType asn1.m_isCompound asn1.m_tag].
      rewrite Em. reflexivity.
    + right. eexists. split; [reflexivity|].
      intros Hl. apply parseSequenceOf_bodies; try reflexivity; assumption.
Qed.

(** The element of a list of extensions is read by the field. *)
Lemma parse_Extensions (extsPart : bytes) (exts : list pkix.Extension.t) :
  (extsPart = [] /\ exts = [])
  \/ (exists body,
        extsPart = TLV 2 true 1 (TLV 0 true 16 body)
        /\ (len body < 2 ^ 31 ->
            asn1.parseSequenceOf pkix.Extension.type body = OK exts)) ->
  len extsPart < 2 ^ 31 ->
  asn1.parseField (asn1.sliceType pkix.Extension.type) extsPart
    (asn1.parseFieldParameters [asn1.Pexplicit; asn1.Ptag 1; asn1.Poptional])
  = OK (exts, []).
Proof.
  intros [[-> ->]|(body & -> & Hp)] Hl.
  - rewrite parseField_nil with (v := @nil pkix.Extension.t) by reflexivity.
    reflexivity.
  - split_len Hl.
    rewrite <- (app_nil_r (TLV 2 true 1 _)).
    rewrite (parseField_explicit_present
               (asn1.sliceType pkix.Extension.type) _ 1 true 16 body [])
      by side.
    cbn [asn1.parseBody asn1.sliceType]. rewrite Hp by assumption.
    reflexivity.
Qed.

(** ** Encoding of the elements of a response *)

Section ResponseEncoding.
Context `{TO : TimeOps}.

(** A time under [generalized]. *)
Lemma mfield_Time_generalized (t : Time) :
  mfield_Time t [asn1.Pgeneralized]
  = (body <- pkix.asn1Error (makeGeneralizedTime t) ;;
     OK (TLV 0 false 24 body)).
Proof.
  unfold mfield_Time, makeField_Time.
  cbn [asn1.parseFieldParameters fold_left asn1.parsePart
       asn1.fieldParameters_zero asn1.optional asn1.explicit
       asn1.defaultValue asn1.param_tag asn1.timeType andb].
  change (asn1.TagGeneralizedTime =? asn1.TagGeneralizedTime) with true.
  cbn [orb]. reflexivity.
Qed.

(** A time under [generalized,explicit,tag:0,optional]. *)
Lemma mfield_Time_explicit (t : Time) :
  mfield_Time t
    [asn1.Pgeneralized; asn1.Pexplicit; asn1.Ptag 0; asn1.Poptional]
  = if Time_DeepEqual_zero t then OK []
    else (body <- pkix.asn1Error (makeGeneralizedTime t) ;;
          OK (TLV 2 true 0 (TLV 0 false 24 body))).
Proof.
  unfold mfield_Time, makeField_Time.
  cbn [asn1.parseFieldParameters fold_left asn1.parsePart
       asn1.fieldParameters_zero asn1.optional asn1.explicit
       asn1.defaultValue asn1.param_tag asn1.timeType andb].
  destruct (Time_DeepEqual_zero t); [reflexivity|].
  change (asn1.TagGeneralizedTime =? asn1.TagGeneralizedTime) with true.
  cbn [orb].
  destruct (pkix.asn1Error (makeGeneralizedTime t)) as [body|e];
    cbn [bind]; [|reflexivity].
  rewrite TLV_explicit. reflexivity.
Qed.

(** The two flags of an entry. *)
Lemma mfield_Flag (b : bool) p :
  asn1.mfield m_flagType b [asn1.Ptag p; asn1.Poptional]
  = OK (if b then TLV 2 false p [] else []).
Proof.
  unfold asn1.mfield.
  rewrite (makeField_implicit m_flagType b _ p) by reflexivity.
  destruct b; reflexivity.
Qed.

(** The revocation information of an entry. *)
Lemma mfield_revokedInfo (t : Time) (reason : Z) :
  asn1.mfield revokedInfo_marshalType (revokedInfo.mk t reason)
    [asn1.Ptag 1; asn1.Poptional]
  = if Time_DeepEqual_zero t && (reason =? 0) then OK []
    else (time <- pkix.asn1Error (makeGeneralizedTime t) ;;
          OK (TLV 2 true 1
                (TLV 0 false 24 time
                 ++ (if reason =? 0 then []
                     else TLV 2 true 0
                            (TLV 0 false 10 (asn1.int64Encoder reason)))))).
Proof.
  unfold asn1.mfield.
  rewrite (makeField_implicit revokedInfo_marshalType _ _ 1) by reflexivity.
  cbn [asn1.parseFieldParameters fold_left asn1.parsePart asn1.optional
       asn1.fieldParameters_zero andb
       asn1.isZero revokedInfo_marshalType asn1.m_structType
       revokedInfo.RevocationTime revokedInfo.Reason
       asn1.makeBody asn1.m_isCompound].
  destruct (Time_DeepEqual_zero t && (reason =? 0)); [reflexivity|].
  rewrite mfield_Time_generalized.
  destruct (pkix.asn1Error (makeGeneralizedTime t)) as [time|e];
    cbn [bind]; [|reflexivity].
  unfold asn1.mfield.
  rewrite (makeField_explicit m_enumeratedType reason _ 0) by reflexivity.
  cbn [asn1.parseFieldParameters fold_left asn1.parsePart asn1.optional
       asn1.fieldParameters_zero andb asn1.isZero m_enumeratedType
       asn1.makeBody asn1.m_isCompound asn1.m_tag].
  destruct (reason =? 0); reflexivity.
Qed.

(** The certificate identifier of an entry. *)
Lemma mfield_certID hashOID nameHash keyHash serial :
  asn1.mfield certID.marshalType
    (certID.mk
       (pkix.AlgorithmIdentifier.mk hashOID
          {| asn1.Tag := 5; asn1.Class := 0; asn1.IsCompound := false;
             asn1.Bytes := []; asn1.FullBytes := [] |})
       nameHash keyHash serial) []
  = (oid <- asn1.makeObjectIdentifier hashOID ;;
     OK (TLV 0 true 16
           (TLV 0 true 16 (TLV 0 false 6 oid ++ TLV 0 false 5 [])
            ++ TLV 0 false 4 nameHash
            ++ TLV 0 false 4 keyHash
            ++ TLV 0 false 2 (asn1.makeBigInt serial)))).
Proof.
  rewrite mfield_plain by reflexivity.
  cbn [asn1.makeBody certID.marshalType asn1.m_structType
       certID.HashAlgorithm certID.NameHash certID.IssuerKeyHash
       certID.SerialNumber asn1.m_isCompound asn1.m_tag].
  rewrite !mfield_plain by reflexivity.
  cbn [asn1.makeBody pkix.AlgorithmIdentifier.marshalType asn1.m_structType
       pkix.AlgorithmIdentifier.Algorithm pkix.AlgorithmIdentifier.Parameters
       asn1.m_objectIdentifierType asn1.m_bytesType asn1.m_bigIntType
       asn1.m_isCompound asn1.m_tag].
  rewrite mfield_plain by reflexivity.
  cbn [asn1.makeBody asn1.m_objectIdentifierType asn1.m_isCompound asn1.m_tag].
  destruct (asn1.makeObjectIdentifier hashOID) as [oid|e];
    cbn [bind]; [|reflexivity].
  change (asn1.mfield asn1.m_rawValueType
            {| asn1.Class := 0; asn1.Tag := 5; asn1.IsCompound := false;
               asn1.Bytes := []; asn1.FullBytes := [] |} [asn1.Poptional])
    with (OK (TLV 0 false 5 [])).
  cbn [bind]. reflexivity.
Qed.

(** An entry. *)
Lemma makeField_singleResponse cid good revoked unknown
    (thisUpdate nextUpdate : Time) exts :
  asn1.makeField singleResponse_marshalType
    (singleResponse.mk cid good revoked unknown thisUpdate nextUpdate exts)
    asn1.fieldParameters_zero
  = (CertID <- asn1.mfield certID.marshalType cid [] ;;
     Revoked <-
       asn1.mfield revokedInfo_marshalType revoked
         [asn1.Ptag 1; asn1.Poptional] ;;
     ThisUpdate <- pkix.asn1Error (makeGeneralizedTime thisUpdate) ;;
     NextUpdate <-
       mfield_Time nextUpdate
         [asn1.Pgeneralized; asn1.Pexplicit; asn1.Ptag 0; asn1.Poptional] ;;
     SingleExtensions <-
       asn1.mfield (asn1.m_sliceType pkix.Extension.marshalType) exts
         [asn1.Pexplicit; asn1.Ptag 1; asn1.Poptional] ;;
     OK (TLV 0 true 16
           (CertID ++ (if good then TLV 2 false 0 [] else [])
            ++ Revoked ++ (if unknown then TLV 2 false 2 [] else [])
            ++ TLV 0 false 24 ThisUpdate ++ NextUpdate
            ++ SingleExtensions))).
Proof.
  rewrite makeField_plain by reflexivity.
  cbn [asn1.makeBody singleResponse_marshalType asn1.m_structType
       singleResponse.CertID singleResponse.Good singleResponse.Revoked
       singleResponse.Unknown singleResponse.ThisUpdate
       singleResponse.NextUpdate singleResponse.SingleExtensions
       asn1.m_isCompound asn1.m_tag].
  destruct (asn1.mfield certID.marshalType cid []) as [c|e];
    cbn [bind]; [|reflexivity].
  rewrite !mfield_Flag. cbn [bind].
  destruct (asn1.mfield revokedInfo_marshalType revoked _) as [r|e];
    cbn [bind]; [|reflexivity].
  rewrite mfield_Time_generalized.
  destruct (pkix.asn1Error (makeGeneralizedTime thisUpdate)) as [t|e];
    cbn [bind]; [|reflexivity].
  destruct (mfield_Time nextUpdate _) as [n|e]; cbn [bind]; [|reflexivity].
  destruct (asn1.mfield (asn1.m_sliceType pkix.Extension.marshalType) exts _)
    as [x|e]; reflexivity.
Qed.

(** The data to be signed: a responder named by [subject] and one
    entry. *)
Lemma Marshal_responseData subject (producedAt : Time) single exts :
  asn1.Marshal responseData_marshalType
    (responseData.mk [] 0
       {| asn1.Class := 2; asn1.Tag := 1; asn1.IsCompound := true;
          asn1.Bytes := subject; asn1.FullBytes := [] |}
       producedAt [single] exts)
  = (ProducedAt <- pkix.asn1Error (makeGeneralizedTime producedAt) ;;
     Response <-
       asn1.makeField singleResponse_marshalType single
         asn1.fieldParameters_zero ;;
     ResponseExtensions <-
       asn1.mfield (asn1.m_sliceType pkix.Extension.marshalType) exts
         [asn1.Pexplicit; asn1.Ptag 1; asn1.Poptional] ;;
     OK (TLV 0 true 16
           (TLV 2 true 1 subject ++ TLV 0 false 24 ProducedAt
            ++ TLV 0 true 16 Response ++ ResponseExtensions))).
Proof.
  unfold asn1.Marshal. cbn [asn1.parseFieldParameters fold_left].
  rewrite makeField_plain by reflexivity.
  cbn [asn1.makeBody responseData_marshalType asn1.m_structType
       responseData.Raw responseData.Version responseData.RawResponderID
       responseData.ProducedAt responseData.Responses
       responseData.ResponseExtensions asn1.m_isCompound asn1.m_tag
       len List.length Z.of_nat].
  change (0 >? 0) with false. cbv iota.
  change (asn1.mfield asn1.m_intType 0
            [asn1.Poptional; asn1.Pdefault 0; asn1.Pexplicit; asn1.Ptag 0])
    with (@OK bytes []).
  cbn [bind].
  change (asn1.mfield asn1.m_rawValueType
            {| asn1.Class := 2; asn1.Tag := 1; asn1.IsCompound := true;
               asn1.Bytes := subject; asn1.FullBytes := [] |} [])
    with (OK (TLV 2 true 1 subject)).
  cbn [bind].
  rewrite mfield_Time_generalized.
  destruct (pkix.asn1Error (makeGeneralizedTime producedAt)) as [t|e];
    cbn [bind]; [|reflexivity].
  rewrite mfield_plain by reflexivity.
  cbn [asn1.makeBody asn1.m_sliceType asn1.makeBody_slice
       asn1.m_isCompound asn1.m_tag].
  destruct (asn1.makeField singleResponse_marshalType single _) as [r|e];
    cbn [bind]; [|reflexivity].
  rewrite app_nil_r.
  destruct (asn1.mfield (asn1.m_sliceType pkix.Extension.marshalType) exts _)
    as [x|e]; cbn [bind app]; reflexivity.
Qed.

(** The certificates of a basic response: none, or one in its raw form. *)
Lemma mfield_Certificates_nil :
  asn1.mfield (asn1.m_sliceType asn1.m_rawValueType) []
    [asn1.Pexplicit; asn1.Ptag 0; asn1.Poptional]
  = OK [].
Proof. reflexivity. Qed.

Lemma mfield_Certificates_one (raw : bytes) :
  raw <> [] ->
  asn1.mfield (asn1.m_sliceType asn1.m_rawValueType)
    [ {| asn1.Class := 0; asn1.Tag := 0; asn1.IsCompound := false;
         asn1.Bytes := []; asn1.FullBytes := raw |} ]
    [asn1.Pexplicit; asn1.Ptag 0; asn1.Poptional]
  = OK (TLV 2 true 0 (TLV 0 true 16 raw)).
Proof.
  intros Hne. unfold asn1.mfield.
  rewrite (makeField_explicit (asn1.m_sliceType asn1.m_rawValueType) _ _ 0)
    by reflexivity.
  cbn [asn1.parseFieldParameters fold_left asn1.parsePart asn1.optional
       asn1.fieldParameters_zero andb asn1.isZero asn1.m_sliceType
       asn1.makeBody asn1.makeBody_slice asn1.m_isCompound asn1.m_tag].
  change (len [ {| asn1.Class := 0; asn1.Tag := 0; asn1.IsCompound := false;
                   asn1.Bytes := []; asn1.FullBytes := raw |} ] =? 0)
    with false.
  cbv iota. unfold asn1.makeField.
  cbn [asn1.fieldParameters_zero asn1.optional asn1.defaultValue
       asn1.m_rawValueType asn1.Int asn1.asRawValue asn1.isZero andb
       asn1.FullBytes].
  assert (Hl : (len raw =? 0) = false).
  { destruct raw as [|x xs]; [congruence|].
    apply Z.eqb_neq. rewrite len_cons. pose proof (len_nonneg xs). lia. }
  rewrite Hl. cbn [negb bind]. rewrite app_nil_r. reflexivity.
Qed.

(** The basic response, around data that are marshalled to [tbs]. *)
Lemma Marshal_basicResponse tbsResponseData tbs signatureAlgorithm signature
    certificates :
  asn1.Marshal responseData_marshalType tbsResponseData = OK tbs ->
  asn1.Marshal basicResponse_marshalType
    (basicResponse.mk tbsResponseData signatureAlgorithm
       {| asn1.BitString_Bytes := signature;
          asn1.BitLength := 8 * len signature |} certificates)
  = (SignatureAlgorithm <-
       asn1.mfield pkix.AlgorithmIdentifier.marshalType signatureAlgorithm [] ;;
     Certificates <-
       asn1.mfield (asn1.m_sliceType asn1.m_rawValueType) certificates
         [asn1.Pexplicit; asn1.Ptag 0; asn1.Poptional] ;;
     OK (TLV 0 true 16
           (tbs ++ SignatureAlgorithm
            ++ TLV 0 false 3 (z2b 0 :: signature) ++ Certificates))).
Proof.
  intros Htbs.
  unfold asn1.Marshal. cbn [asn1.parseFieldParameters fold_left].
  rewrite makeField_plain by reflexivity.
  cbn [asn1.makeBody basicResponse_marshalType asn1.m_structType
       basicResponse.TBSResponseData basicResponse.SignatureAlgorithm
       basicResponse.Signature basicResponse.Certificates
       asn1.m_isCompound asn1.m_tag].
  change (asn1.mfield responseData_marshalType tbsResponseData [])
    with (asn1.Marshal responseData_marshalType tbsResponseData).
  rewrite Htbs. cbn [bind].
  destruct (asn1.mfield pkix.AlgorithmIdentifier.marshalType
              signatureAlgorithm []) as [a|e]; cbn [bind]; [|reflexivity].
  rewrite mfield_plain by reflexivity.
  cbn [asn1.makeBody m_bitStringType asn1.m_isCompound asn1.m_tag
       asn1.BitLength asn1.BitString_Bytes bind].
  replace ((8 - (8 * len signature) mod 8) mod 8) with 0
    by (rewrite Z.mul_comm, Z.mod_mul by lia; reflexivity).
  destruct (asn1.mfield (asn1.m_sliceType asn1.m_rawValueType) certificates _)
    as [cs|e]; reflexivity.
Qed.

End ResponseEncoding.

(** The envelope of a successful response. *)
Lemma Marshal_responseASN1 response :
  asn1.Marshal responseASN1_marshalType
    {| responseASN1.Status := Success;
       responseASN1.Response :=
         {| responseBytes.ResponseType := idPKIXOCSPBasic;
            responseBytes.Response := response |} |}
  = OK (TLV 0 true 16
          (TLV 0 false 10 [z2b 0]
           ++ TLV 2 true 0
                (TLV 0 true 16
                   (TLV 0 false 6 derBasicOID
                    ++ TLV 0 false 4 response)))).
Proof.
  unfold asn1.Marshal. cbn [asn1.parseFieldParameters fold_left].
  rewrite makeField_plain by reflexivity.
  cbn [asn1.makeBody responseASN1_marshalType asn1.m_structType
       responseASN1.Status responseASN1.Response
       asn1.m_isCompound asn1.m_tag].
  change (asn1.mfield m_enumeratedType Success [])
    with (OK (TLV 0 false 10 [z2b 0])).
  cbn [bind]. unfold asn1.mfield.
  rewrite (makeField_explicit responseBytes_marshalType _ _ 0) by reflexivity.
  cbn [asn1.parseFieldParameters fold_left asn1.parsePart asn1.optional
       asn1.fieldParameters_zero andb asn1.isZero responseBytes_marshalType
       asn1.m_structType responseBytes.ResponseType responseBytes.Response
       asn1.makeBody asn1.m_isCompound asn1.m_tag].
  change (len idPKIXOCSPBasic =? 0) with false. cbn [andb].
  fold (asn1.mfield asn1.m_objectIdentifierType idPKIXOCSPBasic []).
  change (asn1.mfield asn1.m_objectIdentifierType idPKIXOCSPBasic [])
    with (OK (TLV 0 false 6 derBasicOID)).
  cbn [bind]. rewrite mfield_plain by reflexivity.
  cbn [asn1.makeBody asn1.m_bytesType asn1.m_isCompound asn1.m_tag bind].
  reflexivity.
Qed.

(** ** Decoding of the elements of a response *)

Section ResponseDecoding.
Context `{TL : TimeLib}.

(** A time under [generalized]. *)
Lemma parse_generalized b t rest :
  parseGeneralizedTime b = inl t -> len b < 2 ^ 31 ->
  asn1.parseField asn1.timeType_ (TLV 0 false 24 b ++ rest)
    (asn1.parseFieldParameters [asn1.Pgeneralized])
  = OK (t, rest).
Proof.
  intros Ht Hl.
  rewrite (parseField_accepts asn1.timeType_ _ 0 false 24 b rest) by side.
  cbn [asn1.parseBody asn1.timeType_ expectedUniversalTag header
       asn1.universalTag asn1.tag asn1.class].
  change (asn1.TagUTCTime =? asn1.TagUTCTime) with true.
  change (24 =? asn1.TagGeneralizedTime) with true.
  change (0 =? asn1.ClassUniversal) with true.
  cbn [andb].
  change (asn1.TagGeneralizedTime =? asn1.TagUTCTime) with false.
  cbv iota. rewrite Ht. reflexivity.
Qed.

(** A time under [generalized,explicit,tag:0,optional]. *)
Lemma parse_generalized_explicit b t rest :
  parseGeneralizedTime b = inl t -> len (TLV 0 false 24 b) < 2 ^ 31 ->
  asn1.parseField asn1.timeType_ (TLV 2 true 0 (TLV 0 false 24 b) ++ rest)
    (asn1.parseFieldParameters
       [asn1.Pgeneralized; asn1.Pexplicit; asn1.Ptag 0; asn1.Poptional])
  = OK (t, rest).
Proof.
  intros Ht Hl.
  rewrite (parseField_explicit_present asn1.timeType_ _ 0 false 24 b rest)
    by side.
  cbn [asn1.parseBody asn1.timeType_ expectedUniversalTag header
       asn1.universalTag asn1.tag asn1.class].
  change (asn1.TagUTCTime =? asn1.TagUTCTime) with true.
  change (24 =? asn1.TagGeneralizedTime) with true.
  change (0 =? asn1.ClassUniversal) with true.
  cbn [andb].
  change (asn1.TagGeneralizedTime =? asn1.TagUTCTime) with false.
  cbv iota. rewrite Ht. reflexivity.
Qed.

(** The revocation information: the time, and the reason when it is not
    zero. *)
Lemma parse_revokedInfo b t reason u h whole :
  parseGeneralizedTime b = inl t ->
  asn1.parseInt32 (asn1.int64Encoder reason) = OK reason ->
  len (TLV 0 false 24 b
       ++ (if reason =? 0 then []
           else TLV 2 true 0 (TLV 0 false 10 (asn1.int64Encoder reason))))
    < 2 ^ 31 ->
  asn1.parseBody revokedInfo.type u h
    (TLV 0 false 24 b
     ++ (if reason =? 0 then []
         else TLV 2 true 0 (TLV 0 false 10 (asn1.int64Encoder reason))))
    whole
  = OK (revokedInfo.mk t reason).
Proof.
  intros Ht Hr Hl.
  cbn [asn1.parseBody revokedInfo.type asn1.structType]. unfold asn1.field.
  destruct (Z.eqb_spec reason 0) as [->|Hne].
  - rewrite app_nil_r in Hl. split_len Hl.
    rewrite (parse_generalized b t []) by side. cbn [bind].
    rewrite parseField_nil with (v := 0) by reflexivity.
    reflexivity.
  - split_len Hl.
    rewrite (parse_generalized b t) by side. cbn [bind].
    rewrite <- (app_nil_r (TLV 2 true 0 _)).
    rewrite (parseField_explicit_present asn1.enumeratedType _ 0 false 10
               (asn1.int64Encoder reason) []) by side.
    cbn [asn1.parseBody asn1.enumeratedType]. rewrite Hr. reflexivity.
Qed.

(** An optional time under the tag 0 in front of the extensions of an
    entry, or at its end, is left at the zero time. *)
Lemma parse_nextUpdate_absent (extsPart : bytes) :
  extsPart = [] \/ (exists body, extsPart = TLV 2 true 1 body /\ body <> []) ->
  len extsPart < 2 ^ 31 ->
  asn1.parseField asn1.timeType_ extsPart
    (asn1.parseFieldParameters
       [asn1.Pgeneralized; asn1.Pexplicit; asn1.Ptag 0; asn1.Poptional])
  = OK (Time_zero, extsPart).
Proof.
  intros [->|(body & -> & Hne)] Hl.
  - apply parseField_nil. reflexivity.
  - split_len Hl.
    rewrite <- (app_nil_r (TLV 2 true 1 body)) at 1.
    rewrite (parseField_explicit_skips asn1.timeType_ _ 2 true 1 body []
               Time_zero);
      [rewrite app_nil_r; reflexivity|side..|].
    rewrite app_nil_r. exact Hne.
Qed.

(** An entry: the certificate identifier, at most one of the three status
    elements, the time of the update and, optionally, the time of the next
    one and the extensions. *)
Lemma parse_singleResponse cidBody cid statusPart good revoked unknown
    tThis thisUpdate nextPart nextUpdate extsPart exts u h whole :
  (forall u' h' w',
     asn1.parseBody certID.type u' h' cidBody w' = OK cid) ->
  (statusPart = TLV 2 false 0 []
   /\ good = true /\ revoked = revokedInfo.zero /\ unknown = false)
  \/ (statusPart = TLV 2 false 2 []
      /\ good = false /\ revoked = revokedInfo.zero /\ unknown = true)
  \/ (exists body,
        statusPart = TLV 2 true 1 body
        /\ (forall u' h' w',
              asn1.parseBody revokedInfo.type u' h' body w' = OK revoked)
        /\ good = false /\ unknown = false)
  \/ (statusPart = []
      /\ good = false /\ revoked = revokedInfo.zero /\ unknown = false) ->
  parseGeneralizedTime tThis = inl thisUpdate ->
  (nextPart = [] /\ nextUpdate = Time_zero)
  \/ (exists b,
        nextPart = TLV 2 true 0 (TLV 0 false 24 b)
        /\ parseGeneralizedTime b = inl nextUpdate) ->
  (extsPart = [] /\ exts = [])
  \/ (exists body,
        extsPart = TLV 2 true 1 (TLV 0 true 16 body)
        /\ (len body < 2 ^ 31 ->
            asn1.parseSequenceOf pkix.Extension.type body = OK exts)) ->
  len (TLV 0 true 16 cidBody ++ statusPart ++ TLV 0 false 24 tThis
       ++ nextPart ++ extsPart) < 2 ^ 31 ->
  asn1.parseBody singleResponse.type u h
    (TLV 0 true 16 cidBody ++ statusPart ++ TLV 0 false 24 tThis ++ nextPart
     ++ extsPart)
    whole
  = OK (singleResponse.mk cid good revoked unknown thisUpdate nextUpdate
          exts).
Proof.
  intros Hcid Hstatus Hthis Hnext Hexts Hl.
  cbn [asn1.parseBody singleResponse.type asn1.structType].
  unfold asn1.field.
  change (asn1.parseFieldParameters []) with asn1.fieldParameters_zero.
  assert (Hrest :
    forall rest' : bytes,
      rest' = TLV 0 false 24 tThis ++ nextPart ++ extsPart ->
      ('(ThisUpdate, rest) <-
         asn1.parseField asn1.timeType_ rest'
           (asn1.parseFieldParameters [asn1.Pgeneralized]) ;;
       '(NextUpdate, rest) <-
         asn1.parseField asn1.timeType_ rest
           (asn1.parseFieldParameters
              [asn1.Pgeneralized; asn1.Pexplicit; asn1.Ptag 0;
               asn1.Poptional]) ;;
       '(SingleExtensions, rest) <-
         asn1.parseField (asn1.sliceType pkix.Extension.type) rest
           (asn1.parseFieldParameters
              [asn1.Pexplicit; asn1.Ptag 1; asn1.Poptional]) ;;
       OK (singleResponse.mk cid good revoked unknown ThisUpdate NextUpdate
             SingleExtensions))
      = OK (singleResponse.mk cid good revoked unknown thisUpdate nextUpdate
              exts)).
  { intros rest' ->.
    apply len_app_lt_r, len_app_lt_r in Hl. split_len Hl.
    rewrite (parse_generalized tThis thisUpdate) by side. cbn [bind].
    destruct Hnext as [[-> ->]|(b & -> & Hb)].
    - cbn [app]. rewrite parse_nextUpdate_absent; [|
        |assumption].
      + cbn [bind]. rewrite (parse_Extensions extsPart exts) by assumption.
        reflexivity.
      + destruct Hexts as [[-> _]|(body & -> & _)]; [left; reflexivity|].
        right. eexists. split; [reflexivity|].
        destruct (TLV_nonempty 0 true 16 body) as (x & xs & ->).
        discriminate.
    - match goal with H : len (TLV 2 true 0 _) < _ |- _ => split_len H end.
      rewrite (parse_generalized_explicit b nextUpdate extsPart) by side.
      cbn [bind]. rewrite (parse_Extensions extsPart exts) by assumption.
      reflexivity. }
  pose proof Hl as Hl0. split_len Hl0.
  rewrite (@parseField_universal _ certID.type _ true 16) by side.
  rewrite Hcid. cbn [bind].
  destruct Hstatus
    as [(-> & -> & -> & ->)
       |[(-> & -> & -> & ->)
        |[(body & -> & Hbody & -> & ->)|(-> & -> & -> & ->)]]].
  - rewrite (parseField_accepts asn1.flagType _ 2 false 0 []) by side.
    cbn [asn1.parseBody asn1.flagType bind].
    rewrite (parseField_skips revokedInfo.type _ 0 false 24 tThis _
               revokedInfo.zero) by side.
    cbn [bind].
    rewrite (parseField_skips asn1.flagType _ 0 false 24 tThis _ false)
      by side.
    cbn [bind]. apply Hrest. reflexivity.
  - rewrite (parseField_skips asn1.flagType _ 2 false 2 [] _ false) by side.
    cbn [bind].
    rewrite (parseField_skips revokedInfo.type _ 2 false 2 [] _
               revokedInfo.zero) by side.
    cbn [bind].
    rewrite (parseField_accepts asn1.flagType _ 2 false 2 []) by side.
    cbn [asn1.parseBody asn1.flagType bind]. apply Hrest. reflexivity.
  - match goal with H : len (TLV 2 true 1 body) < _ |- _ => split_len H end.
    rewrite (parseField_skips asn1.flagType _ 2 true 1 body _ false) by side.
    cbn [bind].
    rewrite (parseField_accepts revokedInfo.type _ 2 true 1 body) by side.
    rewrite Hbody. cbn [bind].
    rewrite (parseField_skips asn1.flagType _ 0 false 24 tThis _ false)
      by side.
    cbn [bind]. apply Hrest. reflexivity.
  - cbn [app].
    rewrite (parseField_skips asn1.flagType _ 0 false 24 tThis _ false)
      by side.
    cbn [bind].
    rewrite (parseField_skips revokedInfo.type _ 0 false 24 tThis _
               revokedInfo.zero) by side.
    cbn [bind].
    rewrite (parseField_skips asn1.flagType _ 0 false 24 tThis _ false)
      by side.
    cbn [bind]. apply Hrest. reflexivity.
Qed.

(** The signed data: no version, the responder by name, the time, one
    entry, and optionally the extensions.  [Raw] is the whole element. *)
Lemma parse_responseData subject tProd producedAt singleBody single extsPart
    exts u h whole :
  parseGeneralizedTime tProd = inl producedAt ->
  (forall u' h' w',
     asn1.parseBody singleResponse.type u' h' singleBody w' = OK single) ->
  (extsPart = [] /\ exts = [])
  \/ (exists body,
        extsPart = TLV 2 true 1 (TLV 0 true 16 body)
        /\ (len body < 2 ^ 31 ->
            asn1.parseSequenceOf pkix.Extension.type body = OK exts)) ->
  len (TLV 2 true 1 subject ++ TLV 0 false 24 tProd
       ++ TLV 0 true 16 (TLV 0 true 16 singleBody) ++ extsPart) < 2 ^ 31 ->
  asn1.parseBody responseData.type u h
    (TLV 2 true 1 subject ++ TLV 0 false 24 tProd
     ++ TLV 0 true 16 (TLV 0 true 16 singleBody) ++ extsPart)
    whole
  = OK (responseData.mk whole 0
          {| asn1.Class := 2; asn1.Tag := 1; asn1.IsCompound := true;
             asn1.Bytes := subject;
             asn1.FullBytes := TLV 2 true 1 subject |}
          producedAt [single] exts).
Proof.
  intros Hprod Hsingle Hexts Hl. split_len Hl.
  cbn [asn1.parseBody responseData.type asn1.structType].
  unfold asn1.field.
  change (asn1.parseFieldParameters []) with asn1.fieldParameters_zero.
  rewrite (parseField_explicit_skips asn1.intType _ 2 true 1 subject _ 0);
    [|side|side|side|side|side|side|apply app_TLV_nonempty].
  cbn [bind].
  rewrite parseField_rawValue by side. cbn [bind].
  rewrite (parse_generalized tProd producedAt) by side. cbn [bind].
  rewrite (@parseField_universal _ (asn1.sliceType singleResponse.type) _
             true 16) by side.
  cbn [asn1.parseBody asn1.sliceType].
  rewrite (@parseSequenceOf_single _ singleResponse.type true) by side.
  rewrite Hsingle. cbn [bind].
  rewrite (parse_Extensions extsPart exts) by assumption.
  reflexivity.
Qed.

(** A bit string of whole bytes. *)
Lemma parseBitString_bytes (signature : bytes) :
  asn1.parseBitString (z2b 0 :: signature)
  = OK {| asn1.BitString_Bytes := signature;
          asn1.BitLength := 8 * len signature |}.
Proof.
  unfold asn1.parseBitString.
  change (b2z (z2b 0)) with 0.
  change (Z.shiftl 1 0 mod 256 - 1) with 0.
  rewrite Z.land_0_r.
  change (0 >? 7) with false. change (0 >? 0) with false.
  rewrite andb_false_r. cbn [orb negb Z.eqb].
  rewrite len_cons. f_equal. f_equal. lia.
Qed.

Lemma RightAlign_bytes (signature : bytes) :
  asn1.RightAlign
    {| asn1.BitString_Bytes := signature;
       asn1.BitLength := 8 * len signature |}
  = signature.
Proof.
  unfold asn1.RightAlign. cbn [asn1.BitString_Bytes asn1.BitLength].
  destruct signature as [|b0 tl]; [reflexivity|].
  rewrite Z.mul_comm, Z.mod_mul by lia. reflexivity.
Qed.

(** The basic response: the signed data, the algorithm, the signature,
    and then nothing or one certificate under the tag 0. *)
Lemma parse_basicResponse tbsBody tbs algBody alg signature certsPart
    certificates u h whole :
  (forall u' h',
     asn1.parseBody responseData.type u' h' tbsBody (TLV 0 true 16 tbsBody)
     = OK tbs) ->
  (forall u' h' w',
     asn1.parseBody pkix.AlgorithmIdentifier.type u' h' algBody w' = OK alg) ->
  (certsPart = [] /\ certificates = [])
  \/ (exists body,
        certsPart = TLV 2 true 0 (TLV 0 true 16 (TLV 0 true 16 body))
        /\ certificates
           = [ {| asn1.Class := 0; asn1.Tag := 16; asn1.IsCompound := true;
                  asn1.Bytes := body;
                  asn1.FullBytes := TLV 0 true 16 body |} ]) ->
  len (TLV 0 true 16 tbsBody ++ TLV 0 true 16 algBody
       ++ TLV 0 false 3 (z2b 0 :: signature) ++ certsPart) < 2 ^ 31 ->
  asn1.parseBody basicResponse.type u h
    (TLV 0 true 16 tbsBody ++ TLV 0 true 16 algBody
     ++ TLV 0 false 3 (z2b 0 :: signature) ++ certsPart)
    whole
  = OK (basicResponse.mk tbs alg
          {| asn1.BitString_Bytes := signature;
             asn1.BitLength := 8 * len signature |} certificates).
Proof.
  intros Htbs Halg Hcerts Hl. split_len Hl.
  cbn [asn1.parseBody basicResponse.type asn1.structType].
  unfold asn1.field.
  change (asn1.parseFieldParameters []) with asn1.fieldParameters_zero.
  rewrite (@parseField_universal _ responseData.type _ true 16) by side.
  rewrite Htbs. cbn [bind].
  rewrite (@parseField_universal _ pkix.AlgorithmIdentifier.type _ true 16)
    by side.
  rewrite Halg. cbn [bind].
  rewrite (@parseField_universal _ asn1.bitStringType _ false 3) by side.
  cbn [asn1.parseBody asn1.bitStringType].
  rewrite parseBitString_bytes. cbn [bind].
  destruct Hcerts as [[-> ->]|(body & -> & ->)].
  - rewrite parseField_nil with (v := @nil asn1.RawValue) by reflexivity.
    reflexivity.
  - match goal with H : len (TLV 2 true 0 _) < _ |- _ => split_len H end.
    rewrite <- (app_nil_r (TLV 2 true 0 _)).
    rewrite (parseField_explicit_present (asn1.sliceType asn1.rawValueType)
               _ 0 true 16 _ []) by side.
    cbn [asn1.parseBody asn1.sliceType].
    rewrite parseSequenceOf_raw by side. reflexivity.
Qed.

Lemma Unmarshal_basicResponse body basicResp :
  (forall u h w,
     asn1.parseBody basicResponse.type u h body w = OK basicResp) ->
  len (TLV 0 true 16 body) < 2 ^ 31 ->
  asn1.Unmarshal basicResponse.type (TLV 0 true 16 body)
  = OK (basicResp, []).
Proof.
  intros Hb Hl. split_len Hl. unfold asn1.Unmarshal.
  change (asn1.parseFieldParameters []) with asn1.fieldParameters_zero.
  rewrite <- (app_nil_r (TLV 0 true 16 body)).
  rewrite (@parseField_universal _ basicResponse.type _ true 16) by side.
  rewrite Hb. reflexivity.
Qed.

End ResponseDecoding.

(** The envelope of a successful response. *)
Lemma Unmarshal_responseASN1 response :
  len (TLV 0 true 16
         (TLV 0 false 10 [z2b 0]
          ++ TLV 2 true 0
               (TLV 0 true 16
                  (TLV 0 false 6 derBasicOID ++ TLV 0 false 4 response))))
    < 2 ^ 31 ->
  asn1.Unmarshal responseASN1.type
    (TLV 0 true 16
       (TLV 0 false 10 [z2b 0]
        ++ TLV 2 true 0
             (TLV 0 true 16
                (TLV 0 false 6 derBasicOID ++ TLV 0 false 4 response))))
  = OK (responseASN1.mk Success
          (responseBytes.mk idPKIXOCSPBasic response), []).
Proof.
  intros Hl. split_len Hl. unfold asn1.Unmarshal.
  change (asn1.parseFieldParameters []) with asn1.fieldParameters_zero.
  rewrite <- (app_nil_r (TLV 0 true 16 _)).
  rewrite (@parseField_universal _ responseASN1.type _ true 16) by side.
  cbn [asn1.parseBody responseASN1.type asn1.structType].
  unfold asn1.field.
  change (asn1.parseFieldParameters []) with asn1.fieldParameters_zero.
  rewrite (@parseField_universal _ asn1.enumeratedType _ false 10) by side.
  cbn [asn1.parseBody asn1.enumeratedType].
  change (asn1.parseInt32 [z2b 0]) with (OK 0). cbn [bind].
  rewrite <- (app_nil_r (TLV 2 true 0 _)).
  rewrite (parseField_explicit_present responseBytes.type _ 0 true 16 _ [])
    by side.
  cbn [asn1.parseBody responseBytes.type asn1.structType].
  unfold asn1.field.
  change (asn1.parseFieldParameters []) with asn1.fieldParameters_zero.
  rewrite (@parseField_universal _ asn1.objectIdentifierType _ false 6)
    by side.
  cbn [asn1.parseBody asn1.objectIdentifierType].
  change (asn1.parseObjectIdentifier derBasicOID) with (OK idPKIXOCSPBasic).
  cbn [bind].
  rewrite <- (app_nil_r (TLV 0 false 4 response)).
  rewrite (@parseField_universal _ asn1.bytesType _ false 4) by side.
  reflexivity.
Qed.

(** ** Building a response and parsing it *)

(** The identifier that [signingParamsForPublicKey] returns is written as
    a SEQUENCE that is read back as an identifier of the same signature
    algorithm. *)
Lemma signingParamsForPublicKey_identifier pub requestedSigAlgo signerOpts
    sigAlgo :
  signingParamsForPublicKey pub requestedSigAlgo = OK (signerOpts, sigAlgo) ->
  exists body read,
    asn1.mfield pkix.AlgorithmIdentifier.marshalType sigAlgo []
    = OK (TLV 0 true 16 body)
    /\ (forall u h w,
          asn1.parseBody pkix.AlgorithmIdentifier.type u h body w = OK read)
    /\ getSignatureAlgorithmFromAI read = getSignatureAlgorithmFromAI sigAlgo.
Proof.
  intros Hs.
  exists (match asn1.makeBody pkix.AlgorithmIdentifier.marshalType sigAlgo with
          | OK b => b
          | Err _ => []
          end).
  exists (match
            asn1.parseBody pkix.AlgorithmIdentifier.type 0 (header 0 true 16 0)
              (match asn1.makeBody pkix.AlgorithmIdentifier.marshalType
                       sigAlgo with
               | OK b => b
               | Err _ => []
               end) []
          with
          | OK a => a
          | Err _ => pkix.AlgorithmIdentifier.zero
          end).
  destruct pub as [|[| | | |]|]; destruct requestedSigAlgo;
    vm_compute in Hs; try discriminate Hs;
    injection Hs as <- <-;
    (split; [vm_compute; reflexivity|]);
    (split; [intros u h w; vm_compute; reflexivity|vm_compute; reflexivity]).
Qed.

(** The certificate identifier of an entry, for a registered hash, is
    written in a form that is read back with the same contents. *)
Lemma certID_written hash nameHash keyHash serial a l :
  getOIDFromHashAlgorithm hash = a :: l ->
  exists body,
    asn1.mfield certID.marshalType
      (certID.mk
         (pkix.AlgorithmIdentifier.mk (a :: l)
            {| asn1.Tag := 5; asn1.Class := 0; asn1.IsCompound := false;
               asn1.Bytes := []; asn1.FullBytes := [] |})
         nameHash keyHash serial) []
    = OK (TLV 0 true 16 body)
    /\ (len body < 2 ^ 31 ->
        forall u h w,
          asn1.parseBody certID.type u h body w
          = OK (certID.mk
                  (pkix.AlgorithmIdentifier.mk (a :: l) nullParameters)
                  nameHash keyHash serial))
    /\ hashOIDs_byOID hashOIDs (a :: l) = hash
    /\ hash <> 0.
Proof.
  intros E.
  assert (Hs : supportedHash hash).
  { destruct (supportedHash_dec hash) as [S|N]; [exact S|].
    apply getOIDFromHashAlgorithm_nil in N. congruence. }
  destruct (supportedHash_oid Hs) as (oid & Hm & Hp & Hh & _ & Hz).
  rewrite E in Hm, Hp, Hh.
  eexists. split; [|split; [|split; [|exact Hz]]].
  - rewrite mfield_certID, Hm. cbn [bind]. reflexivity.
  - intros Hl u h w. pose proof Hl as Hl0. split_len Hl0.
    apply parse_certID; try assumption.
    intros u' h' w'. apply parse_AlgorithmIdentifier; assumption.
  - exact Hh.
Qed.

Section ResponseRoundTrip.
Context `{TO : TimeOps}.

Lemma DeepEqual_zero_zero : Time_DeepEqual_zero Time_zero = true.
Proof. apply Time_DeepEqual_zero_spec. reflexivity. Qed.

(** An entry with at most one of its three status fields set is written in
    a form that is read back as it is. *)
Lemma entry_written cidW cidBody cidR good revoked unknown
    (thisUpdate nextUpdate : Time) exts single :
  asn1.mfield certID.marshalType cidW [] = OK (TLV 0 true 16 cidBody) ->
  (len cidBody < 2 ^ 31 ->
   forall u h w, asn1.parseBody certID.type u h cidBody w = OK cidR) ->
  asn1.makeField singleResponse_marshalType
    (singleResponse.mk cidW good revoked unknown thisUpdate nextUpdate exts)
    asn1.fieldParameters_zero = OK single ->
  forallb (fun e => validOID (pkix.Extension.Id e)) exts = true ->
  (good = true -> revoked = revokedInfo.zero /\ unknown = false) ->
  (unknown = true -> revoked = revokedInfo.zero) ->
  readsBack thisUpdate -> readsBack nextUpdate ->
  (revoked <> revokedInfo.zero ->
   readsBack (revokedInfo.RevocationTime revoked)) ->
  asn1.parseInt32 (asn1.int64Encoder (revokedInfo.Reason revoked))
    = OK (revokedInfo.Reason revoked) ->
  exists body,
    single = TLV 0 true 16 body
    /\ (len body < 2 ^ 31 ->
        forall u h w,
          asn1.parseBody singleResponse.type u h body w
          = OK (singleResponse.mk cidR good revoked unknown thisUpdate
                  nextUpdate exts)).
Proof.
  intros Hcw Hcr Hm Hv Hgood Hunknown Hthis Hnext Hrev Hreason.
  destruct (Extensions_written exts Hv) as (extsPart & Ex & Hx).
  rewrite makeField_singleResponse, Hcw, Ex in Hm. cbn [bind] in Hm.
  destruct revoked as [revokedAt reason].
  cbn [revokedInfo.RevocationTime revokedInfo.Reason] in Hrev, Hreason.
  rewrite mfield_revokedInfo, mfield_Time_explicit in Hm.
  assert (Hfinish :
    forall statusPart,
      ((statusPart = TLV 2 false 0 []
        /\ good = true /\ revokedInfo.mk revokedAt reason = revokedInfo.zero
        /\ unknown = false)
       \/ (statusPart = TLV 2 false 2 []
           /\ good = false
           /\ revokedInfo.mk revokedAt reason = revokedInfo.zero
           /\ unknown = true)
       \/ (exists body,
             statusPart = TLV 2 true 1 body
             /\ (len body < 2 ^ 31 ->
                 forall u' h' w',
                   asn1.parseBody revokedInfo.type u' h' body w'
                   = OK (revokedInfo.mk revokedAt reason))
             /\ good = false /\ unknown = false)
       \/ (statusPart = []
           /\ good = false
           /\ revokedInfo.mk revokedAt reason = revokedInfo.zero
           /\ unknown = false)) ->
      (ThisUpdate <- pkix.asn1Error (makeGeneralizedTime thisUpdate) ;;
       NextUpdate <-
         (if Time_DeepEqual_zero nextUpdate then OK []
          else (body <- pkix.asn1Error (makeGeneralizedTime nextUpdate) ;;
                OK (TLV 2 true 0 (TLV 0 false 24 body)))) ;;
       OK (TLV 0 true 16
             (TLV 0 true 16 cidBody ++ statusPart
              ++ TLV 0 false 24 ThisUpdate ++ NextUpdate ++ extsPart)))
      = OK single ->
      exists body,
        single = TLV 0 true 16 body
        /\ (len body < 2 ^ 31 ->
            forall u h w,
              asn1.parseBody singleResponse.type u h body w
              = OK (singleResponse.mk cidR good
                      (revokedInfo.mk revokedAt reason) unknown thisUpdate
                      nextUpdate exts))).
  { intros statusPart Hst Hm'.
    destruct (makeGeneralizedTime thisUpdate) as [t|msg] eqn:Et;
      cbn [pkix.asn1Error bind] in Hm'; [|discriminate Hm'].
    assert (Hparse :
      forall nextPart,
        ((nextPart = [] /\ nextUpdate = Time_zero)
         \/ (exists b,
               nextPart = TLV 2 true 0 (TLV 0 false 24 b)
               /\ parseGeneralizedTime b = inl nextUpdate)) ->
        len (TLV 0 true 16 cidBody ++ statusPart ++ TLV 0 false 24 t
             ++ nextPart ++ extsPart) < 2 ^ 31 ->
        forall u h w,
          asn1.parseBody singleResponse.type u h
            (TLV 0 true 16 cidBody ++ statusPart ++ TLV 0 false 24 t
             ++ nextPart ++ extsPart) w
          = OK (singleResponse.mk cidR good
                  (revokedInfo.mk revokedAt reason) unknown thisUpdate
                  nextUpdate exts)).
    { intros nextPart Hn Hl u h w. pose proof Hl as Hl0. split_len Hl0.
      apply parse_singleResponse; [|
        |exact (Hthis t Et)|exact Hn|exact Hx|exact Hl].
      - apply Hcr. assumption.
      - destruct Hst
          as [Hst|[Hst|[(body & -> & Hb & -> & ->)|Hst]]];
          [left; exact Hst|right; left; exact Hst|
          |right; right; right; exact Hst].
        right; right; left. exists body.
        split; [reflexivity|]. split; [|split; reflexivity].
        apply Hb.
        match goal with H : len (TLV 2 true 1 body) < _ |- _ =>
          exact (len_TLV_lt _ _ _ _ _ H) end. }
    destruct (Time_DeepEqual_zero nextUpdate) eqn:En.
    - apply Time_DeepEqual_zero_spec in En.
      cbn [bind] in Hm'. injection Hm' as <-.
      eexists. split; [reflexivity|].
      intros Hl.
      apply (Hparse []); [left; split; [reflexivity|exact En]|exact Hl].
    - destruct (makeGeneralizedTime nextUpdate) as [n|msg] eqn:Eb;
        cbn [pkix.asn1Error bind] in Hm'; [|discriminate Hm'].
      injection Hm' as <-.
      eexists. split; [reflexivity|].
      intros Hl.
      apply (Hparse (TLV 2 true 0 (TLV 0 false 24 n)));
        [right; exists n; split; [reflexivity|exact (Hnext n Eb)]|exact Hl]. }
  destruct good.
  - destruct (Hgood eq_refl) as [Ez ->]. injection Ez as -> ->.
    rewrite DeepEqual_zero_zero in Hm.
    cbn [andb Z.eqb bind app] in Hm.
    apply (Hfinish (TLV 2 false 0 [])); [|exact Hm].
    left. repeat split.
  - destruct unknown.
    + injection (Hunknown eq_refl) as -> ->.
      rewrite DeepEqual_zero_zero in Hm.
      cbn [andb Z.eqb bind app] in Hm.
      apply (Hfinish (TLV 2 false 2 [])); [|exact Hm].
      right; left. repeat split.
    + destruct (Time_DeepEqual_zero revokedAt && (reason =? 0)) eqn:Ez.
      * apply andb_true_iff in Ez as [Et Er].
        apply Time_DeepEqual_zero_spec in Et. apply Z.eqb_eq in Er.
        subst revokedAt reason.
        cbn [bind app] in Hm.
        apply (Hfinish []); [|exact Hm].
        right; right; right. repeat split.
      * destruct (makeGeneralizedTime revokedAt) as [b|msg] eqn:Eb;
          cbn [pkix.asn1Error bind] in Hm; [|discriminate Hm].
        cbn [app] in Hm.
        eapply Hfinish; [|exact Hm].
        right; right; left. eexists. split; [reflexivity|].
        split; [|split; reflexivity].
        intros Hl u' h' w'.
        apply parse_revokedInfo; [|exact Hreason|exact Hl].
        apply Hrev; [|exact Eb].
        intros Ez'. injection Ez' as -> ->.
        rewrite DeepEqual_zero_zero in Ez. discriminate Ez.
Qed.

End ResponseRoundTrip.

Lemma OK_eq {A} (a b : A) : OK a = OK b -> a = b.
Proof. intros E. injection E as E. exact E. Qed.

Section CreateAndParse.
Context `{TO : TimeOps} `{NL : pkix.Names} `{XL : x509.Lib}
        `{CF : !CertificateFields} `{HL : HashLib}.

(** What a response that [CreateResponse] has built is parsed to, for no
    certificate and for one with the serial number of the template: the
    parser stops at a critical extension of the entry, and otherwise returns
    a response with the contents of the template. *)
Lemma CreateResponse_parsed (now : Time)
    (issuer responderCert : x509.Certificate) (template : Response.t)
    (priv : Signer) (der : bytes) :
  CreateResponse now issuer responderCert template priv = Returns (OK der) ->
  len der < 2 ^ 31 ->
  forallb (fun e => validOID (pkix.Extension.Id e))
    (Response.ExtraExtensions template) = true ->
  forallb (fun e => validOID (pkix.Extension.Id e))
    (Response.ResponseExtraExtensions template) = true ->
  (exists rdn,
     asn1.Unmarshal pkix.RDNSequence_type
       (Certificate_RawSubject responderCert) = OK (rdn, [])) ->
  readsBack (UTC (Truncate_Minute now)) ->
  readsBack (UTC (Response.ThisUpdate template)) ->
  readsBack (UTC (Response.NextUpdate template)) ->
  readsBack (UTC (Response.RevokedAt template)) ->
  - 2 ^ 31 <= Response.RevocationReason template < 2 ^ 31 ->
  (forall c,
     Response.Certificate template = Some c ->
     (exists body, Certificate_Raw c = TLV 0 true 16 body)
     /\ x509.ParseCertificate (Certificate_Raw c) = inl c
     /\ forall signerOpts sigAlgo signed signature,
          signingParamsForPublicKey (Public priv)
            (Response.SignatureAlgorithm template) = OK (signerOpts, sigAlgo) ->
          Sign priv (Sum (HashFunc signerOpts) signed) signerOpts
            = inl signature ->
          x509.CheckSignature c (getSignatureAlgorithmFromAI sigAlgo) signed
            signature = None) ->
  exists ret signerOpts sigAlgo,
    (forall cert,
       cert = None
       \/ (exists c,
             cert = Some c
             /\ x509.Certificate_SerialNumber c
                = Response.SerialNumber template) ->
       ParseResponseForCert der cert None
       = if existsb pkix.Extension.Critical (Response.ExtraExtensions template)
         then Err (ParseError "unsupported critical extension")
         else OK ret)
    /\ Response.Raw ret = der
    /\ Response.Status ret
       = (if Response.Status template =? Good then Good
          else if Response.Status template =? Unknown then Unknown
          else Revoked)
    /\ Response.SerialNumber ret = Response.SerialNumber template
    /\ Response.ProducedAt ret = UTC (Truncate_Minute now)
    /\ Response.ThisUpdate ret = UTC (Response.ThisUpdate template)
    /\ Response.NextUpdate ret = UTC (Response.NextUpdate template)
    /\ Response.RevokedAt ret
       = (if Response.Status template =? Revoked
          then UTC (Response.RevokedAt template) else Time_zero)
    /\ Response.RevocationReason ret
       = (if Response.Status template =? Revoked
          then Response.RevocationReason template else 0)
    /\ Response.Certificate ret = Response.Certificate template
    /\ Response.IssuerHash ret
       = (if Response.IssuerHash template =? 0 then crypto.SHA1
          else Response.IssuerHash template)
    /\ Response.RawResponderName ret
       = Some (Certificate_RawSubject responderCert)
    /\ Response.ResponderKeyHash ret = None
    /\ Response.Extensions ret = Response.ExtraExtensions template
    /\ Response.ResponseExtensions ret
       = Response.ResponseExtraExtensions template
    /\ signingParamsForPublicKey (Public priv)
         (Response.SignatureAlgorithm template) = OK (signerOpts, sigAlgo)
    /\ Response.SignatureAlgorithm ret = getSignatureAlgorithmFromAI sigAlgo
    /\ Sign priv
         (Sum (HashFunc signerOpts) (Response.TBSResponseData ret))
         signerOpts
       = inl (Response.Signature ret).
Proof.
  intros Hc Hl Hee Hre (rdn & Hrdn) Hprod Hthis Hnext Hrev Hreason Hcert.
  unfold CreateResponse in Hc.
  destruct (Extensions_written _ Hre) as (rextsPart & Erx & Hrx).
  destruct (asn1.Unmarshal publicKeyInfo.type _) as [[info rest0]|e];
    cbn [bind] in Hc; [|discriminate Hc].
  set (hash := if Response.IssuerHash template =? 0 then crypto.SHA1
               else Response.IssuerHash template) in *.
  cbv zeta in Hc.
  destruct (getOIDFromHashAlgorithm hash) as [|a l] eqn:Eoid;
    [discriminate Hc|].
  destruct (Available hash); cbn [negb] in Hc; [|discriminate Hc].
  rewrite Marshal_responseData in Hc.
  destruct (makeGeneralizedTime (UTC (Truncate_Minute now)))
    as [tProd|msg] eqn:Eprod; cbn [pkix.asn1Error bind] in Hc;
    [|discriminate Hc].
  destruct (asn1.makeField singleResponse_marshalType _ _)
    as [single|e] eqn:Esingle; cbn [bind] in Hc; [|discriminate Hc].
  rewrite Erx in Hc. cbn [bind] in Hc.
  destruct (signingParamsForPublicKey (Public priv) _)
    as [[signerOpts sigAlgo]|e] eqn:Esp; cbn [bind] in Hc;
    [|discriminate Hc].
  destruct (Available (HashFunc signerOpts)); cbn [negb] in Hc;
    [|discriminate Hc].
  injection Hc as Hc.
  destruct (Sign priv _ signerOpts) as [signature|msg] eqn:Esign;
    cbn [foreign bind] in Hc; [|discriminate Hc].
  destruct (signingParamsForPublicKey_identifier _ _ _ _ Esp)
    as (algBody & read & Ealg & Hread & Hsame).
  (* The certificates: none, or the one of the template. *)
  assert (Hcerts :
    exists certsPart certificates,
      asn1.mfield (asn1.m_sliceType asn1.m_rawValueType)
        match Response.Certificate template with
        | Some Certificate =>
            [ {| asn1.Class := 0; asn1.Tag := 0; asn1.IsCompound := false;
                 asn1.Bytes := [];
                 asn1.FullBytes := Certificate_Raw Certificate |} ]
        | None => []
        end
        [asn1.Pexplicit; asn1.Ptag 0; asn1.Poptional]
      = OK certsPart
      /\ ((certsPart = [] /\ certificates = []
           /\ Response.Certificate template = None)
          \/ (exists c body,
                certsPart = TLV 2 true 0 (TLV 0 true 16 (TLV 0 true 16 body))
                /\ certificates
                   = [ {| asn1.Class := 0; asn1.Tag := 16;
                          asn1.IsCompound := true; asn1.Bytes := body;
                          asn1.FullBytes := TLV 0 true 16 body |} ]
                /\ Response.Certificate template = Some c
                /\ x509.ParseCertificate (TLV 0 true 16 body) = inl c))).
  { destruct (Response.Certificate template) as [c|] eqn:Ec.
    - destruct (Hcert c eq_refl) as ((cbody & Eraw) & Hparse & _).
      rewrite Eraw in Hparse |- *.
      rewrite mfield_Certificates_one
        by (destruct (TLV_nonempty 0 true 16 cbody) as (x & xs & ->);
            discriminate).
      do 2 eexists. split; [reflexivity|].
      right. exists c, cbody. repeat split. exact Hparse.
    - exists [], []. split; [reflexivity|]. left. repeat split. }
  destruct Hcerts as (certsPart & certificates & Ecerts & Hcerts).
  match type of Hc with
  | context [asn1.Marshal basicResponse_marshalType
               (basicResponse.mk ?d _ _ ?cs)] =>
      assert (Htbs :
        asn1.Marshal responseData_marshalType d
        = OK (TLV 0 true 16
                (TLV 2 true 1 (Certificate_RawSubject responderCert)
                 ++ TLV 0 false 24 tProd ++ TLV 0 true 16 single
                 ++ rextsPart)))
        by (rewrite Marshal_responseData, Eprod; cbn [pkix.asn1Error bind];
            rewrite Esingle; cbn [bind]; rewrite Erx; reflexivity);
      change (asn1.Marshal basicResponse_marshalType _)
        with (asn1.Marshal basicResponse_marshalType
                (basicResponse.mk d sigAlgo
                   {| asn1.BitString_Bytes := signature;
                      asn1.BitLength := 8 * len signature |} cs)) in Hc;
      rewrite (Marshal_basicResponse d _ sigAlgo signature cs Htbs) in Hc
  end.
  rewrite Ealg, Ecerts in Hc. cbn [bind] in Hc.
  rewrite Marshal_responseASN1 in Hc. apply OK_eq in Hc. subst der.
  clear Htbs Ecerts.
  destruct (certID_written hash (Sum hash (Certificate_RawSubject issuer))
              (Sum hash (asn1.RightAlign (publicKeyInfo.PublicKey info)))
              (Response.SerialNumber template) a l Eoid)
    as (cidBody & Ecid & Hcid & Hhash & Hnz).
  destruct (entry_written _ _ _ _ _ _ _ _ _ _ Ecid Hcid Esingle Hee)
    as (body & -> & Hentry).
  { intros ->. cbn [negb andb]. split; reflexivity. }
  { intros Eu. destruct (Response.Status template =? Good); [discriminate Eu|].
    cbn [negb andb] in Eu. rewrite Eu. reflexivity. }
  { exact Hthis. }
  { exact Hnext. }
  { destruct (negb (Response.Status template =? Good)
              && negb (Response.Status template =? Unknown)
              && (Response.Status template =? Revoked));
      [intros _; exact Hrev|intros N; exfalso; apply N; reflexivity]. }
  { destruct (negb (Response.Status template =? Good)
              && negb (Response.Status template =? Unknown)
              && (Response.Status template =? Revoked));
      [apply parseInt32_int64Encoder; exact Hreason|reflexivity]. }
  pose proof Hl as Hl0. split_len Hl0.
  match type of Hentry with
  | _ -> forall u h w, _ = OK ?sr => pose (singleResp := sr)
  end.
  pose (tbs :=
    responseData.mk
      (TLV 0 true 16
         (TLV 2 true 1 (Certificate_RawSubject responderCert)
          ++ TLV 0 false 24 tProd ++ TLV 0 true 16 (TLV 0 true 16 body)
          ++ rextsPart))
      0
      {| asn1.Class := 2; asn1.Tag := 1; asn1.IsCompound := true;
         asn1.Bytes := Certificate_RawSubject responderCert;
         asn1.FullBytes :=
           TLV 2 true 1 (Certificate_RawSubject responderCert) |}
      (UTC (Truncate_Minute now)) [singleResp]
      (Response.ResponseExtraExtensions template)).
  pose (basicResp :=
    basicResponse.mk tbs read
      {| asn1.BitString_Bytes := signature;
         asn1.BitLength := 8 * len signature |} certificates).
  assert (Hdec : decodesTo
    (TLV 0 true 16
       (TLV 0 false 10 [z2b 0]
        ++ TLV 2 true 0
             (TLV 0 true 16
                (TLV 0 false 6 derBasicOID
                 ++ TLV 0 false 4
                      (TLV 0 true 16
                         (TLV 0 true 16
                            (TLV 2 true 1
                               (Certificate_RawSubject responderCert)
                             ++ TLV 0 false 24 tProd
                             ++ TLV 0 true 16 (TLV 0 true 16 body)
                             ++ rextsPart)
                          ++ TLV 0 true 16 algBody
                          ++ TLV 0 false 3 (z2b 0 :: signature)
                          ++ certsPart))))))
    basicResp).
  { eexists. split; [apply Unmarshal_responseASN1; exact Hl|].
    split; [reflexivity|]. split; [reflexivity|].
    cbn [responseBytes.Response responseASN1.Response].
    apply Unmarshal_basicResponse; [|assumption].
    intros u h w. apply parse_basicResponse; [|exact Hread| |assumption].
    - intros u' h'.
      apply parse_responseData;
        [exact (Hprod tProd Eprod)| |exact Hrx|assumption].
      intros u'' h'' w''. apply Hentry. assumption.
    - destruct Hcerts as [(-> & -> & _)|(c & cbody & -> & -> & _)];
        [left; split; reflexivity|right; exists cbody; split; reflexivity]. }
  assert (Hid : responderID
    (responseData.RawResponderID (basicResponse.TBSResponseData basicResp))
    (Some (Certificate_RawSubject responderCert)) None).
  { left. split; [reflexivity|]. split; [exists rdn; exact Hrdn|].
    split; reflexivity. }
  assert (Hsig : signaturesOK basicResp None (Response.Certificate template)).
  { unfold signaturesOK, basicResp, tbs.
    cbn [basicResponse.Certificates basicResponse.SignatureAlgorithm
         basicResponse.TBSResponseData basicResponse.Signature
         responseData.Raw].
    rewrite RightAlign_bytes, Hsame.
    destruct Hcerts as [(_ & -> & Ec)|(c & cbody & _ & -> & Ec & Hparse)].
    - split; [exact Ec|]. intros i Hi. discriminate Hi.
    - exists c. split; [exact Ec|].
      cbn [asn1.FullBytes]. split; [exact Hparse|].
      split; [|intros i Hi; discriminate Hi].
      destruct (Hcert c Ec) as (_ & _ & Hverify).
      exact (Hverify _ _ _ _ eq_refl Esign). }
  match type of Hdec with
  | decodesTo ?d _ =>
      assert (Hp : forall cert,
        selects cert
          (responseData.Responses (basicResponse.TBSResponseData basicResp))
          singleResp ->
        ParseResponseForCert d cert None
        = if existsb pkix.Extension.Critical
               (Response.ExtraExtensions template)
          then Err (ParseError "unsupported critical extension")
          else OK (responseOf d basicResp singleResp
                     (Some (Certificate_RawSubject responderCert)) None
                     (Response.Certificate template)))
  end.
  { intros cert Hsel.
    rewrite (@ParseResponseForCert_checked _ _ _ _ cert None basicResp
               singleResp _ _ _ Hdec Hsel Hid Hsig).
    change (singleResponse.SingleExtensions singleResp)
      with (Response.ExtraExtensions template).
    change (pkix.AlgorithmIdentifier.Algorithm
              (certID.HashAlgorithm (singleResponse.CertID singleResp)))
      with (a :: l).
    rewrite Hhash.
    destruct (Z.eqb_spec hash 0) as [Ez|_]; [contradiction|]. reflexivity. }
  eexists. exists signerOpts, sigAlgo.
  split.
  { intros cert [->|(c & -> & Hserial)]; apply Hp; [reflexivity|].
    exists [], [].
    split; [reflexivity|]. split; [|constructor].
    unfold serialOf, singleResp.
    cbn [singleResponse.CertID certID.SerialNumber]. symmetry. exact Hserial. }
  unfold responseOf, classify, serialOf.
  cbn [Response.Raw Response.Status Response.SerialNumber Response.ProducedAt
       Response.ThisUpdate Response.NextUpdate Response.RevokedAt
       Response.RevocationReason Response.Certificate
       Response.TBSResponseData Response.Signature
       Response.SignatureAlgorithm Response.IssuerHash
       Response.RawResponderName Response.ResponderKeyHash
       Response.Extensions Response.ResponseExtensions].
  unfold basicResp, tbs, singleResp.
  cbn [basicResponse.TBSResponseData basicResponse.Signature
       basicResponse.SignatureAlgorithm responseData.Raw
       responseData.ProducedAt responseData.ResponseExtensions
       singleResponse.CertID singleResponse.Good singleResponse.Unknown
       singleResponse.Revoked singleResponse.ThisUpdate
       singleResponse.NextUpdate singleResponse.SingleExtensions
       certID.SerialNumber certID.HashAlgorithm
       pkix.AlgorithmIdentifier.Algorithm].
  split; [reflexivity|].
  split.
  { destruct (Response.Status template =? Good); [reflexivity|].
    cbn [negb andb].
    destruct (Response.Status template =? Unknown); reflexivity. }
  do 4 (split; [reflexivity|]).
  split.
  { destruct (Z.eqb_spec (Response.Status template) Good) as [E|_];
      [rewrite E; reflexivity|].
    cbn [negb andb].
    destruct (Z.eqb_spec (Response.Status template) Unknown) as [E|_];
      [rewrite E; reflexivity|].
    cbn [negb andb fst snd].
    destruct (Response.Status template =? Revoked); reflexivity. }
  split.
  { destruct (Z.eqb_spec (Response.Status template) Good) as [E|_];
      [rewrite E; reflexivity|].
    cbn [negb andb].
    destruct (Z.eqb_spec (Response.Status template) Unknown) as [E|_];
      [rewrite E; reflexivity|].
    cbn [negb andb fst snd].
    destruct (Response.Status template =? Revoked); reflexivity. }
  split; [reflexivity|].
  split; [exact Hhash|].
  do 5 (split; [reflexivity|]).
  split; [exact Hsame|].
  rewrite RightAlign_bytes. exact Esign.
Qed.

(** X13.  A response that [CreateResponse] builds from a template whose
    extra extensions have object identifiers that can be written, none of
    those of the entry critical, is parsed back by [ParseResponse], and by
    [ParseResponseForCert] for every certificate with the serial number of
    the template.  The status is the one of the template when that is Good
    or Unknown and Revoked for every other one; the serial number, the times
    (in UTC; [now] truncated to the minute), the revocation reason, the
    issuer hash (SHA-1 when the template leaves it zero), the certificate
    and the two lists of extensions are those of the template; the responder
    is named by the subject of the responder certificate; the signature
    algorithm is the one of the signing parameters, and the signature is the
    answer of the signer to the digest of the signed data that the response
    carries. *)
Theorem CreateResponse_ParseResponse (now : Time)
    (issuer responderCert : x509.Certificate) (template : Response.t)
    (priv : Signer) (der : bytes) :
  CreateResponse now issuer responderCert template priv = Returns (OK der) ->
  len der < 2 ^ 31 ->
  forallb (fun e => validOID (pkix.Extension.Id e))
    (Response.ExtraExtensions template) = true ->
  forallb (fun e => validOID (pkix.Extension.Id e))
    (Response.ResponseExtraExtensions template) = true ->
  existsb pkix.Extension.Critical (Response.ExtraExtensions template)
    = false ->
  (exists rdn,
     asn1.Unmarshal pkix.RDNSequence_type
       (Certificate_RawSubject responderCert) = OK (rdn, [])) ->
  readsBack (UTC (Truncate_Minute now)) ->
  readsBack (UTC (Response.ThisUpdate template)) ->
  readsBack (UTC (Response.NextUpdate template)) ->
  readsBack (UTC (Response.RevokedAt template)) ->
  - 2 ^ 31 <= Response.RevocationReason template < 2 ^ 31 ->
  (forall c,
     Response.Certificate template = Some c ->
     (exists body, Certificate_Raw c = TLV 0 true 16 body)
     /\ x509.ParseCertificate (Certificate_Raw c) = inl c
     /\ forall signerOpts sigAlgo signed signature,
          signingParamsForPublicKey (Public priv)
            (Response.SignatureAlgorithm template) = OK (signerOpts, sigAlgo) ->
          Sign priv (Sum (HashFunc signerOpts) signed) signerOpts
            = inl signature ->
          x509.CheckSignature c (getSignatureAlgorithmFromAI sigAlgo) signed
            signature = None) ->
  exists ret signerOpts sigAlgo,
    ParseResponse der None = OK ret
    /\ (forall cert,
          x509.Certificate_SerialNumber cert = Response.SerialNumber template ->
          ParseResponseForCert der (Some cert) None = OK ret)
    /\ Response.Raw ret = der
    /\ Response.Status ret
       = (if Response.Status template =? Good then Good
          else if Response.Status template =? Unknown then Unknown
          else Revoked)
    /\ Response.SerialNumber ret = Response.SerialNumber template
    /\ Response.ProducedAt ret = UTC (Truncate_Minute now)
    /\ Response.ThisUpdate ret = UTC (Response.ThisUpdate template)
    /\ Response.NextUpdate ret = UTC (Response.NextUpdate template)
    /\ Response.RevokedAt ret
       = (if Response.Status template =? Revoked
          then UTC (Response.RevokedAt template) else Time_zero)
    /\ Response.RevocationReason ret
       = (if Response.Status template =? Revoked
          then Response.RevocationReason template else 0)
    /\ Response.Certificate ret = Response.Certificate template
    /\ Response.IssuerHash ret
       = (if Response.IssuerHash template =? 0 then crypto.SHA1
          else Response.IssuerHash template)
    /\ Response.RawResponderName ret
       = Some (Certificate_RawSubject responderCert)
    /\ Response.ResponderKeyHash ret = None
    /\ Response.Extensions ret = Response.ExtraExtensions template
    /\ Response.ResponseExtensions ret
       = Response.ResponseExtraExtensions template
    /\ signingParamsForPublicKey (Public priv)
         (Response.SignatureAlgorithm template) = OK (signerOpts, sigAlgo)
    /\ Response.SignatureAlgorithm ret = getSignatureAlgorithmFromAI sigAlgo
    /\ Sign priv
         (Sum (HashFunc signerOpts) (Response.TBSResponseData ret))
         signerOpts
       = inl (Response.Signature ret).
Proof.
  intros Hc Hl Hee Hre Hcrit Hrdn Hprod Hthis Hnext Hrev Hreason Hcert.
  destruct (CreateResponse_parsed now issuer responderCert template priv der
              Hc Hl Hee Hre Hrdn Hprod Hthis Hnext Hrev Hreason Hcert)
    as (ret & signerOpts & sigAlgo & Hp & Hfields).
  rewrite Hcrit in Hp.
  exists ret, signerOpts, sigAlgo.
  split; [apply Hp; left; reflexivity|].
  split; [|exact Hfields].
  intros cert Hserial. apply Hp. right. exists cert.
  split; [reflexivity|exact Hserial].
Qed.

(** X17.  When one of the extra extensions of the entry is critical, the
    response that [CreateResponse] builds is refused by [ParseResponse], and
    by [ParseResponseForCert] for a certificate with the serial number of
    the template, as carrying an unsupported critical extension. *)
Theorem CreateResponse_critical_extension (now : Time)
    (issuer responderCert : x509.Certificate) (template : Response.t)
    (priv : Signer) (der : bytes) :
  CreateResponse now issuer responderCert template priv = Returns (OK der) ->
  len der < 2 ^ 31 ->
  forallb (fun e => validOID (pkix.Extension.Id e))
    (Response.ExtraExtensions template) = true ->
  forallb (fun e => validOID (pkix.Extension.Id e))
    (Response.ResponseExtraExtensions template) = true ->
  existsb pkix.Extension.Critical (Response.ExtraExtensions template)
    = true ->
  (exists rdn,
     asn1.Unmarshal pkix.RDNSequence_type
       (Certificate_RawSubject responderCert) = OK (rdn, [])) ->
  readsBack (UTC (Truncate_Minute now)) ->
  readsBack (UTC (Response.ThisUpdate template)) ->
  readsBack (UTC (Response.NextUpdate template)) ->
  readsBack (UTC (Response.RevokedAt template)) ->
  - 2 ^ 31 <= Response.RevocationReason template < 2 ^ 31 ->
  (forall c,
     Response.Certificate template = Some c ->
     (exists body, Certificate_Raw c = TLV 0 true 16 body)
     /\ x509.ParseCertificate (Certificate_Raw c) = inl c
     /\ forall signerOpts sigAlgo signed signature,
          signingParamsForPublicKey (Public priv)
            (Response.SignatureAlgorithm template) = OK (signerOpts, sigAlgo) ->
          Sign priv (Sum (HashFunc signerOpts) signed) signerOpts
            = inl signature ->
          x509.CheckSignature c (getSignatureAlgorithmFromAI sigAlgo) signed
            signature = None) ->
  ParseResponse der None
  = Err (ParseError "unsupported critical extension")
  /\ forall cert,
       x509.Certificate_SerialNumber cert = Response.SerialNumber template ->
       ParseResponseForCert der (Some cert) None
       = Err (ParseError "unsupported critical extension").
Proof.
  intros Hc Hl Hee Hre Hcrit Hrdn Hprod Hthis Hnext Hrev Hreason Hcert.
  destruct (CreateResponse_parsed now issuer responderCert template priv der
              Hc Hl Hee Hre Hrdn Hprod Hthis Hnext Hrev Hreason Hcert)
    as (ret & signerOpts & sigAlgo & Hp & _).
  rewrite Hcrit in Hp.
  split; [apply Hp; left; reflexivity|].
  intros cert Hserial. apply Hp. right. exists cert.
  split; [reflexivity|exact Hserial].
Qed.

End CreateAndParse.


Section ResponseOutcomes.
Context `{TO : TimeOps} `{XL : x509.Lib} `{CF : !CertificateFields}
        `{HL : HashLib}.



(** The certificates of a basic response are always written. *)
Lemma mfield_Certificates_OK (certificate : option x509.Certificate) :
  exists b,
    asn1.mfield (asn1.m_sliceType asn1.m_rawValueType)
      match certificate with
      | Some Certificate =>
          [ {| asn1.Class := 0; asn1.Tag := 0; asn1.IsCompound := false;
               asn1.Bytes := [];
               asn1.FullBytes := Certificate_Raw Certificate |} ]
      | None => []
      end
      [asn1.Pexplicit; asn1.Ptag 0; asn1.Poptional]
    = OK b.
Proof.
  destruct certificate as [c|]; [|exists []; reflexivity].
  unfold asn1.mfield.
  rewrite (makeField_explicit (asn1.m_sliceType asn1.m_rawValueType) _ _ 0)
    by reflexivity.
  change (asn1.optional _ && asn1.isZero (asn1.m_sliceType asn1.m_rawValueType)
                              [_]) with false.
  cbv iota.
  cbn [asn1.makeBody asn1.m_sliceType asn1.makeBody_slice].
  unfold asn1.makeField.
  cbn [asn1.fieldParameters_zero asn1.optional asn1.defaultValue
       asn1.m_rawValueType asn1.Int asn1.asRawValue asn1.isZero andb
       asn1.FullBytes].
  destruct (negb (len (Certificate_Raw c) =? 0)); cbn [bind];
    eexists; reflexivity.
Qed.

(** X16.  [CreateResponse] returns a response whenever the public key of
    the issuer decodes, the issuer hash (SHA-1 when the template leaves it
    zero) is registered and available, the object identifiers of the extra
    extensions can be written, the four times have a GeneralizedTime form,
    signing parameters are found for the key of the signer, their hash is
    available, and the signer signs. *)
Theorem CreateResponse_succeeds (now : Time)
    (issuer responderCert : x509.Certificate) (template : Response.t)
    (priv : Signer) (signerOpts : SignerOpts)
    (sigAlgo : pkix.AlgorithmIdentifier.t) :
  (exists info rest,
     asn1.Unmarshal publicKeyInfo.type
       (Certificate_RawSubjectPublicKeyInfo issuer) = OK (info, rest)) ->
  supportedHash
    (if Response.IssuerHash template =? 0 then crypto.SHA1
     else Response.IssuerHash template) ->
  Available
    (if Response.IssuerHash template =? 0 then crypto.SHA1
     else Response.IssuerHash template) = true ->
  forallb (fun e => validOID (pkix.Extension.Id e))
    (Response.ExtraExtensions template) = true ->
  forallb (fun e => validOID (pkix.Extension.Id e))
    (Response.ResponseExtraExtensions template) = true ->
  hasGeneralizedTime (UTC (Truncate_Minute now)) ->
  hasGeneralizedTime (UTC (Response.ThisUpdate template)) ->
  hasGeneralizedTime (UTC (Response.NextUpdate template)) ->
  hasGeneralizedTime (UTC (Response.RevokedAt template)) ->
  signingParamsForPublicKey (Public priv)
    (Response.SignatureAlgorithm template) = OK (signerOpts, sigAlgo) ->
  Available (HashFunc signerOpts) = true ->
  (forall digest, exists signature,
     Sign priv digest signerOpts = inl signature) ->
  exists der,
    CreateResponse now issuer responderCert template priv = Returns (OK der).
Proof.
  intros (info & rest0 & Ei) Hs Ha Hee Hre (tProd & Eprod) (tThis & Ethis)
    (tNext & Enext) (tRev & Erev) Esp Hah Hsign.
  destruct (Extensions_written _ Hee) as (extsPart & Ex & _).
  destruct (Extensions_written _ Hre) as (rextsPart & Erx & _).
  unfold CreateResponse. rewrite Ei. cbn [bind].
  set (hash := if Response.IssuerHash template =? 0 then crypto.SHA1
               else Response.IssuerHash template) in *.
  cbv zeta.
  destruct (getOIDFromHashAlgorithm hash) as [|a l] eqn:Eoid.
  { exfalso. exact (proj1 (getOIDFromHashAlgorithm_nil hash) Eoid Hs). }
  rewrite Ha. cbn [negb].
  destruct (certID_written hash (Sum hash (Certificate_RawSubject issuer))
              (Sum hash (asn1.RightAlign (publicKeyInfo.PublicKey info)))
              (Response.SerialNumber template) a l Eoid)
    as (cidBody & Ecid & _).
  (* The data to be signed are written. *)
  assert (Htbs : exists tbs,
    asn1.Marshal responseData_marshalType
      {| responseData.Raw := [];
         responseData.Version := 0;
         responseData.RawResponderID :=
           {| asn1.Class := 2; asn1.Tag := 1; asn1.IsCompound := true;
              asn1.Bytes := Certificate_RawSubject responderCert;
              asn1.FullBytes := [] |};
         responseData.ProducedAt := UTC (Truncate_Minute now);
         responseData.Responses :=
           [ {| singleResponse.CertID :=
                  certID.mk
                    (pkix.AlgorithmIdentifier.mk (a :: l)
                       {| asn1.Tag := 5; asn1.Class := 0;
                          asn1.IsCompound := false; asn1.Bytes := [];
                          asn1.FullBytes := [] |})
                    (Sum hash (Certificate_RawSubject issuer))
                    (Sum hash
                       (asn1.RightAlign (publicKeyInfo.PublicKey info)))
                    (Response.SerialNumber template);
                singleResponse.ThisUpdate :=
                  UTC (Response.ThisUpdate template);
                singleResponse.NextUpdate :=
                  UTC (Response.NextUpdate template);
                singleResponse.SingleExtensions :=
                  Response.ExtraExtensions template;
                singleResponse.Good := Response.Status template =? Good;
                singleResponse.Unknown :=
                  negb (Response.Status template =? Good)
                  && (Response.Status template =? Unknown);
                singleResponse.Revoked :=
                  if negb (Response.Status template =? Good)
                     && negb (Response.Status template =? Unknown)
                     && (Response.Status template =? Revoked)
                  then revokedInfo.mk (UTC (Response.RevokedAt template))
                         (Response.RevocationReason template)
                  else revokedInfo.zero |} ];
         responseData.ResponseExtensions :=
           Response.ResponseExtraExtensions template |}
    = OK tbs).
  { rewrite Marshal_responseData, Eprod. cbn [pkix.asn1Error bind].
    rewrite makeField_singleResponse, Ecid, Ex, Erx. cbn [bind].
    assert (Hrevoked : exists r,
      asn1.mfield revokedInfo_marshalType
        (if negb (Response.Status template =? Good)
            && negb (Response.Status template =? Unknown)
            && (Response.Status template =? Revoked)
         then revokedInfo.mk (UTC (Response.RevokedAt template))
                (Response.RevocationReason template)
         else revokedInfo.zero)
        [asn1.Ptag 1; asn1.Poptional] = OK r).
    { destruct (negb (Response.Status template =? Good)
                && negb (Response.Status template =? Unknown)
                && (Response.Status template =? Revoked)).
      - rewrite mfield_revokedInfo, Erev. cbn [pkix.asn1Error bind].
        destruct (Time_DeepEqual_zero _ && _); eexists; reflexivity.
      - unfold revokedInfo.zero.
        rewrite mfield_revokedInfo, DeepEqual_zero_zero.
        eexists; reflexivity. }
    destruct Hrevoked as (r & ->). cbn [bind].
    rewrite Ethis. cbn [pkix.asn1Error bind].
    rewrite mfield_Time_explicit, Enext. cbn [pkix.asn1Error bind].
    destruct (Time_DeepEqual_zero _); cbn [bind]; eexists; reflexivity. }
  destruct Htbs as (tbs & Etbs). rewrite Etbs. cbn [bind].
  rewrite Esp. cbn [bind]. rewrite Hah. cbn [negb].
  destruct (Hsign (Sum (HashFunc signerOpts) tbs)) as (signature & ->).
  cbn [foreign bind].
  destruct (signingParamsForPublicKey_identifier _ _ _ _ Esp)
    as (algBody & read & Ealg & _).
  destruct (mfield_Certificates_OK (Response.Certificate template))
    as (certs & Ecerts).
  match goal with
  | |- context [asn1.Marshal basicResponse_marshalType
                  (basicResponse.mk ?d _ _ ?cs)] =>
      change (asn1.Marshal basicResponse_marshalType _)
        with (asn1.Marshal basicResponse_marshalType
                (basicResponse.mk d sigAlgo
                   {| asn1.BitString_Bytes := signature;
                      asn1.BitLength := 8 * len signature |} cs));
      rewrite (Marshal_basicResponse d _ sigAlgo signature cs Etbs)
  end.
  rewrite Ealg, Ecerts. cbn [bind].
  rewrite Marshal_responseASN1. eexists. reflexivity.
Qed.

End ResponseOutcomes.

Set Implicit Arguments.

(** ** Examples on the sample responses *)

#[local] Existing Instance Sample.time.
#[local] Existing Instance Sample.names.
#[local] Existing Instance Sample.x509.

Ltac sample_decodes :=
  eexists; split; [vm_compute; reflexivity|];
  split; [reflexivity|]; split; [reflexivity|]; vm_compute; reflexivity.

(** The stages that a sample response without a certificate list goes
    through, for no issuer. *)
Ltac sample_stages :=
  do 5 eexists;
  split; [sample_decodes|];
  split; [first [reflexivity
                | refine (ex_intro _ [_] (ex_intro _ _ _));
                  split; [reflexivity|];
                  split; [reflexivity|repeat constructor; discriminate]
                | refine (ex_intro _ [_; _] (ex_intro _ _ _));
                  split; [reflexivity|];
                  split; [reflexivity|repeat constructor; discriminate]]|];
  split; [first [left; split; [reflexivity|];
                 split; [eexists; vm_compute; reflexivity|];
                 split; reflexivity
                | right; split; [reflexivity|];
                  split; [eexists; split; [vm_compute; reflexivity
                                          |reflexivity]
                         |reflexivity]]|];
  split; [split; [reflexivity|discriminate]|];
  split; [reflexivity|].

Lemma ParseResponseForCert_status_witness :
  (exists ret,
     ParseResponseForCert Sample.goodAndUnknown None None = OK ret
     /\ Response.Status ret = Good
     /\ Response.RevokedAt ret = Time_zero
     /\ Response.RevocationReason ret = 0)
  /\ (exists ret,
        ParseResponseForCert Sample.lastMatches (Some Sample.cert3) None
        = OK ret
        /\ Response.Status ret = Unknown
        /\ Response.RevokedAt ret = Time_zero
        /\ Response.RevocationReason ret = 0)
  /\ (exists ret,
        ParseResponseForCert Sample.oneRevoked None None = OK ret
        /\ Response.Status ret = Revoked
        /\ Response.RevokedAt ret = Sample.t2
        /\ Response.RevocationReason ret = 1).
Proof.
  split; [|split].
  - assert (Hst : exists basicResp singleResp name keyHash certificate,
      decodesTo Sample.goodAndUnknown basicResp
      /\ selects None
           (responseData.Responses (basicResponse.TBSResponseData basicResp))
           singleResp
      /\ responderID
           (responseData.RawResponderID
              (basicResponse.TBSResponseData basicResp)) name keyHash
      /\ signaturesOK basicResp None certificate
      /\ existsb pkix.Extension.Critical
           (singleResponse.SingleExtensions singleResp) = false
      /\ hashOIDs_byOID hashOIDs
           (pkix.AlgorithmIdentifier.Algorithm
              (certID.HashAlgorithm (singleResponse.CertID singleResp))) <> 0
      /\ singleResponse.Good singleResp = true
      /\ singleResponse.Unknown singleResp = true).
    { sample_stages. split; [discriminate|]. split; reflexivity. }
    destruct Hst as (b & sr & name & kh & crt & Hdec & Hsel & Hid & Hsig
                     & Hcrit & Hhash & Hgood & _).
    destruct (proj2 (@ParseResponseForCert_status Sample.time Sample.names
                       Sample.x509 Sample.goodAndUnknown None None)
                b sr name kh crt Hdec Hsel Hid Hsig Hcrit Hhash)
      as (ret & E & HG & _ & _).
    exists ret. split; [exact E|]. exact (HG Hgood).
  - assert (Hst : exists basicResp singleResp name keyHash certificate,
      decodesTo Sample.lastMatches basicResp
      /\ selects (Some Sample.cert3)
           (responseData.Responses (basicResponse.TBSResponseData basicResp))
           singleResp
      /\ responderID
           (responseData.RawResponderID
              (basicResponse.TBSResponseData basicResp)) name keyHash
      /\ signaturesOK basicResp None certificate
      /\ existsb pkix.Extension.Critical
           (singleResponse.SingleExtensions singleResp) = false
      /\ hashOIDs_byOID hashOIDs
           (pkix.AlgorithmIdentifier.Algorithm
              (certID.HashAlgorithm (singleResponse.CertID singleResp))) <> 0
      /\ singleResponse.Good singleResp = false
      /\ singleResponse.Unknown singleResp = true).
    { sample_stages. split; [discriminate|]. split; reflexivity. }
    destruct Hst as (b & sr & name & kh & crt & Hdec & Hsel & Hid & Hsig
                     & Hcrit & Hhash & Hgood & Hunknown).
    destruct (proj2 (@ParseResponseForCert_status Sample.time Sample.names
                       Sample.x509 Sample.lastMatches (Some Sample.cert3)
                       None)
                b sr name kh crt Hdec Hsel Hid Hsig Hcrit Hhash)
      as (ret & E & _ & HU & _).
    exists ret. split; [exact E|]. exact (HU Hgood Hunknown).
  - assert (Hst : exists basicResp singleResp name keyHash certificate,
      decodesTo Sample.oneRevoked basicResp
      /\ selects None
           (responseData.Responses (basicResponse.TBSResponseData basicResp))
           singleResp
      /\ responderID
           (responseData.RawResponderID
              (basicResponse.TBSResponseData basicResp)) name keyHash
      /\ signaturesOK basicResp None certificate
      /\ existsb pkix.Extension.Critical
           (singleResponse.SingleExtensions singleResp) = false
      /\ hashOIDs_byOID hashOIDs
           (pkix.AlgorithmIdentifier.Algorithm
              (certID.HashAlgorithm (singleResponse.CertID singleResp))) <> 0
      /\ singleResponse.Good singleResp = false
      /\ singleResponse.Unknown singleResp = false
      /\ revokedInfo.RevocationTime (singleResponse.Revoked singleResp)
         = Sample.t2
      /\ revokedInfo.Reason (singleResponse.Revoked singleResp) = 1).
    { sample_stages. split; [discriminate|]. repeat split. }
    destruct Hst as (b & sr & name & kh & crt & Hdec & Hsel & Hid & Hsig
                     & Hcrit & Hhash & Hgood & Hunknown & Htime & Hreason).
    destruct (proj2 (@ParseResponseForCert_status Sample.time Sample.names
                       Sample.x509 Sample.oneRevoked None None)
                b sr name kh crt Hdec Hsel Hid Hsig Hcrit Hhash)
      as (ret & E & _ & _ & HR).
    exists ret. split; [exact E|].
    destruct (HR Hgood Hunknown) as (Es & Et & Er).
    rewrite Es, Et, Er, Htime, Hreason. repeat split.
Defined.

(** Both flags set: Good wins. *)
Example goodAndUnknown_is_Good :
  match ParseResponseForCert Sample.goodAndUnknown None None with
  | OK ret =>
      Response.Status ret = Good /\ Response.RevokedAt ret = Time_zero
      /\ Response.RevocationReason ret = 0
  | Err _ => False
  end.
Proof. vm_compute. repeat split. Qed.

Example oneRevoked_is_Revoked :
  match ParseResponseForCert Sample.oneRevoked None None with
  | OK ret =>
      Response.Status ret = Revoked /\ Response.RevokedAt ret = Sample.t2
      /\ Response.RevocationReason ret = 1
  | Err _ => False
  end.
Proof. vm_compute. repeat split. Qed.

Lemma ParseResponseForCert_entry_count_witness :
  (exists basicResp,
     decodesTo Sample.threeEntries basicResp
     /\ ParseResponseForCert Sample.threeEntries None None
        = Err (ParseError "OCSP response contains bad number of responses")
     /\ ParseResponseForCert Sample.threeEntries (Some Sample.cert9) None
        = Err (ParseError "no response matching the supplied certificate")
     /\ exists ret before singleResp after,
          ParseResponseForCert Sample.threeEntries (Some Sample.cert2) None
          = OK ret
          /\ responseData.Responses (basicResponse.TBSResponseData basicResp)
             = before ++ singleResp :: after
          /\ List.length before = 1%nat /\ List.length after = 1%nat
          /\ Response.Status ret = Revoked)
  /\ (exists basicResp before singleResp,
        decodesTo Sample.lastMatches basicResp
        /\ responseData.Responses (basicResponse.TBSResponseData basicResp)
           = before ++ [singleResp]
        /\ List.length before = 2%nat
        /\ exists ret,
             ParseResponseForCert Sample.lastMatches (Some Sample.cert2) None
             = OK ret
             /\ Response.SerialNumber ret = 2
             /\ Response.ThisUpdate ret
                = singleResponse.ThisUpdate singleResp
             /\ Response.Status ret = Revoked).
Proof.
  split.
  - eexists.
    match goal with |- ?D /\ _ => assert (Hdec : D) by sample_decodes end.
    split; [exact Hdec|].
    split.
    { apply (@ParseResponseForCert_entry_count Sample.time Sample.names
               Sample.x509 Sample.threeEntries None None _ Hdec);
        [reflexivity | simpl; lia]. }
    split.
    { apply (@ParseResponseForCert_entry_count Sample.time Sample.names
               Sample.x509 Sample.threeEntries (Some Sample.cert9) None _ Hdec)
        with (c := Sample.cert9);
        [reflexivity | discriminate | ].
      repeat constructor; discriminate. }
    destruct (ParseResponseForCert Sample.threeEntries (Some Sample.cert2)
                None) as [ret|e] eqn:E; [|vm_compute in E; discriminate].
    destruct (@ParseResponseForCert_entry_count Sample.time Sample.names
                Sample.x509 Sample.threeEntries (Some Sample.cert2) None _
                Hdec) as (_ & _ & _ & Hsel & _).
    destruct (Hsel Sample.cert2 ret eq_refl E)
      as (before & sr & after & El & Es & Hb & name & kh & crt & Eret).
    exists ret, before, sr, after. split; [reflexivity|]. split; [exact El|].
    destruct before as [|r0 [|r1 before]].
    + exfalso. vm_compute in El. injection El as <- _.
      vm_compute in Es. discriminate.
    + vm_compute in El. injection El as <- <- <-.
      repeat split. rewrite Eret. reflexivity.
    + exfalso. vm_compute in El. injection El as <- <- El.
      inversion Hb as [|? ? _ Hb']. inversion Hb' as [|? ? Hne _].
      apply Hne. reflexivity.
  - assert (Hst : exists basicResp r0 r1 singleResp name keyHash certificate,
      decodesTo Sample.lastMatches basicResp
      /\ responseData.Responses (basicResponse.TBSResponseData basicResp)
         = [r0; r1] ++ [singleResp]
      /\ serialOf singleResp = x509.Certificate_SerialNumber Sample.cert2
      /\ Forall (fun r => serialOf r
                          <> x509.Certificate_SerialNumber Sample.cert2)
           [r0; r1]
      /\ responderID
           (responseData.RawResponderID
              (basicResponse.TBSResponseData basicResp)) name keyHash
      /\ signaturesOK basicResp None certificate
      /\ existsb pkix.Extension.Critical
           (singleResponse.SingleExtensions singleResp) = false
      /\ hashOIDs_byOID hashOIDs
           (pkix.AlgorithmIdentifier.Algorithm
              (certID.HashAlgorithm (singleResponse.CertID singleResp))) <> 0
      /\ singleResponse.Good singleResp = false
      /\ singleResponse.Unknown singleResp = false).
    { do 7 eexists. split; [sample_decodes|].
      split; [reflexivity|]. split; [reflexivity|].
      split; [repeat constructor; discriminate|].
      split.
      { right. split; [reflexivity|].
        split; [eexists; split; [vm_compute; reflexivity|reflexivity]
               |reflexivity]. }
      split; [split; [reflexivity|discriminate]|].
      split; [reflexivity|]. split; [discriminate|]. split; reflexivity. }
    destruct Hst as (b & r0 & r1 & sr & name & kh & crt & Hdec & El & Es & Hb
                     & Hid & Hsig & Hcrit & Hhash & Hgood & Hunknown).
    destruct (@ParseResponseForCert_entry_count Sample.time Sample.names
                Sample.x509 Sample.lastMatches (Some Sample.cert2) None b
                Hdec) as (_ & _ & _ & _ & Hpick).
    destruct (Hpick Sample.cert2 [r0; r1] sr [] eq_refl El Es Hb)
      as (_ & _ & Hret).
    specialize (Hret name kh crt Hid Hsig).
    apply Z.eqb_neq in Hhash. rewrite Hcrit, Hhash in Hret.
    exists b, [r0; r1], sr. split; [exact Hdec|]. split; [exact El|].
    split; [reflexivity|].
    eexists. split; [exact Hret|].
    unfold responseOf, classify.
    cbn [Response.SerialNumber Response.ThisUpdate Response.Status].
    rewrite Hgood, Hunknown. repeat split. exact Es.
Defined.

Lemma ParseResponseForCert_responderID_witness :
  (exists basicResp singleResp,
     decodesTo Sample.otherResponder basicResp
     /\ selects None
          (responseData.Responses (basicResponse.TBSResponseData basicResp))
          singleResp
     /\ asn1.Tag (responseData.RawResponderID
                    (basicResponse.TBSResponseData basicResp)) = 3
     /\ ParseResponseForCert Sample.otherResponder None None
        = Err (ParseError "invalid responder id tag"))
  /\ (exists ret,
        ParseResponseForCert Sample.threeEntries (Some Sample.cert2) None
        = OK ret
        /\ Response.RawResponderName ret = None
        /\ Response.ResponderKeyHash ret = Some (B [9; 9; 9; 9]))
  /\ (exists ret,
        ParseResponseForCert Sample.oneRevoked None None = OK ret
        /\ Response.RawResponderName ret = Some (Sample.SEQUENCE [])
        /\ Response.ResponderKeyHash ret = None).
Proof.
  split; [|split].
  - eexists. eexists.
    match goal with |- ?D /\ _ => assert (Hdec : D) by sample_decodes end.
    split; [exact Hdec|].
    match goal with |- ?S /\ _ => assert (Hsel : S) by reflexivity end.
    split; [exact Hsel|]. split; [reflexivity|].
    apply (@ParseResponseForCert_responderID Sample.time Sample.names
             Sample.x509 Sample.otherResponder None None _ _ Hdec Hsel);
      discriminate.
  - assert (Hst : exists basicResp singleResp certificate,
      decodesTo Sample.threeEntries basicResp
      /\ selects (Some Sample.cert2)
           (responseData.Responses (basicResponse.TBSResponseData basicResp))
           singleResp
      /\ signaturesOK basicResp None certificate
      /\ existsb pkix.Extension.Critical
           (singleResponse.SingleExtensions singleResp) = false
      /\ hashOIDs_byOID hashOIDs
           (pkix.AlgorithmIdentifier.Algorithm
              (certID.HashAlgorithm (singleResponse.CertID singleResp))) <> 0
      /\ asn1.Tag (responseData.RawResponderID
                     (basicResponse.TBSResponseData basicResp)) = 2
      /\ asn1.Unmarshal asn1.bytesType
           (asn1.Bytes (responseData.RawResponderID
                          (basicResponse.TBSResponseData basicResp)))
         = OK (B [9; 9; 9; 9], [])).
    { do 3 eexists. split; [sample_decodes|].
      split.
      { refine (ex_intro _ [_] (ex_intro _ _ _)).
        split; [reflexivity|].
        split; [reflexivity|repeat constructor; discriminate]. }
      split; [split; [reflexivity|discriminate]|].
      split; [reflexivity|]. split; [discriminate|].
      split; [reflexivity|vm_compute; reflexivity]. }
    destruct Hst as (b & sr & crt & Hdec & Hsel & Hsig & Hcrit & Hhash & T2
                     & Eh).
    destruct (@ParseResponseForCert_responderID Sample.time Sample.names
                Sample.x509 Sample.threeEntries (Some Sample.cert2) None b sr
                Hdec Hsel) as (_ & _ & _ & _ & Hacc).
    destruct (Hacc crt Hsig Hcrit Hhash) as [_ Hkey].
    destruct (Hkey _ T2 Eh) as (ret & E & En & Ek).
    exists ret. split; [exact E|]. split; [exact En|exact Ek].
  - assert (Hst : exists basicResp singleResp certificate rdn,
      decodesTo Sample.oneRevoked basicResp
      /\ selects None
           (responseData.Responses (basicResponse.TBSResponseData basicResp))
           singleResp
      /\ signaturesOK basicResp None certificate
      /\ existsb pkix.Extension.Critical
           (singleResponse.SingleExtensions singleResp) = false
      /\ hashOIDs_byOID hashOIDs
           (pkix.AlgorithmIdentifier.Algorithm
              (certID.HashAlgorithm (singleResponse.CertID singleResp))) <> 0
      /\ asn1.Tag (responseData.RawResponderID
                     (basicResponse.TBSResponseData basicResp)) = 1
      /\ asn1.Bytes (responseData.RawResponderID
                       (basicResponse.TBSResponseData basicResp))
         = Sample.SEQUENCE []
      /\ asn1.Unmarshal pkix.RDNSequence_type
           (asn1.Bytes (responseData.RawResponderID
                          (basicResponse.TBSResponseData basicResp)))
         = OK (rdn, [])).
    { do 4 eexists. split; [sample_decodes|].
      split; [reflexivity|].
      split; [split; [reflexivity|discriminate]|].
      split; [reflexivity|]. split; [discriminate|].
      split; [reflexivity|]. split; [reflexivity|vm_compute; reflexivity]. }
    destruct Hst as (b & sr & crt & rdn & Hdec & Hsel & Hsig & Hcrit & Hhash
                     & T1 & Eb & Ern).
    destruct (@ParseResponseForCert_responderID Sample.time Sample.names
                Sample.x509 Sample.oneRevoked None None b sr Hdec Hsel)
      as (_ & _ & _ & _ & Hacc).
    destruct (Hacc crt Hsig Hcrit Hhash) as [Hname _].
    destruct (Hname rdn T1 Ern) as (ret & E & En & Ek).
    exists ret. split; [exact E|]. rewrite <- Eb. split; [exact En|exact Ek].
Defined.

Example byKey_sets_the_key_hash :
  match ParseResponseForCert Sample.threeEntries (Some Sample.cert2) None with
  | OK ret =>
      Response.RawResponderName ret = None
      /\ Response.ResponderKeyHash ret = Some (B [9; 9; 9; 9])
  | Err _ => False
  end.
Proof. vm_compute. repeat split. Qed.

Lemma ParseResponseForCert_signature_checks_witness :
  exists basicResp singleResp certificate0 rest c,
    decodesTo Sample.badEmbedded basicResp
    /\ selects None
         (responseData.Responses (basicResponse.TBSResponseData basicResp))
         singleResp
    /\ basicResponse.Certificates basicResp = certificate0 :: rest
    /\ rest <> []
    /\ x509.ParseCertificate (asn1.FullBytes certificate0) = inl c
    /\ ParseResponseForCert Sample.badEmbedded None None
       = Err (ParseError
                "bad signature on embedded certificate: crypto/rsa: verification error").
Proof.
  do 5 eexists.
  match goal with |- ?D /\ _ => assert (Hdec : D) by sample_decodes end.
  split; [exact Hdec|].
  match goal with |- ?S /\ _ => assert (Hsel : S) by reflexivity end.
  split; [exact Hsel|].
  match goal with |- ?C /\ _ => assert (Hcs : C) by reflexivity end.
  split; [exact Hcs|]. split; [discriminate|].
  match goal with |- ?P /\ _ => assert (Hp : P) by reflexivity end.
  split; [exact Hp|].
  refine (proj1 (@ParseResponseForCert_signature_checks Sample.time Sample.names Sample.x509
                   Sample.badEmbedded None None _ _ _ _ Hdec Hsel _)
                _ _ _ _ Hcs Hp _).
  - left. repeat split. eexists. vm_compute. reflexivity.
  - reflexivity.
Defined.

Example goodEmbedded_checks_the_issuer :
  (exists ret, ParseResponseForCert Sample.goodEmbedded None None = OK ret)
  /\ (exists ret, ParseResponseForCert Sample.goodEmbedded None
                    (Some Sample.issuerCC) = OK ret)
  /\ ParseResponseForCert Sample.goodEmbedded None (Some Sample.issuerAA)
     = Err (ParseError "bad OCSP signature: crypto/rsa: verification error")
  /\ ParseResponseForCert Sample.oneRevoked None (Some Sample.issuerCC)
     = Err (ParseError "bad OCSP signature: crypto/rsa: verification error")
  /\ (exists ret, ParseResponseForCert Sample.oneRevoked None
                    (Some Sample.issuerAA) = OK ret).
Proof.
  repeat split; try (eexists; vm_compute; reflexivity); vm_compute; reflexivity.
Qed.

Lemma ParseResponseForCert_critical_extension_witness :
  exists basicResp singleResp,
    decodesTo Sample.critical basicResp
    /\ selects None
         (responseData.Responses (basicResponse.TBSResponseData basicResp))
         singleResp
    /\ existsb pkix.Extension.Critical
         (singleResponse.SingleExtensions singleResp) = true
    /\ ParseResponseForCert Sample.critical None None
       = Err (ParseError "unsupported critical extension").
Proof.
  do 2 eexists.
  match goal with |- ?D /\ _ => assert (Hdec : D) by sample_decodes end.
  split; [exact Hdec|].
  match goal with |- ?S /\ _ => assert (Hsel : S) by reflexivity end.
  split; [exact Hsel|].
  match goal with |- ?C /\ _ => assert (Hcrit : C) by reflexivity end.
  split; [exact Hcrit|].
  refine (proj2 (@ParseResponseForCert_critical_extension Sample.time Sample.names Sample.x509
                   Sample.critical None None _ _ Hdec Hsel Hcrit)
                _ _ None _ _).
  - left. repeat split. eexists. vm_compute. reflexivity.
  - split; [reflexivity|]. discriminate.
Defined.

(** C9, as stated, fails: a response whose only entry has a critical
    extension is answered with the error of the certificate parser when
    its embedded certificate does not parse, which is no [ParseError], and
    with "invalid responder id tag" when its responder ID has the tag 3. *)
Lemma ParseResponseForCert_critical_extension_counterexample :
  (exists basicResp singleResp,
     decodesTo Sample.criticalBadCertificate basicResp
     /\ selects None
          (responseData.Responses (basicResponse.TBSResponseData basicResp))
          singleResp
     /\ existsb pkix.Extension.Critical
          (singleResponse.SingleExtensions singleResp) = true)
  /\ ParseResponseForCert Sample.criticalBadCertificate None None
     = Err (errorString "x509: malformed certificate")
  /\ ParseResponseForCert Sample.criticalBadCertificate None None
     <> Err (ParseError "unsupported critical extension")
  /\ (exists basicResp singleResp,
        decodesTo Sample.criticalOtherResponder basicResp
        /\ selects None
             (responseData.Responses (basicResponse.TBSResponseData basicResp))
             singleResp
        /\ existsb pkix.Extension.Critical
             (singleResponse.SingleExtensions singleResp) = true)
  /\ ParseResponseForCert Sample.criticalOtherResponder None None
     = Err (ParseError "invalid responder id tag").
Proof.
  split.
  { do 2 eexists. split; [sample_decodes|]. split; reflexivity. }
  split; [vm_compute; reflexivity|].
  split; [vm_compute; discriminate|].
  split.
  { do 2 eexists. split; [sample_decodes|]. split; reflexivity. }
  vm_compute; reflexivity.
Qed.

Lemma getSignatureAlgorithmFromAI_RSAPSS_witness :
  pssDecodesTo
    (pkix.AlgorithmIdentifier.mk oidSignatureRSAPSS pssParametersSHA256)
    oidSHA256 32.
Proof.
  destruct (@getSignatureAlgorithmFromAI_RSAPSS
              (pkix.AlgorithmIdentifier.mk oidSignatureRSAPSS
                 pssParametersSHA256) eq_refl) as [[Hto _] _].
  apply Hto. reflexivity.
Defined.

(** [Marshal] writes the request of the samples as it was assembled by
    hand. *)
Example Marshal_sample_request :
  Request_Marshal Sample.request = OK Sample.unsignedRequest.
Proof. vm_compute. reflexivity. Qed.

Lemma Marshal_ParseRequest_roundtrip_witness :
  supportedHash (Request.HashAlgorithm Sample.request)
  /\ exists der,
       Request_Marshal Sample.request = OK der
       /\ len der < 2 ^ 31
       /\ exists parsed,
            ParseRequest der = OK parsed
            /\ Request.HashAlgorithm parsed = crypto.SHA1
            /\ Request.IssuerNameHash parsed = Sample.h1
            /\ Request.IssuerKeyHash parsed = Sample.h2
            /\ Request.SerialNumber parsed = 5.
Proof.
  assert (Hs : supportedHash (Request.HashAlgorithm Sample.request))
    by (left; reflexivity).
  split; [exact Hs|].
  destruct (@Marshal_ParseRequest_roundtrip Sample.names Sample.request Hs)
    as (der & Hm & Hp).
  exists der. split; [exact Hm|].
  assert (Hl : len der < 2 ^ 31).
  { assert (E : Request_Marshal Sample.request = OK Sample.unsignedRequest)
      by (vm_compute; reflexivity).
    rewrite E in Hm. injection Hm as <-. vm_compute. reflexivity. }
  split; [exact Hl|]. exact (Hp Hl).
Defined.

Lemma Marshal_ignores_Extensions_witness :
  supportedHash (Request.HashAlgorithm Sample.requestWithNonce)
  /\ Request.Extensions Sample.requestWithNonce <> []
  /\ exists der,
       Request_Marshal Sample.requestWithNonce = OK der
       /\ Request_Marshal Sample.request = OK der
       /\ len der < 2 ^ 31
       /\ exists parsed,
            ParseRequest der = OK parsed /\ Request.Extensions parsed = [].
Proof.
  assert (Hs : supportedHash (Request.HashAlgorithm Sample.requestWithNonce))
    by (left; reflexivity).
  split; [exact Hs|]. split; [discriminate|].
  destruct (@Marshal_ignores_Extensions Sample.names Sample.requestWithNonce Hs)
    as (der & Hm & Hall & Hp).
  exists der. split; [exact Hm|]. split; [exact (Hall [])|].
  assert (Hl : len der < 2 ^ 31).
  { assert (E : Request_Marshal Sample.requestWithNonce
                = OK Sample.unsignedRequest) by (vm_compute; reflexivity).
    rewrite E in Hm. injection Hm as <-. vm_compute. reflexivity. }
  split; [exact Hl|]. exact (Hp Hl).
Defined.

(** ** Examples for the further properties *)

#[local] Existing Instance SampleBuilders.hashes.
#[local] Existing Instance SampleBuilders.fields.

Lemma ParseRequest_Marshal_again_witness :
  ParseRequest Sample.signedRequest = OK Sample.request
  /\ Request_Marshal Sample.request = OK Sample.unsignedRequest
  /\ exists der',
       Request_Marshal Sample.request = OK der'
       /\ len der' < 2 ^ 31
       /\ ParseRequest der' = OK (withExtensions Sample.request []).
Proof.
  assert (Hp : ParseRequest Sample.signedRequest = OK Sample.request)
    by (vm_compute; reflexivity).
  split; [exact Hp|]. split; [vm_compute; reflexivity|].
  destruct (@ParseRequest_Marshal_again Sample.names Sample.signedRequest
              Sample.request Hp) as (_ & der' & Hm & Hr).
  exists der'. split; [exact Hm|].
  assert (Hl : len der' < 2 ^ 31).
  { assert (E : Request_Marshal Sample.request = OK Sample.unsignedRequest)
      by (vm_compute; reflexivity).
    rewrite E in Hm. injection Hm as <-. vm_compute. reflexivity. }
  split; [exact Hl|]. exact (Hr Hl).
Defined.

Lemma signingParamsForPublicKey_resolves_witness :
  signingParamsForPublicKey rsa_PublicKey x509.SHA384WithRSAPSS
  = OK (PSSOptions (-1) crypto.SHA384,
        pkix.AlgorithmIdentifier.mk oidSignatureRSAPSS pssParametersSHA384)
  /\ getSignatureAlgorithmFromAI
       (pkix.AlgorithmIdentifier.mk oidSignatureRSAPSS pssParametersSHA384)
     = x509.SHA384WithRSAPSS.
Proof.
  assert (Hs : signingParamsForPublicKey rsa_PublicKey x509.SHA384WithRSAPSS
               = OK (PSSOptions (-1) crypto.SHA384,
                     pkix.AlgorithmIdentifier.mk oidSignatureRSAPSS
                       pssParametersSHA384)) by reflexivity.
  split; [exact Hs|].
  destruct (signingParamsForPublicKey_resolves _ _ Hs)
    as (d & _ & _ & _ & _ & _ & _ & Hg & Ha).
  rewrite Hg. apply Ha. discriminate.
Defined.

Lemma ParseResponseForCert_returns_witness :
  exists ret,
    ParseResponseForCert Sample.threeEntries (Some Sample.cert2) None = OK ret
    /\ Response.Raw ret = Sample.threeEntries
    /\ Response.Status ret = Revoked
    /\ Response.IssuerHash ret = crypto.SHA1
    /\ Response.SerialNumber ret = 2.
Proof.
  destruct (ParseResponseForCert Sample.threeEntries (Some Sample.cert2) None)
    as [ret|e] eqn:E; [|vm_compute in E; discriminate].
  exists ret. split; [reflexivity|].
  destruct (@ParseResponseForCert_returns Sample.time Sample.names Sample.x509
              _ _ _ _ E) as (Hraw & _ & _ & _ & _ & _ & Hser).
  split; [exact Hraw|].
  split; [vm_compute in E; injection E as <-; reflexivity|].
  split; [vm_compute in E; injection E as <-; reflexivity|].
  exact (Hser Sample.cert2 eq_refl).
Defined.

Lemma ParseResponseForCert_without_issuer_witness :
  exists ret,
    ParseResponseForCert Sample.oneRevoked None (Some Sample.issuerAA) = OK ret
    /\ ParseResponseForCert Sample.oneRevoked None None = OK ret.
Proof.
  destruct (ParseResponseForCert Sample.oneRevoked None (Some Sample.issuerAA))
    as [ret|e] eqn:E; [|vm_compute in E; discriminate].
  exists ret. split; [reflexivity|].
  exact (@ParseResponseForCert_without_issuer Sample.time Sample.names
           Sample.x509 _ _ _ _ E).
Defined.

Lemma CreateRequest_ParseRequest_witness :
  exists der,
    CreateRequest Sample.cert2 Sample.issuerCC None = OK der
    /\ len der < 2 ^ 31
    /\ ParseRequest der
       = OK {| Request.HashAlgorithm := crypto.SHA1;
               Request.IssuerNameHash := B [3; 2; 0x30; 0];
               Request.IssuerKeyHash := B [3; 1; 0xCC];
               Request.SerialNumber := 2;
               Request.Extensions := [] |}.
Proof.
  destruct (CreateRequest Sample.cert2 Sample.issuerCC None) as [der|e] eqn:E;
    [|vm_compute in E; discriminate].
  exists der. split; [reflexivity|].
  assert (Hl : len der < 2 ^ 31)
    by (vm_compute in E; injection E as <-; vm_compute; reflexivity).
  split; [exact Hl|].
  destruct (@CreateRequest_ParseRequest Sample.names Sample.x509
              SampleBuilders.fields SampleBuilders.hashes
              Sample.cert2 Sample.issuerCC None der E Hl)
    as (info & rest & Hu & Hp).
  rewrite Hp. vm_compute in Hu. injection Hu as <- _. reflexivity.
Defined.

(** The hash must be registered: MD5 and SHA-224 are linked in and
    refused. *)
Example CreateRequest_rejections :
  CreateRequest Sample.cert2 Sample.issuerCC
    (Some (RequestOptions.mk crypto.MD5)) = Err ErrUnsupportedAlgorithm
  /\ CreateRequest Sample.cert2 Sample.issuerCC
       (Some (RequestOptions.mk crypto.SHA224)) = Err ErrUnsupportedAlgorithm
  /\ CreateRequest Sample.cert2 Sample.issuerCC (Some (RequestOptions.mk 0))
     = CreateRequest Sample.cert2 Sample.issuerCC None.
Proof. repeat split; vm_compute; reflexivity. Qed.

Lemma ParseResponseForCert_issuer_later_witness :
  ParseResponseForCert Sample.oneRevoked None (Some Sample.issuerCC)
  = Err (ParseError "bad OCSP signature: crypto/rsa: verification error")
  /\ exists ret,
       ParseResponseForCert Sample.oneRevoked None None = OK ret
       /\ ParseResponseForCert Sample.oneRevoked None (Some Sample.issuerAA)
          = OK ret.
Proof.
  destruct (ParseResponseForCert Sample.oneRevoked None None)
    as [ret|e] eqn:E; [|vm_compute in E; discriminate].
  pose proof (@ParseResponseForCert_issuer_later Sample.time Sample.names
                Sample.x509 Sample.oneRevoked None Sample.issuerCC ret E)
    as Hcc.
  pose proof (@ParseResponseForCert_issuer_later Sample.time Sample.names
                Sample.x509 Sample.oneRevoked None Sample.issuerAA ret E)
    as Haa.
  vm_compute in E. injection E as <-.
  cbv zeta in Hcc, Haa.
  match type of Hcc with
  | match ?c with _ => _ end =>
      assert (Hc : c = Some "crypto/rsa: verification error")
        by (vm_compute; reflexivity);
      rewrite Hc in Hcc
  end.
  match type of Haa with
  | match ?c with _ => _ end =>
      assert (Ha : c = None) by (vm_compute; reflexivity);
      rewrite Ha in Haa
  end.
  cbv beta iota in Hcc, Haa.
  split; [exact Hcc|]. eexists. split; [reflexivity|exact Haa].
Defined.

Lemma CreateResponse_ParseResponse_witness :
  exists der ret,
    SampleResponder.CreateResponse SampleResponder.now Sample.issuerCC
      Sample.issuerAA SampleResponder.revoked SampleResponder.signer
    = Returns (OK der)
    /\ SampleResponder.ParseResponse der None = OK ret
    /\ ParseResponseForCert der (Some Sample.cert2) None = OK ret
    /\ Response.Status ret = Revoked
    /\ Response.SerialNumber ret = 2
    /\ Response.ProducedAt ret
       = B [50; 48; 50; 54; 48; 49; 48; 49; 49; 50; 51; 52; 48; 48; 90]
    /\ Response.RevocationReason ret = 1
    /\ Response.IssuerHash ret = crypto.SHA1
    /\ Response.Certificate ret = Some Sample.issuerAA
    /\ Response.Extensions ret = [SampleResponder.entryExtension false]
    /\ Response.ResponseExtensions ret = [SampleResponder.nonce]
    /\ Response.SignatureAlgorithm ret = x509.SHA256WithRSA
    /\ Response.Signature ret = B [0xAA].
Proof.
  destruct (SampleResponder.CreateResponse SampleResponder.now
              Sample.issuerCC Sample.issuerAA SampleResponder.revoked
              SampleResponder.signer) as [[der|e]|] eqn:E;
    [|vm_compute in E; discriminate..].
  assert (Hl : len der < 2 ^ 31)
    by (vm_compute in E; injection E as <-; vm_compute; reflexivity).
  assert (Hreads : forall t : bytes,
            len t = 15 -> @readsBack Sample.time SampleResponder.timeOps t).
  { intros t Ht b Hb. cbn in Hb |- *. rewrite Ht in Hb. cbn in Hb.
    injection Hb as <-. rewrite Ht. reflexivity. }
  destruct (@CreateResponse_ParseResponse Sample.time SampleResponder.timeOps
              Sample.names Sample.x509 SampleBuilders.fields
              SampleBuilders.hashes SampleResponder.now Sample.issuerCC
              Sample.issuerAA SampleResponder.revoked SampleResponder.signer
              der E Hl eq_refl eq_refl eq_refl)
    as (ret & signerOpts & sigAlgo & Hp & Hfor & _ & Hst & Hser & Hprod & _
        & _ & _ & Hreason & Hcert & Hhash & _ & _ & Hext & Hrext & Hsp
        & Halg & Hsign).
  - eexists. vm_compute. reflexivity.
  - apply Hreads. reflexivity.
  - apply Hreads. reflexivity.
  - apply Hreads. reflexivity.
  - apply Hreads. reflexivity.
  - vm_compute. split; [discriminate|reflexivity].
  - intros c Hc. vm_compute in Hc. injection Hc as <-.
    split; [exists (B [101; 0xAA; 0xAA]); vm_compute; reflexivity|].
    split; [vm_compute; reflexivity|].
    intros so sa signed signature _ Hs. cbn in Hs. injection Hs as <-.
    reflexivity.
  - exists der, ret. split; [reflexivity|]. split; [exact Hp|].
    split; [exact (Hfor Sample.cert2 eq_refl)|].
    split; [exact Hst|]. split; [exact Hser|]. split; [exact Hprod|].
    split; [exact Hreason|]. split; [exact Hhash|]. split; [exact Hcert|].
    split; [exact Hext|]. split; [exact Hrext|].
    vm_compute in Hsp. injection Hsp as <- <-.
    split; [exact Halg|].
    cbn in Hsign. injection Hsign as <-. reflexivity.
Defined.

Lemma CreateResponse_succeeds_witness :
  exists der,
    SampleResponder.CreateResponse SampleResponder.now Sample.issuerCC
      Sample.issuerAA SampleResponder.revoked SampleResponder.signer
    = Returns (OK der).
Proof.
  apply (@CreateResponse_succeeds Sample.time SampleResponder.timeOps
           Sample.x509 SampleBuilders.fields SampleBuilders.hashes
           SampleResponder.now Sample.issuerCC Sample.issuerAA
           SampleResponder.revoked SampleResponder.signer
           (SignerOpts_Hash crypto.SHA256)
           (pkix.AlgorithmIdentifier.mk oidSignatureSHA256WithRSA
              asn1.NullRawValue)).
  - do 2 eexists. vm_compute. reflexivity.
  - left. reflexivity.
  - reflexivity.
  - reflexivity.
  - reflexivity.
  - eexists. vm_compute. reflexivity.
  - eexists. vm_compute. reflexivity.
  - eexists. vm_compute. reflexivity.
  - eexists. vm_compute. reflexivity.
  - reflexivity.
  - reflexivity.
  - intros digest. eexists. reflexivity.
Defined.

Lemma CreateResponse_critical_extension_witness :
  exists der,
    SampleResponder.CreateResponse SampleResponder.now Sample.issuerCC
      Sample.issuerAA SampleResponder.withCritical SampleResponder.signer
    = Returns (OK der)
    /\ SampleResponder.ParseResponse der None
       = Err (ParseError "unsupported critical extension")
    /\ ParseResponseForCert der (Some Sample.cert2) None
       = Err (ParseError "unsupported critical extension").
Proof.
  destruct (SampleResponder.CreateResponse SampleResponder.now
              Sample.issuerCC Sample.issuerAA SampleResponder.withCritical
              SampleResponder.signer) as [[der|e]|] eqn:E;
    [|vm_compute in E; discriminate..].
  assert (Hl : len der < 2 ^ 31)
    by (vm_compute in E; injection E as <-; vm_compute; reflexivity).
  assert (Hreads : forall t : bytes,
            len t = 15 -> @readsBack Sample.time SampleResponder.timeOps t).
  { intros t Ht b Hb. cbn in Hb |- *. rewrite Ht in Hb. cbn in Hb.
    injection Hb as <-. rewrite Ht. reflexivity. }
  destruct (@CreateResponse_critical_extension Sample.time
              SampleResponder.timeOps Sample.names Sample.x509
              SampleBuilders.fields SampleBuilders.hashes SampleResponder.now
              Sample.issuerCC Sample.issuerAA SampleResponder.withCritical
              SampleResponder.signer der E Hl eq_refl eq_refl eq_refl)
    as (Hp & Hfor).
  - eexists. vm_compute. reflexivity.
  - apply Hreads. reflexivity.
  - apply Hreads. reflexivity.
  - apply Hreads. reflexivity.
  - apply Hreads. reflexivity.
  - vm_compute. split; [discriminate|reflexivity].
  - intros c Hc. vm_compute in Hc. injection Hc as <-.
    split; [exists (B [101; 0xAA; 0xAA]); vm_compute; reflexivity|].
    split; [vm_compute; reflexivity|].
    intros so sa signed signature _ Hs. cbn in Hs. injection Hs as <-.
    reflexivity.
  - exists der. split; [reflexivity|]. split; [exact Hp|].
    exact (Hfor Sample.cert2 eq_refl).
Defined.

(** The sample responder refuses an issuer hash that is not registered,
    and signs with SHA-512 when it is asked to. *)
Example CreateResponse_rejections :
  SampleResponder.CreateResponse SampleResponder.now Sample.issuerCC
    Sample.issuerAA
    (Response.set_IssuerHash SampleResponder.revoked crypto.MD5)
    SampleResponder.signer
  = Returns (Err (errorString "unsupported issuer hash algorithm"))
  /\ exists der,
       SampleResponder.CreateResponse SampleResponder.now Sample.issuerCC
         Sample.issuerAA SampleResponder.withSHA512 SampleResponder.signer
       = Returns (OK der)
       /\ match SampleResponder.ParseResponse der None with
          | OK ret => Response.SignatureAlgorithm ret = x509.SHA512WithRSA
          | Err _ => False
          end.
Proof.
  split; [vm_compute; reflexivity|].
  eexists. split; [vm_compute; reflexivity|]. vm_compute. reflexivity.
Qed.
